(** * Indicator repository: the listing planner, the ingest paths and the
      update path of [project/api/routes/indicator.py] and
      [project/api/routes/intel_reference.py], embedded as functions.

    Contents:
    - [Py]: the three [str] operations the routes use ([split], [in],
      [replace]);
    - [Schema]: tables, columns and rows of the relational store;
    - [Sql]: the expression and statement values the listing route builds
      through SQLAlchemy, and how the store evaluates them;
    - [Listing]: [read_indicators];
    - [Ingest]: [create_indicator], [create_indicators],
      [update_indicator], [create_intel_reference];
    - the properties. *)

From Stdlib Require Import String Ascii ZArith List Bool Lia Permutation Sorted.
From stdpp Require Import gmap strings list.

Set Warnings "-register-all".
Local Open Scope Z_scope.

(* ===================================================================== *)
(** ** Python string operations *)
(* ===================================================================== *)

Module Py.

(** [s.split(',')] for a one-character separator: never returns the empty
    list, [''.split(',')] is [['']]. *)
Fixpoint split (sep : ascii) (s : string) : list string :=
  match s with
  | EmptyString => [EmptyString]
  | String c s' =>
      if Ascii.eqb c sep then EmptyString :: split sep s'
      else match split sep s' with
           | [] => [String c EmptyString]
           | w :: ws => String c w :: ws
           end
  end.

(** [s.startswith(p)]. *)
Fixpoint startswith (p s : string) : bool :=
  match p, s with
  | EmptyString, _ => true
  | String _ _, EmptyString => false
  | String a p', String b s' => Ascii.eqb a b && startswith p' s'
  end.

(** [p in s]: [p] occurs in [s] as a substring. *)
Fixpoint contains (p s : string) : bool :=
  startswith p s ||
  match s with
  | EmptyString => false
  | String _ s' => contains p s'
  end.

(** [s.replace(old, new)] for a non-empty [old]: occurrences are found
    left to right and do not overlap.  [skip] counts the characters of a
    matched occurrence that remain to be dropped. *)
Fixpoint replace_from (old new : string) (skip : nat) (s : string) : string :=
  match s with
  | EmptyString => EmptyString
  | String c s' =>
      match skip with
      | S k => replace_from old new k s'
      | O =>
          if startswith old s
          then new +:+ replace_from old new (Nat.pred (String.length old)) s'
          else String c (replace_from old new O s')
      end
  end.

Definition replace (old new s : string) : string := replace_from old new O s.

End Py.

(* ===================================================================== *)
(** ** The relational schema *)
(* ===================================================================== *)

Module Schema.

(** The mapped classes and association tables imported from
    [project.models]. *)
Inductive table :=
| Indicator | IndicatorType | IndicatorConfidence | IndicatorImpact
| IndicatorStatus | IntelReference | IntelSource | Tag | User | Campaign
| indicator_campaign_association
| indicator_reference_association
| indicator_tag_association.

Inductive field :=
| f_id | f_value | f_name | f_username | f_reference
| f_case_sensitive | f_substring | f_created_time | f_modified_time
| f_type_id | f_confidence_id | f_impact_id | f_status_id | f_user_id
| f_intel_source_id
| f_indicator_id | f_campaign_id | f_intel_reference_id | f_tag_id.

Record column := Column { col_table : table; col_field : field }.

#[global] Instance table_eq_dec : EqDecision table.
Proof. solve_decision. Defined.
#[global] Instance field_eq_dec : EqDecision field.
Proof. solve_decision. Defined.
#[global] Instance column_eq_dec : EqDecision column.
Proof. solve_decision. Defined.

(** Cell values; [VNull] is SQL's NULL.  Timestamps are seconds since
    0001-01-01 00:00:00. *)
Inductive value :=
| VNull | VInt (z : Z) | VStr (s : string) | VBool (b : bool) | VTime (t : Z).

(** Rows, one record per table. *)
Record lookup_row := { lk_id : Z; lk_value : string }.
Record campaign_row := { campaign_id : Z; campaign_name : string }.
Record user_row :=
  { user_id : Z; username : string; apikey : string; active : bool }.
Record reference_row :=
  { ref_id : Z; reference : string; ref_source_id : Z; ref_user_id : Z }.
Record indicator_row :=
  { ind_id : Z;
    case_sensitive : bool;
    substring : bool;
    ind_value : string;
    type_id : Z;
    confidence_id : Z;
    impact_id : Z;
    status_id : Z;
    ind_user_id : Z;
    created_time : Z;
    modified_time : Z }.

(** An association row: the indicator's id and the related row's id. *)
Record assoc_row := { a_indicator_id : Z; a_other_id : Z }.

#[global] Instance lookup_row_eq_dec : EqDecision lookup_row.
Proof. solve_decision. Defined.
#[global] Instance campaign_row_eq_dec : EqDecision campaign_row.
Proof. solve_decision. Defined.
#[global] Instance reference_row_eq_dec : EqDecision reference_row.
Proof. solve_decision. Defined.

Record db :=
  { indicators : list indicator_row;
    indicator_types : list lookup_row;
    indicator_confidences : list lookup_row;
    indicator_impacts : list lookup_row;
    indicator_statuses : list lookup_row;
    intel_references : list reference_row;
    intel_sources : list lookup_row;
    tags : list lookup_row;
    users : list user_row;
    campaigns : list campaign_row;
    campaign_assoc : list assoc_row;
    reference_assoc : list assoc_row;
    tag_assoc : list assoc_row }.

(** A row seen through its columns. *)
Definition tuple := field -> value.

Definition lookup_tuple (r : lookup_row) : tuple := fun f =>
  match f with
  | f_id => VInt (lk_id r)
  | f_value => VStr (lk_value r)
  | _ => VNull
  end.

Definition campaign_tuple (r : campaign_row) : tuple := fun f =>
  match f with
  | f_id => VInt (campaign_id r)
  | f_name => VStr (campaign_name r)
  | _ => VNull
  end.

Definition user_tuple (r : user_row) : tuple := fun f =>
  match f with
  | f_id => VInt (user_id r)
  | f_username => VStr (username r)
  | _ => VNull
  end.

Definition reference_tuple (r : reference_row) : tuple := fun f =>
  match f with
  | f_id => VInt (ref_id r)
  | f_reference => VStr (reference r)
  | f_intel_source_id => VInt (ref_source_id r)
  | f_user_id => VInt (ref_user_id r)
  | _ => VNull
  end.

Definition indicator_tuple (r : indicator_row) : tuple := fun f =>
  match f with
  | f_id => VInt (ind_id r)
  | f_case_sensitive => VBool (case_sensitive r)
  | f_substring => VBool (substring r)
  | f_value => VStr (ind_value r)
  | f_type_id => VInt (type_id r)
  | f_confidence_id => VInt (confidence_id r)
  | f_impact_id => VInt (impact_id r)
  | f_status_id => VInt (status_id r)
  | f_user_id => VInt (ind_user_id r)
  | f_created_time => VTime (created_time r)
  | f_modified_time => VTime (modified_time r)
  | _ => VNull
  end.

Definition assoc_tuple (other : field) (r : assoc_row) : tuple := fun f =>
  match f with
  | f_indicator_id => VInt (a_indicator_id r)
  | _ => if decide (f = other) then VInt (a_other_id r) else VNull
  end.

Definition table_rows (d : db) (t : table) : list tuple :=
  match t with
  | Indicator => map indicator_tuple (indicators d)
  | IndicatorType => map lookup_tuple (indicator_types d)
  | IndicatorConfidence => map lookup_tuple (indicator_confidences d)
  | IndicatorImpact => map lookup_tuple (indicator_impacts d)
  | IndicatorStatus => map lookup_tuple (indicator_statuses d)
  | IntelReference => map reference_tuple (intel_references d)
  | IntelSource => map lookup_tuple (intel_sources d)
  | Tag => map lookup_tuple (tags d)
  | User => map user_tuple (users d)
  | Campaign => map campaign_tuple (campaigns d)
  | indicator_campaign_association =>
      map (assoc_tuple f_campaign_id) (campaign_assoc d)
  | indicator_reference_association =>
      map (assoc_tuple f_intel_reference_id) (reference_assoc d)
  | indicator_tag_association => map (assoc_tuple f_tag_id) (tag_assoc d)
  end.

(** The foreign keys of the schema: column, referenced table (always its
    [id]). *)
Definition foreign_keys (t : table) : list (field * table) :=
  match t with
  | Indicator =>
      [(f_type_id, IndicatorType); (f_confidence_id, IndicatorConfidence);
       (f_impact_id, IndicatorImpact); (f_status_id, IndicatorStatus);
       (f_user_id, User)]
  | IntelReference => [(f_intel_source_id, IntelSource); (f_user_id, User)]
  | indicator_campaign_association =>
      [(f_indicator_id, Indicator); (f_campaign_id, Campaign)]
  | indicator_reference_association =>
      [(f_indicator_id, Indicator); (f_intel_reference_id, IntelReference)]
  | indicator_tag_association =>
      [(f_indicator_id, Indicator); (f_tag_id, Tag)]
  | _ => []
  end.

End Schema.

(* ===================================================================== *)
(** ** SQL expressions, statements and their evaluation by the store *)
(* ===================================================================== *)

Module Sql.
Import Schema.

(** The Python values bound as date parameters: a parsed [datetime], or
    the sentinels [datetime.date.max] and [datetime.date.min]. *)
Inductive pydate := Datetime (t : Z) | Date_max | Date_min.

(** 9999-12-31 is day 3652059 of the proleptic calendar; 0001-01-01 is
    day 1. *)
Definition date_max_seconds : Z := 3652058 * 86400.

Definition bind_date (d : pydate) : Z :=
  match d with
  | Datetime t => t
  | Date_max => date_max_seconds
  | Date_min => 0
  end.

Inductive operand :=
| Col (c : column)
| Bind (s : string)
| Bind_date (d : pydate).

Inductive operator := op_eq | op_ne | op_lt.

(** [Indicator.campaigns], [Indicator.references], [Indicator.tags]. *)
Inductive relationship := rel_campaigns | rel_references | rel_tags.

Inductive clause :=
| Is_ (c : column) (b : option bool)              (* c.is_(b) *)
| Binary (op : operator) (l r : operand)          (* l == r, l != r, l < r *)
| Like (c : column) (pattern : string)            (* c.like(pattern) *)
| Any (r : relationship) (criterion : option clause)   (* r.any(...) *)
| Not_ (x : clause)                               (* ~x *)
| And_ (xs : list clause)                         (* and_( *xs ) *)
| Or_ (xs : list clause)                          (* or_( *xs ) *)
| Sum_gt_0 (x : clause).                          (* func.sum(x) > 0 *)

Definition Equals (c : column) (v : string) : clause :=
  Binary op_eq (Col c) (Bind v).
Definition Not_equals (c : column) (v : string) : clause :=
  Binary op_ne (Col c) (Bind v).
Definition On (a b : column) : clause := Binary op_eq (Col a) (Col b).

(** The FROM expression: [db.join(left, right, onclause)] and
    [db.outerjoin(left, right)], nested to the left. *)
Inductive from_expr :=
| From_table (t : table)
| Join (left : from_expr) (right : table) (onclause : option clause)
       (isouter : bool).

Definition db_join (left : from_expr) (right : table)
  (onclause : option clause) : from_expr := Join left right onclause false.
Definition db_outerjoin (left : from_expr) (right : table) : from_expr :=
  Join left right None true.

(** The tables of a FROM expression, left to right, each with the kind of
    join that introduced it ([true]: outer). *)
Fixpoint joined (j : from_expr) : list (bool * table) :=
  match j with
  | From_table t => [(false, t)]
  | Join l r _ o => joined l ++ [(o, r)]
  end.

Definition names (j : from_expr) : list table := map snd (joined j).

Inductive select_item :=
| Count_star                (* func.count() *)
| Item (c : column).

Inductive select :=
| Mk_select (cols : list select_item) (from : source) (wheres : list clause)
            (group : list column) (havings : list clause)
            (order : list column)
with source :=
| No_from
| From_join (j : from_expr)
| From_alias (q : select) (name : string).

(** The generative methods of a select. *)
Definition db_select (cols : list select_item) : select :=
  Mk_select cols No_from [] [] [] [].
Definition sel_group_by (q : select) (c : column) : select :=
  match q with Mk_select cs f w g h o => Mk_select cs f w (g ++ [c]) h o end.
(** [q.having] called with the list [hs] unpacked into its arguments:
    the method takes one clause, and Python raises [TypeError] ([None])
    when the call passes none or several. *)
Definition sel_having (q : select) (hs : list clause) : option select :=
  match hs with
  | [x] =>
      Some
        match q with Mk_select cs f w g h o => Mk_select cs f w g (h ++ [x]) o end
  | _ => None
  end.
Definition sel_select_from (q : select) (f : source) : select :=
  match q with Mk_select cs _ w g h o => Mk_select cs f w g h o end.
Definition sel_where (q : select) (x : clause) : select :=
  match q with Mk_select cs f w g h o => Mk_select cs f (w ++ [x]) g h o end.
Definition sel_order_by (q : select) (c : column) : select :=
  match q with Mk_select cs f w g h o => Mk_select cs f w g h (o ++ [c]) end.
Definition sel_alias (q : select) (name : string) : source := From_alias q name.

(** *** Evaluation *)

#[global] Instance value_eq_dec : EqDecision value.
Proof. solve_decision. Defined.

(** A row of a FROM expression binds each named table to one of its rows,
    or to nothing where an outer join found no partner. *)
Definition env := list (table * option tuple).

Fixpoint env_lookup (t : table) (e : env) : option (option tuple) :=
  match e with
  | [] => None
  | (t', r) :: e' => if decide (t = t') then Some r else env_lookup t e'
  end.

Definition col_value (e : env) (c : column) : value :=
  match env_lookup (col_table c) e with
  | Some (Some r) => r (col_field c)
  | _ => VNull
  end.

Definition operand_value (e : env) (o : operand) : value :=
  match o with
  | Col c => col_value e c
  | Bind s => VStr s
  | Bind_date d => VTime (bind_date d)
  end.

(** Comparisons are unknown ([None]) on NULL. *)
Definition compare_values (op : operator) (a b : value) : option bool :=
  match op, a, b with
  | op_eq, VInt x, VInt y => Some (x =? y)
  | op_eq, VStr x, VStr y => Some (String.eqb x y)
  | op_eq, VBool x, VBool y => Some (Bool.eqb x y)
  | op_eq, VTime x, VTime y => Some (x =? y)
  | op_ne, VInt x, VInt y => Some (negb (x =? y))
  | op_ne, VStr x, VStr y => Some (negb (String.eqb x y))
  | op_ne, VBool x, VBool y => Some (negb (Bool.eqb x y))
  | op_ne, VTime x, VTime y => Some (negb (x =? y))
  | op_lt, VInt x, VInt y => Some (x <? y)
  | op_lt, VTime x, VTime y => Some (x <? y)
  | _, _, _ => None
  end.

Definition and3 (a b : option bool) : option bool :=
  match a, b with
  | Some false, _ | _, Some false => Some false
  | Some true, Some true => Some true
  | _, _ => None
  end.

Definition or3 (a b : option bool) : option bool :=
  match a, b with
  | Some true, _ | _, Some true => Some true
  | Some false, Some false => Some false
  | _, _ => None
  end.

Definition is_true3 (a : option bool) : bool :=
  match a with Some true => true | _ => false end.

(** LIKE compares the letters A to Z without regard to case. *)
Definition fold_letter (c : ascii) : ascii :=
  let n := nat_of_ascii c in
  if ((65 <=? n) && (n <=? 90))%nat then ascii_of_nat (n + 32) else c.

Fixpoint fold_case (s : string) : string :=
  match s with
  | EmptyString => EmptyString
  | String c s' => String (fold_letter c) (fold_case s')
  end.

(** LIKE: [%] matches any run of characters, [_] any one character, and
    any other character matches itself, a letter in either case.  A
    backslash is taken as a character; the stores that read it as an
    escape differ from this on patterns that hold one. *)
Fixpoint like (p s : string) : bool :=
  match p with
  | EmptyString => match s with EmptyString => true | _ => false end
  | String c p' =>
      if Ascii.eqb c "%" then
        (fix skip (s : string) : bool :=
           like p' s ||
           match s with
           | EmptyString => false
           | String _ s' => skip s'
           end) s
      else
        match s with
        | EmptyString => false
        | String c' s' =>
            (Ascii.eqb c "_" || Ascii.eqb (fold_letter c) (fold_letter c'))
            && like p' s'
        end
  end.

(** The association table, the target table and the association's column
    for the target of a relationship. *)
Definition rel_tables (r : relationship) : table * table * field :=
  match r with
  | rel_campaigns => (indicator_campaign_association, Campaign, f_campaign_id)
  | rel_references =>
      (indicator_reference_association, IntelReference, f_intel_reference_id)
  | rel_tags => (indicator_tag_association, Tag, f_tag_id)
  end.

Definition is_null (v : value) : bool :=
  match v with VNull => true | _ => false end.

(** A clause on one row.  [r.any(crit)] is the EXISTS subquery over the
    association and target tables, correlated on the row's indicator. *)
Fixpoint eval (d : db) (e : env) (x : clause) : option bool :=
  match x with
  | Is_ c b =>
      match b, col_value e c with
      | None, v => Some (is_null v)
      | Some b, VBool b' => Some (Bool.eqb b b')
      | Some _, _ => Some false
      end
  | Binary op l r => compare_values op (operand_value e l) (operand_value e r)
  | Like c p =>
      match col_value e c with
      | VStr s => Some (like p s)
      | _ => None
      end
  | Any r crit =>
      let '(assoc, target, fk) := rel_tables r in
      Some
        (existsb
           (fun a =>
              existsb
                (fun t =>
                   let e' := (target, Some t) :: (assoc, Some a) :: e in
                   is_true3
                     (compare_values op_eq (a f_indicator_id)
                        (col_value e (Column Indicator f_id))) &&
                   is_true3 (compare_values op_eq (a fk) (t f_id)) &&
                   match crit with
                   | None => true
                   | Some y => is_true3 (eval d e' y)
                   end)
                (table_rows d target))
           (table_rows d assoc))
  | Not_ y => option_map negb (eval d e y)
  | And_ xs => fold_right (fun y acc => and3 (eval d e y) acc) (Some true) xs
  | Or_ xs => fold_right (fun y acc => or3 (eval d e y) acc) (Some false) xs
  | Sum_gt_0 _ => None
  end.

(** SUM over the rows of a group skips NULLs and is NULL when nothing is
    left. *)
Definition sql_sum (vals : list (option bool)) : option Z :=
  match omap id vals with
  | [] => None
  | bs => Some (fold_right (fun (b : bool) acc => (if b then 1 else 0) + acc) 0 bs)
  end.

(** A clause on a group, as HAVING sees it. *)
Fixpoint eval_having (d : db) (g : list env) (x : clause) : option bool :=
  match x with
  | Sum_gt_0 y =>
      match sql_sum (map (fun e => eval d e y) g) with
      | None => None
      | Some n => Some (0 <? n)
      end
  | Not_ y => option_map negb (eval_having d g y)
  | And_ xs =>
      fold_right (fun y acc => and3 (eval_having d g y) acc) (Some true) xs
  | Or_ xs =>
      fold_right (fun y acc => or3 (eval_having d g y) acc) (Some false) xs
  | _ => match g with
         | e :: _ => eval d e x
         | [] => None
         end
  end.

(** The ON clause of a join written without one: the single foreign key
    that links [right] to a table of [left]. *)
Definition infer_onclause (left : list table) (right : table)
  : option clause :=
  let out :=
    flat_map (fun '(f, t) =>
                if decide (t ∈ left)
                then [On (Column right f) (Column t f_id)] else [])
             (foreign_keys right) in
  let inc :=
    flat_map (fun l =>
                flat_map (fun '(f, t) =>
                            if decide (t = right)
                            then [On (Column l f) (Column right f_id)]
                            else [])
                         (foreign_keys l))
             left in
  match out ++ inc with
  | [c] => Some c
  | _ => None
  end.

(** The rows of a FROM expression.  The store rejects ([None]) a FROM
    expression that names a table twice, and a join for which no single
    ON clause can be found. *)
Fixpoint from_rows (d : db) (j : from_expr) : option (list env) :=
  match j with
  | From_table t => Some (map (fun r => [(t, Some r)]) (table_rows d t))
  | Join l r onclause isouter =>
      match from_rows d l with
      | None => None
      | Some envs =>
          if decide (r ∈ names l) then None
          else
            match (match onclause with
                   | Some c => Some c
                   | None => infer_onclause (names l) r
                   end) with
            | None => None
            | Some c =>
                Some
                  (flat_map
                     (fun e =>
                        match
                          List.filter
                            (fun t => is_true3 (eval d ((r, Some t) :: e) c))
                            (table_rows d r)
                        with
                        | [] => if isouter then [(r, None) :: e] else []
                        | ts => map (fun t => (r, Some t) :: e) ts
                        end)
                     envs)
            end
      end
  end.

(** Insertion sort, stable, by a key compared with [leb]. *)
Fixpoint insert_by {A K} (leb : K -> K -> bool) (key : A -> K) (x : A)
  (l : list A) : list A :=
  match l with
  | [] => [x]
  | y :: l' =>
      if leb (key x) (key y) then x :: l else y :: insert_by leb key x l'
  end.

Fixpoint sort_by {A K} (leb : K -> K -> bool) (key : A -> K) (l : list A)
  : list A :=
  match l with
  | [] => []
  | x :: l' => insert_by leb key x (sort_by leb key l')
  end.

(** Ascending order of cell values: NULL first, numbers by [<=], strings
    left in place. *)
Definition value_leb (a b : value) : bool :=
  match a, b with
  | VNull, _ => true
  | _, VNull => false
  | VInt x, VInt y => x <=? y
  | VTime x, VTime y => x <=? y
  | VBool x, VBool y => implb x y
  | _, _ => true
  end.

Fixpoint key_leb (a b : list value) : bool :=
  match a, b with
  | [], _ => true
  | _ :: _, [] => false
  | x :: a', y :: b' =>
      if decide (x = y) then key_leb a' b' else value_leb x y
  end.

(** GROUP BY: one group per distinct key. *)
Definition group_rows (key : env -> list value) (rows : list env)
  : list (list env) :=
  map (fun k => List.filter (fun e => bool_decide (key e = k)) rows)
      (remove_dups (map key rows)).

Definition is_count (i : select_item) : bool :=
  match i with Count_star => true | Item _ => false end.

Definition result_row := list value.

Definition group_first (g : list env) : env :=
  match g with
  | e :: _ => e
  | [] => []
  end.

Definition item_of_group (g : list env) (i : select_item) : value :=
  match i with
  | Count_star => VInt (Z.of_nat (length g))
  | Item c => col_value (group_first g) c
  end.

Definition item_of_row (e : env) (i : select_item) : value :=
  match i with
  | Count_star => VInt 1
  | Item c => col_value e c
  end.

(** Running a statement.  A statement is aggregated when it has GROUP BY,
    HAVING or an aggregate among its columns; without GROUP BY all its
    rows then form one group.  A derived table ([q.alias(name)]) offers
    its rows to the enclosing statement, which may count them. *)
Fixpoint execute (d : db) (q : select) : option (list result_row) :=
  match q with
  | Mk_select cols from wheres group havings order =>
      match
        (match from with
         | No_from => Some [[]]
         | From_join j => from_rows d j
         | From_alias q' _ =>
             option_map (map (fun _ : result_row => @nil (table * option tuple)))
               (execute d q')
         end)
      with
      | None => None
      | Some rows =>
          let kept :=
            List.filter
              (fun e => forallb (fun w => is_true3 (eval d e w)) wheres) rows in
          let key := fun cs e => map (col_value e) cs in
          if negb (bool_decide (group = [])) || negb (bool_decide (havings = []))
             || existsb is_count cols
          then
            let groups :=
              if bool_decide (group = []) then [kept]
              else group_rows (key group) kept in
            let passed :=
              List.filter
                (fun g =>
                   forallb (fun h => is_true3 (eval_having d g h)) havings)
                groups in
            Some
              (map (fun g => map (item_of_group g) cols)
                 (sort_by key_leb (fun g => key order (group_first g)) passed))
          else
            Some
              (map (fun e => map (item_of_row e) cols)
                 (sort_by key_leb (key order) kept))
      end
  end.

Definition fetchall (r : list result_row) : list result_row := r.
Definition fetchone (r : list result_row) : option result_row := head r.

End Sql.

(* ===================================================================== *)
(** ** GET /indicators: [read_indicators] *)
(* ===================================================================== *)

Module Listing.
Import Schema Sql.

(** [request.args]: the query string's pairs in order.  [arg k a] is
    [Some (request.args.get(k))] when [k in request.args], the first value
    given for [k]. *)
Definition args := list (string * string).

Definition arg (k : string) (a : args) : option string :=
  match List.find (fun kv => String.eqb (fst kv) k) a with
  | Some kv => Some (snd kv)
  | None => None
  end.

(** What [dateutil.parser.parse] does with a string: a datetime, or one of
    the two exceptions it raises on a string it cannot read. *)
Inductive parse_result :=
| Parsed (t : Z)
| ValueError
| OverflowError.

(** The planner's local variables. *)
Record planner :=
  { filters : list clause;
    groupby : bool;
    having : list clause;
    already_joined : gset string;
    already_outerjoined : gset string;
    join : from_expr }.

Definition append_filter (x : clause) (p : planner) : planner :=
  {| filters := filters p ++ [x]; groupby := groupby p; having := having p;
     already_joined := already_joined p;
     already_outerjoined := already_outerjoined p; join := join p |}.

Definition append_having (x : clause) (p : planner) : planner :=
  {| filters := filters p; groupby := groupby p; having := having p ++ [x];
     already_joined := already_joined p;
     already_outerjoined := already_outerjoined p; join := join p |}.

Definition set_groupby (p : planner) : planner :=
  {| filters := filters p; groupby := true; having := having p;
     already_joined := already_joined p;
     already_outerjoined := already_outerjoined p; join := join p |}.

(** [if name not in already_joined: join = db.join(join, t, on);
    already_joined.add(name)]. *)
Definition join_once (name : string) (t : table) (on : option clause)
  (p : planner) : planner :=
  if decide (name ∈ already_joined p) then p
  else
    {| filters := filters p; groupby := groupby p; having := having p;
       already_joined := already_joined p ∪ {[name]};
       already_outerjoined := already_outerjoined p;
       join := db_join (join p) t on |}.

(** [if name not in already_outerjoined: join = db.outerjoin(join, t);
    already_outerjoined.add(name)]. *)
Definition outerjoin_once (name : string) (t : table) (p : planner)
  : planner :=
  if decide (name ∈ already_outerjoined p) then p
  else
    {| filters := filters p; groupby := groupby p; having := having p;
       already_joined := already_joined p;
       already_outerjoined := already_outerjoined p ∪ {[name]};
       join := db_outerjoin (join p) t |}.

(** [for x in xs: filters.append(f x)]. *)
Definition append_each (f : string -> clause) (xs : list string)
  (p : planner) : planner :=
  fold_left (fun p x => append_filter (f x) p) xs p.

(** The columns the route names. *)
Definition Indicator_id := Column Indicator f_id.
Definition Indicator_value := Column Indicator f_value.
Definition Indicator_case_sensitive := Column Indicator f_case_sensitive.
Definition Indicator_substring := Column Indicator f_substring.
Definition Indicator_created_time := Column Indicator f_created_time.
Definition Indicator_modified_time := Column Indicator f_modified_time.
Definition Indicator_type_id := Column Indicator f_type_id.
Definition Indicator_confidence_id := Column Indicator f_confidence_id.
Definition Indicator_impact_id := Column Indicator f_impact_id.
Definition Indicator_status_id := Column Indicator f_status_id.
Definition IndicatorType_id := Column IndicatorType f_id.
Definition IndicatorType_value := Column IndicatorType f_value.
Definition IndicatorConfidence_id := Column IndicatorConfidence f_id.
Definition IndicatorConfidence_value := Column IndicatorConfidence f_value.
Definition IndicatorImpact_id := Column IndicatorImpact f_id.
Definition IndicatorImpact_value := Column IndicatorImpact f_value.
Definition IndicatorStatus_id := Column IndicatorStatus f_id.
Definition IndicatorStatus_value := Column IndicatorStatus f_value.
Definition IntelReference_id := Column IntelReference f_id.
Definition IntelReference_reference := Column IntelReference f_reference.
Definition IntelReference_intel_source_id :=
  Column IntelReference f_intel_source_id.
Definition IntelReference_user_id := Column IntelReference f_user_id.
Definition IntelSource_id := Column IntelSource f_id.
Definition IntelSource_value := Column IntelSource f_value.
Definition Tag_id := Column Tag f_id.
Definition Tag_value := Column Tag f_value.
Definition User_id := Column User f_id.
Definition User_username := Column User f_username.
Definition reference_association_intel_reference_id :=
  Column indicator_reference_association f_intel_reference_id.
Definition tag_association_tag_id :=
  Column indicator_tag_association f_tag_id.

(** The three joins that several blocks repeat. *)
Definition join_reference_association : planner -> planner :=
  join_once "indicator_reference_association" indicator_reference_association
    None.
Definition join_IntelReference : planner -> planner :=
  join_once "IntelReference" IntelReference
    (Some (On reference_association_intel_reference_id IntelReference_id)).
Definition join_IntelSource : planner -> planner :=
  join_once "IntelSource" IntelSource
    (Some (On IntelReference_intel_source_id IntelSource_id)).
Definition join_User : planner -> planner :=
  join_once "User" User (Some (On IntelReference_user_id User_id)).

(** "Figure out AND or OR mode", then the clauses for the values, as the
    sources, tags and users blocks each spell it out. *)
Definition list_filter (c : column) (request_value : string) (p : planner)
  : planner :=
  let '(list_mode_or, request_value) :=
    if Py.contains "[OR]" request_value
    then (true, Py.replace "[OR]" "" request_value)
    else (false, request_value) in
  let xs := Py.split "," request_value in
  if (length xs =? 1)%nat then
    match xs with
    | x :: _ => append_filter (Equals c x) p
    | [] => p
    end
  else if (1 <? length xs)%nat then
    if list_mode_or
    then append_filter (Or_ (map (Equals c) xs)) p
    else append_having (And_ (map (fun x => Sum_gt_0 (Equals c x)) xs)) p
  else p.

Section Planner.

(** [project.api.helpers.parse_boolean] and [dateutil.parser.parse]
    (second argument: [ignoretz]) are imported by the route. *)
Variable parse_boolean : string -> option bool -> option bool.
Variable parse : string -> bool -> parse_result.

Variable a : args.

Definition initial : planner :=
  {| filters := []; groupby := false; having := [];
     already_joined := {["IndicatorType"]};
     already_outerjoined := ∅;
     join := db_join (From_table Indicator) IndicatorType
               (Some (On Indicator_type_id IndicatorType_id)) |}.

(** [try: d = parse(v, ...) except (ValueError, OverflowError): d = sentinel]. *)
Definition parse_or (v : string) (ignoretz : bool) (sentinel : pydate)
  : pydate :=
  match parse v ignoretz with
  | Parsed t => Datetime t
  | ValueError => sentinel
  | OverflowError => sentinel
  end.

Definition block_case_sensitive (p : planner) : planner :=
  match arg "case_sensitive" a with
  | Some v => append_filter (Is_ Indicator_case_sensitive (parse_boolean v None)) p
  | None => p
  end.

Definition block_confidence (p : planner) : planner :=
  match arg "confidence" a with
  | Some v =>
      append_filter (Equals IndicatorConfidence_value v)
        (join_once "IndicatorConfidence" IndicatorConfidence
           (Some (On Indicator_confidence_id IndicatorConfidence_id)) p)
  | None => p
  end.

Definition block_created_after (p : planner) : planner :=
  match arg "created_after" a with
  | Some v =>
      append_filter
        (Binary op_lt (Bind_date (parse_or v true Date_max))
           (Col Indicator_created_time)) p
  | None => p
  end.

Definition block_created_before (p : planner) : planner :=
  match arg "created_before" a with
  | Some v =>
      append_filter
        (Binary op_lt (Col Indicator_created_time)
           (Bind_date (parse_or v true Date_min))) p
  | None => p
  end.

Definition block_exact_value (p : planner) : planner :=
  match arg "exact_value" a with
  | Some v => append_filter (Equals Indicator_value v) p
  | None => p
  end.

Definition block_impact (p : planner) : planner :=
  match arg "impact" a with
  | Some v =>
      append_filter (Equals IndicatorImpact_value v)
        (join_once "IndicatorImpact" IndicatorImpact
           (Some (On Indicator_impact_id IndicatorImpact_id)) p)
  | None => p
  end.

Definition block_modified_after (p : planner) : planner :=
  match arg "modified_after" a with
  | Some v =>
      append_filter
        (Binary op_lt (Bind_date (parse_or v false Date_max))
           (Col Indicator_modified_time)) p
  | None => p
  end.

Definition block_modified_before (p : planner) : planner :=
  match arg "modified_before" a with
  | Some v =>
      append_filter
        (Binary op_lt (Col Indicator_modified_time)
           (Bind_date (parse_or v false Date_min))) p
  | None => p
  end.

Definition block_no_campaigns (p : planner) : planner :=
  match arg "no_campaigns" a with
  | Some _ =>
      append_filter (Not_ (Any rel_campaigns None))
        (outerjoin_once "indicator_campaign_association"
           indicator_campaign_association p)
  | None => p
  end.

Definition block_no_references (p : planner) : planner :=
  match arg "no_references" a with
  | Some _ =>
      append_filter (Not_ (Any rel_references None))
        (outerjoin_once "indicator_reference_association"
           indicator_reference_association p)
  | None => p
  end.

Definition block_no_tags (p : planner) : planner :=
  match arg "no_tags" a with
  | Some _ =>
      append_filter (Not_ (Any rel_tags None))
        (outerjoin_once "indicator_tag_association"
           indicator_tag_association p)
  | None => p
  end.

Definition block_not_sources (p : planner) : planner :=
  match arg "not_sources" a with
  | Some v =>
      append_each (Not_equals IntelSource_value) (Py.split "," v)
        (set_groupby
           (join_IntelSource
              (join_IntelReference (join_reference_association p))))
  | None => p
  end.

Definition block_not_tags (p : planner) : planner :=
  match arg "not_tags" a with
  | Some v =>
      append_each
        (fun nt => Not_ (Any rel_tags (Some (Equals Tag_value nt))))
        (Py.split "," v)
        (set_groupby
           (outerjoin_once "indicator_tag_association"
              indicator_tag_association p))
  | None => p
  end.

Definition block_not_users (p : planner) : planner :=
  match arg "not_users" a with
  | Some v =>
      append_each (Not_equals User_username) (Py.split "," v)
        (set_groupby
           (join_User (join_IntelReference (join_reference_association p))))
  | None => p
  end.

Definition block_reference (p : planner) : planner :=
  match arg "reference" a with
  | Some v =>
      append_filter
        (Any rel_references (Some (Equals IntelReference_reference v)))
        (set_groupby (join_reference_association p))
  | None => p
  end.

Definition block_sources (p : planner) : planner :=
  match arg "sources" a with
  | Some v =>
      list_filter IntelSource_value v
        (set_groupby
           (join_IntelSource
              (join_IntelReference (join_reference_association p))))
  | None => p
  end.

Definition block_status (p : planner) : planner :=
  match arg "status" a with
  | Some v =>
      append_filter (Equals IndicatorStatus_value v)
        (join_once "IndicatorStatus" IndicatorStatus
           (Some (On Indicator_status_id IndicatorStatus_id)) p)
  | None => p
  end.

Definition block_substring (p : planner) : planner :=
  match arg "substring" a with
  | Some v => append_filter (Is_ Indicator_substring (parse_boolean v None)) p
  | None => p
  end.

Definition block_tags (p : planner) : planner :=
  match arg "tags" a with
  | Some v =>
      list_filter Tag_value v
        (set_groupby
           (join_once "Tag" Tag (Some (On tag_association_tag_id Tag_id))
              (join_once "indicator_tag_association"
                 indicator_tag_association None p)))
  | None => p
  end.

Definition block_type (p : planner) : planner :=
  match arg "type" a with
  | Some v => append_filter (Equals IndicatorType_value v) p
  | None => p
  end.

Definition block_types (p : planner) : planner :=
  match arg "types" a with
  | Some v =>
      let types := Py.split "," v in
      if (length types =? 1)%nat then
        match types with
        | t :: _ => append_filter (Equals IndicatorType_value t) p
        | [] => p
        end
      else if (1 <? length types)%nat then
        append_filter (Or_ (map (Equals IndicatorType_value) types)) p
      else p
  | None => p
  end.

Definition block_user (p : planner) : planner :=
  match arg "user" a with
  | Some v =>
      append_filter (Equals User_username v)
        (set_groupby
           (join_User (join_IntelReference (join_reference_association p))))
  | None => p
  end.

Definition block_users (p : planner) : planner :=
  match arg "users" a with
  | Some v =>
      list_filter User_username v
        (set_groupby
           (join_User (join_IntelReference (join_reference_association p))))
  | None => p
  end.

Definition block_value (p : planner) : planner :=
  match arg "value" a with
  | Some v => append_filter (Like Indicator_value ("%" +:+ v +:+ "%")) p
  | None => p
  end.

(** The blocks in the order the route runs them. *)
Definition blocks : list (planner -> planner) :=
  [ block_case_sensitive; block_confidence; block_created_after;
    block_created_before; block_exact_value; block_impact;
    block_modified_after; block_modified_before; block_no_campaigns;
    block_no_references; block_no_tags; block_not_sources; block_not_tags;
    block_not_users; block_reference; block_sources; block_status;
    block_substring; block_tags; block_type; block_types; block_user;
    block_users; block_value ].

Definition plan : planner := fold_left (fun p b => b p) blocks initial.

(** The statement of the count branch, or [None] when building it
    raises. *)
Definition count_query (p : planner) : option select :=
  let query :=
    if groupby p
    then sel_group_by (db_select [Item Indicator_id]) Indicator_id
    else db_select [Count_star] in
  match
    (match having p with
     | [] => Some query
     | _ => sel_having query (having p)
     end)
  with
  | None => None
  | Some query =>
      let query := sel_select_from query (From_join (join p)) in
      let query := fold_left sel_where (filters p) query in
      Some
        (if groupby p
         then sel_select_from (db_select [Count_star])
                (sel_alias query "count")
         else query)
  end.

(** The statement that returns id, type and value, or [None] when
    building it raises. *)
Definition list_query (p : planner) : option select :=
  let query :=
    db_select [Item Indicator_id; Item IndicatorType_value;
               Item Indicator_value] in
  let query := if groupby p then sel_group_by query Indicator_id else query in
  match
    (match having p with
     | [] => Some query
     | _ => sel_having query (having p)
     end)
  with
  | None => None
  | Some query =>
      let query := sel_select_from query (From_join (join p)) in
      let query := fold_left sel_where (filters p) query in
      Some (sel_order_by query Indicator_id)
  end.

(** One element of the JSON list. *)
Record entry := { id : value; type : value; value_ : value }.

(** The outcomes of the route: the count object, the gzip-compressed list
    (here: the list that is serialized), or an exception that leaves the
    route. *)
Inductive response :=
| Count_json (count : value)
| Gzip_json (data : list entry)
| Server_error.

(** [db.session.execute(query)]; a statement whose construction raised
    was never executed, the exception has left the route. *)
Definition session_execute (d : db) (query : option select)
  : option (list result_row) :=
  match query with
  | Some q => execute d q
  | None => None
  end.

Definition read_indicators (d : db) : response :=
  match arg "count" a with
  | Some _ =>
      match session_execute d (count_query plan) with
      | None => Server_error
      | Some rows =>
          match fetchone rows with
          | Some (n :: _) => Count_json n
          | _ => Server_error
          end
      end
  | None =>
      match session_execute d (list_query plan) with
      | None => Server_error
      | Some rows =>
          Gzip_json
            (map (fun x => {| id := nth 0 x VNull; type := nth 1 x VNull;
                              value_ := nth 2 x VNull |})
               (fetchall rows))
      end
  end.

End Planner.

End Listing.

(* ===================================================================== *)
(** ** The write paths *)
(* ===================================================================== *)

Module Ingest.
Import Schema.

(** *** Requests and configuration *)

(** The [INDICATOR_AUTO_CREATE_*] switches of [current_app.config]. *)
Record config :=
  { AUTO_CREATE_INDICATORTYPE : bool;
    AUTO_CREATE_INDICATORCONFIDENCE : bool;
    AUTO_CREATE_INDICATORIMPACT : bool;
    AUTO_CREATE_INDICATORSTATUS : bool;
    AUTO_CREATE_CAMPAIGN : bool;
    AUTO_CREATE_INTELREFERENCE : bool;
    AUTO_CREATE_TAG : bool }.

Record reference_item := { item_source : string; item_reference : string }.

(** A JSON body that passed [indicator_create]: [type] and [value] are
    required, every other key may be absent ([None]). *)
Record indicator_data :=
  { data_username : option string;
    data_type : string;
    data_value : string;
    data_case_sensitive : option bool;
    data_confidence : option string;
    data_impact : option string;
    data_status : option string;
    data_substring : option bool;
    data_campaigns : option (list string);
    data_references : option (list reference_item);
    data_tags : option (list string) }.

(** An [Indicator] object in memory: its columns and the three
    collections, whose elements are objects or [None]. *)
Record indicator_obj :=
  { obj_row : indicator_row;
    obj_campaigns : list (option campaign_row);
    obj_references : list (option reference_row);
    obj_tags : list (option lookup_row) }.

(** *** The session *)

(** The exception the routes can raise and do not catch. *)
Inductive exception := FlushError.

(** A route returns normally, returns [error_response(status, message)],
    or is left by an exception, which the server answers with 500. *)
Inductive result (A : Type) :=
| Ok (x : A)
| Error_response (status : Z) (message : string)
| Raised (e : exception).
Arguments Ok {A} x.
Arguments Error_response {A} status message.
Arguments Raised {A} e.

(** Code that reads and stages rows in a state [S] and may leave early with
    an error response.  The state at the point of return is kept, so that
    what was staged before an error can be inspected. *)
Definition M (S A : Type) : Type := S -> result A * S.

Definition ret {S A} (x : A) : M S A := fun s => (Ok x, s).

Definition bind {S A B} (m : M S A) (k : A -> M S B) : M S B :=
  fun s =>
    match m s with
    | (Ok x, s') => k x s'
    | (Error_response c msg, s') => (Error_response c msg, s')
    | (Raised e, s') => (Raised e, s')
    end.

Definition error_response {S A} (status : Z) (message : string) : M S A :=
  fun s => (Error_response status message, s).

Definition raise {S A} (e : exception) : M S A := fun s => (Raised e, s).

Notation "'let*' x ':=' m 'in' k" := (bind m (fun x => k))
  (at level 10, x name, m at level 100, k at level 200).

(** A query sees the committed rows and the rows staged so far (the
    session flushes before it queries). *)
Definition query {A} (f : db -> A) : M db A := fun s => (Ok (f s), s).

(** [for x in xs: ...], collecting what each pass yields. *)
Fixpoint for_each {S A B} (f : A -> M S B) (xs : list A) : M S (list B) :=
  match xs with
  | [] => ret []
  | x :: xs' =>
      let* y := f x in
      let* ys := for_each f xs' in
      ret (y :: ys)
  end.

(** The id the store gives the next row of a table. *)
Definition next_id (ids : list Z) : Z := 1 + fold_right Z.max 0 ids.

(** *** Queries *)

Definition by_value (v : string) (rows : list lookup_row)
  : option lookup_row :=
  List.find (fun r => String.eqb (lk_value r) v) rows.

(** [X.query.order_by(X.id).limit(1).first()]. *)
Fixpoint lowest_id (rows : list lookup_row) : option lookup_row :=
  match rows with
  | [] => None
  | r :: rows' =>
      match lowest_id rows' with
      | Some r' => if lk_id r' <? lk_id r then Some r' else Some r
      | None => Some r
      end
  end.

Definition user_by_username (u : string) (d : db) : option user_row :=
  List.find (fun r => String.eqb (username r) u) (users d).

Definition user_by_apikey (k : string) (d : db) : option user_row :=
  List.find (fun r => String.eqb (apikey r) k) (users d).

Definition campaign_by_name (n : string) (d : db) : option campaign_row :=
  List.find (fun r => String.eqb (campaign_name r) n) (campaigns d).

(** [IntelReference.query.filter(and_(IntelReference.reference == r,
    IntelReference.source.has(IntelSource.value == s))).first()]. *)
Definition reference_by_source (src ref : string) (d : db)
  : option reference_row :=
  List.find
    (fun r =>
       String.eqb (reference r) ref &&
       existsb (fun s => (lk_id s =? ref_source_id r) &&
                         String.eqb (lk_value s) src)
               (intel_sources d))
    (intel_references d).

(** [func.lower] on the letters A to Z. *)
Definition lower_ascii (c : ascii) : ascii :=
  let n := nat_of_ascii c in
  if ((65 <=? n) && (n <=? 90))%nat then ascii_of_nat (n + 32) else c.

Fixpoint lower (s : string) : string :=
  match s with
  | EmptyString => EmptyString
  | String c s' => String (lower_ascii c) (lower s')
  end.

(** The two existence checks on type and value: [func.binary] compares the
    bytes, [func.lower] the lower-cased strings. *)
Definition existing_binary (t : lookup_row) (v : string) (d : db)
  : option indicator_row :=
  List.find (fun i => (type_id i =? lk_id t) && String.eqb (ind_value i) v)
    (indicators d).

Definition existing_lower (t : lookup_row) (v : string) (d : db)
  : option indicator_row :=
  List.find
    (fun i => (type_id i =? lk_id t) &&
              String.eqb (lower (ind_value i)) (lower v))
    (indicators d).

(** *** Staging: [X(...)] followed by [db.session.add(x)] *)

Definition with_indicator_types (rows : list lookup_row) (d : db) : db :=
  {| indicators := indicators d; indicator_types := rows;
     indicator_confidences := indicator_confidences d;
     indicator_impacts := indicator_impacts d;
     indicator_statuses := indicator_statuses d;
     intel_references := intel_references d;
     intel_sources := intel_sources d; tags := tags d; users := users d;
     campaigns := campaigns d; campaign_assoc := campaign_assoc d;
     reference_assoc := reference_assoc d; tag_assoc := tag_assoc d |}.

Definition with_indicator_confidences (rows : list lookup_row) (d : db)
  : db :=
  {| indicators := indicators d; indicator_types := indicator_types d;
     indicator_confidences := rows;
     indicator_impacts := indicator_impacts d;
     indicator_statuses := indicator_statuses d;
     intel_references := intel_references d;
     intel_sources := intel_sources d; tags := tags d; users := users d;
     campaigns := campaigns d; campaign_assoc := campaign_assoc d;
     reference_assoc := reference_assoc d; tag_assoc := tag_assoc d |}.

Definition with_indicator_impacts (rows : list lookup_row) (d : db) : db :=
  {| indicators := indicators d; indicator_types := indicator_types d;
     indicator_confidences := indicator_confidences d;
     indicator_impacts := rows;
     indicator_statuses := indicator_statuses d;
     intel_references := intel_references d;
     intel_sources := intel_sources d; tags := tags d; users := users d;
     campaigns := campaigns d; campaign_assoc := campaign_assoc d;
     reference_assoc := reference_assoc d; tag_assoc := tag_assoc d |}.

Definition with_indicator_statuses (rows : list lookup_row) (d : db) : db :=
  {| indicators := indicators d; indicator_types := indicator_types d;
     indicator_confidences := indicator_confidences d;
     indicator_impacts := indicator_impacts d;
     indicator_statuses := rows;
     intel_references := intel_references d;
     intel_sources := intel_sources d; tags := tags d; users := users d;
     campaigns := campaigns d; campaign_assoc := campaign_assoc d;
     reference_assoc := reference_assoc d; tag_assoc := tag_assoc d |}.

Definition with_intel_references (rows : list reference_row) (d : db) : db :=
  {| indicators := indicators d; indicator_types := indicator_types d;
     indicator_confidences := indicator_confidences d;
     indicator_impacts := indicator_impacts d;
     indicator_statuses := indicator_statuses d;
     intel_references := rows;
     intel_sources := intel_sources d; tags := tags d; users := users d;
     campaigns := campaigns d; campaign_assoc := campaign_assoc d;
     reference_assoc := reference_assoc d; tag_assoc := tag_assoc d |}.

Definition with_intel_sources (rows : list lookup_row) (d : db) : db :=
  {| indicators := indicators d; indicator_types := indicator_types d;
     indicator_confidences := indicator_confidences d;
     indicator_impacts := indicator_impacts d;
     indicator_statuses := indicator_statuses d;
     intel_references := intel_references d;
     intel_sources := rows; tags := tags d; users := users d;
     campaigns := campaigns d; campaign_assoc := campaign_assoc d;
     reference_assoc := reference_assoc d; tag_assoc := tag_assoc d |}.

Definition with_tags (rows : list lookup_row) (d : db) : db :=
  {| indicators := indicators d; indicator_types := indicator_types d;
     indicator_confidences := indicator_confidences d;
     indicator_impacts := indicator_impacts d;
     indicator_statuses := indicator_statuses d;
     intel_references := intel_references d;
     intel_sources := intel_sources d; tags := rows; users := users d;
     campaigns := campaigns d; campaign_assoc := campaign_assoc d;
     reference_assoc := reference_assoc d; tag_assoc := tag_assoc d |}.

Definition with_campaigns (rows : list campaign_row) (d : db) : db :=
  {| indicators := indicators d; indicator_types := indicator_types d;
     indicator_confidences := indicator_confidences d;
     indicator_impacts := indicator_impacts d;
     indicator_statuses := indicator_statuses d;
     intel_references := intel_references d;
     intel_sources := intel_sources d; tags := tags d; users := users d;
     campaigns := rows; campaign_assoc := campaign_assoc d;
     reference_assoc := reference_assoc d; tag_assoc := tag_assoc d |}.

(** Staging a lookup row with value [v] in the table read by [get] and
    written by [set]: the row gets the table's next id. *)
Definition add_lookup (get : db -> list lookup_row)
  (set : list lookup_row -> db -> db) (v : string) : M db lookup_row :=
  fun s =>
    let r := {| lk_id := next_id (map lk_id (get s)); lk_value := v |} in
    (Ok r, set (get s ++ [r]) s).

Definition add_campaign (n : string) : M db campaign_row :=
  fun s =>
    let r := {| campaign_id := next_id (map campaign_id (campaigns s));
                campaign_name := n |} in
    (Ok r, with_campaigns (campaigns s ++ [r]) s).

Definition add_reference (ref : string) (source : lookup_row)
  (user : user_row) : M db reference_row :=
  fun s =>
    let r := {| ref_id := next_id (map ref_id (intel_references s));
                reference := ref; ref_source_id := lk_id source;
                ref_user_id := user_id user |} in
    (Ok r, with_intel_references (intel_references s ++ [r]) s).

(** Staging an indicator: its row, with the next id, and one association
    row for each object in its collections. *)
Definition add_indicator (o : indicator_obj) : M db indicator_obj :=
  fun s =>
    let i := next_id (map ind_id (indicators s)) in
    let r := obj_row o in
    let row :=
      {| ind_id := i; case_sensitive := case_sensitive r;
         substring := substring r; ind_value := ind_value r;
         type_id := type_id r; confidence_id := confidence_id r;
         impact_id := impact_id r; status_id := status_id r;
         ind_user_id := ind_user_id r; created_time := created_time r;
         modified_time := modified_time r |} in
    let link := fun other => {| a_indicator_id := i; a_other_id := other |} in
    (Ok {| obj_row := row; obj_campaigns := obj_campaigns o;
           obj_references := obj_references o; obj_tags := obj_tags o |},
     {| indicators := indicators s ++ [row];
        indicator_types := indicator_types s;
        indicator_confidences := indicator_confidences s;
        indicator_impacts := indicator_impacts s;
        indicator_statuses := indicator_statuses s;
        intel_references := intel_references s;
        intel_sources := intel_sources s; tags := tags s; users := users s;
        campaigns := campaigns s;
        campaign_assoc :=
          campaign_assoc s
          ++ map (fun c => link (campaign_id c)) (omap id (obj_campaigns o));
        reference_assoc :=
          reference_assoc s
          ++ map (fun r => link (ref_id r)) (omap id (obj_references o));
        tag_assoc :=
          tag_assoc s
          ++ map (fun t => link (lk_id t)) (omap id (obj_tags o)) |}).

(** [Indicator(case_sensitive=..., ..., value=...)]: no id yet (0 stands
    for it), empty collections; both timestamps default to now. *)
Definition new_indicator (now : Z) (case_sensitive : bool)
  (confidence impact status : lookup_row) (substring : bool)
  (type : lookup_row) (user : user_row) (value : string) : indicator_obj :=
  {| obj_row :=
       {| ind_id := 0; case_sensitive := case_sensitive;
          substring := substring; ind_value := value;
          type_id := lk_id type; confidence_id := lk_id confidence;
          impact_id := lk_id impact; status_id := lk_id status;
          ind_user_id := user_id user; created_time := now;
          modified_time := now |};
     obj_campaigns := []; obj_references := []; obj_tags := [] |}.

Definition set_campaigns (cs : list (option campaign_row))
  (o : indicator_obj) : indicator_obj :=
  {| obj_row := obj_row o; obj_campaigns := cs;
     obj_references := obj_references o; obj_tags := obj_tags o |}.
Definition set_references (rs : list (option reference_row))
  (o : indicator_obj) : indicator_obj :=
  {| obj_row := obj_row o; obj_campaigns := obj_campaigns o;
     obj_references := rs; obj_tags := obj_tags o |}.
Definition set_tags (ts : list (option lookup_row)) (o : indicator_obj)
  : indicator_obj :=
  {| obj_row := obj_row o; obj_campaigns := obj_campaigns o;
     obj_references := obj_references o; obj_tags := ts |}.

Section Routes.

Variable cfg : config.
(** [get_apikey(request)]; [None] when it is empty. *)
Variable request_apikey : option string.
(** The clock, for the timestamps of a new row. *)
Variable now : Z.

(** "Verify the X": look [v] up, create it when the switch allows, fail
    with 404 otherwise. *)
Definition find_or_create (get : db -> list lookup_row)
  (set : list lookup_row -> db -> db) (auto_create : bool)
  (not_found : string) (v : string) : M db lookup_row :=
  let* found := query (fun d => by_value v (get d)) in
  match found with
  | Some r => ret r
  | None =>
      if auto_create then add_lookup get set v
      else error_response 404 (not_found +:+ v)
  end.

(** "Verify the X (has default)", for a key that is absent. *)
Definition default_of (get : db -> list lookup_row) (message : string)
  : M db lookup_row :=
  let* found := query (fun d => lowest_id (get d)) in
  match found with
  | Some r => ret r
  | None => error_response 400 message
  end.

Definition find_or_create_campaign (value : string) : M db campaign_row :=
  let* campaign := query (campaign_by_name value) in
  match campaign with
  | Some c => ret c
  | None =>
      if AUTO_CREATE_CAMPAIGN cfg then add_campaign value
      else error_response 404 ("Campaign not found: " +:+ value)
  end.

Definition find_or_create_source (value : string) : M db lookup_row :=
  let* source := query (fun d => by_value value (intel_sources d)) in
  match source with
  | Some s => ret s
  | None => add_lookup intel_sources with_intel_sources value
  end.

Definition find_or_create_reference (user : user_row) (item : reference_item)
  : M db reference_row :=
  let* reference :=
    query (reference_by_source (item_source item) (item_reference item)) in
  match reference with
  | Some r => ret r
  | None =>
      if AUTO_CREATE_INTELREFERENCE cfg then
        let* source := find_or_create_source (item_source item) in
        add_reference (item_reference item) source user
      else
        error_response 404
          ("Intel reference not found: " +:+ item_reference item)
  end.

Definition find_or_create_tag : string -> M db lookup_row :=
  find_or_create tags with_tags (AUTO_CREATE_TAG cfg) "Tag not found: ".

(** POST /indicators, up to and including [db.session.add(indicator)]. *)
Definition create_indicator (data : indicator_data) : M db indicator_obj :=
  (* Verify the user exists. *)
  let* user :=
    match data_username data with
    | Some u =>
        let* user := query (user_by_username u) in
        match user with
        | Some user => ret user
        | None => error_response 404 "User not found by username"
        end
    | None =>
        match request_apikey with
        | Some k =>
            let* user := query (user_by_apikey k) in
            match user with
            | Some user => ret user
            | None => error_response 404 "User not found by API key"
            end
        | None =>
            error_response 401 "You must supply either username or API key"
        end
    end in
  (* Verify the user is active. *)
  if negb (active user) then
    error_response 401 "Cannot create an indicator with an inactive user"
  else
  (* Verify the indicator type. *)
  let* indicator_type :=
    find_or_create indicator_types with_indicator_types
      (AUTO_CREATE_INDICATORTYPE cfg) "Indicator type not found: "
      (data_type data) in
  (* Verify the case-sensitive value (defaults to False). *)
  let case_sensitive := default false (data_case_sensitive data) in
  (* Verify this type+value does not already exist. *)
  let* existing :=
    query (if case_sensitive
           then existing_binary indicator_type (data_value data)
           else existing_lower indicator_type (data_value data)) in
  match existing with
  | Some _ =>
      if case_sensitive
      then error_response 409 "Case-sensitive indicator already exists"
      else error_response 409 "Case-insensitive indicator already exists"
  | None =>
  (* Verify the confidence, the impact and the status (they have defaults). *)
  let* confidence :=
    match data_confidence data with
    | None =>
        default_of indicator_confidences
          "No indicator confidence values exist to use as default"
    | Some v =>
        find_or_create indicator_confidences with_indicator_confidences
          (AUTO_CREATE_INDICATORCONFIDENCE cfg)
          "Indicator confidence not found: " v
    end in
  let* impact :=
    match data_impact data with
    | None =>
        default_of indicator_impacts
          "No indicator impact values exist to use as default"
    | Some v =>
        find_or_create indicator_impacts with_indicator_impacts
          (AUTO_CREATE_INDICATORIMPACT cfg) "Indicator impact not found: " v
    end in
  let* status :=
    match data_status data with
    | None =>
        default_of indicator_statuses
          "No indicator status values exist to use as default"
    | Some v =>
        find_or_create indicator_statuses with_indicator_statuses
          (AUTO_CREATE_INDICATORSTATUS cfg) "Indicator status not found: " v
    end in
  (* Verify the substring value (defaults to False). *)
  let substring := default false (data_substring data) in
  (* Create the indicator object. *)
  let indicator :=
    new_indicator now case_sensitive confidence impact status substring
      indicator_type user (data_value data) in
  (* Verify any campaign, reference and tag that was specified. *)
  let* campaigns :=
    for_each find_or_create_campaign (default [] (data_campaigns data)) in
  let* references :=
    for_each (find_or_create_reference user)
      (default [] (data_references data)) in
  let* tags := for_each find_or_create_tag (default [] (data_tags data)) in
  add_indicator
    (set_tags (map Some tags)
       (set_references (map Some references)
          (set_campaigns (map Some campaigns) indicator)))
  end.

(** What a request leaves behind: the response and the store.
    [db.session.commit()] publishes what was staged; a route that returns
    an error response never reaches it, and what it staged is dropped
    with the request's session. *)
Definition post_indicators (data : indicator_data) (d : db)
  : result indicator_obj * db :=
  match create_indicator data d with
  | (Ok indicator, staged) => (Ok indicator, staged)
  | (Error_response c msg, _) => (Error_response c msg, d)
  | (Raised e, _) => (Raised e, d)
  end.

(** *** POST /indicators/bulk *)

(** The request's cache of objects already looked up: one dict per kind,
    and the three defaults. *)
Record cache :=
  Build_cache
  { cache_usernames : gmap string user_row;
    cache_apikeys : gmap string user_row;
    cache_types : gmap string lookup_row;
    cache_confidences : gmap string lookup_row;
    cache_default_confidence : option lookup_row;
    cache_impacts : gmap string lookup_row;
    cache_default_impact : option lookup_row;
    cache_statuses : gmap string lookup_row;
    cache_default_status : option lookup_row;
    cache_campaigns : gmap string campaign_row;
    cache_references : gmap string reference_row;
    cache_sources : gmap string lookup_row;
    cache_tags : gmap string lookup_row }.

Definition empty_cache : cache :=
  Build_cache ∅ ∅ ∅ ∅ None ∅ None ∅ None ∅ ∅ ∅ ∅.

Definition set_usernames (m : gmap string user_row) (c : cache) : cache :=
  let 'Build_cache _ ak ty co dc im di st ds ca re so ta := c in
  Build_cache m ak ty co dc im di st ds ca re so ta.
Definition set_apikeys (m : gmap string user_row) (c : cache) : cache :=
  let 'Build_cache us _ ty co dc im di st ds ca re so ta := c in
  Build_cache us m ty co dc im di st ds ca re so ta.
Definition set_types (m : gmap string lookup_row) (c : cache) : cache :=
  let 'Build_cache us ak _ co dc im di st ds ca re so ta := c in
  Build_cache us ak m co dc im di st ds ca re so ta.
Definition set_confidences (m : gmap string lookup_row) (c : cache) : cache :=
  let 'Build_cache us ak ty _ dc im di st ds ca re so ta := c in
  Build_cache us ak ty m dc im di st ds ca re so ta.
Definition set_default_confidence (x : option lookup_row) (c : cache)
  : cache :=
  let 'Build_cache us ak ty co _ im di st ds ca re so ta := c in
  Build_cache us ak ty co x im di st ds ca re so ta.
Definition set_impacts (m : gmap string lookup_row) (c : cache) : cache :=
  let 'Build_cache us ak ty co dc _ di st ds ca re so ta := c in
  Build_cache us ak ty co dc m di st ds ca re so ta.
Definition set_default_impact (x : option lookup_row) (c : cache) : cache :=
  let 'Build_cache us ak ty co dc im _ st ds ca re so ta := c in
  Build_cache us ak ty co dc im x st ds ca re so ta.
Definition set_statuses (m : gmap string lookup_row) (c : cache) : cache :=
  let 'Build_cache us ak ty co dc im di _ ds ca re so ta := c in
  Build_cache us ak ty co dc im di m ds ca re so ta.
Definition set_default_status (x : option lookup_row) (c : cache) : cache :=
  let 'Build_cache us ak ty co dc im di st _ ca re so ta := c in
  Build_cache us ak ty co dc im di st x ca re so ta.
Definition set_cache_campaigns (m : gmap string campaign_row) (c : cache)
  : cache :=
  let 'Build_cache us ak ty co dc im di st ds _ re so ta := c in
  Build_cache us ak ty co dc im di st ds m re so ta.
Definition set_cache_references (m : gmap string reference_row) (c : cache)
  : cache :=
  let 'Build_cache us ak ty co dc im di st ds ca _ so ta := c in
  Build_cache us ak ty co dc im di st ds ca m so ta.
Definition set_sources (m : gmap string lookup_row) (c : cache) : cache :=
  let 'Build_cache us ak ty co dc im di st ds ca re _ ta := c in
  Build_cache us ak ty co dc im di st ds ca re m ta.
Definition set_cache_tags (m : gmap string lookup_row) (c : cache) : cache :=
  let 'Build_cache us ak ty co dc im di st ds ca re so _ := c in
  Build_cache us ak ty co dc im di st ds ca re so m.

(** The bulk route runs on the cache and the session together. *)
Definition bulk (A : Type) : Type := M (cache * db) A.

Definition on_session {A} (m : M db A) : bulk A :=
  fun '(c, s) => let '(r, s') := m s in (r, (c, s')).

Definition get_cache : bulk cache := fun '(c, s) => (Ok c, (c, s)).

Definition update_cache (f : cache -> cache) : bulk unit :=
  fun '(c, s) => (Ok tt, (f c, s)).

(** [if key in cache[kind]: x = cache[kind][key]
     else: x = ...; cache[kind][key] = x]. *)
Definition cached {A} (get : cache -> gmap string A)
  (set : gmap string A -> cache -> cache) (key : string) (compute : bulk A)
  : bulk A :=
  let* c := get_cache in
  match get c !! key with
  | Some x => ret x
  | None =>
      let* x := compute in
      let* _ := update_cache (fun c => set (<[key := x]> (get c)) c) in
      ret x
  end.

(** [if cache[default]: x = cache[default]
     else: x = ...; cache[default] = x]. *)
Definition cached_default (get : cache -> option lookup_row)
  (set : option lookup_row -> cache -> cache) (compute : bulk lookup_row)
  : bulk lookup_row :=
  let* c := get_cache in
  match get c with
  | Some x => ret x
  | None =>
      let* x := compute in
      let* _ := update_cache (set (Some x)) in
      ret x
  end.

Definition first_or {A} (found : option A) (status : Z) (message : string)
  : bulk A :=
  match found with
  | Some x => ret x
  | None => error_response status message
  end.

(** The body of the loop for one item: [Some indicator] when the item was
    staged, [None] when the loop went on to the next item ([continue]). *)
Definition create_indicators_item (data : indicator_data)
  : bulk (option indicator_obj) :=
  (* Verify the user exists. *)
  let* user :=
    match data_username data with
    | Some u =>
        cached cache_usernames set_usernames u
          (let* user := on_session (query (user_by_username u)) in
           first_or user 404 "User not found by username")
    | None =>
        match request_apikey with
        | Some k =>
            cached cache_apikeys set_apikeys k
              (let* user := on_session (query (user_by_apikey k)) in
               first_or user 404 "User not found by API key")
        | None =>
            error_response 401 "You must supply either username or API key"
        end
    end in
  (* Verify the user is active. *)
  if negb (active user) then
    error_response 401 "Cannot create an indicator with an inactive user"
  else
  (* Check the cache for this indicator type. *)
  let* indicator_type :=
    cached cache_types set_types (data_type data)
      (on_session
         (find_or_create indicator_types with_indicator_types
            (AUTO_CREATE_INDICATORTYPE cfg) "Indicator type not found: "
            (data_type data))) in
  let case_sensitive := default false (data_case_sensitive data) in
  (* Verify this type+value does not already exist. *)
  let* existing :=
    on_session
      (query (if case_sensitive
              then existing_binary indicator_type (data_value data)
              else existing_lower indicator_type (data_value data))) in
  match existing with
  | Some _ => ret None
  | None =>
  let* confidence :=
    match data_confidence data with
    | None =>
        cached_default cache_default_confidence set_default_confidence
          (on_session
             (default_of indicator_confidences
                "No indicator confidence values exist to use as default"))
    | Some v =>
        cached cache_confidences set_confidences v
          (on_session
             (find_or_create indicator_confidences with_indicator_confidences
                (AUTO_CREATE_INDICATORCONFIDENCE cfg)
                "Indicator confidence not found: " v))
    end in
  let* impact :=
    match data_impact data with
    | None =>
        cached_default cache_default_impact set_default_impact
          (on_session
             (default_of indicator_impacts
                "No indicator impact values exist to use as default"))
    | Some v =>
        cached cache_impacts set_impacts v
          (on_session
             (find_or_create indicator_impacts with_indicator_impacts
                (AUTO_CREATE_INDICATORIMPACT cfg)
                "Indicator impact not found: " v))
    end in
  let* status :=
    match data_status data with
    | None =>
        cached_default cache_default_status set_default_status
          (on_session
             (default_of indicator_statuses
                "No indicator status values exist to use as default"))
    | Some v =>
        cached cache_statuses set_statuses v
          (on_session
             (find_or_create indicator_statuses with_indicator_statuses
                (AUTO_CREATE_INDICATORSTATUS cfg)
                "Indicator status not found: " v))
    end in
  let substring := default false (data_substring data) in
  let indicator :=
    new_indicator now case_sensitive confidence impact status substring
      indicator_type user (data_value data) in
  let* campaigns :=
    for_each
      (fun value =>
         cached cache_campaigns set_cache_campaigns value
           (on_session (find_or_create_campaign value)))
      (default [] (data_campaigns data)) in
  let* references :=
    for_each
      (fun item =>
         cached cache_references set_cache_references
           (item_source item +:+ item_reference item)
           (let* reference :=
              on_session
                (query (reference_by_source (item_source item)
                          (item_reference item))) in
            match reference with
            | Some r => ret r
            | None =>
                if AUTO_CREATE_INTELREFERENCE cfg then
                  let* source :=
                    cached cache_sources set_sources (item_source item)
                      (on_session (find_or_create_source (item_source item)))
                  in
                  on_session
                    (add_reference (item_reference item) source user)
                else
                  error_response 404
                    ("Intel reference not found: " +:+ item_reference item)
            end))
      (default [] (data_references data)) in
  let* tags :=
    for_each
      (fun value =>
         cached cache_tags set_cache_tags value
           (on_session (find_or_create_tag value)))
      (default [] (data_tags data)) in
  let* added :=
    on_session
      (add_indicator
         (set_tags (map Some tags)
            (set_references (map Some references)
               (set_campaigns (map Some campaigns) indicator)))) in
  ret (Some added)
  end.

(** [for data in request.get_json()['indicators']: ...]. *)
Definition create_indicators (items : list indicator_data)
  : bulk (list (option indicator_obj)) :=
  for_each create_indicators_item items.

(** The response of the bulk route and the store it leaves: 204 and the
    staged rows committed, or the error response and nothing written. *)
Definition post_indicators_bulk (items : list indicator_data) (d : db)
  : result Z * db :=
  match create_indicators items (empty_cache, d) with
  | (Ok _, (_, staged)) => (Ok 204, staged)
  | (Error_response c msg, _) => (Error_response c msg, d)
  | (Raised e, _) => (Raised e, d)
  end.

(** *** PUT /indicators/<indicator_id> *)

(** A JSON scalar handed to [parse_boolean]. *)
Inductive json_scalar := J_bool (b : bool) | J_string (s : string).

Variable parse_boolean : json_scalar -> bool -> bool.

(** [Indicator.modified_time] is declared in [project.models] and set by
    the store when the row is updated: the time written for an indicator
    that was loaded as [before] and is flushed as [after]. *)
Variable modified_on_update : indicator_obj -> indicator_obj -> Z.

(** A JSON body that passed [indicator_update]: every key may be absent. *)
Record update_data :=
  { upd_campaigns : option (list string);
    upd_case_sensitive : option json_scalar;
    upd_confidence : option string;
    upd_impact : option string;
    upd_references : option (list reference_item);
    upd_status : option string;
    upd_substring : option json_scalar;
    upd_tags : option (list string);
    upd_username : option string }.

(** The objects an indicator's collection holds: the rows its association
    rows point to. *)
Definition related {A} (assoc : list assoc_row) (rows : list A)
  (row_id : A -> Z) (i : Z) : list (option A) :=
  flat_map
    (fun a =>
       if a_indicator_id a =? i
       then map Some (List.filter (fun r => row_id r =? a_other_id a) rows)
       else [])
    assoc.

(** [Indicator.query.get(indicator_id)]. *)
Definition get_indicator (i : Z) (d : db) : option indicator_obj :=
  match List.find (fun r => ind_id r =? i) (indicators d) with
  | None => None
  | Some r =>
      Some {| obj_row := r;
              obj_campaigns :=
                related (campaign_assoc d) (campaigns d) campaign_id i;
              obj_references :=
                related (reference_assoc d) (intel_references d) ref_id i;
              obj_tags := related (tag_assoc d) (tags d) lk_id i |}
  end.

Definition set_row (f : indicator_row -> indicator_row) (o : indicator_obj)
  : indicator_obj :=
  {| obj_row := f (obj_row o); obj_campaigns := obj_campaigns o;
     obj_references := obj_references o; obj_tags := obj_tags o |}.

Definition with_case_sensitive (b : bool) (r : indicator_row)
  : indicator_row :=
  {| ind_id := ind_id r; case_sensitive := b; substring := substring r;
     ind_value := ind_value r; type_id := type_id r;
     confidence_id := confidence_id r; impact_id := impact_id r;
     status_id := status_id r; ind_user_id := ind_user_id r;
     created_time := created_time r; modified_time := modified_time r |}.
Definition with_substring (b : bool) (r : indicator_row) : indicator_row :=
  {| ind_id := ind_id r; case_sensitive := case_sensitive r; substring := b;
     ind_value := ind_value r; type_id := type_id r;
     confidence_id := confidence_id r; impact_id := impact_id r;
     status_id := status_id r; ind_user_id := ind_user_id r;
     created_time := created_time r; modified_time := modified_time r |}.
Definition with_confidence (x : lookup_row) (r : indicator_row)
  : indicator_row :=
  {| ind_id := ind_id r; case_sensitive := case_sensitive r;
     substring := substring r; ind_value := ind_value r;
     type_id := type_id r; confidence_id := lk_id x;
     impact_id := impact_id r; status_id := status_id r;
     ind_user_id := ind_user_id r; created_time := created_time r;
     modified_time := modified_time r |}.
Definition with_impact (x : lookup_row) (r : indicator_row) : indicator_row :=
  {| ind_id := ind_id r; case_sensitive := case_sensitive r;
     substring := substring r; ind_value := ind_value r;
     type_id := type_id r; confidence_id := confidence_id r;
     impact_id := lk_id x; status_id := status_id r;
     ind_user_id := ind_user_id r; created_time := created_time r;
     modified_time := modified_time r |}.
Definition with_status (x : lookup_row) (r : indicator_row) : indicator_row :=
  {| ind_id := ind_id r; case_sensitive := case_sensitive r;
     substring := substring r; ind_value := ind_value r;
     type_id := type_id r; confidence_id := confidence_id r;
     impact_id := impact_id r; status_id := lk_id x;
     ind_user_id := ind_user_id r; created_time := created_time r;
     modified_time := modified_time r |}.
Definition with_user (u : user_row) (r : indicator_row) : indicator_row :=
  {| ind_id := ind_id r; case_sensitive := case_sensitive r;
     substring := substring r; ind_value := ind_value r;
     type_id := type_id r; confidence_id := confidence_id r;
     impact_id := impact_id r; status_id := status_id r;
     ind_user_id := user_id u; created_time := created_time r;
     modified_time := modified_time r |}.

Definition with_modified_time (t : Z) (r : indicator_row) : indicator_row :=
  {| ind_id := ind_id r; case_sensitive := case_sensitive r;
     substring := substring r; ind_value := ind_value r;
     type_id := type_id r; confidence_id := confidence_id r;
     impact_id := impact_id r; status_id := status_id r;
     ind_user_id := ind_user_id r; created_time := created_time r;
     modified_time := t |}.

(** *** The session of an update *)

Definition is_none {A} (x : option A) : bool :=
  match x with
  | None => true
  | Some _ => false
  end.

(** One of the collections of the object holds [None]. *)
Definition holds_none (o : indicator_obj) : bool :=
  existsb is_none (obj_campaigns o) || existsb is_none (obj_references o)
  || existsb is_none (obj_tags o).

(** The session flushes the indicator it holds before each query and
    when it commits.  A collection that holds [None] cannot be flushed:
    the session raises [FlushError].  What a flush writes are the row of
    the indicator and the rows of its associations, which no query of
    the route reads; the model writes them once, at the commit. *)
Definition flush (indicator : indicator_obj) : M db unit :=
  if holds_none indicator then raise FlushError else ret tt.

(** [X.query. ... .first()] while the session holds [indicator]. *)
Definition session_query {A} (indicator : indicator_obj) (f : db -> A)
  : M db A :=
  let* _ := flush indicator in
  query f.

(** The association rows of indicator [i] after one of its collections
    was assigned: the rows of the other indicators, and one row for each
    object of the collection. *)
Definition replace_links (i : Z) (others : list Z) (assoc : list assoc_row)
  : list assoc_row :=
  List.filter (fun a => negb (a_indicator_id a =? i)) assoc
  ++ map (fun x => {| a_indicator_id := i; a_other_id := x |}) others.

(** The store with the indicator written: its row replaces the row with
    its id, and the association rows of each collection that is not the
    one that was loaded are replaced. *)
Definition store_indicator (before after : indicator_obj) (s : db) : db :=
  let i := ind_id (obj_row after) in
  {| indicators :=
       map (fun r => if ind_id r =? i then obj_row after else r)
         (indicators s);
     indicator_types := indicator_types s;
     indicator_confidences := indicator_confidences s;
     indicator_impacts := indicator_impacts s;
     indicator_statuses := indicator_statuses s;
     intel_references := intel_references s;
     intel_sources := intel_sources s; tags := tags s; users := users s;
     campaigns := campaigns s;
     campaign_assoc :=
       if decide (obj_campaigns after = obj_campaigns before)
       then campaign_assoc s
       else replace_links i (map campaign_id (omap id (obj_campaigns after)))
              (campaign_assoc s);
     reference_assoc :=
       if decide (obj_references after = obj_references before)
       then reference_assoc s
       else replace_links i (map ref_id (omap id (obj_references after)))
              (reference_assoc s);
     tag_assoc :=
       if decide (obj_tags after = obj_tags before)
       then tag_assoc s
       else replace_links i (map lk_id (omap id (obj_tags after)))
              (tag_assoc s) |}.

(** [db.session.commit()]: the last flush, which writes the indicator
    with the modification time the store gives it.  The object the route
    serializes afterwards is the one that was written. *)
Definition commit (before indicator : indicator_obj) : M db indicator_obj :=
  let* _ := flush indicator in
  fun s =>
    let written :=
      set_row (with_modified_time (modified_on_update before indicator))
        indicator in
    (Ok written, store_indicator before written s).

(** [if valid: indicator.collection = valid]. *)
Definition assign_if_any {A} (set : list A -> indicator_obj -> indicator_obj)
  (valid : list A) (o : indicator_obj) : indicator_obj :=
  match valid with
  | [] => o
  | _ => set valid o
  end.

(** The update route.  In the campaigns and tags loops the route calls
    [error_response] without returning its value, so the loop goes on and
    appends what the query gave, [None] included. *)
Definition update_indicator (indicator_id : Z) (data : update_data)
  : M db indicator_obj :=
  (* Verify the ID exists. *)
  let* found := query (get_indicator indicator_id) in
  match found with
  | None => error_response 404 "Indicator ID not found"
  | Some loaded =>
  let indicator := loaded in
  (* Verify campaigns if it was specified. *)
  let* indicator :=
    match upd_campaigns data with
    | Some values =>
        let* valid_campaigns :=
          for_each
            (fun value => session_query indicator (campaign_by_name value))
            values in
        ret (assign_if_any set_campaigns valid_campaigns indicator)
    | None => ret indicator
    end in
  (* Verify case_sensitive if it was specified. *)
  let indicator :=
    match upd_case_sensitive data with
    | Some v => set_row (with_case_sensitive (parse_boolean v false)) indicator
    | None => indicator
    end in
  (* Verify confidence if it was specified. *)
  let* indicator :=
    match upd_confidence data with
    | Some v =>
        let* confidence :=
          session_query indicator
            (fun d => by_value v (indicator_confidences d)) in
        match confidence with
        | None => error_response 404 ("Indicator confidence not found: " +:+ v)
        | Some c => ret (set_row (with_confidence c) indicator)
        end
    | None => ret indicator
    end in
  (* Verify impact if it was specified. *)
  let* indicator :=
    match upd_impact data with
    | Some v =>
        let* impact :=
          session_query indicator
            (fun d => by_value v (indicator_impacts d)) in
        match impact with
        | None => error_response 404 ("Indicator impact not found: " +:+ v)
        | Some c => ret (set_row (with_impact c) indicator)
        end
    | None => ret indicator
    end in
  (* Verify any references that were specified. *)
  let* indicator :=
    match upd_references data with
    | Some items =>
        let* valid_references :=
          for_each
            (fun item =>
               let* reference :=
                 session_query indicator
                   (reference_by_source (item_source item)
                      (item_reference item)) in
               match reference with
               | None =>
                   error_response 404
                     ("Intel reference not found: " +:+ item_reference item)
               | Some r => ret (Some r)
               end)
            items in
        ret (assign_if_any set_references valid_references indicator)
    | None => ret indicator
    end in
  (* Verify status if it was specified. *)
  let* indicator :=
    match upd_status data with
    | Some v =>
        let* status :=
          session_query indicator
            (fun d => by_value v (indicator_statuses d)) in
        match status with
        | None => error_response 404 ("Indicator status not found: " +:+ v)
        | Some c => ret (set_row (with_status c) indicator)
        end
    | None => ret indicator
    end in
  (* Verify substring if it was specified. *)
  let indicator :=
    match upd_substring data with
    | Some v => set_row (with_substring (parse_boolean v false)) indicator
    | None => indicator
    end in
  (* Verify tags if it was specified. *)
  let* indicator :=
    match upd_tags data with
    | Some values =>
        let* valid_tags :=
          for_each
            (fun value =>
               session_query indicator (fun d => by_value value (tags d)))
            values in
        ret (assign_if_any set_tags valid_tags indicator)
    | None => ret indicator
    end in
  (* Verify username if one was specified. *)
  let* indicator :=
    match upd_username data with
    | Some u =>
        let* user := session_query indicator (user_by_username u) in
        match user with
        | None => error_response 404 ("User username not found: " +:+ u)
        | Some user =>
            if negb (active user) then
              error_response 401
                "Cannot update an indicator with an inactive user"
            else ret (set_row (with_user user) indicator)
        end
    | None => ret indicator
    end in
  commit loaded indicator
  end.

(** The response and the store the request leaves: the indicator as
    written and the store with it, or the error response or exception
    and nothing written. *)
Definition put_indicator (indicator_id : Z) (data : update_data) (d : db)
  : result indicator_obj * db :=
  match update_indicator indicator_id data d with
  | (Ok indicator, committed) => (Ok indicator, committed)
  | (Error_response c msg, _) => (Error_response c msg, d)
  | (Raised e, _) => (Raised e, d)
  end.

(** *** POST /intel/reference *)

(** [request.values]: the form fields of the request. *)
Record reference_form :=
  { form_reference : option string;
    form_source : option string;
    form_username : option string }.

(** [IntelReference.query.filter_by(reference=r, source=source).first()]. *)
Definition reference_of_source (ref : string) (source : lookup_row) (d : db)
  : option reference_row :=
  List.find
    (fun r => String.eqb (reference r) ref &&
              (ref_source_id r =? lk_id source))
    (intel_references d).

Definition create_intel_reference (data : reference_form)
  : M db reference_row :=
  (* Verify the required fields are present. *)
  match form_reference data, form_source data, form_username data with
  | Some ref, Some src, Some u =>
      (* Verify the source already exists. *)
      let* source := query (fun d => by_value src (intel_sources d)) in
      match source with
      | None => error_response 400 "Intel source not found"
      | Some source =>
          (* Verify this reference does not already exist. *)
          let* existing := query (reference_of_source ref source) in
          match existing with
          | Some _ => error_response 409 "Intel reference already exists"
          | None =>
              (* Verify the user exists. *)
              let* user := query (user_by_username u) in
              match user with
              | Some user => add_reference ref source user
              | None => error_response 401 "API username does not exist"
              end
          end
      end
  | _, _, _ =>
      error_response 400 "Request must include: reference, source, username"
  end.

(** The response (201 with the new reference, or the error) and the store
    the request leaves. *)
Definition post_intel_reference (data : reference_form) (d : db)
  : result reference_row * db :=
  match create_intel_reference data d with
  | (Ok r, staged) => (Ok r, staged)
  | (Error_response c msg, _) => (Error_response c msg, d)
  | (Raised e, _) => (Raised e, d)
  end.

End Routes.

End Ingest.

(* ===================================================================== *)
(** ** Definitions used to state the properties *)
(* ===================================================================== *)

Module Props.
Import Schema Sql Listing.

(** [step p q]: from [p] to [q] the planner only appended filters and
    HAVING clauses, never cleared the grouping flag, and set it if it
    appended a HAVING clause. *)
Definition step (p q : planner) : Prop :=
  (exists fs, filters q = filters p ++ fs) /\
  (exists hs, having q = having p ++ hs /\ (hs <> [] -> groupby q = true)) /\
  (groupby p = true -> groupby q = true).

(** The name under which the route records a table in [already_joined]
    and [already_outerjoined]. *)
Definition table_name (t : table) : string :=
  match t with
  | Indicator => "Indicator"
  | IndicatorType => "IndicatorType"
  | IndicatorConfidence => "IndicatorConfidence"
  | IndicatorImpact => "IndicatorImpact"
  | IndicatorStatus => "IndicatorStatus"
  | IntelReference => "IntelReference"
  | IntelSource => "IntelSource"
  | Tag => "Tag"
  | User => "User"
  | Campaign => "Campaign"
  | indicator_campaign_association => "indicator_campaign_association"
  | indicator_reference_association => "indicator_reference_association"
  | indicator_tag_association => "indicator_tag_association"
  end.

(** The two sets record the joins of the FROM expression, inner joins in
    one and outer joins in the other, and no join of a kind is there
    twice. *)
Definition joins_recorded (p : planner) : Prop :=
  NoDup (joined (join p)) /\
  forall o t,
    In (o, t) (joined (join p)) ->
    (o = false /\ t = Indicator) \/
    (t <> Indicator /\
     table_name t ∈ (if o then already_outerjoined p else already_joined p)).

(** The grouped, id-selecting statement that the count branch wraps. *)
Definition grouped_ids (p : planner) : select :=
  Mk_select [Item Indicator_id] (From_join (join p)) (filters p)
    [Indicator_id] (having p) [].

(** The rows that pass WHERE, and the groups that pass HAVING for a
    statement grouped by the indicator's id. *)
Definition kept_rows (d : db) (p : planner) (rows : list env) : list env :=
  List.filter
    (fun e => forallb (fun w => is_true3 (eval d e w)) (filters p)) rows.

Definition passed_groups (d : db) (p : planner) (rows : list env)
  : list (list env) :=
  List.filter
    (fun g => forallb (fun h => is_true3 (eval_having d g h)) (having p))
    (group_rows (fun e => map (col_value e) [Indicator_id])
       (kept_rows d p rows)).

(** The four date parameters: key, [ignoretz] as the route passes it, the
    sentinel of the except branch, and the clause for a bound date. *)
Inductive date_param :=
| created_after | created_before | modified_after | modified_before.

Definition date_key (k : date_param) : string :=
  match k with
  | created_after => "created_after"
  | created_before => "created_before"
  | modified_after => "modified_after"
  | modified_before => "modified_before"
  end.

Definition date_ignoretz (k : date_param) : bool :=
  match k with
  | created_after | created_before => true
  | modified_after | modified_before => false
  end.


Definition date_clause (k : date_param) (d : pydate) : clause :=
  match k with
  | created_after => Binary op_lt (Bind_date d) (Col Indicator_created_time)
  | created_before => Binary op_lt (Col Indicator_created_time) (Bind_date d)
  | modified_after => Binary op_lt (Bind_date d) (Col Indicator_modified_time)
  | modified_before =>
      Binary op_lt (Col Indicator_modified_time) (Bind_date d)
  end.









(** A disjunction of equalities against the comma-separated pieces of
    [v], taken as they are. *)
Definition types_clause (v : string) : clause :=
  match Py.split "," v with
  | [t] => Equals IndicatorType_value t
  | ts => Or_ (map (Equals IndicatorType_value) ts)
  end.

(** *** What the listing returns *)

(** Indicator [i] has a tag with value [v]. *)
Definition has_tag (d : db) (i : indicator_row) (v : string) : bool :=
  existsb
    (fun a =>
       existsb
         (fun t =>
            (a_indicator_id a =? ind_id i) && (a_other_id a =? lk_id t) &&
            String.eqb (lk_value t) v)
         (tags d))
    (tag_assoc d).

(** The value of the type of indicator [i]. *)
Definition type_value (d : db) (i : indicator_row) : value :=
  match List.find (fun t => lk_id t =? type_id i) (indicator_types d) with
  | Some t => VStr (lk_value t)
  | None => VNull
  end.

(** The element of the list for indicator [i]. *)
Definition entry_of (d : db) (i : indicator_row) : entry :=
  {| id := VInt (ind_id i); type := type_value d i;
     value_ := VStr (ind_value i) |}.

(** The keys of the store the listing relies on: indicator ids and type
    ids are unique, and every indicator's type exists. *)
Definition consistent (d : db) : bool :=
  bool_decide (NoDup (map ind_id (indicators d))) &&
  bool_decide (NoDup (map lk_id (indicator_types d))) &&
  forallb
    (fun i => existsb (fun t => lk_id t =? type_id i) (indicator_types d))
    (indicators d).

(** The element of the list read off a row. *)
Definition entry_of_env (e : env) : entry :=
  {| id := col_value e Indicator_id;
     type := col_value e IndicatorType_value;
     value_ := col_value e Indicator_value |}.

(** A row stands on indicator [i]: it binds [Indicator] to [i] and
    [IndicatorType] to a type row with the id that [i] refers to. *)
Definition stands_on (d : db) (e : env) (i : indicator_row) : Prop :=
  In i (indicators d) /\
  env_lookup Indicator e = Some (Some (indicator_tuple i)) /\
  exists t, In t (indicator_types d) /\ lk_id t = type_id i /\
            env_lookup IndicatorType e = Some (Some (lookup_tuple t)).

(** The rows of a list of rows that belong to indicator [i]. *)
Definition rows_of (i : indicator_row) (rows : list env) : list env :=
  List.filter
    (fun e => bool_decide (map (col_value e) [Indicator_id]
                           = [VInt (ind_id i)]))
    rows.

End Props.

(* ===================================================================== *)
(** ** A small store and requests, for the examples *)
(* ===================================================================== *)

Module Sample.
Import Schema Sql Listing.

Definition parse_boolean (s : string) (default : option bool) : option bool :=
  if String.eqb s "true" then Some true
  else if String.eqb s "false" then Some false
  else default.

(** Reads the year 2019 and nothing else. *)
Definition parse (s : string) (ignoretz : bool) : parse_result :=
  if String.eqb s "2019" then Parsed 63681552000 else ValueError.

Definition indicator (i : Z) (v : string) (t : Z) : indicator_row :=
  {| ind_id := i; case_sensitive := false; substring := false;
     ind_value := v; type_id := t; confidence_id := 1; impact_id := 1;
     status_id := 1; ind_user_id := 1; created_time := 63700000000;
     modified_time := 63700000000 |}.

Definition link (i o : Z) : assoc_row :=
  {| a_indicator_id := i; a_other_id := o |}.

(** Three indicators: 1 has tags a and b and references from sources A
    and B, 2 has tag a and a reference from source A, 3 has nothing.
    User 2 is inactive. *)
Definition store : db :=
  {| indicators :=
       [indicator 3 "c.com" 1; indicator 1 "1.2.3.4" 1;
        indicator 2 "b.com" 2];
     indicator_types :=
       [{| lk_id := 1; lk_value := "IP" |};
        {| lk_id := 2; lk_value := "FQDN" |}];
     indicator_confidences := [{| lk_id := 1; lk_value := "LOW" |}];
     indicator_impacts := [{| lk_id := 1; lk_value := "LOW" |}];
     indicator_statuses := [{| lk_id := 1; lk_value := "NEW" |}];
     intel_references :=
       [{| ref_id := 1; reference := "r1"; ref_source_id := 1;
           ref_user_id := 1 |};
        {| ref_id := 2; reference := "r2"; ref_source_id := 2;
           ref_user_id := 1 |}];
     intel_sources :=
       [{| lk_id := 1; lk_value := "A" |}; {| lk_id := 2; lk_value := "B" |}];
     tags :=
       [{| lk_id := 1; lk_value := "a" |}; {| lk_id := 2; lk_value := "b" |}];
     users :=
       [{| user_id := 1; username := "analyst"; apikey := "k1";
           active := true |};
        {| user_id := 2; username := "retired"; apikey := "k2";
           active := false |}];
     campaigns := [{| campaign_id := 1; campaign_name := "LOLcats" |}];
     campaign_assoc := [];
     reference_assoc := [link 1 1; link 1 2; link 2 1];
     tag_assoc := [link 1 1; link 1 2; link 2 1] |}.

End Sample.

Module ShapeDefs.
Import Schema Sql Listing Props.

(** Whether the store accepts a FROM expression: no table named twice,
    and an ON clause for every join. *)
Fixpoint accepted (j : from_expr) : bool :=
  match j with
  | From_table _ => true
  | Join l r onclause _ =>
      accepted l && negb (bool_decide (r ∈ names l)) &&
      match onclause with
      | Some _ => true
      | None => bool_decide (is_Some (infer_onclause (names l) r))
      end
  end.

Definition present (a : args) (k : string) : bool :=
  match arg k a with Some _ => true | None => false end.

(** A query string asks for no table both ways: it does not combine
    [no_references] with a filter on references, nor [no_tags] or
    [not_tags] with [tags].  [pr] tells which keys are present. *)
Definition conflict_free_keys (pr : string -> bool) : bool :=
  negb (pr "no_references" &&
        (pr "not_sources" || pr "not_users" || pr "reference" ||
         pr "sources" || pr "user" || pr "users"))%string &&
  negb ((pr "no_tags" || pr "not_tags") && pr "tags")%string.

Definition conflict_free (a : args) : bool := conflict_free_keys (present a).

(** The keys whose presence decides the FROM expression. *)
Definition join_keys : list string :=
  [ "confidence"; "impact"; "no_campaigns"; "no_references"; "no_tags";
    "not_sources"; "not_tags"; "not_users"; "reference"; "sources";
    "status"; "tags"; "user"; "users" ]%string.

Fixpoint sublists {A} (l : list A) : list (list A) :=
  match l with
  | [] => [[]]
  | x :: l' => map (cons x) (sublists l') ++ sublists l'
  end.

Definition keys_of (ks : list string) (k : string) : bool :=
  bool_decide (k ∈ ks).

(** What is checked of the FROM expression [j] of a request whose present
    keys are [pr]: the store accepts it exactly when the keys are
    conflict-free; no join of one kind is there twice; the exclusion and
    inclusion filters on sources, users and tags inner-join the table
    they compare; [no_tags] and [not_tags] outer-join the tag
    association. *)
Definition shape_checks (pr : string -> bool) (j : from_expr) : bool :=
  Bool.eqb (accepted j) (conflict_free_keys pr) &&
  bool_decide (NoDup (joined j)) &&
  implb (pr "not_sources" || pr "sources")%string
        (bool_decide ((false, IntelSource) ∈ joined j)) &&
  implb (pr "not_users" || pr "user" || pr "users")%string
        (bool_decide ((false, User) ∈ joined j)) &&
  implb (pr "tags")%string
        (bool_decide ((false, indicator_tag_association) ∈ joined j) &&
         bool_decide ((false, Tag) ∈ joined j)) &&
  implb (pr "no_tags" || pr "not_tags")%string
        (bool_decide ((true, indicator_tag_association) ∈ joined j)).

(** The sets hold exactly the names of the tables joined so far, inner
    joins in one and outer joins in the other. *)
Definition sets_mirror_joins (p : planner) : Prop :=
  forall t,
    (t <> Indicator ->
     (table_name t ∈ already_joined p <-> In (false, t) (joined (join p)))) /\
    (table_name t ∈ already_outerjoined p <-> In (true, t) (joined (join p))).

(** The FROM expression of the plan, computed from the expression alone:
    a join is added when the expression does not hold it yet. *)
Definition add_join (t : table) (oc : option clause) (j : from_expr)
  : from_expr :=
  if bool_decide ((false, t) ∈ joined j) then j else db_join j t oc.

Definition add_outerjoin (t : table) (j : from_expr) : from_expr :=
  if bool_decide ((true, t) ∈ joined j) then j else db_outerjoin j t.

Definition when (b : bool) (f : from_expr -> from_expr) (j : from_expr)
  : from_expr := if b then f j else j.

Definition add_reference_joins (last : from_expr -> from_expr)
  (j : from_expr) : from_expr :=
  last
    (add_join IntelReference
       (Some (On reference_association_intel_reference_id IntelReference_id))
       (add_join indicator_reference_association None j)).

Definition add_IntelSource : from_expr -> from_expr :=
  add_join IntelSource
    (Some (On IntelReference_intel_source_id IntelSource_id)).

Definition add_User : from_expr -> from_expr :=
  add_join User (Some (On IntelReference_user_id User_id)).

Definition shape_blocks (pr : string -> bool)
  : list (from_expr -> from_expr) :=
  [ (fun j => j);
    when (pr "confidence")
      (add_join IndicatorConfidence
         (Some (On Indicator_confidence_id IndicatorConfidence_id)));
    (fun j => j); (fun j => j); (fun j => j);
    when (pr "impact")
      (add_join IndicatorImpact
         (Some (On Indicator_impact_id IndicatorImpact_id)));
    (fun j => j); (fun j => j);
    when (pr "no_campaigns") (add_outerjoin indicator_campaign_association);
    when (pr "no_references") (add_outerjoin indicator_reference_association);
    when (pr "no_tags") (add_outerjoin indicator_tag_association);
    when (pr "not_sources") (add_reference_joins add_IntelSource);
    when (pr "not_tags") (add_outerjoin indicator_tag_association);
    when (pr "not_users") (add_reference_joins add_User);
    when (pr "reference") (add_join indicator_reference_association None);
    when (pr "sources") (add_reference_joins add_IntelSource);
    when (pr "status")
      (add_join IndicatorStatus
         (Some (On Indicator_status_id IndicatorStatus_id)));
    (fun j => j);
    when (pr "tags")
      (fun j =>
         add_join Tag (Some (On tag_association_tag_id Tag_id))
           (add_join indicator_tag_association None j));
    (fun j => j); (fun j => j);
    when (pr "user") (add_reference_joins add_User);
    when (pr "users") (add_reference_joins add_User);
    (fun j => j) ]%string.

Definition shape (pr : string -> bool) : from_expr :=
  fold_left (fun j b => b j) (shape_blocks pr) (join initial).

(** [mirrors b m]: the block [b] does to the planner's FROM expression
    what [m] does to an expression, and keeps the sets in step. *)
Definition mirrors (b : planner -> planner) (m : from_expr -> from_expr)
  : Prop :=
  forall p, sets_mirror_joins p ->
            sets_mirror_joins (b p) /\ join (b p) = m (join p).

End ShapeDefs.


Module RowDefs.
Import Schema Sql Listing Props.

(** The rows a join adds to one row [e] of its left side. *)
Definition joined_with (d : db) (r : table) (c : clause) (isouter : bool)
  (e : env) : list env :=
  match
    List.filter (fun t => is_true3 (eval d ((r, Some t) :: e) c))
      (table_rows d r)
  with
  | [] => if isouter then [(r, None) :: e] else []
  | ts => map (fun t => (r, Some t) :: e) ts
  end.

(** The row of an indicator and its type. *)
Definition base_env (i : indicator_row) (t : lookup_row) : env :=
  [(IndicatorType, Some (lookup_tuple t)); (Indicator, Some (indicator_tuple i))].

(** The row of an indicator, its type, one of its tag associations and
    the tag. *)
Definition tag_env (i : indicator_row) (t : lookup_row) (l : assoc_row)
  (tg : lookup_row) : env :=
  (Tag, Some (lookup_tuple tg))
  :: (indicator_tag_association, Some (assoc_tuple f_tag_id l))
  :: base_env i t.

Definition tags_join : from_expr :=
  db_join (db_join (join initial) indicator_tag_association None) Tag
    (Some (On tag_association_tag_id Tag_id)).

Definition not_tags_join : from_expr :=
  db_outerjoin (join initial) indicator_tag_association.

End RowDefs.

(* ===================================================================== *)
(** ** Vocabulary for the statements about the write routes *)
(* ===================================================================== *)

Module IngestProps.
Import Schema Ingest.

(** The user a creation request names: by its [username] key, else by the
    API key of the request. *)
Definition resolved_user (request_apikey : option string)
  (data : indicator_data) (d : db) : option user_row :=
  match data_username data with
  | Some u => user_by_username u d
  | None =>
      match request_apikey with
      | Some k => user_by_apikey k d
      | None => None
      end
  end.

(** The comparison mode of a creation request. *)
Definition case_mode (data : indicator_data) : bool :=
  default false (data_case_sensitive data).

(** The stored indicator with the request's value under the request's
    comparison mode, for the type row [t]. *)
Definition duplicate_of (data : indicator_data) (t : lookup_row) (d : db)
  : option indicator_row :=
  if case_mode data then existing_binary t (data_value data) d
  else existing_lower t (data_value data) d.

Definition conflict_message (data : indicator_data) : string :=
  if case_mode data then "Case-sensitive indicator already exists"
  else "Case-insensitive indicator already exists".

(** Every user and type the cache holds is the one the session gives for
    the same key. *)
Definition cache_agrees (c : cache) (d : db) : Prop :=
  (forall u x, cache_usernames c !! u = Some x ->
               user_by_username u d = Some x) /\
  (forall k x, cache_apikeys c !! k = Some x ->
               user_by_apikey k d = Some x) /\
  (forall v x, cache_types c !! v = Some x ->
               by_value v (indicator_types d) = Some x).

(** The cache once it holds the user and the type of an item. *)
Definition remember_user (request_apikey : option string)
  (data : indicator_data) (user : user_row) (c : cache) : cache :=
  match data_username data with
  | Some u => set_usernames (<[u := user]> (cache_usernames c)) c
  | None =>
      match request_apikey with
      | Some k => set_apikeys (<[k := user]> (cache_apikeys c)) c
      | None => c
      end
  end.

Definition remember_type (data : indicator_data) (t : lookup_row) (c : cache)
  : cache :=
  set_types (<[data_type data := t]> (cache_types c)) c.

(** What the loop of the bulk route yields for a batch whose first item
    was passed over and whose other items gave [r]. *)
Definition after_skipped {S} (r : result (list (option indicator_obj)) * S)
  : result (list (option indicator_obj)) * S :=
  match r with
  | (Ok ys, st) => (Ok (None :: ys), st)
  | (Error_response code message, st) => (Error_response code message, st)
  | (Raised e, st) => (Raised e, st)
  end.

(** The names an update request gives for its confidence, its impact,
    its references and its status are known to the store. *)
Definition names_known (data : update_data) (d : db) : Prop :=
  (forall x, upd_confidence data = Some x ->
             by_value x (indicator_confidences d) <> None) /\
  (forall x, upd_impact data = Some x ->
             by_value x (indicator_impacts d) <> None) /\
  (forall items item,
      upd_references data = Some items -> In item items ->
      reference_by_source (item_source item) (item_reference item) d
      <> None) /\
  (forall x, upd_status data = Some x ->
             by_value x (indicator_statuses d) <> None).

(** An update request with no key. *)
Definition no_update : update_data :=
  {| upd_campaigns := None; upd_case_sensitive := None;
     upd_confidence := None; upd_impact := None; upd_references := None;
     upd_status := None; upd_substring := None; upd_tags := None;
     upd_username := None |}.

(** A creation request with the two required keys only. *)
Definition new_item (type value : string) : indicator_data :=
  {| data_username := None; data_type := type; data_value := value;
     data_case_sensitive := None; data_confidence := None;
     data_impact := None; data_status := None; data_substring := None;
     data_campaigns := None; data_references := None; data_tags := None |}.

(** A configuration with every auto-create switch off. *)
Definition no_auto_create : config :=
  {| AUTO_CREATE_INDICATORTYPE := false;
     AUTO_CREATE_INDICATORCONFIDENCE := false;
     AUTO_CREATE_INDICATORIMPACT := false;
     AUTO_CREATE_INDICATORSTATUS := false;
     AUTO_CREATE_CAMPAIGN := false;
     AUTO_CREATE_INTELREFERENCE := false;
     AUTO_CREATE_TAG := false |}.

(** A reading of booleans for the examples: JSON booleans as they are,
    the default for anything else. *)
Definition json_boolean (v : json_scalar) (default : bool) : bool :=
  match v with
  | J_bool b => b
  | J_string _ => default
  end.

(** The response of the bulk route and the store it leaves, given what
    its loop returned on the store [d]. *)
Definition bulk_response (d : db)
  (r : result (list (option indicator_obj)) * (cache * db))
  : result Z * db :=
  match r with
  | (Ok _, (_, staged)) => (Ok 204, staged)
  | (Error_response code message, _) => (Error_response code message, d)
  | (Raised e, _) => (Raised e, d)
  end.

End IngestProps.

(* ===================================================================== *)
(** ** PUT /intel/reference/<intel_reference_id> *)
(* ===================================================================== *)

Module References.
Import Schema Ingest.

(** [request.values]: the fields an update may carry. *)
Record reference_update :=
  { new_reference : option string;
    new_source : option string }.

(** [IntelReference.query.get(intel_reference_id)]. *)
Definition get_reference (i : Z) (d : db) : option reference_row :=
  List.find (fun r => ref_id r =? i) (intel_references d).

(** [IntelReference.query.filter_by(reference=reference, source=source)
    .first()], for the source with id [source_id]. *)
Definition reference_with (ref : string) (source_id : Z) (d : db)
  : option reference_row :=
  List.find
    (fun r => String.eqb (reference r) ref && (ref_source_id r =? source_id))
    (intel_references d).

(** The row with its reference and source set. *)
Definition with_reference (ref : string) (source_id : Z) (r : reference_row)
  : reference_row :=
  {| ref_id := ref_id r; reference := ref; ref_source_id := source_id;
     ref_user_id := ref_user_id r |}.

(** Flushing the changed object: the row with its id is replaced. *)
Definition store_reference (r : reference_row) : M db unit :=
  fun s =>
    (Ok tt,
     with_intel_references
       (map (fun r' => if ref_id r' =? ref_id r then r else r')
          (intel_references s)) s).

(** The route up to its commit.  The source of a reference is the row its
    [intel_source_id] points to, which the store's foreign key keeps in
    place; a source enters the comparison and the assignment through its
    id. *)
Definition update_intel_reference (intel_reference_id : Z)
  (data : reference_update) : M db reference_row :=
  (* Verify the ID exists. *)
  let* intel_reference := query (get_reference intel_reference_id) in
  match intel_reference with
  | None => error_response 404 "Intel reference ID not found"
  | Some intel_reference =>
      (* Ensure at least reference or source was specified. *)
      match new_reference data, new_source data with
      | None, None =>
          error_response 400
            "Request must include at least reference or source"
      | _, _ =>
          (* Figure out if there was a reference specified. *)
          let ref :=
            match new_reference data with
            | Some v => v
            | None => reference intel_reference
            end in
          (* Figure out if there was a source specified. *)
          let* source_id :=
            match new_source data with
            | Some v =>
                let* source :=
                  query (fun d => by_value v (intel_sources d)) in
                match source with
                | None => error_response 404 "Intel source not found"
                | Some source => ret (lk_id source)
                end
            | None => ret (ref_source_id intel_reference)
            end in
          (* Verify this reference+source does not already exist. *)
          let* existing := query (reference_with ref source_id) in
          match existing with
          | Some _ => error_response 409 "Intel reference already exists"
          | None =>
              (* Set the new values. *)
              let updated := with_reference ref source_id intel_reference in
              let* _ := store_reference updated in
              ret updated
          end
      end
  end.

(** The response and the store the request leaves. *)
Definition put_intel_reference (intel_reference_id : Z)
  (data : reference_update) (d : db) : result reference_row * db :=
  match update_intel_reference intel_reference_id data d with
  | (Ok r, staged) => (Ok r, staged)
  | (Error_response c msg, _) => (Error_response c msg, d)
  | (Raised e, _) => (Raised e, d)
  end.

End References.

(* ===================================================================== *)
(** ** Vocabulary for what the write routes keep *)
(* ===================================================================== *)

Module Frames.
Import Schema Ingest IngestProps References.

(** From [d] to [d'] rows were only appended: every table of [d] is the
    front of the same table of [d'].  No route writes a user. *)
Definition appended (d d' : db) : Prop :=
  indicators d `prefix_of` indicators d' /\
  indicator_types d `prefix_of` indicator_types d' /\
  indicator_confidences d `prefix_of` indicator_confidences d' /\
  indicator_impacts d `prefix_of` indicator_impacts d' /\
  indicator_statuses d `prefix_of` indicator_statuses d' /\
  intel_references d `prefix_of` intel_references d' /\
  intel_sources d `prefix_of` intel_sources d' /\
  tags d `prefix_of` tags d' /\
  users d' = users d /\
  campaigns d `prefix_of` campaigns d' /\
  campaign_assoc d `prefix_of` campaign_assoc d' /\
  reference_assoc d `prefix_of` reference_assoc d' /\
  tag_assoc d `prefix_of` tag_assoc d'.

(** Rows were only appended, and none to the indicators or to their
    associations. *)
Definition lookups_appended (d d' : db) : Prop :=
  appended d d' /\
  indicators d' = indicators d /\
  campaign_assoc d' = campaign_assoc d /\
  reference_assoc d' = reference_assoc d /\
  tag_assoc d' = tag_assoc d.

(** A lookup table of the store, with the function that writes it. *)
Class LookupTable (get : db -> list lookup_row)
  (set : list lookup_row -> db -> db) : Prop :=
  { get_set : forall rows s, get (set rows s) = rows;
    set_appended :
      forall r s, lookups_appended s (set (get s ++ [r]) s) }.

(** What identifies an indicator for the duplicate check of a
    case-sensitive request: its type and the bytes of its value. *)
Definition type_and_value (i : indicator_row) : Z * string :=
  (type_id i, ind_value i).

(** The same with the value in lower case, for a request that is not
    case-sensitive. *)
Definition type_and_lowered (i : indicator_row) : Z * string :=
  (type_id i, lower (ind_value i)).

(** What identifies an intel reference: its text and its source. *)
Definition reference_and_source (r : reference_row) : string * Z :=
  (reference r, ref_source_id r).

(** The test on one row that the duplicate check of a request makes, for
    the type row [t]. *)
Definition same_as (data : indicator_data) (t : lookup_row)
  (i : indicator_row) : bool :=
  (type_id i =? lk_id t) &&
  (if case_mode data then String.eqb (ind_value i) (data_value data)
   else String.eqb (lower (ind_value i)) (lower (data_value data))).

(** The parts of an indicator that an update request can name, each with
    its key. *)
Inductive part :=
| part_campaigns | part_case_sensitive | part_confidence | part_impact
| part_references | part_status | part_substring | part_tags | part_user.

#[global] Instance part_eq_dec : EqDecision part.
Proof. solve_decision. Defined.

(** Whether an update request has the key of a part. *)
Definition given (data : update_data) (p : part) : bool :=
  match p with
  | part_campaigns => bool_decide (is_Some (upd_campaigns data))
  | part_case_sensitive => bool_decide (is_Some (upd_case_sensitive data))
  | part_confidence => bool_decide (is_Some (upd_confidence data))
  | part_impact => bool_decide (is_Some (upd_impact data))
  | part_references => bool_decide (is_Some (upd_references data))
  | part_status => bool_decide (is_Some (upd_status data))
  | part_substring => bool_decide (is_Some (upd_substring data))
  | part_tags => bool_decide (is_Some (upd_tags data))
  | part_user => bool_decide (is_Some (upd_username data))
  end.

(** Two indicator objects agree on a part. *)
Definition same_part (p : part) (o o' : indicator_obj) : Prop :=
  match p with
  | part_campaigns => obj_campaigns o' = obj_campaigns o
  | part_case_sensitive =>
      case_sensitive (obj_row o') = case_sensitive (obj_row o)
  | part_confidence => confidence_id (obj_row o') = confidence_id (obj_row o)
  | part_impact => impact_id (obj_row o') = impact_id (obj_row o)
  | part_references => obj_references o' = obj_references o
  | part_status => status_id (obj_row o') = status_id (obj_row o)
  | part_substring => substring (obj_row o') = substring (obj_row o)
  | part_tags => obj_tags o' = obj_tags o
  | part_user => ind_user_id (obj_row o') = ind_user_id (obj_row o)
  end.

(** Two indicator objects agree on what no update request can name and
    the store does not set: the id, the value, the type and the time of
    creation. *)
Definition same_identity (o o' : indicator_obj) : Prop :=
  ind_id (obj_row o') = ind_id (obj_row o) /\
  ind_value (obj_row o') = ind_value (obj_row o) /\
  type_id (obj_row o') = type_id (obj_row o) /\
  created_time (obj_row o') = created_time (obj_row o).

(** From [d] to [d'] nothing was written but the row of indicator [i] and
    the rows of its associations: the indicators keep their ids and
    their order, every other indicator its row and its association rows,
    and every other table is as it was. *)
Definition wrote_indicator_only (i : Z) (d d' : db) : Prop :=
  map ind_id (indicators d') = map ind_id (indicators d) /\
  (forall r, ind_id r <> i -> In r (indicators d') <-> In r (indicators d)) /\
  (forall a, a_indicator_id a <> i ->
             (In a (campaign_assoc d') <-> In a (campaign_assoc d)) /\
             (In a (reference_assoc d') <-> In a (reference_assoc d)) /\
             (In a (tag_assoc d') <-> In a (tag_assoc d))) /\
  indicator_types d' = indicator_types d /\
  indicator_confidences d' = indicator_confidences d /\
  indicator_impacts d' = indicator_impacts d /\
  indicator_statuses d' = indicator_statuses d /\
  intel_references d' = intel_references d /\
  intel_sources d' = intel_sources d /\
  tags d' = tags d /\
  users d' = users d /\
  campaigns d' = campaigns d.

(** From [o] to [o'] at most the part [p] changed, and not even that one
    when the request does not have its key. *)
Definition touches (data : update_data) (p : part) (o o' : indicator_obj)
  : Prop :=
  same_identity o o' /\
  (forall q, q <> p -> same_part q o o') /\
  (given data p = false -> same_part p o o').

(** A step of the bulk route that leaves alone the users and the types of
    the cache and only appends to the lookup tables of the session. *)
Definition lookup_step (st st' : cache * db) : Prop :=
  lookups_appended (snd st) (snd st') /\
  cache_usernames (fst st') = cache_usernames (fst st) /\
  cache_apikeys (fst st') = cache_apikeys (fst st) /\
  cache_types (fst st') = cache_types (fst st).

(** An update of the cache that leaves alone its users and its types. *)
Definition beside_users_and_types (f : cache -> cache) : Prop :=
  forall c,
    cache_usernames (f c) = cache_usernames c /\
    cache_apikeys (f c) = cache_apikeys c /\
    cache_types (f c) = cache_types c.

(** The store holds what makes the routes pass over a request: its user,
    who is active, its type, and an indicator of that type with its value
    under its comparison mode. *)
Definition in_the_way (request_apikey : option string)
  (data : indicator_data) (d : db) : Prop :=
  exists user t e,
    resolved_user request_apikey data d = Some user /\
    active user = true /\
    by_value (data_type data) (indicator_types d) = Some t /\
    duplicate_of data t d = Some e.

(** What the loop of the bulk route staged for an item and the item agree:
    the indicator, when there is one, has the item's value and mode. *)
Definition staged_for (data : indicator_data) (y : option indicator_obj)
  : Prop :=
  match y with
  | Some obj =>
      ind_value (obj_row obj) = data_value data /\
      case_sensitive (obj_row obj) = case_mode data
  | None => True
  end.

(** What the loop of the bulk route does with the items in turn, after
    the rows [before].  An item is passed over exactly when one of the
    rows before it has its type, as the store [d'] resolves it, and its
    value under its comparison mode; otherwise it gets a row of that
    type with its value and its mode.  The row of an item counts among
    the rows before the items that follow. *)
Fixpoint staged_in_turn (d' : db) (before : list indicator_row)
  (items : list indicator_data) (ys : list (option indicator_obj)) : Prop :=
  match items, ys with
  | [], [] => True
  | data :: items', y :: ys' =>
      (exists t,
          by_value (data_type data) (indicator_types d') = Some t /\
          match y with
          | None => existsb (same_as data t) before = true
          | Some obj =>
              existsb (same_as data t) before = false /\
              type_id (obj_row obj) = lk_id t /\
              ind_value (obj_row obj) = data_value data /\
              case_sensitive (obj_row obj) = case_mode data
          end) /\
      staged_in_turn d' (before ++ map obj_row (omap id [y])) items' ys'
  | _, _ => False
  end.

End Frames.

(* ===================================================================== *)
(** ** Vocabulary for what the listing reads *)
(* ===================================================================== *)

Module PlanProps.
Import Schema Sql Listing Props ShapeDefs.

(** The keys that turn grouping on. *)
Definition grouping_keys : list string :=
  [ "not_sources"; "not_tags"; "not_users"; "reference"; "sources"; "tags";
    "user"; "users" ]%string.

(** The keys whose value the planner reads. *)
Definition filter_keys : list string :=
  [ "case_sensitive"; "confidence"; "created_after"; "created_before";
    "exact_value"; "impact"; "modified_after"; "modified_before";
    "no_campaigns"; "no_references"; "no_tags"; "not_sources"; "not_tags";
    "not_users"; "reference"; "sources"; "status"; "substring"; "tags";
    "type"; "types"; "user"; "users"; "value" ]%string.

(** The HAVING clause of a list filter: one, for a value of two pieces or
    more without the marker. *)
Definition list_having (c : column) (v : option string) : list clause :=
  match v with
  | Some v =>
      if Py.contains "[OR]" v then []
      else
        match Py.split "," v with
        | (_ :: _ :: _) as xs => [And_ (map (fun x => Sum_gt_0 (Equals c x)) xs)]
        | _ => []
        end
  | None => []
  end.

(** The number of [AND] lists of a request: [sources], [tags] and
    [users] each count when the value has two pieces or more and no
    marker.  Each gives the plan one HAVING clause. *)
Definition and_lists (a : args) : nat :=
  length (list_having IntelSource_value (arg "sources" a)
          ++ list_having Tag_value (arg "tags" a)
          ++ list_having User_username (arg "users" a)).

(** The requests the route answers: they ask for no table both ways, and
    they have at most one [AND] list. *)
Definition answered (a : args) : bool :=
  conflict_free a && (and_lists a <=? 1)%nat.

(** The ids of a list of entries go up. *)
Definition id_le (x y : entry) : Prop :=
  match id x, id y with
  | VInt m, VInt n => m <= n
  | _, _ => False
  end.

(** Sort keys that are one number each, and their order. *)
Definition numbered {A} (key : A -> list value) (x : A) : Prop :=
  exists n, key x = [VInt n].

Definition key_le {A} (key : A -> list value) (x y : A) : Prop :=
  exists m n, key x = [VInt m] /\ key y = [VInt n] /\ m <= n.

(** The table a FROM expression starts from. *)
Fixpoint base_table (j : from_expr) : table :=
  match j with
  | From_table t => t
  | Join l _ _ _ => base_table l
  end.

(** The types an indicator points to, and the rows of the join of the
    indicators with their types. *)
Definition types_of (d : db) (i : indicator_row) : list lookup_row :=
  List.filter (fun t => type_id i =? lk_id t) (indicator_types d).

Definition typed_rows (d : db) : list env :=
  flat_map
    (fun i =>
       map (fun t => [(IndicatorType, Some (lookup_tuple t));
                      (Indicator, Some (indicator_tuple i))])
         (types_of d i))
    (indicators d).

(** Text that LIKE reads as it is everywhere: it has neither of the
    wildcards [%] and [_], nor the backslash that some stores read as an
    escape. *)
Fixpoint plain_text (s : string) : bool :=
  match s with
  | EmptyString => true
  | String c s' =>
      negb (Ascii.eqb c "%" || Ascii.eqb c "_" || Ascii.eqb c "\") &&
      plain_text s'
  end.

(** The text [v] occurs in [s], letters in either case. *)
Definition occurs_in (v s : string) : Prop :=
  exists pre mid post,
    s = (pre +:+ mid +:+ post)%string /\ fold_case mid = fold_case v.

(** What a date key asks of an indicator, for the date [t]. *)
Definition date_holds (k : date_param) (t : Z) (i : indicator_row) : Prop :=
  match k with
  | created_after => t < created_time i
  | created_before => created_time i < t
  | modified_after => t < modified_time i
  | modified_before => modified_time i < t
  end.

End PlanProps.

(* ===================================================================== *)
(** ** Facts about the string operations *)
(* ===================================================================== *)

Module PyFacts.
Import Py.

Lemma split_not_nil sep s : split sep s <> [].
Proof.
  destruct s as [|c s]; simpl; [discriminate|].
  destruct (Ascii.eqb c sep); [discriminate|].
  destruct (split sep s); discriminate.
Qed.

(** Nothing is lost by [split]: joining the pieces with the separator
    gives the string back. *)
Lemma concat_split sep s : String.concat (String sep "") (split sep s) = s.
Proof.
  induction s as [|c s IH]; simpl; [reflexivity|].
  destruct (Ascii.eqb_spec c sep) as [->|Hne].
  - pose proof (split_not_nil sep s) as Hnil.
    destruct (split sep s) as [|w ws] eqn:E; [congruence|].
    simpl in *. now rewrite IH.
  - pose proof (split_not_nil sep s) as Hnil.
    destruct (split sep s) as [|w ws] eqn:E; [congruence|].
    simpl in *. destruct ws; simpl in *; now rewrite <- IH.
Qed.

Lemma contains_char_cons c x s :
  contains (String c "") (String x s)
  = Ascii.eqb c x || contains (String c "") s.
Proof.
  simpl. destruct (Ascii.eqb c x); simpl; [reflexivity|].
  now destruct s.
Qed.

Lemma split_without_sep sep s :
  contains (String sep "") s = false -> split sep s = [s].
Proof.
  induction s as [|c s IH]; [reflexivity|].
  rewrite contains_char_cons. intros H.
  apply orb_false_elim in H as [Hc Hs].
  simpl. rewrite Ascii.eqb_sym, Hc. now rewrite (IH Hs).
Qed.

Lemma split_app sep a rest :
  contains (String sep "") a = false ->
  split sep (a +:+ String sep rest) = a :: split sep rest.
Proof.
  induction a as [|c a IH]; intros H.
  - simpl. now rewrite Ascii.eqb_refl.
  - rewrite contains_char_cons in H.
    apply orb_false_elim in H as [Hc Ha].
    simpl. rewrite Ascii.eqb_sym, Hc. now rewrite (IH Ha).
Qed.

Lemma split_pair sep a b :
  contains (String sep "") a = false ->
  contains (String sep "") b = false ->
  split sep (a +:+ String sep b) = [a; b].
Proof.
  intros Ha Hb. now rewrite (split_app _ _ _ Ha), (split_without_sep _ _ Hb).
Qed.

(** A prefix that holds no separator cannot reach across one. *)
Lemma startswith_app_sep p sep a b :
  contains (String sep "") p = false ->
  startswith p (a +:+ String sep b) = startswith p a.
Proof.
  revert a. induction p as [|x p IH]; intros a Hp; [reflexivity|].
  rewrite contains_char_cons in Hp.
  apply orb_false_elim in Hp as [Hx Hp].
  destruct a as [|y a]; simpl.
  - rewrite Ascii.eqb_sym, Hx. reflexivity.
  - now rewrite (IH a Hp).
Qed.

Lemma startswith_nonempty_nil p : p <> ""%string -> startswith p "" = false.
Proof. now destruct p. Qed.

Lemma contains_app_sep p sep a b :
  p <> ""%string ->
  contains (String sep "") p = false ->
  contains p (a +:+ String sep b) = contains p a || contains p b.
Proof.
  intros Hne Hp. induction a as [|y a IH].
  - destruct p as [|x p]; [congruence|].
    rewrite contains_char_cons in Hp.
    apply orb_false_elim in Hp as [Hx _].
    simpl. rewrite (Ascii.eqb_sym x sep), Hx. reflexivity.
  - simpl.
    change (String y (a +:+ String sep b))
      with (String y a +:+ String sep b).
    rewrite (startswith_app_sep p sep (String y a) b Hp), IH.
    simpl. now rewrite orb_assoc.
Qed.

(** [replace] leaves a string without an occurrence as it is. *)
Lemma replace_absent old new s :
  contains old s = false -> replace old new s = s.
Proof.
  unfold replace. induction s as [|c s IH]; intros H; [reflexivity|].
  cbn [contains] in H. apply orb_false_elim in H as [H1 H2].
  cbn [replace_from]. rewrite H1. now rewrite (IH H2).
Qed.

(** The marker [[OR]] at the front is what [replace] removes first. *)
Lemma replace_marker_front s :
  replace "[OR]" "" ("[OR]" +:+ s) = replace "[OR]" "" s.
Proof. reflexivity. Qed.

Lemma contains_marker_front s : contains "[OR]" ("[OR]" +:+ s) = true.
Proof. reflexivity. Qed.

End PyFacts.

(* ===================================================================== *)
(** ** Facts about the planner *)
(* ===================================================================== *)

Module PlanFacts.
Import Schema Sql Listing Props.

Lemma step_refl p : step p p.
Proof.
  repeat split.
  - exists []. now rewrite app_nil_r.
  - exists []. split; [now rewrite app_nil_r | congruence].
  - auto.
Qed.

Lemma step_trans p q r : step p q -> step q r -> step p r.
Proof.
  intros ([f1 Hf1] & [h1 [Hh1 Hg1]] & Hm1) ([f2 Hf2] & [h2 [Hh2 Hg2]] & Hm2).
  repeat split.
  - exists (f1 ++ f2). now rewrite Hf2, Hf1, app_assoc.
  - exists (h1 ++ h2). split; [now rewrite Hh2, Hh1, app_assoc|].
    intros Hne. destruct h2 as [|x h2]; [|apply Hg2; discriminate].
    rewrite app_nil_r in Hne. auto.
  - auto.
Qed.

Lemma step_append_filter x p : step p (append_filter x p).
Proof.
  repeat split; simpl; eauto.
  exists []. split; [now rewrite app_nil_r | congruence].
Qed.

Lemma step_set_groupby p : step p (set_groupby p).
Proof.
  repeat split; simpl.
  - exists []. now rewrite app_nil_r.
  - exists []. split; [now rewrite app_nil_r | congruence].
Qed.

Lemma step_join_once name t on p : step p (join_once name t on p).
Proof.
  unfold join_once. destruct (decide _); [apply step_refl|].
  repeat split; simpl; auto.
  - exists []. now rewrite app_nil_r.
  - exists []. split; [now rewrite app_nil_r | congruence].
Qed.

Lemma step_outerjoin_once name t p : step p (outerjoin_once name t p).
Proof.
  unfold outerjoin_once. destruct (decide _); [apply step_refl|].
  repeat split; simpl; auto.
  - exists []. now rewrite app_nil_r.
  - exists []. split; [now rewrite app_nil_r | congruence].
Qed.

(** What [append_each] leaves and what it adds. *)
Lemma append_each_spec f xs p :
  filters (append_each f xs p) = filters p ++ map f xs /\
  groupby (append_each f xs p) = groupby p /\
  having (append_each f xs p) = having p /\
  already_joined (append_each f xs p) = already_joined p /\
  already_outerjoined (append_each f xs p) = already_outerjoined p /\
  join (append_each f xs p) = join p.
Proof.
  unfold append_each. revert p.
  induction xs as [|x xs IH]; intros p; simpl.
  - now rewrite app_nil_r.
  - destruct (IH (append_filter (f x) p)) as (-> & -> & -> & -> & -> & ->).
    simpl. now rewrite <- app_assoc.
Qed.

Lemma step_append_each f xs p : step p (append_each f xs p).
Proof.
  destruct (append_each_spec f xs p) as (Hf & Hg & Hh & _).
  repeat split.
  - eauto.
  - exists []. split; [now rewrite app_nil_r | congruence].
  - congruence.
Qed.

(** What [list_filter] leaves. *)
Lemma list_filter_frame c v p :
  groupby (list_filter c v p) = groupby p /\
  already_joined (list_filter c v p) = already_joined p /\
  already_outerjoined (list_filter c v p) = already_outerjoined p /\
  join (list_filter c v p) = join p.
Proof.
  unfold list_filter.
  destruct (Py.contains "[OR]" v);
    match goal with
    | |- context [Py.split ?s ?w] => destruct (Py.split s w) as [|x [|y xs]]
    end; simpl; auto.
Qed.

Lemma step_list_filter c v p :
  groupby p = true -> step p (list_filter c v p).
Proof.
  intros Hg. unfold list_filter.
  destruct (Py.contains "[OR]" v);
    match goal with
    | |- context [Py.split ?s ?w] => destruct (Py.split s w) as [|x [|y xs]]
    end; simpl;
    try apply step_refl; try apply step_append_filter.
  repeat split; simpl; eauto.
  exists []. now rewrite app_nil_r.
Qed.

Create HintDb planner.
#[export] Hint Resolve step_refl step_append_filter step_set_groupby
  step_join_once step_outerjoin_once step_append_each : planner.

Section Blocks.

Variable parse_boolean : string -> option bool -> option bool.
Variable parse : string -> bool -> parse_result.
Variable a : args.

#[local] Abbreviation blocks := (blocks parse_boolean parse a).
#[local] Abbreviation plan := (plan parse_boolean parse a).

Lemma list_filter_after_groupby c v p :
  step p (list_filter c v (set_groupby p)).
Proof.
  eapply step_trans; [apply step_set_groupby|].
  now apply step_list_filter.
Qed.

(** Every block is a [step]. *)
Lemma blocks_step : Forall (fun b => forall p, step p (b p)) blocks.
Proof.
  unfold Listing.blocks.
  repeat match goal with
         | |- Forall _ (_ :: _) => constructor
         | |- Forall _ [] => constructor
         end; intros p;
    match goal with
    | |- step _ (?b _ _ _) => unfold b
    | |- step _ (?b _ _) => unfold b
    | |- step _ (?b _ _ _ _) => unfold b
    end;
    match goal with
    | |- context [arg ?k a] => destruct (arg k a)
    end; try apply step_refl;
    unfold join_IntelSource, join_IntelReference, join_User,
      join_reference_association;
    repeat first
      [ apply step_refl
      | apply step_append_filter
      | eapply step_trans; [| apply step_append_filter]
      | eapply step_trans; [| apply step_append_each]
      | eapply step_trans; [| apply list_filter_after_groupby]
      | eapply step_trans; [| apply step_set_groupby]
      | eapply step_trans; [| apply step_join_once]
      | eapply step_trans; [| apply step_outerjoin_once] ].
  all: repeat match goal with
         | |- context [(length ?l =? 1)%nat] => destruct (length l =? 1)%nat
         | |- context [(1 <? length ?l)%nat] => destruct (1 <? length l)%nat
         | |- context [match ?l with [] => _ | _ :: _ => _ end] => destruct l
         end; auto with planner.
Qed.

(** Induction over the run of the blocks. *)
Lemma fold_blocks_ind (P : planner -> Prop) (bs : list (planner -> planner))
  (p : planner) :
  P p -> Forall (fun b => forall q, P q -> P (b q)) bs ->
  P (fold_left (fun q b => b q) bs p).
Proof.
  intros Hp Hbs. revert p Hp.
  induction Hbs as [|b bs Hb _ IH]; intros p Hp; simpl; auto.
Qed.

Lemma fold_blocks_step (bs : list (planner -> planner)) (p : planner) :
  Forall (fun b => forall q, step q (b q)) bs ->
  step p (fold_left (fun q b => b q) bs p).
Proof.
  intros Hbs.
  apply (fold_blocks_ind (step p)); [apply step_refl|].
  eapply Forall_impl; [exact Hbs|].
  intros b Hb q Hq. simpl in *. eapply step_trans; eauto.
Qed.

Lemma plan_step : step initial plan.
Proof. apply fold_blocks_step, blocks_step. Qed.

(** A HAVING clause is only ever present together with grouping. *)
Lemma having_needs_groupby : having plan <> [] -> groupby plan = true.
Proof.
  destruct plan_step as (_ & [hs [Hh Hg]] & _).
  simpl in Hh. rewrite Hh. exact Hg.
Qed.

(** What a block appended is still there at the end: if [blocks] is
    [pre ++ b :: post], the filters of [b q] are a prefix-extended part of
    the plan's filters. *)
Lemma block_filters_kept (pre post : list (planner -> planner))
  (b : planner -> planner) (x : clause) :
  blocks = pre ++ b :: post ->
  (forall q, In x (filters (b q))) ->
  In x (filters plan).
Proof.
  intros Hsplit Hin. unfold Listing.plan. rewrite Hsplit.
  rewrite fold_left_app. simpl.
  set (q := fold_left _ pre initial).
  assert (Hpost : Forall (fun b => forall q, step q (b q)) post).
  { pose proof blocks_step as H. rewrite Hsplit in H.
    apply Forall_app in H as [_ H]. now inversion H. }
  destruct (fold_blocks_step post (b q) Hpost) as ([fs Hfs] & _).
  rewrite Hfs. apply in_or_app. left. apply Hin.
Qed.


End Blocks.

End PlanFacts.

Module JoinFacts.
Import Schema Sql Listing Props PlanFacts.

Lemma table_name_inj t t' : table_name t = table_name t' -> t = t'.
Proof. destruct t, t'; simpl; intros H; try reflexivity; discriminate H. Qed.

(** [same_joins p q]: [q] has the FROM expression and the two sets of
    [p]. *)
Lemma joins_recorded_same p q :
  join q = join p -> already_joined q = already_joined p ->
  already_outerjoined q = already_outerjoined p ->
  joins_recorded p -> joins_recorded q.
Proof.
  unfold joins_recorded. intros -> -> ->. auto.
Qed.

Lemma joins_recorded_append_filter x p :
  joins_recorded p -> joins_recorded (append_filter x p).
Proof. now apply joins_recorded_same. Qed.

Lemma joins_recorded_set_groupby p :
  joins_recorded p -> joins_recorded (set_groupby p).
Proof. now apply joins_recorded_same. Qed.

Lemma joins_recorded_append_each f xs p :
  joins_recorded p -> joins_recorded (append_each f xs p).
Proof.
  destruct (append_each_spec f xs p) as (_ & _ & _ & H1 & H2 & H3).
  now apply joins_recorded_same.
Qed.

Lemma joins_recorded_list_filter c v p :
  joins_recorded p -> joins_recorded (list_filter c v p).
Proof.
  destruct (list_filter_frame c v p) as (_ & H1 & H2 & H3).
  now apply joins_recorded_same.
Qed.

(** An inner join is added only when its name is not yet in
    [already_joined], so it cannot be there twice. *)
Lemma joins_recorded_join_once t on p :
  t <> Indicator ->
  joins_recorded p -> joins_recorded (join_once (table_name t) t on p).
Proof.
  intros Ht [Hnd Hrec]. unfold join_once.
  destruct (decide (table_name t ∈ already_joined p)) as [Hin|Hnin];
    [now split|].
  split; simpl.
  - apply NoDup_app. repeat split; auto.
    + intros [o t'] Hold Hnew. apply list_elem_of_In in Hold.
      apply list_elem_of_singleton in Hnew. inversion Hnew; subst.
      destruct (Hrec _ _ Hold) as [[_ ->]|[_ Hin]]; [congruence|].
      contradiction.
    + apply NoDup_singleton.
  - intros o t' Hin. apply in_app_or in Hin as [Hin|Hin].
    + destruct (Hrec _ _ Hin) as [H0|[H1 H2]]; [now left|right].
      split; [assumption|]. destruct o; set_solver.
    + destruct Hin as [Heq|[]]. inversion Heq; subst.
      right. split; [assumption|]. set_solver.
Qed.

Lemma joins_recorded_outerjoin_once t p :
  t <> Indicator ->
  joins_recorded p -> joins_recorded (outerjoin_once (table_name t) t p).
Proof.
  intros Ht [Hnd Hrec]. unfold outerjoin_once.
  destruct (decide (table_name t ∈ already_outerjoined p)) as [Hin|Hnin];
    [now split|].
  split; simpl.
  - apply NoDup_app. repeat split; auto.
    + intros [o t'] Hold Hnew. apply list_elem_of_In in Hold.
      apply list_elem_of_singleton in Hnew. inversion Hnew; subst.
      destruct (Hrec _ _ Hold) as [[Ho _]|[_ Hin]]; [congruence|].
      contradiction.
    + apply NoDup_singleton.
  - intros o t' Hin. apply in_app_or in Hin as [Hin|Hin].
    + destruct (Hrec _ _ Hin) as [H0|[H1 H2]]; [now left|right].
      split; [assumption|]. destruct o; set_solver.
    + destruct Hin as [Heq|[]]. inversion Heq; subst.
      right. split; [assumption|]. set_solver.
Qed.

Lemma joins_recorded_initial : joins_recorded initial.
Proof.
  split; simpl.
  - repeat constructor; set_solver.
  - intros o t [[= <- <-]|[[= <- <-]|[]]]; [now left|right].
    split; [discriminate|]. set_solver.
Qed.

Section Blocks.

Variable parse_boolean : string -> option bool -> option bool.
Variable parse : string -> bool -> parse_result.
Variable a : args.

Lemma blocks_joins_recorded :
  Forall (fun b => forall p, joins_recorded p -> joins_recorded (b p))
    (blocks parse_boolean parse a).
Proof.
  unfold blocks.
  repeat match goal with
         | |- Forall _ (_ :: _) => constructor
         | |- Forall _ [] => constructor
         end; intros p Hp;
    match goal with
    | |- joins_recorded (?b _ _ _ _) => unfold b
    | |- joins_recorded (?b _ _ _) => unfold b
    | |- joins_recorded (?b _ _) => unfold b
    end;
    match goal with
    | |- context [arg ?k a] => destruct (arg k a)
    end; try assumption;
    unfold join_IntelSource, join_IntelReference, join_User,
      join_reference_association;
    repeat match goal with
           | |- joins_recorded (append_filter _ _) =>
               apply joins_recorded_append_filter
           | |- joins_recorded (append_each _ _ _) =>
               apply joins_recorded_append_each
           | |- joins_recorded (list_filter _ _ _) =>
               apply joins_recorded_list_filter
           | |- joins_recorded (set_groupby _) =>
               apply joins_recorded_set_groupby
           | |- joins_recorded (join_once _ ?t ?oc ?q) =>
               change (joins_recorded (join_once (table_name t) t oc q));
               apply joins_recorded_join_once; [discriminate|]
           | |- joins_recorded (outerjoin_once _ ?t ?q) =>
               change (joins_recorded (outerjoin_once (table_name t) t q));
               apply joins_recorded_outerjoin_once; [discriminate|]
           | |- context [(length ?l =? 1)%nat] => destruct (length l =? 1)%nat
           | |- context [(1 <? length ?l)%nat] => destruct (1 <? length l)%nat
           | |- context [match ?l with [] => _ | _ :: _ => _ end] =>
               destruct l
           end; assumption.
Qed.

Lemma plan_joins_recorded : joins_recorded (plan parse_boolean parse a).
Proof.
  unfold plan.
  apply (fold_blocks_ind joins_recorded); [apply joins_recorded_initial|].
  apply blocks_joins_recorded.
Qed.

End Blocks.

End JoinFacts.

Module ShapeFacts.
Import Schema Sql Listing Props PlanFacts JoinFacts ShapeDefs.

Lemma from_rows_accepted d j :
  accepted j = true <-> from_rows d j <> None.
Proof.
  induction j as [t|l IH r onclause o]; simpl.
  - split; [discriminate|reflexivity].
  - destruct (from_rows d l) as [envs|].
    + destruct IH as [_ IH]. rewrite IH by discriminate. simpl.
      destruct (decide (r ∈ names l)) as [Hin|Hnin].
      * rewrite bool_decide_eq_true_2 by assumption. simpl. split; congruence.
      * rewrite bool_decide_eq_false_2 by assumption. simpl.
        destruct onclause as [c|]; [split; [discriminate|reflexivity]|].
        destruct (infer_onclause (names l) r) as [c|].
        -- rewrite bool_decide_eq_true_2 by eauto. split; [discriminate|auto].
        -- rewrite bool_decide_eq_false_2 by (intros [? ?]; discriminate).
           split; congruence.
    + split; [|congruence]. intros H.
      apply andb_prop in H as [H _]. apply andb_prop in H as [H _].
      apply IH in H. congruence.
Qed.

Lemma filter_in_sublists {A} (f : A -> bool) (l : list A) :
  In (List.filter f l) (sublists l).
Proof.
  induction l as [|x l IH]; simpl; [now left|].
  apply in_or_app. destruct (f x); [left|right; assumption].
  now apply in_map.
Qed.

Lemma sets_mirror_joins_frame p q :
  join q = join p -> already_joined q = already_joined p ->
  already_outerjoined q = already_outerjoined p ->
  sets_mirror_joins p -> sets_mirror_joins q /\ join q = join p.
Proof. unfold sets_mirror_joins. intros E -> ->. rewrite E. auto. Qed.

Lemma mirror_join_once t oc p :
  t <> Indicator -> sets_mirror_joins p ->
  sets_mirror_joins (join_once (table_name t) t oc p) /\
  join (join_once (table_name t) t oc p) = add_join t oc (join p).
Proof.
  intros Ht Hp. unfold join_once, add_join.
  destruct (Hp t) as [Hin _]. specialize (Hin Ht).
  destruct (decide (table_name t ∈ already_joined p)) as [H|H].
  - rewrite bool_decide_eq_true_2
      by (apply list_elem_of_In; now apply Hin).
    now split.
  - rewrite bool_decide_eq_false_2
      by (intros H'; apply list_elem_of_In in H'; now apply H, Hin).
    split; [|reflexivity]. intros t'. simpl.
    destruct (Hp t') as [Hi Ho]. split.
    + intros Ht'. specialize (Hi Ht'). rewrite in_app_iff. simpl.
      rewrite elem_of_union, elem_of_singleton, Hi.
      split; (intros [?|?]; [now left|right]).
      * left. f_equal. symmetry. now apply table_name_inj.
      * destruct H0 as [H0|[]]. now inversion H0.
    + rewrite Ho, in_app_iff. simpl. split; [now left|].
      intros [?|[?|[]]]; [assumption|discriminate].
Qed.

Lemma mirror_outerjoin_once t p :
  sets_mirror_joins p ->
  sets_mirror_joins (outerjoin_once (table_name t) t p) /\
  join (outerjoin_once (table_name t) t p) = add_outerjoin t (join p).
Proof.
  intros Hp. unfold outerjoin_once, add_outerjoin.
  destruct (Hp t) as [_ Hin].
  destruct (decide (table_name t ∈ already_outerjoined p)) as [H|H].
  - rewrite bool_decide_eq_true_2
      by (apply list_elem_of_In; now apply Hin).
    now split.
  - rewrite bool_decide_eq_false_2
      by (intros H'; apply list_elem_of_In in H'; now apply H, Hin).
    split; [|reflexivity]. intros t'. simpl.
    destruct (Hp t') as [Hi Ho]. split.
    + intros Ht'. specialize (Hi Ht'). rewrite Hi, in_app_iff. simpl.
      split; [now left|]. intros [?|[?|[]]]; [assumption|discriminate].
    + rewrite in_app_iff. simpl.
      rewrite elem_of_union, elem_of_singleton, Ho.
      split; (intros [?|?]; [now left|right]).
      * left. f_equal. symmetry. now apply table_name_inj.
      * destruct H0 as [H0|[]]. now inversion H0.
Qed.

Lemma sets_mirror_joins_initial : sets_mirror_joins initial.
Proof.
  intros t. simpl. split.
  - intros Ht. rewrite elem_of_singleton. split.
    + intros H. right. left. f_equal.
      now apply (table_name_inj IndicatorType t).
    + intros [H|[H|[]]]; inversion H; subst; [congruence|reflexivity].
  - split; [set_solver|]. intros [H|[H|[]]]; discriminate.
Qed.

Lemma mirror_same p q :
  join q = join p -> already_joined q = already_joined p ->
  already_outerjoined q = already_outerjoined p ->
  sets_mirror_joins p -> sets_mirror_joins q.
Proof. intros E1 E2 E3 H. now apply (sets_mirror_joins_frame p q). Qed.

Lemma mirrors_id b :
  (forall p, join (b p) = join p /\ already_joined (b p) = already_joined p /\
             already_outerjoined (b p) = already_outerjoined p) ->
  mirrors b (fun j => j).
Proof.
  intros H p Hp. destruct (H p) as (E1 & E2 & E3).
  split; [now apply (mirror_same p)|assumption].
Qed.

Lemma mirrors_compose b1 b2 m1 m2 :
  mirrors b1 m1 -> mirrors b2 m2 ->
  mirrors (fun p => b2 (b1 p)) (fun j => m2 (m1 j)).
Proof.
  intros H1 H2 p Hp. destruct (H1 p Hp) as [Hq E1].
  destruct (H2 _ Hq) as [Hr E2]. split; [assumption|]. now rewrite E2, E1.
Qed.

Lemma mirrors_join_once t oc :
  t <> Indicator -> mirrors (join_once (table_name t) t oc) (add_join t oc).
Proof. intros Ht p Hp. now apply mirror_join_once. Qed.

Lemma mirrors_outerjoin_once t :
  mirrors (outerjoin_once (table_name t) t) (add_outerjoin t).
Proof. intros p Hp. now apply mirror_outerjoin_once. Qed.

Lemma mirrors_append_filter x : mirrors (append_filter x) (fun j => j).
Proof. apply mirrors_id. intros p. now repeat split. Qed.

Lemma mirrors_set_groupby : mirrors set_groupby (fun j => j).
Proof. apply mirrors_id. intros p. now repeat split. Qed.

Lemma mirrors_append_each f xs : mirrors (append_each f xs) (fun j => j).
Proof.
  apply mirrors_id. intros p.
  destruct (append_each_spec f xs p) as (_ & _ & _ & H1 & H2 & H3). auto.
Qed.

Lemma mirrors_list_filter c v : mirrors (list_filter c v) (fun j => j).
Proof.
  apply mirrors_id. intros p.
  destruct (list_filter_frame c v p) as (_ & H1 & H2 & H3). auto.
Qed.

Lemma mirrors_reference_joins last mlast :
  mirrors last mlast ->
  mirrors
    (fun p => last (join_IntelReference (join_reference_association p)))
    (add_reference_joins mlast).
Proof.
  intros H. unfold add_reference_joins.
  apply (mirrors_compose
           (fun p => join_IntelReference (join_reference_association p))
           last
           (fun j => add_join IntelReference _ (add_join _ None j)) mlast);
    [|exact H].
  apply (mirrors_compose join_reference_association join_IntelReference).
  - apply (mirrors_join_once indicator_reference_association). discriminate.
  - apply (mirrors_join_once IntelReference). discriminate.
Qed.

Lemma mirrors_then_filters b m (f : planner -> planner) :
  mirrors b m -> mirrors f (fun j => j) -> mirrors (fun p => f (b p)) m.
Proof.
  intros Hb Hf p Hp. destruct (Hb p Hp) as [Hq E].
  destruct (Hf _ Hq) as [Hr E']. split; [assumption|]. now rewrite E'.
Qed.

Lemma mirrors_ext b b' m :
  (forall p, b p = b' p) -> mirrors b' m -> mirrors b m.
Proof. intros E H p Hp. rewrite E. now apply H. Qed.

Lemma mirrors_types_branch (f : string -> clause) (xs : list string) :
  mirrors
    (fun p =>
       if (length xs =? 1)%nat
       then match xs with t :: _ => append_filter (f t) p | [] => p end
       else if (1 <? length xs)%nat
            then append_filter (Or_ (map f xs)) p else p)
    (fun j => j).
Proof.
  apply mirrors_id. intros p.
  destruct (length xs =? 1)%nat, (1 <? length xs)%nat, xs; simpl; auto.
Qed.

Section Shape.

Variable parse_boolean : string -> option bool -> option bool.
Variable parse : string -> bool -> parse_result.
Variable a : args.

Lemma blocks_mirror :
  Forall2 mirrors (blocks parse_boolean parse a) (shape_blocks (present a)).
Proof.
  unfold blocks, shape_blocks.
  repeat match goal with
         | |- Forall2 _ (_ :: _) (_ :: _) => constructor
         | |- Forall2 _ [] [] => constructor
         end;
    match goal with
    | |- mirrors (?b _ _ _) _ => unfold b
    | |- mirrors (?b _ _) _ => unfold b
    | |- mirrors (?b _) _ => unfold b
    end; unfold present, when;
    match goal with
    | |- context [arg ?k a] => destruct (arg k a)
    end;
    try (apply mirrors_id; intros p; now repeat split);
    try apply mirrors_append_filter.
  all: try (apply mirrors_then_filters
              with (f := append_filter _); [|apply mirrors_append_filter]).
  all: try (apply mirrors_then_filters
              with (f := append_each _ _); [|apply mirrors_append_each]).
  all: try (apply mirrors_then_filters
              with (f := list_filter _ _); [|apply mirrors_list_filter]).
  all: try (apply mirrors_then_filters
              with (f := set_groupby); [|apply mirrors_set_groupby]).
  all: try match goal with
           | |- mirrors (join_once _ ?t ?oc) _ =>
               apply (mirrors_join_once t oc); discriminate
           | |- mirrors (outerjoin_once _ ?t) _ =>
               apply (mirrors_outerjoin_once t)
           end.
  all: try (apply (mirrors_reference_joins join_IntelSource add_IntelSource);
            apply (mirrors_join_once IntelSource); discriminate).
  all: try (apply (mirrors_reference_joins join_User add_User);
            apply (mirrors_join_once User); discriminate).
  all: try (apply (mirrors_join_once indicator_reference_association);
            discriminate).
  all: try apply mirrors_types_branch.
  apply (mirrors_compose
           (join_once "indicator_tag_association" indicator_tag_association
              None)
           (join_once "Tag" Tag (Some (On tag_association_tag_id Tag_id)))).
  - apply (mirrors_join_once indicator_tag_association). discriminate.
  - apply (mirrors_join_once Tag). discriminate.
Qed.

Lemma fold_mirrors (bs : list (planner -> planner))
  (ms : list (from_expr -> from_expr)) (p : planner) :
  Forall2 mirrors bs ms -> sets_mirror_joins p ->
  join (fold_left (fun q b => b q) bs p)
  = fold_left (fun j m => m j) ms (join p).
Proof.
  intros H. revert p.
  induction H as [|b m bs ms Hb _ IH]; intros p Hp; simpl; [reflexivity|].
  destruct (Hb p Hp) as [Hq E]. rewrite (IH _ Hq). now rewrite E.
Qed.

(** The FROM expression of the plan is decided by which keys are present. *)
Lemma plan_shape : join (plan parse_boolean parse a) = shape (present a).
Proof.
  unfold plan, shape.
  apply fold_mirrors; [apply blocks_mirror|apply sets_mirror_joins_initial].
Qed.

End Shape.

Lemma shape_ext (pr pr' : string -> bool) :
  (forall k, In k join_keys -> pr k = pr' k) -> shape pr = shape pr'.
Proof.
  intros H. unfold shape, shape_blocks.
  rewrite !H by (simpl; tauto). reflexivity.
Qed.

Lemma keys_of_filter (pr : string -> bool) (k : string) :
  In k join_keys -> keys_of (List.filter pr join_keys) k = pr k.
Proof.
  intros Hin. unfold keys_of.
  destruct (pr k) eqn:Hk.
  - apply bool_decide_eq_true_2, list_elem_of_In, filter_In. auto.
  - apply bool_decide_eq_false_2. intros H.
    apply list_elem_of_In, filter_In in H as [_ H]. congruence.
Qed.

(** The checks hold over the 2^14 ways in which the join keys can be
    present. *)
Lemma shapes_checked :
  forallb (fun ks => shape_checks (keys_of ks) (shape (keys_of ks)))
    (sublists join_keys) = true.
Proof. vm_cast_no_check (eq_refl true). Qed.

Lemma shape_checks_ext (pr pr' : string -> bool) j :
  (forall k, In k join_keys -> pr k = pr' k) ->
  shape_checks pr j = shape_checks pr' j.
Proof.
  intros H. unfold shape_checks, conflict_free_keys.
  rewrite !H by (simpl; tauto). reflexivity.
Qed.

Lemma shape_checked (pr : string -> bool) : shape_checks pr (shape pr) = true.
Proof.
  pose proof shapes_checked as H. rewrite forallb_forall in H.
  specialize (H _ (filter_in_sublists pr join_keys)).
  rewrite (shape_ext pr (keys_of (List.filter pr join_keys))),
    (shape_checks_ext pr (keys_of (List.filter pr join_keys)));
    [exact H| |];
    intros k Hk; symmetry; now apply keys_of_filter.
Qed.

Lemma accepted_shape (pr : string -> bool) :
  accepted (shape pr) = conflict_free_keys pr.
Proof.
  pose proof (shape_checked pr) as H. unfold shape_checks in H.
  repeat (apply andb_prop in H as [H _]). now apply Bool.eqb_prop.
Qed.

(** The store accepts the statement of a request exactly when the request
    is conflict-free. *)
Lemma plan_accepted parse_boolean parse a :
  accepted (join (plan parse_boolean parse a)) = conflict_free a.
Proof. rewrite plan_shape. apply accepted_shape. Qed.

Lemma plan_checked parse_boolean parse a :
  shape_checks (present a) (join (plan parse_boolean parse a)) = true.
Proof. rewrite plan_shape. apply shape_checked. Qed.

End ShapeFacts.

(* ===================================================================== *)
(** ** Facts about the statements and their evaluation *)
(* ===================================================================== *)

Module QueryFacts.
Import Schema Sql Listing Props.

Lemma fold_where fs cs f w g h o :
  fold_left sel_where fs (Mk_select cs f w g h o)
  = Mk_select cs f (w ++ fs) g h o.
Proof.
  revert w. induction fs as [|x fs IH]; intros w; simpl.
  - now rewrite app_nil_r.
  - rewrite IH. now rewrite <- app_assoc.
Qed.

Lemma at_most_one {A} (l l' : list A) :
  l = l' -> (length l' <=? 1)%nat = true -> (length l <= 1)%nat.
Proof. intros -> H. now apply Nat.leb_le. Qed.

(** With no HAVING clause or one the statements are built; with more
    the call of [having] raises. *)
Lemma count_query_shape p :
  (length (having p) <= 1)%nat ->
  count_query p =
  Some
    (if groupby p
     then Mk_select [Count_star] (From_alias (grouped_ids p) "count")
            [] [] [] []
     else Mk_select [Count_star] (From_join (join p)) (filters p) []
            (having p) []).
Proof.
  unfold count_query, grouped_ids, sel_having.
  destruct (groupby p), (having p) as [|h [|h' hs]]; simpl;
    try lia; intros _; rewrite fold_where; reflexivity.
Qed.

Lemma list_query_shape p :
  (length (having p) <= 1)%nat ->
  list_query p =
  Some
    (Mk_select
       [Item Indicator_id; Item IndicatorType_value; Item Indicator_value]
       (From_join (join p)) (filters p)
       (if groupby p then [Indicator_id] else []) (having p) [Indicator_id]).
Proof.
  unfold list_query, sel_having.
  destruct (groupby p), (having p) as [|h [|h' hs]]; simpl;
    try lia; intros _; rewrite fold_where; reflexivity.
Qed.

Lemma queries_raise p :
  (2 <= length (having p))%nat ->
  count_query p = None /\ list_query p = None.
Proof.
  unfold count_query, list_query, sel_having.
  destruct (having p) as [|h [|h' hs]]; simpl; try lia. auto.
Qed.

Lemma length_insert_by {A K} (leb : K -> K -> bool) (key : A -> K) x l :
  length (insert_by leb key x l) = S (length l).
Proof.
  induction l as [|y l IH]; simpl; [reflexivity|].
  destruct (leb (key x) (key y)); simpl; congruence.
Qed.

Lemma length_sort_by {A K} (leb : K -> K -> bool) (key : A -> K) l :
  length (sort_by leb key l) = length l.
Proof.
  induction l as [|x l IH]; simpl; [reflexivity|].
  now rewrite length_insert_by, IH.
Qed.

Lemma execute_list_grouped d p rows :
  (length (having p) <= 1)%nat ->
  groupby p = true ->
  from_rows d (join p) = Some rows ->
  exists out,
    session_execute d (list_query p) = Some out /\
    length out = length (passed_groups d p rows).
Proof.
  intros Hone Hg Hrows. rewrite (list_query_shape p Hone), Hg. simpl.
  rewrite Hrows.
  eexists. split; [reflexivity|].
  now rewrite length_map, length_sort_by.
Qed.

Lemma filter_all {A} (l : list A) : List.filter (fun _ => true) l = l.
Proof. induction l; simpl; congruence. Qed.

Lemma execute_count_grouped d p rows :
  (length (having p) <= 1)%nat ->
  groupby p = true ->
  from_rows d (join p) = Some rows ->
  session_execute d (count_query p)
  = Some [[VInt (Z.of_nat (length (passed_groups d p rows)))]].
Proof.
  intros Hone Hg Hrows. rewrite (count_query_shape p Hone), Hg.
  unfold grouped_ids. simpl. rewrite Hrows. simpl.
  rewrite filter_all, !length_map, length_sort_by. reflexivity.
Qed.

Lemma execute_list_plain d p rows :
  groupby p = false -> having p = [] ->
  from_rows d (join p) = Some rows ->
  exists out,
    session_execute d (list_query p) = Some out /\
    length out = length (kept_rows d p rows).
Proof.
  intros Hg Hh Hrows.
  rewrite list_query_shape, Hg, Hh by (rewrite Hh; simpl; lia).
  simpl. rewrite Hrows.
  eexists. split; [reflexivity|].
  now rewrite length_map, length_sort_by.
Qed.

Lemma execute_count_plain d p rows :
  groupby p = false -> having p = [] ->
  from_rows d (join p) = Some rows ->
  session_execute d (count_query p)
  = Some [[VInt (Z.of_nat (length (kept_rows d p rows)))]].
Proof.
  intros Hg Hh Hrows.
  rewrite count_query_shape, Hg, Hh by (rewrite Hh; simpl; lia). simpl.
  rewrite Hrows. reflexivity.
Qed.

Lemma execute_rejected d p :
  from_rows d (join p) = None ->
  session_execute d (count_query p) = None /\
  session_execute d (list_query p) = None.
Proof.
  intros Hrows.
  destruct (le_lt_dec (length (having p)) 1) as [Hone|Hmore].
  - rewrite (count_query_shape p Hone), (list_query_shape p Hone).
    destruct (groupby p); simpl; rewrite Hrows; auto.
  - now destruct (queries_raise p Hmore) as [-> ->].
Qed.

(** The two statements of one plan agree: the count statement returns one
    row holding the number of rows of the list statement, or both fail:
    the store rejects them, or neither could be built. *)
Lemma count_matches_list d p :
  (having p <> [] -> groupby p = true) ->
  match session_execute d (list_query p) with
  | Some out =>
      session_execute d (count_query p)
      = Some [[VInt (Z.of_nat (length out))]]
  | None => session_execute d (count_query p) = None
  end.
Proof.
  intros Hinv.
  destruct (le_lt_dec (length (having p)) 1) as [Hone|Hmore].
  2:{ now destruct (queries_raise p Hmore) as [-> ->]. }
  destruct (from_rows d (join p)) as [rows|] eqn:Hrows.
  - destruct (groupby p) eqn:Hg.
    + destruct (execute_list_grouped d p rows Hone Hg Hrows)
        as (out & -> & ->).
      now apply execute_count_grouped.
    + assert (Hh : having p = []).
      { destruct (having p); [reflexivity|].
        discriminate Hinv. discriminate. }
      destruct (execute_list_plain d p rows Hg Hh Hrows) as (out & -> & ->).
      now apply execute_count_plain.
  - destruct (execute_rejected d p Hrows) as [-> ->]. reflexivity.
Qed.

(** The list statement fails exactly when the store rejects the FROM
    expression or the plan holds two HAVING clauses or more. *)
Lemma list_fails d p :
  (having p <> [] -> groupby p = true) ->
  session_execute d (list_query p) = None
  <-> from_rows d (join p) = None \/ (2 <= length (having p))%nat.
Proof.
  intros Hinv. split.
  - intros E.
    destruct (le_lt_dec (length (having p)) 1) as [Hone|Hmore];
      [|right; lia].
    left. destruct (from_rows d (join p)) as [rows|] eqn:Hrows;
      [|reflexivity].
    destruct (groupby p) eqn:Hg.
    + destruct (execute_list_grouped d p rows Hone Hg Hrows)
        as (out & E' & _). congruence.
    + assert (Hh : having p = []).
      { destruct (having p); [reflexivity|].
        discriminate Hinv. discriminate. }
      destruct (execute_list_plain d p rows Hg Hh Hrows) as (out & E' & _).
      congruence.
  - intros [Hrows|Hmore].
    + now destruct (execute_rejected d p Hrows).
    + now destruct (queries_raise p Hmore) as [_ ->].
Qed.

End QueryFacts.

Module ListingFacts.
Import Schema Sql Listing Props PlanFacts QueryFacts.

Section Args.

Variable parse_boolean : string -> option bool -> option bool.
Variable parse : string -> bool -> parse_result.

Lemma fold_blocks_ext (bs bs' : list (planner -> planner)) (p : planner) :
  Forall2 (fun b b' => forall q, b q = b' q) bs bs' ->
  fold_left (fun q b => b q) bs p = fold_left (fun q b => b q) bs' p.
Proof.
  intros H. revert p.
  induction H as [|b b' bs bs' Hb _ IH]; intros p; simpl; [reflexivity|].
  now rewrite Hb, IH.
Qed.

(** The plan reads no key but the filter keys: two query strings that
    agree on every key other than [count] give the same plan. *)
Lemma plan_ignores_count (a a' : args) :
  (forall k, k <> "count"%string -> arg k a' = arg k a) ->
  plan parse_boolean parse a' = plan parse_boolean parse a.
Proof.
  intros H. unfold plan. apply fold_blocks_ext. unfold blocks.
  repeat match goal with
         | |- Forall2 _ (_ :: _) (_ :: _) => constructor
         | |- Forall2 _ [] [] => constructor
         end; intros q;
    match goal with
    | |- ?b _ _ _ _ = _ => unfold b
    | |- ?b _ _ _ = _ => unfold b
    | |- ?b _ _ = _ => unfold b
    end; rewrite H by discriminate; reflexivity.
Qed.

End Args.

End ListingFacts.

(* ===================================================================== *)
(** ** What the planner reads and when it groups *)
(* ===================================================================== *)

Module GroupingFacts.
Import Schema Sql Listing Props ShapeDefs PlanFacts ListingFacts PlanProps.

Lemma groupby_join_once name t oc p :
  groupby (join_once name t oc p) = groupby p.
Proof. unfold join_once. now destruct (decide _). Qed.

Lemma groupby_outerjoin_once name t p :
  groupby (outerjoin_once name t p) = groupby p.
Proof. unfold outerjoin_once. now destruct (decide _). Qed.

Lemma having_join_once name t oc p :
  having (join_once name t oc p) = having p.
Proof. unfold join_once. now destruct (decide _). Qed.

Lemma having_outerjoin_once name t p :
  having (outerjoin_once name t p) = having p.
Proof. unfold outerjoin_once. now destruct (decide _). Qed.

Lemma groupby_append_each f xs p :
  groupby (append_each f xs p) = groupby p.
Proof. now destruct (append_each_spec f xs p) as (_ & -> & _). Qed.

Lemma having_append_each f xs p :
  having (append_each f xs p) = having p.
Proof. now destruct (append_each_spec f xs p) as (_ & _ & -> & _). Qed.

Lemma groupby_list_filter c v p : groupby (list_filter c v p) = groupby p.
Proof. now destruct (list_filter_frame c v p) as (-> & _). Qed.

Lemma having_list_filter c v p :
  having (list_filter c v p) = having p ++ list_having c (Some v).
Proof.
  unfold list_filter, list_having.
  destruct (Py.contains "[OR]" v) eqn:E.
  - now destruct (Py.split "," (Py.replace "[OR]" "" v)) as [|x [|y xs]];
      simpl; rewrite app_nil_r.
  - destruct (Py.split "," v) as [|x [|y xs]]; simpl;
      rewrite ?app_nil_r; reflexivity.
Qed.

(** Running blocks that each raise the flag or leave it. *)
Lemma fold_groupby (bs : list (planner -> planner)) (fs : list bool) p :
  Forall2 (fun b f => forall q, groupby (b q) = groupby q || f) bs fs ->
  groupby (fold_left (fun q b => b q) bs p) = groupby p || existsb Datatypes.id fs.
Proof.
  intros H. revert p.
  induction H as [|b f bs fs Hb _ IH]; intros p; simpl.
  - now rewrite orb_false_r.
  - rewrite IH, Hb. unfold Datatypes.id at 1. now rewrite orb_assoc.
Qed.

(** Running blocks that each append their HAVING clauses. *)
Lemma fold_having (bs : list (planner -> planner))
  (hs : list (list clause)) p :
  Forall2 (fun b h => forall q, having (b q) = having q ++ h) bs hs ->
  having (fold_left (fun q b => b q) bs p) = having p ++ concat hs.
Proof.
  intros H. revert p.
  induction H as [|b h bs hs Hb _ IH]; intros p; simpl.
  - now rewrite app_nil_r.
  - rewrite IH, Hb. now rewrite app_assoc.
Qed.

Ltac each_block :=
  repeat match goal with
         | |- Forall2 _ (_ :: _) (_ :: _) => constructor
         | |- Forall2 _ [] [] => constructor
         end; intros q;
  match goal with
  | |- context [?b _ _ _ q] => unfold b
  | |- context [?b _ _ q] => unfold b
  | |- context [?b _ q] => unfold b
  end.

Lemma plan_groupby parse_boolean parse a :
  groupby (plan parse_boolean parse a) = existsb (present a) grouping_keys.
Proof.
  unfold plan.
  rewrite (fold_groupby _
             [false; false; false; false; false; false; false; false; false;
              false; false; present a "not_sources"; present a "not_tags";
              present a "not_users"; present a "reference";
              present a "sources"; false; false; present a "tags"; false;
              false; present a "user"; present a "users"; false]).
  - simpl. unfold Datatypes.id.
    repeat match goal with
           | |- context [present a ?k] => destruct (present a k)
           end; reflexivity.
  - unfold blocks. each_block; unfold present;
      match goal with
      | |- context [arg ?k a] => destruct (arg k a)
      end;
      rewrite ?orb_false_r, ?orb_true_r; try reflexivity;
      unfold join_IntelSource, join_User, join_IntelReference,
        join_reference_association;
      rewrite ?groupby_append_each, ?groupby_list_filter; simpl;
      rewrite ?groupby_join_once, ?groupby_outerjoin_once; try reflexivity.
    all: repeat match goal with
           | |- context [(length ?l =? 1)%nat] => destruct (length l =? 1)%nat
           | |- context [(1 <? length ?l)%nat] => destruct (1 <? length l)%nat
           | |- context [match ?l with [] => _ | _ :: _ => _ end] =>
               destruct l
           end; reflexivity.
Qed.


Lemma plan_reads_filter_keys parse_boolean parse a a' :
  (forall k, In k filter_keys -> arg k a' = arg k a) ->
  plan parse_boolean parse a' = plan parse_boolean parse a.
Proof.
  intros H. unfold plan. apply fold_blocks_ext. unfold blocks.
  repeat match goal with
         | |- Forall2 _ (_ :: _) (_ :: _) => constructor
         | |- Forall2 _ [] [] => constructor
         end; intros q;
    match goal with
    | |- ?b _ _ _ _ = _ => unfold b
    | |- ?b _ _ _ = _ => unfold b
    | |- ?b _ _ = _ => unfold b
    end; rewrite H by (simpl; tauto); reflexivity.
Qed.

(** The HAVING clauses of a plan, read off the request. *)
Lemma plan_having parse_boolean parse a :
  having (plan parse_boolean parse a)
  = list_having IntelSource_value (arg "sources" a)
    ++ list_having Tag_value (arg "tags" a)
    ++ list_having User_username (arg "users" a).
Proof.
  unfold plan.
  rewrite (fold_having _
             [[]; []; []; []; []; []; []; []; []; []; []; []; []; []; [];
              list_having IntelSource_value (arg "sources" a); []; [];
              list_having Tag_value (arg "tags" a); []; []; [];
              list_having User_username (arg "users" a); []]).
  - simpl. now rewrite !app_nil_r.
  - unfold blocks. each_block;
      match goal with
      | |- context [arg ?k a] => destruct (arg k a)
      end;
      rewrite ?app_nil_r; try reflexivity;
      unfold join_IntelSource, join_User, join_IntelReference,
        join_reference_association;
      rewrite ?having_append_each, ?having_list_filter; simpl;
      rewrite ?having_join_once, ?having_outerjoin_once; try reflexivity.
    all: repeat match goal with
           | |- context [(length ?l =? 1)%nat] => destruct (length l =? 1)%nat
           | |- context [(1 <? length ?l)%nat] => destruct (1 <? length l)%nat
           | |- context [match ?l with [] => _ | _ :: _ => _ end] =>
               destruct l
           end; reflexivity.
Qed.

Lemma length_list_having c v : (length (list_having c v) <= 1)%nat.
Proof.
  unfold list_having. destruct v as [v|]; [|simpl; lia].
  destruct (Py.contains "[OR]" v); [simpl; lia|].
  destruct (Py.split "," v) as [|x [|y xs]]; simpl; lia.
Qed.

(** The number of HAVING clauses of a plan is the number of [AND] lists
    of the request. *)
Lemma plan_having_length parse_boolean parse a :
  length (having (plan parse_boolean parse a)) = and_lists a.
Proof. now rewrite plan_having. Qed.

End GroupingFacts.


Module ResponseFacts.
Import Schema Sql Listing Props PlanFacts JoinFacts ShapeDefs ShapeFacts
  QueryFacts ListingFacts PlanProps GroupingFacts.

Section Response.

Variable parse_boolean : string -> option bool -> option bool.
Variable parse : string -> bool -> parse_result.
Variable a : args.
Variable d : db.

#[local] Abbreviation the_plan := (plan parse_boolean parse a).

Lemma from_rows_plan :
  from_rows d (join the_plan) = None <-> conflict_free a = false.
Proof.
  pose proof (from_rows_accepted d (join the_plan)) as H.
  rewrite plan_accepted in H.
  destruct (conflict_free a), (from_rows d (join the_plan)); split; intros E;
    try reflexivity; try discriminate.
  - destruct H as [H _]. now specialize (H eq_refl).
  - destruct H as [_ H]. discriminate H. discriminate.
Qed.

Lemma execute_list_plan :
  session_execute d (list_query the_plan) = None <-> answered a = false.
Proof.
  rewrite (list_fails d the_plan
             (having_needs_groupby parse_boolean parse a)).
  rewrite from_rows_plan, plan_having_length. unfold answered.
  destruct (conflict_free a); simpl.
  - rewrite Nat.leb_gt. split; [intros [H|H]; [discriminate|lia]|].
    intros H. right. lia.
  - split; auto.
Qed.

(** The route fails exactly on the requests that ask for a table both
    ways or have two [AND] lists or more. *)
Lemma read_indicators_error :
  read_indicators parse_boolean parse a d = Server_error
  <-> answered a = false.
Proof.
  rewrite <- execute_list_plan. unfold read_indicators.
  pose proof (count_matches_list d the_plan
                (having_needs_groupby parse_boolean parse a)) as H.
  destruct (arg "count" a).
  - destruct (session_execute d (list_query the_plan)) as [out|];
      rewrite H; simpl; split; congruence.
  - destruct (session_execute d (list_query the_plan)); split; congruence.
Qed.

End Response.


End ResponseFacts.

(* ===================================================================== *)
(** ** Facts about the rows, the groups and the list they give *)
(* ===================================================================== *)

Module RowFacts.
Import Schema Sql Listing Props PlanFacts QueryFacts.

Lemma insert_by_perm {A K} (leb : K -> K -> bool) (key : A -> K) x l :
  Permutation (insert_by leb key x l) (x :: l).
Proof.
  induction l as [|y l IH]; simpl; [reflexivity|].
  destruct (leb (key x) (key y)); [reflexivity|].
  rewrite IH. apply perm_swap.
Qed.

Lemma sort_by_perm {A K} (leb : K -> K -> bool) (key : A -> K) l :
  Permutation (sort_by leb key l) l.
Proof.
  induction l as [|x l IH]; simpl; [reflexivity|].
  now rewrite insert_by_perm, IH.
Qed.

Lemma in_sort_by {A K} (leb : K -> K -> bool) (key : A -> K) l x :
  In x (sort_by leb key l) <-> In x l.
Proof.
  split; apply Permutation_in;
    [apply sort_by_perm | symmetry; apply sort_by_perm].
Qed.

Lemma NoDup_map_filter {A B} (f : A -> B) (P : A -> bool) l :
  NoDup (map f l) -> NoDup (map f (List.filter P l)).
Proof.
  induction l as [|x l IH]; simpl; [auto|].
  intros H. apply NoDup_cons in H as [Hx Hl].
  destruct (P x); simpl; [|auto].
  apply NoDup_cons. split; [|auto].
  intros Hin. apply Hx.
  apply list_elem_of_In, in_map_iff in Hin as (y & E & Hy).
  apply list_elem_of_In, in_map_iff. exists y. split; [assumption|].
  now apply filter_In in Hy.
Qed.

Lemma NoDup_map_wrap {A B C} (h : B -> C) (f : A -> B) l :
  NoDup (map (fun x => h (f x)) l) -> NoDup (map f l).
Proof.
  induction l as [|x l IH]; simpl; [intros _; apply NoDup_nil_2|].
  intros H. apply NoDup_cons in H as [Hx Hl].
  apply NoDup_cons. split; [|auto].
  intros Hin. apply Hx.
  apply list_elem_of_In, in_map_iff in Hin as (y & E & Hy).
  apply list_elem_of_In, in_map_iff. exists y. split; [congruence|assumption].
Qed.

(** *** Groups *)

Section Groups.

Variable key : env -> list value.
Variable rows : list env.

Lemma in_group_rows g :
  In g (group_rows key rows) <->
  exists e0, In e0 rows /\
             g = List.filter (fun e => bool_decide (key e = key e0)) rows.
Proof.
  unfold group_rows. rewrite in_map_iff. split.
  - intros (k & <- & Hk).
    apply list_elem_of_In, elem_of_remove_dups, list_elem_of_In,
      in_map_iff in Hk as (e0 & <- & He0).
    eauto.
  - intros (e0 & He0 & ->). exists (key e0). split; [reflexivity|].
    apply list_elem_of_In, elem_of_remove_dups, list_elem_of_In, in_map.
    assumption.
Qed.

Lemma group_first_key e0 :
  In e0 rows ->
  let g := List.filter (fun e => bool_decide (key e = key e0)) rows in
  In (group_first g) g /\ key (group_first g) = key e0.
Proof.
  intros He0 g.
  assert (Hin : In e0 g).
  { apply filter_In. split; [assumption|]. now apply bool_decide_eq_true_2. }
  destruct g as [|e g'] eqn:E; [destruct Hin|]. simpl.
  split; [now left|].
  assert (He : In e (e :: g')) by now left.
  rewrite <- E in He. apply filter_In in He as [_ He].
  now apply bool_decide_eq_true_1 in He.
Qed.

Lemma group_keys_NoDup :
  NoDup (map (fun g => key (group_first g)) (group_rows key rows)).
Proof.
  unfold group_rows. rewrite map_map.
  assert (E : map (fun k => key (group_first
                 (List.filter (fun e => bool_decide (key e = k)) rows)))
                (remove_dups (map key rows))
              = remove_dups (map key rows)).
  { rewrite <- (map_id (remove_dups (map key rows))) at 2.
    apply map_ext_in. intros k Hk.
    apply list_elem_of_In, elem_of_remove_dups, list_elem_of_In,
      in_map_iff in Hk as (e0 & <- & He0).
    now apply group_first_key. }
  rewrite E. apply NoDup_remove_dups.
Qed.

End Groups.

(** *** The list of a grouped plan *)

Section GroupedList.

Variable parse_boolean : string -> option bool -> option bool.
Variable parse : string -> bool -> parse_result.
Variable a : args.
Variable d : db.
Variable rows : list env.

#[local] Abbreviation the_plan := (plan parse_boolean parse a).
#[local] Abbreviation id_key :=
  (fun e : env => map (col_value e) [Indicator_id]).

Hypothesis no_count : arg "count" a = None.
Hypothesis grouped : groupby the_plan = true.
Hypothesis the_rows : from_rows d (join the_plan) = Some rows.
Hypothesis one_having : (length (having the_plan) <= 1)%nat.

Lemma read_indicators_grouped :
  read_indicators parse_boolean parse a d
  = Gzip_json
      (map (fun g => entry_of_env (group_first g))
         (sort_by key_leb (fun g => id_key (group_first g))
            (passed_groups d the_plan rows))).
Proof.
  unfold read_indicators.
  rewrite no_count, (list_query_shape _ one_having), grouped.
  simpl. rewrite the_rows. simpl. unfold fetchall.
  rewrite map_map. reflexivity.
Qed.

(** A row that stands on an indicator shows its id, type and value. *)
Lemma stands_on_id e i :
  stands_on d e i -> col_value e Indicator_id = VInt (ind_id i).
Proof. intros (_ & H & _). unfold col_value. simpl. now rewrite H. Qed.

Lemma find_unique_id (ts : list lookup_row) (t : lookup_row) :
  NoDup (map lk_id ts) -> In t ts ->
  List.find (fun t' => lk_id t' =? lk_id t) ts = Some t.
Proof.
  induction ts as [|t' ts IH]; simpl; [intros _ []|].
  intros Hnd Hin. apply NoDup_cons in Hnd as [Hn Hnd].
  destruct Hin as [->|Hin]; [now rewrite Z.eqb_refl|].
  destruct (Z.eqb_spec (lk_id t') (lk_id t)) as [E|_]; [|auto].
  exfalso. apply Hn. rewrite E. apply list_elem_of_In. now apply in_map.
Qed.

Hypothesis store_consistent : consistent d = true.

Lemma consistent_indicator_ids : NoDup (map ind_id (indicators d)).
Proof.
  unfold consistent in store_consistent.
  apply andb_prop in store_consistent as [H _].
  apply andb_prop in H as [H _]. now apply bool_decide_eq_true_1 in H.
Qed.

Lemma consistent_type_ids : NoDup (map lk_id (indicator_types d)).
Proof.
  unfold consistent in store_consistent.
  apply andb_prop in store_consistent as [H _].
  apply andb_prop in H as [_ H]. now apply bool_decide_eq_true_1 in H.
Qed.

Lemma consistent_type_exists i :
  In i (indicators d) ->
  exists t, In t (indicator_types d) /\ lk_id t = type_id i.
Proof.
  intros Hi. unfold consistent in store_consistent.
  apply andb_prop in store_consistent as [_ H].
  rewrite forallb_forall in H. specialize (H i Hi).
  apply existsb_exists in H as (t & Ht & E).
  exists t. split; [assumption|]. now apply Z.eqb_eq.
Qed.

Lemma same_id_same_indicator i i' :
  In i (indicators d) -> In i' (indicators d) -> ind_id i = ind_id i' ->
  i = i'.
Proof.
  pose proof consistent_indicator_ids as Hnd.
  induction (indicators d) as [|x l IH]; simpl; [intros []|].
  apply NoDup_cons in Hnd as [Hx Hnd].
  intros [->|Hi] [->|Hi'] E; auto.
  - exfalso. apply Hx. rewrite E. apply list_elem_of_In. now apply in_map.
  - exfalso. apply Hx. rewrite <- E. apply list_elem_of_In. now apply in_map.
Qed.

Lemma stands_on_entry e i : stands_on d e i -> entry_of_env e = entry_of d i.
Proof.
  intros (Hi & Hind & t & Ht & Eid & Hty).
  unfold entry_of_env, entry_of, col_value, type_value. simpl.
  rewrite Hind, Hty. simpl. rewrite <- Eid.
  now rewrite (find_unique_id _ t consistent_type_ids Ht).
Qed.

Hypothesis rows_stand : forall e, In e rows -> exists i, stands_on d e i.

#[local] Abbreviation kept := (kept_rows d the_plan rows).

Lemma kept_stand e : In e kept -> exists i, stands_on d e i.
Proof. intros H. apply filter_In in H as [H _]. auto. Qed.

Lemma group_of_row e0 i0 :
  stands_on d e0 i0 ->
  List.filter (fun e => bool_decide (id_key e = id_key e0)) kept
  = rows_of i0 kept.
Proof.
  intros H. unfold rows_of. simpl. now rewrite (stands_on_id e0 i0 H).
Qed.

Lemma in_rows_of e i l :
  In e (rows_of i l) <->
  In e l /\ col_value e Indicator_id = VInt (ind_id i).
Proof.
  unfold rows_of. rewrite filter_In. simpl. split; intros [H1 H2].
  - split; [assumption|]. apply bool_decide_eq_true_1 in H2. congruence.
  - split; [assumption|]. apply bool_decide_eq_true_2. congruence.
Qed.

Lemma rows_of_stand e i :
  In i (indicators d) -> In e (rows_of i kept) -> stands_on d e i.
Proof.
  intros Hi He. apply in_rows_of in He as [He Hid].
  destruct (kept_stand e He) as (i' & Hs).
  pose proof (stands_on_id e i' Hs) as Hid'.
  assert (E : i' = i).
  { apply same_id_same_indicator; [apply Hs|assumption|congruence]. }
  now subst.
Qed.

Lemma group_first_in (g : list env) : g <> [] -> In (group_first g) g.
Proof. destruct g; [congruence|]. intros _. now left. Qed.

(** What a grouped plan lists: one element for every indicator that has a
    row passing WHERE and whose rows passing WHERE pass HAVING together. *)
Lemma grouped_list_spec :
  exists data,
    read_indicators parse_boolean parse a d = Gzip_json data /\
    NoDup (map id data) /\
    forall x,
      In x data <->
      exists i, In i (indicators d) /\ x = entry_of d i /\
                rows_of i kept <> [] /\
                forallb (fun h => is_true3 (eval_having d (rows_of i kept) h))
                  (having the_plan) = true.
Proof.
  eexists. split; [apply read_indicators_grouped|]. split.
  - rewrite map_map, sort_by_perm.
    unfold passed_groups.
    apply (NoDup_map_filter
             (fun g => id (entry_of_env (group_first g)))).
    apply (NoDup_map_wrap (fun v => [v])).
    apply (group_keys_NoDup id_key kept).
  - intros x. rewrite in_map_iff. split.
    + intros (g & <- & Hg). apply in_sort_by in Hg.
      unfold passed_groups in Hg. apply filter_In in Hg as [Hg Hhav].
      apply in_group_rows in Hg as (e0 & He0 & ->).
      destruct (kept_stand e0 He0) as (i0 & Hs0).
      rewrite (group_of_row e0 i0 Hs0) in *.
      assert (Hin0 : In e0 (rows_of i0 kept)).
      { apply in_rows_of. split; [assumption|]. now apply stands_on_id. }
      assert (Hne : rows_of i0 kept <> []) by (intros E; now rewrite E in Hin0).
      exists i0. split; [apply Hs0|]. split; [|auto].
      apply stands_on_entry, rows_of_stand;
        [apply Hs0 | now apply group_first_in].
    + intros (i & Hi & -> & Hne & Hhav).
      exists (rows_of i kept). split.
      * apply stands_on_entry, rows_of_stand;
          [assumption | now apply group_first_in].
      * apply in_sort_by. unfold passed_groups. apply filter_In.
        split; [|assumption].
        apply in_group_rows.
        pose proof (group_first_in _ Hne) as Hin.
        exists (group_first (rows_of i kept)). split.
        -- now apply in_rows_of in Hin.
        -- symmetry. apply group_of_row. now apply rows_of_stand.
Qed.

End GroupedList.

End RowFacts.

Module JoinRows.
Import Schema Sql Listing Props RowDefs RowFacts.

Lemma from_rows_join d l r oc isouter c envs :
  from_rows d l = Some envs ->
  bool_decide (r ∈ names l) = false ->
  match oc with Some c => Some c | None => infer_onclause (names l) r end
  = Some c ->
  from_rows d (Join l r oc isouter)
  = Some (flat_map (joined_with d r c isouter) envs).
Proof.
  intros Hl Hr Hc. simpl. rewrite Hl.
  apply bool_decide_eq_false_1 in Hr.
  destruct (decide (r ∈ names l)); [contradiction|].
  now rewrite Hc.
Qed.

Lemma in_joined_with d r c isouter e e' :
  In e' (joined_with d r c isouter e) <->
  (exists t, In t (table_rows d r) /\
             eval d ((r, Some t) :: e) c = Some true /\
             e' = (r, Some t) :: e) \/
  (isouter = true /\
   (forall t, In t (table_rows d r) ->
              eval d ((r, Some t) :: e) c <> Some true) /\
   e' = (r, None) :: e).
Proof.
  unfold joined_with.
  set (f := fun t => is_true3 (eval d ((r, Some t) :: e) c)).
  assert (Hf : forall t, f t = true <-> eval d ((r, Some t) :: e) c = Some true).
  { intros t. unfold f. destruct (eval d ((r, Some t) :: e) c) as [[|]|];
      simpl; split; congruence. }
  destruct (List.filter f (table_rows d r)) as [|t0 ts] eqn:E.
  - assert (Hnone : forall t, In t (table_rows d r) ->
                              eval d ((r, Some t) :: e) c <> Some true).
    { intros t Ht H. apply Hf in H.
      assert (Hin : In t (List.filter f (table_rows d r)))
        by (apply filter_In; auto).
      now rewrite E in Hin. }
    split.
    + intros H. right. destruct isouter; [|destruct H].
      destruct H as [<-|[]]. auto.
    + intros [(t & Ht & H & _)|(-> & _ & ->)]; [|now left].
      now apply Hnone in H.
  - rewrite <- E, in_map_iff. split.
    + intros (t & <- & Ht). apply filter_In in Ht as [Ht H].
      left. exists t. rewrite <- Hf. auto.
    + intros [(t & Ht & H & ->)|(_ & Hnone & _)].
      * exists t. split; [reflexivity|]. apply filter_In. rewrite Hf. auto.
      * exfalso. apply (Hnone t0).
        -- assert (Hin : In t0 (List.filter f (table_rows d r)))
             by (rewrite E; now left).
           now apply filter_In in Hin.
        -- apply Hf.
           assert (Hin : In t0 (List.filter f (table_rows d r)))
             by (rewrite E; now left).
           now apply filter_In in Hin.
Qed.

Section Rows.

Variable d : db.

Lemma base_rows :
  exists rows,
    from_rows d (join initial) = Some rows /\
    forall e,
      In e rows <->
      exists i t, In i (indicators d) /\ In t (indicator_types d) /\
                  lk_id t = type_id i /\ e = base_env i t.
Proof.
  eexists. split.
  - unfold initial, join.
    apply (from_rows_join d (From_table Indicator) IndicatorType);
      reflexivity.
  - intros e. simpl. rewrite in_flat_map. split.
    + intros (e0 & He0 & He).
      apply in_map_iff in He0 as (r & <- & Hr).
      apply in_map_iff in Hr as (i & <- & Hi).
      apply in_joined_with in He as [(t & Ht & Hon & ->)|(? & _)];
        [|discriminate].
      apply in_map_iff in Ht as (ty & <- & Hty).
      exists i, ty. repeat split; auto.
      simpl in Hon. injection Hon as Hon. apply Z.eqb_eq in Hon. auto.
    + intros (i & t & Hi & Ht & E & ->).
      exists [(Indicator, Some (indicator_tuple i))]. split.
      * apply in_map_iff. eexists. split; [reflexivity|].
        now apply in_map.
      * apply in_joined_with. left. exists (lookup_tuple t).
        split; [now apply in_map|]. split; [|reflexivity].
        simpl. now rewrite E, Z.eqb_refl.
Qed.

End Rows.

End JoinRows.

Module TagFacts.
Import Schema Sql Listing Props PlanFacts ShapeDefs ShapeFacts RowDefs
  RowFacts JoinRows.

(** *** The two list modes on a pair of values *)

Lemma marker_absent_pair x y :
  Py.contains "[OR]" x = false -> Py.contains "[OR]" y = false ->
  Py.contains "[OR]" (x +:+ String "," y) = false.
Proof.
  intros Hx Hy.
  rewrite (PyFacts.contains_app_sep "[OR]" "," x y);
    [now rewrite Hx, Hy | discriminate | reflexivity].
Qed.

Lemma list_filter_and c x y p :
  Py.contains "," x = false -> Py.contains "," y = false ->
  Py.contains "[OR]" x = false -> Py.contains "[OR]" y = false ->
  list_filter c (x +:+ "," +:+ y) p
  = append_having (And_ [Sum_gt_0 (Equals c x); Sum_gt_0 (Equals c y)]) p.
Proof.
  intros Hx Hy Hmx Hmy. unfold list_filter.
  change (x +:+ "," +:+ y) with (x +:+ String "," y).
  rewrite (marker_absent_pair x y Hmx Hmy).
  now rewrite (PyFacts.split_pair "," x y Hx Hy).
Qed.

Lemma list_filter_or c x y p :
  Py.contains "," x = false -> Py.contains "," y = false ->
  Py.contains "[OR]" x = false -> Py.contains "[OR]" y = false ->
  list_filter c ("[OR]" +:+ x +:+ "," +:+ y) p
  = append_filter (Or_ [Equals c x; Equals c y]) p.
Proof.
  intros Hx Hy Hmx Hmy. unfold list_filter.
  change ("[OR]" +:+ x +:+ "," +:+ y)
    with ("[OR]" +:+ (x +:+ String "," y)).
  rewrite PyFacts.contains_marker_front, PyFacts.replace_marker_front.
  rewrite (PyFacts.replace_absent _ _ _ (marker_absent_pair x y Hmx Hmy)).
  now rewrite (PyFacts.split_pair "," x y Hx Hy).
Qed.

(** *** Clauses on rows *)

Lemma existsb_map {A B} (f : B -> bool) (g : A -> B) l :
  existsb f (map g l) = existsb (fun x => f (g x)) l.
Proof. induction l; simpl; congruence. Qed.

Lemma existsb_ext {A} (f g : A -> bool) l :
  (forall x, f x = g x) -> existsb f l = existsb g l.
Proof. intros H. induction l; simpl; congruence. Qed.

(** [Indicator.tags.any(value=x)] on a row of indicator [i]. *)
Lemma eval_any_tag d e i x :
  env_lookup Indicator e = Some (Some (indicator_tuple i)) ->
  eval d e (Any rel_tags (Some (Equals Tag_value x))) = Some (has_tag d i x).
Proof.
  intros Hi. simpl. f_equal. unfold has_tag.
  rewrite existsb_map. apply existsb_ext. intros a0.
  rewrite existsb_map. apply existsb_ext. intros t.
  unfold col_value. simpl. rewrite Hi. simpl.
  destruct (a_indicator_id a0 =? ind_id i), (a_other_id a0 =? lk_id t);
    simpl; try reflexivity.
  now destruct (String.eqb (lk_value t) x).
Qed.

Lemma total_positive (bs : list bool) :
  0 <= fold_right (fun (b : bool) acc => (if b then 1 else 0) + acc) 0 bs /\
  (0 < fold_right (fun (b : bool) acc => (if b then 1 else 0) + acc) 0 bs
   <-> In true bs).
Proof.
  induction bs as [|[|] bs [IH1 IH2]]; cbn [fold_right In].
  - split; [lia|]. split; [lia|intros []].
  - split; [lia|]. split; [auto|lia].
  - split; [lia|]. rewrite Z.add_0_l, IH2. split; [auto|].
    intros [?|?]; [discriminate|assumption].
Qed.

Lemma in_omap_id {A} (x : A) (vals : list (option A)) :
  In x (omap Datatypes.id vals) <-> In (Some x) vals.
Proof.
  rewrite <- !list_elem_of_In, list_elem_of_omap. split.
  - intros ([y|] & Hy & E); simpl in E; [|discriminate]. congruence.
  - intros H. exists (Some x). auto.
Qed.

(** SUM over a group is positive exactly when a row of the group
    satisfies the clause. *)
Lemma sum_gt_0_true d g y :
  is_true3 (eval_having d g (Sum_gt_0 y)) = true <->
  exists e, In e g /\ eval d e y = Some true.
Proof.
  cbn [eval_having]. unfold sql_sum.
  set (bs := omap Datatypes.id (map (fun e => eval d e y) g)).
  assert (Hbs : In true bs <-> exists e, In e g /\ eval d e y = Some true).
  { unfold bs. rewrite in_omap_id, in_map_iff.
    split; intros (e & H1 & H2); eauto. }
  rewrite <- Hbs. destruct (total_positive bs) as [_ H]. rewrite <- H.
  destruct bs as [|b bs']; [simpl; split; [discriminate|lia]|].
  set (n := fold_right _ 0 (b :: bs')). simpl.
  destruct (Z.ltb_spec 0 n); split; auto; try discriminate. lia.
Qed.

Lemma and3_true x y :
  is_true3 (and3 x y) = true <-> x = Some true /\ y = Some true.
Proof. destruct x as [[|]|], y as [[|]|]; simpl; intuition congruence. Qed.

Lemma or3_true x y :
  is_true3 (or3 x y) = true <-> x = Some true \/ y = Some true.
Proof. destruct x as [[|]|], y as [[|]|]; simpl; intuition congruence. Qed.

Lemma is_true3_true x : is_true3 x = true <-> x = Some true.
Proof. destruct x as [[|]|]; simpl; intuition congruence. Qed.

(** *** The rows of the tags join *)

Section Rows.

Variable d : db.

Lemma tags_rows :
  exists rows,
    from_rows d tags_join = Some rows /\
    forall e,
      In e rows <->
      exists i t l tg,
        In i (indicators d) /\ In t (indicator_types d) /\
        lk_id t = type_id i /\
        In l (tag_assoc d) /\ a_indicator_id l = ind_id i /\
        In tg (tags d) /\ a_other_id l = lk_id tg /\
        e = tag_env i t l tg.
Proof.
  destruct (base_rows d) as (rows0 & Hrows0 & Hin0).
  eexists. split.
  - unfold tags_join.
    eapply from_rows_join;
      [eapply from_rows_join; [exact Hrows0|reflexivity|reflexivity]
      |reflexivity|reflexivity].
  - intros e. rewrite in_flat_map. split.
    + intros (e1 & He1 & He).
      apply in_flat_map in He1 as (e0 & He0 & He1).
      apply Hin0 in He0 as (i & t & Hi & Ht & E & ->).
      apply in_joined_with in He1 as [(l' & Hl & Hon & ->)|(? & _)];
        [|discriminate].
      apply in_map_iff in Hl as (l & <- & Hl).
      apply in_joined_with in He as [(tg' & Htg & Hon' & ->)|(? & _)];
        [|discriminate].
      apply in_map_iff in Htg as (tg & <- & Htg).
      exists i, t, l, tg. repeat split; auto.
      * simpl in Hon. injection Hon as Hon. now apply Z.eqb_eq in Hon.
      * simpl in Hon'. injection Hon' as Hon'. now apply Z.eqb_eq in Hon'.
    + intros (i & t & l & tg & Hi & Ht & E & Hl & El & Htg & Etg & ->).
      exists ((indicator_tag_association, Some (assoc_tuple f_tag_id l))
              :: base_env i t).
      split.
      * apply in_flat_map. exists (base_env i t). split.
        -- apply Hin0. eauto 10.
        -- apply in_joined_with. left. eexists.
           split; [apply in_map; exact Hl|]. split; [|reflexivity].
           simpl. now rewrite El, Z.eqb_refl.
      * apply in_joined_with. left. eexists.
        split; [apply in_map; exact Htg|]. split; [|reflexivity].
        simpl. now rewrite Etg, Z.eqb_refl.
Qed.

Lemma not_tags_rows :
  exists rows,
    from_rows d not_tags_join = Some rows /\
    (forall e, In e rows ->
               exists i t r,
                 In i (indicators d) /\ In t (indicator_types d) /\
                 lk_id t = type_id i /\
                 e = (indicator_tag_association, r) :: base_env i t) /\
    (forall i t, In i (indicators d) -> In t (indicator_types d) ->
                 lk_id t = type_id i ->
                 exists r, In ((indicator_tag_association, r) :: base_env i t)
                              rows).
Proof.
  destruct (base_rows d) as (rows0 & Hrows0 & Hin0).
  eexists. split; [|split].
  - unfold not_tags_join.
    eapply from_rows_join; [exact Hrows0|reflexivity|reflexivity].
  - intros e He. apply in_flat_map in He as (e0 & He0 & He).
    apply Hin0 in He0 as (i & t & Hi & Ht & E & ->).
    apply in_joined_with in He as [(l & _ & _ & ->)|(_ & _ & ->)];
      eauto 10.
  - intros i t Hi Ht E.
    assert (H0 : In (base_env i t) rows0) by (apply Hin0; eauto 10).
    destruct (joined_with d indicator_tag_association
                (On (Column indicator_tag_association f_indicator_id)
                    (Column Indicator f_id)) true (base_env i t))
      as [|e es] eqn:Ej.
    + exfalso. unfold joined_with in Ej.
      destruct (List.filter _ _); discriminate.
    + assert (He : In e (joined_with d indicator_tag_association
                (On (Column indicator_tag_association f_indicator_id)
                    (Column Indicator f_id)) true (base_env i t)))
        by (rewrite Ej; now left).
      pose proof He as He'.
      apply in_joined_with in He' as [(l & _ & _ & ->)|(_ & _ & ->)];
        eexists; apply in_flat_map; eauto.
Qed.

End Rows.

(** With one key in the query string, only its block acts. *)
Lemma tags_only_plan parse_boolean parse v :
  plan parse_boolean parse [("tags", v)]%string
  = block_tags [("tags", v)]%string initial.
Proof. reflexivity. Qed.

Lemma not_tags_only_plan parse_boolean parse v :
  plan parse_boolean parse [("not_tags", v)]%string
  = block_not_tags [("not_tags", v)]%string initial.
Proof. reflexivity. Qed.

End TagFacts.

(* ===================================================================== *)
(** ** The properties of the listing route *)
(* ===================================================================== *)

Module ListingClaims.
Import Schema Sql Listing Props PlanFacts JoinFacts ShapeDefs ShapeFacts
  QueryFacts ListingFacts PlanProps GroupingFacts ResponseFacts.

(** *** Count parity *)

(** C1.  Count parity holds wherever the route answers, and the route
    does not answer every combination of its keys.  For a query string
    [a] without [count] and a query string [a'] that adds [count] to it
    (and agrees with it on every other key): when the list request is
    answered, the count response carries the length of its list; the two
    requests raise together, exactly on the requests that ask for a
    table both ways and on those with an [AND] list under two or more of
    [sources], [tags] and [users], whose HAVING clauses the route hands
    to a method that takes one.  When the count statement is built with
    grouping on, it is the grouped statement selecting the indicator id,
    wrapped as the subquery [count] whose rows are counted; otherwise it
    counts over the join directly. *)
Theorem count_parity
  (parse_boolean : string -> option bool -> option bool)
  (parse : string -> bool -> parse_result) (a a' : args) (d : db) :
  arg "count" a = None ->
  arg "count" a' <> None ->
  (forall k, k <> "count"%string -> arg k a' = arg k a) ->
  match read_indicators parse_boolean parse a d with
  | Gzip_json data =>
      read_indicators parse_boolean parse a' d
      = Count_json (VInt (Z.of_nat (length data)))
  | Server_error => read_indicators parse_boolean parse a' d = Server_error
  | Count_json _ => False
  end /\
  (read_indicators parse_boolean parse a d = Server_error
   <-> answered a = false) /\
  count_query (plan parse_boolean parse a') =
  (if (and_lists a <=? 1)%nat
   then
     Some
       (if groupby (plan parse_boolean parse a')
        then sel_select_from (db_select [Count_star])
               (sel_alias (grouped_ids (plan parse_boolean parse a')) "count")
        else Mk_select [Count_star]
               (From_join (join (plan parse_boolean parse a')))
               (filters (plan parse_boolean parse a')) [] [] [])
   else None).
Proof.
  intros Ha Ha' Hsame.
  pose proof (plan_ignores_count parse_boolean parse a a' Hsame) as Hplan.
  pose proof (having_needs_groupby parse_boolean parse a) as Hinv.
  split; [|split].
  - unfold read_indicators. rewrite Ha, Hplan.
    destruct (arg "count" a') as [c|]; [|congruence].
    pose proof (count_matches_list d _ Hinv) as H.
    destruct (session_execute d (list_query (plan parse_boolean parse a)))
      as [out|]; rewrite H; simpl; [|reflexivity].
    unfold fetchall. now rewrite length_map.
  - apply read_indicators_error.
  - rewrite Hplan, <- (plan_having_length parse_boolean parse a).
    destruct (Nat.leb_spec (length (having (plan parse_boolean parse a))) 1)
      as [Hone|Hmore].
    + rewrite (count_query_shape _ Hone).
      destruct (groupby (plan parse_boolean parse a)) eqn:Hg; [reflexivity|].
      destruct (having (plan parse_boolean parse a)) eqn:Hh; [reflexivity|].
      discriminate Hinv. discriminate.
    + apply queries_raise. lia.
Qed.

(** [sources=A,B&tags=a,b]: indicator 1 of the sample store has both
    sources and both tags, and the route raises, with [count] and
    without. *)
Lemma count_parity_witness :
  read_indicators Sample.parse_boolean Sample.parse
    [("sources", "A,B"); ("tags", "a,b")]%string Sample.store
  = Server_error /\
  read_indicators Sample.parse_boolean Sample.parse
    [("sources", "A,B"); ("tags", "a,b"); ("count", "")]%string Sample.store
  = Server_error.
Proof.
  pose proof
    (count_parity Sample.parse_boolean Sample.parse
       [("sources", "A,B"); ("tags", "a,b")]%string
       [("sources", "A,B"); ("tags", "a,b"); ("count", "")]%string
       Sample.store) as H.
  destruct H as (H & Herr & _).
  - reflexivity.
  - discriminate.
  - intros k Hk. unfold arg. cbn [List.find fst snd].
    destruct (String.eqb "sources" k); [reflexivity|].
    destruct (String.eqb "tags" k); [reflexivity|].
    destruct (String.eqb_spec "count" k); [congruence|reflexivity].
  - assert (E : read_indicators Sample.parse_boolean Sample.parse
                  [("sources", "A,B"); ("tags", "a,b")]%string Sample.store
                = Server_error) by (apply Herr; reflexivity).
    rewrite E in H. split; [exact E|exact H].
Defined.

(** *** Join reuse *)

(** The FROM expression of every plan holds no join of one kind twice: a
    table is inner-joined at most once and outer-joined at most once.
    With [tags] the tag association is there as an inner join, with
    [not_tags] as an outer join. *)
Lemma joined_once_per_kind
  (parse_boolean : string -> option bool -> option bool)
  (parse : string -> bool -> parse_result) (a : args) :
  let j := join (plan parse_boolean parse a) in
  NoDup (joined j) /\
  (if present a "tags"
   then In (false, indicator_tag_association) (joined j) else True) /\
  (if present a "not_tags"
   then In (true, indicator_tag_association) (joined j) else True).
Proof.
  cbv zeta. split; [apply plan_joins_recorded|].
  pose proof (plan_checked parse_boolean parse a) as H.
  unfold shape_checks in H.
  apply andb_prop in H as [H Houter]. apply andb_prop in H as [H Htags].
  clear H. split.
  - destruct (present a "tags"); [|exact I]. simpl in Htags.
    apply andb_prop in Htags as [Htags _].
    now apply bool_decide_eq_true_1, list_elem_of_In in Htags.
  - destruct (present a "not_tags"); [|exact I].
    rewrite orb_true_r in Houter. simpl in Houter.
    now apply bool_decide_eq_true_1, list_elem_of_In in Houter.
Qed.

Lemma named_both_ways {A B} (l : list (A * B)) x y t :
  x <> y -> In (x, t) l -> In (y, t) l -> ~ NoDup (map snd l).
Proof.
  intros Hxy Hx Hy Hnd.
  induction l as [|[z u] l IH]; [destruct Hx|].
  simpl in Hnd. apply NoDup_cons in Hnd as [Hn Hnd].
  destruct Hx as [Ex|Hx], Hy as [Ey|Hy].
  - congruence.
  - injection Ex as -> ->. apply Hn, list_elem_of_In.
    exact (in_map snd l (y, t) Hy).
  - injection Ey as -> ->. apply Hn, list_elem_of_In.
    exact (in_map snd l (x, t) Hx).
  - auto.
Qed.

(** C3.  Join reuse misses the tag association.  The [tags] block looks
    the association up among the inner joins and the [not_tags] block
    among the outer joins, so a request with both keys joins it twice,
    once each way.  The store rejects a FROM expression that names a
    table twice, and the route raises, with [count] and without. *)
Theorem tag_association_joined_twice
  (parse_boolean : string -> option bool -> option bool)
  (parse : string -> bool -> parse_result) (a : args) (d : db) :
  present a "tags" = true ->
  present a "not_tags" = true ->
  let j := join (plan parse_boolean parse a) in
  In (true, indicator_tag_association) (joined j) /\
  In (false, indicator_tag_association) (joined j) /\
  ~ NoDup (names j) /\
  from_rows d j = None /\
  read_indicators parse_boolean parse a d = Server_error.
Proof.
  intros Htags Hnot. cbv zeta.
  destruct (joined_once_per_kind parse_boolean parse a) as (_ & Hin & Hout).
  rewrite Htags in Hin. rewrite Hnot in Hout.
  assert (Hfree : conflict_free a = false).
  { unfold conflict_free, conflict_free_keys. rewrite Htags, Hnot.
    rewrite orb_true_r. simpl. apply andb_false_r. }
  split; [assumption|]. split; [assumption|]. split; [|split].
  - unfold names.
    now apply (named_both_ways _ true false indicator_tag_association).
  - now apply from_rows_plan.
  - apply read_indicators_error. unfold answered. now rewrite Hfree.
Qed.

(** [tags=a&not_tags=b] on the sample store: indicator 2 has tag [a] and
    lacks tag [b]; the FROM expression holds the association twice and
    the route raises. *)
Lemma tag_association_joined_twice_witness :
  joined (join (plan Sample.parse_boolean Sample.parse
                  [("tags", "a"); ("not_tags", "b")]%string))
  = [(false, Indicator); (false, IndicatorType);
     (true, indicator_tag_association);
     (false, indicator_tag_association); (false, Tag)] /\
  read_indicators Sample.parse_boolean Sample.parse
    [("tags", "a"); ("not_tags", "b")]%string Sample.store
  = Server_error /\
  read_indicators Sample.parse_boolean Sample.parse
    [("tags", "a"); ("not_tags", "b"); ("count", "")]%string Sample.store
  = Server_error.
Proof.
  split; [reflexivity|]. split.
  - now destruct (tag_association_joined_twice Sample.parse_boolean
                    Sample.parse [("tags", "a"); ("not_tags", "b")]%string
                    Sample.store eq_refl eq_refl) as (_ & _ & _ & _ & H).
  - now destruct (tag_association_joined_twice Sample.parse_boolean
                    Sample.parse
                    [("tags", "a"); ("not_tags", "b"); ("count", "")]%string
                    Sample.store eq_refl eq_refl) as (_ & _ & _ & _ & H).
Defined.

(** *** Dates that cannot be parsed *)

Lemma nth_block_filters_kept parse_boolean parse a n b x :
  nth_error (blocks parse_boolean parse a) n = Some b ->
  (forall q, In x (filters (b q))) ->
  In x (filters (plan parse_boolean parse a)).
Proof.
  intros Hn Hin. apply nth_error_split in Hn as (pre & post & E & _).
  now apply (block_filters_kept parse_boolean parse a pre post b).
Qed.





(** *** Exclusion by source and by user *)





(** *** The types filter *)

Lemma split_prefix sep p w :
  Py.contains (String sep "") p = false ->
  Py.split sep (p +:+ w)
  = match Py.split sep w with
    | t :: ts => (p +:+ t) :: ts
    | [] => []
    end.
Proof.
  induction p as [|c p IH]; intros Hp.
  - change (""%string +:+ w) with w.
    destruct (Py.split sep w) eqn:E; [|reflexivity].
    now apply PyFacts.split_not_nil in E.
  - rewrite PyFacts.contains_char_cons in Hp.
    apply orb_false_elim in Hp as [Hc Hp].
    change (String c p +:+ w) with (String c (p +:+ w)).
    cbn [Py.split]. rewrite Ascii.eqb_sym, Hc, (IH Hp).
    destruct (Py.split sep w) eqn:E; [|reflexivity].
    now apply PyFacts.split_not_nil in E.
Qed.

(** C10.  With [types] present with value [v], the block appends one
    clause: the equality with [v] when [v] holds no comma, the
    disjunction of the equalities with the comma-separated pieces of [v]
    otherwise; the clause is among the filters of the finished plan.
    Nothing is stripped from [v]: the pieces joined by commas give [v]
    back, and when [v] starts with the marker [[OR]] the marker stays at
    the front of the first value compared. *)
Theorem types_keeps_marker
  (parse_boolean : string -> option bool -> option bool)
  (parse : string -> bool -> parse_result) (a : args) (v : string) :
  arg "types" a = Some v ->
  (forall p, block_types a p = append_filter (types_clause v) p) /\
  In (types_clause v) (filters (plan parse_boolean parse a)) /\
  String.concat "," (Py.split "," v) = v /\
  (forall w, v = ("[OR]" +:+ w)%string ->
             exists t ts,
               Py.split "," w = t :: ts /\
               Py.split "," v = ("[OR]" +:+ t)%string :: ts).
Proof.
  intros Ha.
  assert (Hblock : forall p,
             block_types a p = append_filter (types_clause v) p).
  { intros p. unfold block_types, types_clause. rewrite Ha. cbv zeta.
    pose proof (PyFacts.split_not_nil "," v) as Hnil.
    destruct (Py.split "," v) as [|t [|t' ts]]; [congruence| |];
      reflexivity. }
  split; [exact Hblock|]. split; [|split].
  - apply (nth_block_filters_kept parse_boolean parse a 20 (block_types a));
      [reflexivity|].
    intros q. rewrite Hblock. simpl. apply in_or_app. right. now left.
  - apply PyFacts.concat_split.
  - intros w ->. rewrite (split_prefix "," "[OR]" w) by reflexivity.
    pose proof (PyFacts.split_not_nil "," w) as Hnil.
    destruct (Py.split "," w) as [|t ts]; [congruence|]. eauto.
Qed.

(** [types=[OR]A,B]: the plan compares the type with the two values
    [[OR]A] and [B]. *)
Lemma types_keeps_marker_witness :
  In (Or_ [Equals IndicatorType_value "[OR]A";
           Equals IndicatorType_value "B"])
     (filters (plan Sample.parse_boolean Sample.parse
                 [("types", "[OR]A,B")]%string)).
Proof.
  apply (types_keeps_marker Sample.parse_boolean Sample.parse
           [("types", "[OR]A,B")]%string "[OR]A,B"%string).
  reflexivity.
Defined.

(** For comparison: the tags block strips the marker and compares with
    [A] and [B]. *)
Example tags_strips_marker :
  filters (plan Sample.parse_boolean Sample.parse
             [("tags", "[OR]A,B")]%string)
  = [Or_ [Equals Tag_value "A"; Equals Tag_value "B"]].
Proof. reflexivity. Qed.

End ListingClaims.

(* ===================================================================== *)
(** ** What the tags filters return *)
(* ===================================================================== *)

Module TagClaims.
Import Schema Sql Listing Props PlanFacts ShapeDefs ShapeFacts QueryFacts
  RowDefs RowFacts JoinRows TagFacts.

Section Tags.

Variable parse_boolean : string -> option bool -> option bool.
Variable parse : string -> bool -> parse_result.
Variable d : db.
Hypothesis store_consistent : consistent d = true.

Lemma tag_env_stands i t l tg :
  In i (indicators d) -> In t (indicator_types d) -> lk_id t = type_id i ->
  stands_on d (tag_env i t l tg) i.
Proof. intros Hi Ht E. split; [assumption|]. split; [reflexivity|]. eauto. Qed.

(** Among the rows of the tags join, indicator [i] has a row with tag
    value [x] exactly when it has that tag. *)
Lemma tag_row_exists rows i x :
  (forall e,
      In e rows <->
      exists i t l tg,
        In i (indicators d) /\ In t (indicator_types d) /\
        lk_id t = type_id i /\
        In l (tag_assoc d) /\ a_indicator_id l = ind_id i /\
        In tg (tags d) /\ a_other_id l = lk_id tg /\
        e = tag_env i t l tg) ->
  In i (indicators d) ->
  (exists e, In e (rows_of i rows) /\
             eval d e (Equals Tag_value x) = Some true)
  <-> has_tag d i x = true.
Proof.
  intros Hrows Hi. unfold has_tag. rewrite existsb_exists. split.
  - intros (e & He & Hx).
    apply filter_In in He as [He Hid]. apply bool_decide_eq_true_1 in Hid.
    apply Hrows in He as (i' & t & l & tg & _ & _ & _ & Hl & El & Htg & Etg & ->).
    simpl in Hid. injection Hid as Hid. simpl in Hx. injection Hx as Hx.
    exists l. split; [assumption|]. apply existsb_exists.
    exists tg. split; [assumption|].
    rewrite El, Hid, Etg, !Z.eqb_refl. exact Hx.
  - intros (l & Hl & H). apply existsb_exists in H as (tg & Htg & H).
    apply andb_prop in H as [H Hx]. apply andb_prop in H as [El Etg].
    apply Z.eqb_eq in El, Etg.
    destruct (consistent_type_exists d store_consistent i Hi) as (t & Ht & E).
    exists (tag_env i t l tg). split.
    + apply filter_In. split.
      * apply Hrows. exists i, t, l, tg. repeat split; auto.
      * now apply bool_decide_eq_true_2.
    + simpl. now rewrite Hx.
Qed.

End Tags.

Lemma eval_having_and2 d g A B :
  eval_having d g (And_ [A; B])
  = and3 (eval_having d g A) (and3 (eval_having d g B) (Some true)).
Proof. reflexivity. Qed.

Lemma eval_or2 d e A B :
  eval d e (Or_ [A; B]) = or3 (eval d e A) (or3 (eval d e B) (Some false)).
Proof. reflexivity. Qed.

(** C2.  On a store with consistent keys, for two tag values [x] and [y]
    that hold neither a comma nor the marker:
    - [tags=x,y] compiles to no WHERE clause, grouping, and one HAVING
      clause, the conjunction of "the sum of the rows of the group whose
      tag value is the value is positive" for [x] and for [y]; the list
      holds each indicator at most once, and holds exactly the indicators
      that have tag [x] and tag [y];
    - [tags=[OR]x,y] compiles to one WHERE clause, the disjunction of the
      equalities of the tag value with [x] and with [y], grouping, and no
      HAVING clause; the list holds each indicator at most once, and
      holds exactly the indicators that have tag [x] or tag [y]. *)
Theorem tags_and_or
  (parse_boolean : string -> option bool -> option bool)
  (parse : string -> bool -> parse_result) (d : db) (x y : string) :
  consistent d = true ->
  Py.contains "," x = false -> Py.contains "," y = false ->
  Py.contains "[OR]" x = false -> Py.contains "[OR]" y = false ->
  (let a := [("tags", x +:+ "," +:+ y)]%string in
   filters (plan parse_boolean parse a) = [] /\
   groupby (plan parse_boolean parse a) = true /\
   having (plan parse_boolean parse a)
   = [And_ [Sum_gt_0 (Equals Tag_value x); Sum_gt_0 (Equals Tag_value y)]] /\
   exists data,
     read_indicators parse_boolean parse a d = Gzip_json data /\
     NoDup (map id data) /\
     forall e,
       In e data <->
       exists i, In i (indicators d) /\ e = entry_of d i /\
                 has_tag d i x = true /\ has_tag d i y = true) /\
  (let a := [("tags", "[OR]" +:+ x +:+ "," +:+ y)]%string in
   filters (plan parse_boolean parse a)
   = [Or_ [Equals Tag_value x; Equals Tag_value y]] /\
   groupby (plan parse_boolean parse a) = true /\
   having (plan parse_boolean parse a) = [] /\
   exists data,
     read_indicators parse_boolean parse a d = Gzip_json data /\
     NoDup (map id data) /\
     forall e,
       In e data <->
       exists i, In i (indicators d) /\ e = entry_of d i /\
                 (has_tag d i x = true \/ has_tag d i y = true)).
Proof.
  intros Hd Hx Hy Hmx Hmy.
  destruct (tags_rows d) as (rows & Hfrom & Hrows).
  assert (Hstand : forall e, In e rows -> exists i, stands_on d e i).
  { intros e He.
    apply Hrows in He as (i & t & l & tg & Hi & Ht & E & _ & _ & _ & _ & ->).
    exists i. now apply tag_env_stands. }
  split; cbv zeta.
  - (* AND *)
    set (a := [("tags", x +:+ "," +:+ y)]%string).
    assert (Hplan : plan parse_boolean parse a
                    = append_having
                        (And_ [Sum_gt_0 (Equals Tag_value x);
                               Sum_gt_0 (Equals Tag_value y)])
                        (set_groupby
                           (join_once "Tag" Tag
                              (Some (On tag_association_tag_id Tag_id))
                              (join_once "indicator_tag_association"
                                 indicator_tag_association None initial)))).
    { unfold a. rewrite tags_only_plan. unfold block_tags.
      change (arg "tags" [("tags", x +:+ "," +:+ y)]%string)
        with (Some (x +:+ "," +:+ y)).
      now apply list_filter_and. }
    assert (Hf : filters (plan parse_boolean parse a) = [])
      by (now rewrite Hplan).
    assert (Hg : groupby (plan parse_boolean parse a) = true)
      by (now rewrite Hplan).
    assert (Hh : having (plan parse_boolean parse a)
                 = [And_ [Sum_gt_0 (Equals Tag_value x);
                          Sum_gt_0 (Equals Tag_value y)]])
      by (now rewrite Hplan).
    assert (Hj : from_rows d (join (plan parse_boolean parse a)) = Some rows)
      by (rewrite Hplan; exact Hfrom).
    repeat (split; [assumption|]).
    destruct (grouped_list_spec parse_boolean parse a d rows eq_refl Hg Hj
                (at_most_one _ _ Hh eq_refl) Hd Hstand)
      as (data & Hread & Hnd & Hdata).
    exists data. repeat (split; [assumption|]).
    intros e. rewrite Hdata. clear Hdata.
    unfold kept_rows. rewrite Hf, Hh. cbn [forallb]. rewrite filter_all.
    split; intros (i & Hi & -> & H); exists i; (split; [assumption|]);
      (split; [reflexivity|]).
    + destruct H as [_ H]. rewrite andb_true_r in H.
      rewrite eval_having_and2 in H.
      apply and3_true in H as [H1 H2].
      apply is_true3_true, and3_true in H2 as [H2 _].
      apply is_true3_true, sum_gt_0_true in H1.
      apply is_true3_true, sum_gt_0_true in H2.
      split; now apply (tag_row_exists d Hd rows i).
    + destruct H as [H1 H2].
      apply (tag_row_exists d Hd rows i _ Hrows Hi) in H1, H2.
      split.
      * destruct H1 as (e & He & _). intros E. now rewrite E in He.
      * rewrite andb_true_r, eval_having_and2.
        apply and3_true. split.
        -- now apply is_true3_true, sum_gt_0_true.
        -- apply is_true3_true, and3_true. split; [|reflexivity].
           now apply is_true3_true, sum_gt_0_true.
  - (* OR *)
    set (a := [("tags", "[OR]" +:+ x +:+ "," +:+ y)]%string).
    assert (Hplan : plan parse_boolean parse a
                    = append_filter
                        (Or_ [Equals Tag_value x; Equals Tag_value y])
                        (set_groupby
                           (join_once "Tag" Tag
                              (Some (On tag_association_tag_id Tag_id))
                              (join_once "indicator_tag_association"
                                 indicator_tag_association None initial)))).
    { unfold a. rewrite tags_only_plan. unfold block_tags.
      change (arg "tags" [("tags", "[OR]" +:+ x +:+ "," +:+ y)]%string)
        with (Some ("[OR]" +:+ x +:+ "," +:+ y)).
      now apply list_filter_or. }
    assert (Hf : filters (plan parse_boolean parse a)
                 = [Or_ [Equals Tag_value x; Equals Tag_value y]])
      by (now rewrite Hplan).
    assert (Hg : groupby (plan parse_boolean parse a) = true)
      by (now rewrite Hplan).
    assert (Hh : having (plan parse_boolean parse a) = [])
      by (now rewrite Hplan).
    assert (Hj : from_rows d (join (plan parse_boolean parse a)) = Some rows)
      by (rewrite Hplan; exact Hfrom).
    repeat (split; [assumption|]).
    destruct (grouped_list_spec parse_boolean parse a d rows eq_refl Hg Hj
                (at_most_one _ _ Hh eq_refl) Hd Hstand)
      as (data & Hread & Hnd & Hdata).
    exists data. repeat (split; [assumption|]).
    intros e. rewrite Hdata. clear Hdata.
    unfold kept_rows. rewrite Hf, Hh. cbn [forallb].
    assert (Hkept : forall i e0,
               In e0 (rows_of i
                        (List.filter
                           (fun e1 =>
                              is_true3
                                (eval d e1
                                   (Or_ [Equals Tag_value x;
                                         Equals Tag_value y])) && true)
                           rows))
               <-> In e0 (rows_of i rows) /\
                   (eval d e0 (Equals Tag_value x) = Some true \/
                    eval d e0 (Equals Tag_value y) = Some true)).
    { intros i e0. unfold rows_of. rewrite !filter_In, andb_true_r.
      rewrite eval_or2, or3_true.
      assert (Hor : or3 (eval d e0 (Equals Tag_value y)) (Some false)
                    = Some true
                    <-> eval d e0 (Equals Tag_value y) = Some true).
      { rewrite <- is_true3_true, or3_true. intuition discriminate. }
      rewrite Hor. tauto. }
    split; intros (i & Hi & -> & H); exists i; (split; [assumption|]);
      (split; [reflexivity|]).
    + destruct H as [Hne _].
      destruct (rows_of i (List.filter _ rows)) as [|e0 es] eqn:E;
        [congruence|].
      assert (He0 : In e0 (e0 :: es)) by now left.
      rewrite <- E in He0. apply Hkept in He0 as [He0 [H|H]];
        [left|right]; apply (tag_row_exists d Hd rows i _ Hrows Hi); eauto.
    + split; [|reflexivity].
      assert (Hex : exists e0,
                 In e0 (rows_of i rows) /\
                 (eval d e0 (Equals Tag_value x) = Some true \/
                  eval d e0 (Equals Tag_value y) = Some true)).
      { destruct H as [H|H];
          apply (tag_row_exists d Hd rows i _ Hrows Hi) in H
            as (e0 & He0 & H); eauto. }
      destruct Hex as (e0 & He0). apply Hkept in He0.
      intros E. now rewrite E in He0.
Qed.

(** [tags=a,b] on the sample store. *)
Lemma tags_and_or_witness :
  exists data,
    read_indicators Sample.parse_boolean Sample.parse
      [("tags", "a,b")]%string Sample.store = Gzip_json data /\
    forall e,
      In e data <->
      exists i, In i (indicators Sample.store) /\
                e = entry_of Sample.store i /\
                has_tag Sample.store i "a" = true /\
                has_tag Sample.store i "b" = true.
Proof.
  destruct (tags_and_or Sample.parse_boolean Sample.parse Sample.store
              "a" "b")
    as [(_ & _ & _ & data & H1 & _ & H2) _];
    try reflexivity.
  exists data. split; assumption.
Defined.

(** *** Exclusion by tag *)

Section NotTags.

Variable parse_boolean : string -> option bool -> option bool.
Variable parse : string -> bool -> parse_result.
Variable d : db.
Hypothesis store_consistent : consistent d = true.

(** The clause the block appends for one excluded value. *)
#[local] Abbreviation lacks :=
  (fun nt : string => Not_ (Any rel_tags (Some (Equals Tag_value nt)))).

Lemma lacks_all e i xs :
  env_lookup Indicator e = Some (Some (indicator_tuple i)) ->
  forallb (fun w => is_true3 (eval d e w)) (map lacks xs) = true
  <-> forall x, In x xs -> has_tag d i x = false.
Proof.
  intros Hi. rewrite forallb_forall. split.
  - intros H x Hx. specialize (H (lacks x) (in_map lacks xs x Hx)).
    change (is_true3
              (option_map negb
                 (eval d e (Any rel_tags (Some (Equals Tag_value x)))))
            = true) in H.
    rewrite (eval_any_tag d e i x Hi) in H.
    simpl in H. now destruct (has_tag d i x).
  - intros H w Hw. apply in_map_iff in Hw as (x & <- & Hx).
    change (is_true3
              (option_map negb
                 (eval d e (Any rel_tags (Some (Equals Tag_value x)))))
            = true).
    rewrite (eval_any_tag d e i x Hi). simpl.
    now rewrite (H x Hx).
Qed.

(** What [not_tags=v] compiles to and returns, for any list [v] of
    excluded values. *)
Lemma not_tags_spec v :
  let a := [("not_tags", v)]%string in
  joined (join (plan parse_boolean parse a))
  = [(false, Indicator); (false, IndicatorType);
     (true, indicator_tag_association)] /\
  filters (plan parse_boolean parse a) = map lacks (Py.split "," v) /\
  groupby (plan parse_boolean parse a) = true /\
  having (plan parse_boolean parse a) = [] /\
  exists data,
    read_indicators parse_boolean parse a d = Gzip_json data /\
    NoDup (map id data) /\
    forall e,
      In e data <->
      exists i, In i (indicators d) /\ e = entry_of d i /\
                forall x, In x (Py.split "," v) -> has_tag d i x = false.
Proof.
  intros a.
  assert (Hplan : plan parse_boolean parse a
                  = append_each lacks (Py.split "," v)
                      (set_groupby
                         (outerjoin_once "indicator_tag_association"
                            indicator_tag_association initial)))
    by reflexivity.
  destruct (append_each_spec lacks (Py.split "," v)
              (set_groupby
                 (outerjoin_once "indicator_tag_association"
                    indicator_tag_association initial)))
    as (Hf & Hg & Hh & _ & _ & Hj).
  rewrite <- Hplan in Hf, Hg, Hh, Hj.
  change (filters _ ++ map lacks (Py.split "," v))
    with (map lacks (Py.split "," v)) in Hf.
  change (groupby (set_groupby _)) with true in Hg.
  change (having (set_groupby _)) with (@nil clause) in Hh.
  change (join (set_groupby _)) with not_tags_join in Hj.
  split; [now rewrite Hj|]. repeat (split; [assumption|]).
  destruct (not_tags_rows d) as (rows & Hfrom & Hshape & Hex).
  rewrite <- Hj in Hfrom.
  assert (Hstand : forall e, In e rows -> exists i, stands_on d e i).
  { intros e He.
    apply Hshape in He as (i & t & r & Hi & Ht & E & ->).
    exists i. split; [assumption|]. split; [reflexivity|]. eauto. }
  destruct (grouped_list_spec parse_boolean parse a d rows eq_refl Hg Hfrom
              (at_most_one _ _ Hh eq_refl) store_consistent Hstand)
    as (data & Hread & Hnd & Hdata).
  exists data. repeat (split; [assumption|]).
  intros e. rewrite Hdata. clear Hdata.
  unfold kept_rows. rewrite Hf, Hh. cbn [forallb].
  split; intros (i & Hi & -> & H); exists i; (split; [assumption|]);
    (split; [reflexivity|]).
  - destruct H as [Hne _].
    destruct (rows_of i (List.filter _ rows)) as [|e0 es] eqn:E;
      [congruence|].
    assert (He0 : In e0 (e0 :: es)) by now left.
    rewrite <- E in He0. apply filter_In in He0 as [He0 Hid].
    apply bool_decide_eq_true_1 in Hid.
    apply filter_In in He0 as [He0 Hpass].
    apply Hshape in He0 as (i' & t & r & Hi' & Ht & Et & ->).
    simpl in Hid. injection Hid as Hid.
    assert (Ei : i' = i)
      by (now apply (same_id_same_indicator d store_consistent)).
    subst i'.
    exact (proj1 (lacks_all ((indicator_tag_association, r) :: base_env i t)
                    i (Py.split "," v) eq_refl) Hpass).
  - split; [|reflexivity].
    destruct (consistent_type_exists d store_consistent i Hi)
      as (t & Ht & Et).
    destruct (Hex i t Hi Ht Et) as (r & Hr).
    assert (Hin : In ((indicator_tag_association, r) :: base_env i t)
                     (rows_of i
                        (List.filter
                           (fun e0 =>
                              forallb (fun w => is_true3 (eval d e0 w))
                                (map lacks (Py.split "," v)))
                           rows))).
    { apply filter_In. split.
      - apply filter_In. split; [assumption|].
        exact (proj2 (lacks_all
                        ((indicator_tag_association, r) :: base_env i t)
                        i (Py.split "," v) eq_refl) H).
      - now apply bool_decide_eq_true_2. }
    intros E. now rewrite E in Hin.
Qed.

End NotTags.

(** An indicator without any tag association has no tag. *)
Lemma untagged_has_no_tag d i x :
  (forall l, In l (tag_assoc d) -> a_indicator_id l <> ind_id i) ->
  has_tag d i x = false.
Proof.
  intros H. unfold has_tag.
  destruct (existsb _ (tag_assoc d)) eqn:E; [|reflexivity].
  apply existsb_exists in E as (l & Hl & E).
  apply existsb_exists in E as (tg & _ & E).
  apply andb_prop in E as [E _]. apply andb_prop in E as [E _].
  apply Z.eqb_eq in E. now apply H in Hl.
Qed.

(** C5.  On a store with consistent keys, for a tag value [x] that holds
    no comma, [not_tags=x] outer-joins the tag association (after the
    inner join of the type), turns grouping on and appends one WHERE
    clause, the negated existence of a tag of the indicator with value
    [x]; the list holds each indicator at most once and holds exactly the
    indicators that lack tag [x], those without any tag among them. *)
Theorem not_tags_lists_indicators_lacking
  (parse_boolean : string -> option bool -> option bool)
  (parse : string -> bool -> parse_result) (d : db) (x : string) :
  consistent d = true ->
  Py.contains "," x = false ->
  let a := [("not_tags", x)]%string in
  joined (join (plan parse_boolean parse a))
  = [(false, Indicator); (false, IndicatorType);
     (true, indicator_tag_association)] /\
  filters (plan parse_boolean parse a)
  = [Not_ (Any rel_tags (Some (Equals Tag_value x)))] /\
  groupby (plan parse_boolean parse a) = true /\
  having (plan parse_boolean parse a) = [] /\
  exists data,
    read_indicators parse_boolean parse a d = Gzip_json data /\
    NoDup (map id data) /\
    (forall e,
        In e data <->
        exists i, In i (indicators d) /\ e = entry_of d i /\
                  has_tag d i x = false) /\
    (forall i, In i (indicators d) ->
               (forall l, In l (tag_assoc d) ->
                          a_indicator_id l <> ind_id i) ->
               In (entry_of d i) data).
Proof.
  intros Hd Hx a.
  destruct (not_tags_spec parse_boolean parse d Hd x)
    as (Hj & Hf & Hg & Hh & data & Hread & Hnd & Hdata).
  rewrite (PyFacts.split_without_sep "," x Hx) in Hf, Hdata.
  split; [exact Hj|]. split; [exact Hf|]. repeat (split; [assumption|]).
  exists data. repeat (split; [assumption|]).
  assert (Hspec : forall e,
             In e data <->
             exists i, In i (indicators d) /\ e = entry_of d i /\
                       has_tag d i x = false).
  { intros e. rewrite Hdata.
    split; intros (i & Hi & -> & H); exists i; repeat split; auto.
    - apply H. now left.
    - intros y [<-|[]]. assumption. }
  split; [exact Hspec|].
  intros i Hi Hnone. apply Hspec. exists i. repeat split; auto.
  now apply untagged_has_no_tag.
Qed.

(** [not_tags=a] on the sample store: indicator 3, which has no tags, is
    the one listed. *)
Lemma not_tags_lists_indicators_lacking_witness :
  In (entry_of Sample.store (Sample.indicator 3 "c.com" 1))
     (match read_indicators Sample.parse_boolean Sample.parse
              [("not_tags", "a")]%string Sample.store with
      | Gzip_json data => data
      | _ => []
      end).
Proof.
  destruct (not_tags_lists_indicators_lacking Sample.parse_boolean
              Sample.parse Sample.store "a" eq_refl eq_refl)
    as (_ & _ & _ & _ & data & Hread & _ & _ & Hnone).
  rewrite Hread. apply Hnone.
  - simpl. auto.
  - intros l [<-|[<-|[<-|[]]]]; discriminate.
Defined.

End TagClaims.

(* ===================================================================== *)
(** ** The write routes *)
(* ===================================================================== *)

Module IngestFacts.
Import Schema Ingest IngestProps.

Lemma bind_ok {S A B} (m : M S A) (k : A -> M S B) s x s' :
  m s = (Ok x, s') -> bind m k s = k x s'.
Proof. intros H. unfold bind. now rewrite H. Qed.

Lemma bind_raised {S A B} (m : M S A) (k : A -> M S B) s e s' :
  m s = (Raised e, s') -> bind m k s = (Raised e, s').
Proof. intros H. unfold bind. now rewrite H. Qed.

Lemma bind_error {S A B} (m : M S A) (k : A -> M S B) s code message s' :
  m s = (Error_response code message, s') ->
  bind m k s = (Error_response code message, s').
Proof. intros H. unfold bind. now rewrite H. Qed.

(** A loop whose body returns without staging anything leaves the state
    as it was and yields what the body gave at each element. *)
Lemma for_each_pure {S A B} (f : A -> M S B) (g : A -> B) xs s :
  (forall x, In x xs -> f x s = (Ok (g x), s)) ->
  for_each f xs s = (Ok (map g xs), s).
Proof.
  induction xs as [|x xs IH]; intros H; [reflexivity|].
  simpl. rewrite (bind_ok _ _ _ _ _ (H x (or_introl eq_refl))).
  rewrite (bind_ok _ _ _ _ _ (IH (fun y Hy => H y (or_intror Hy)))).
  reflexivity.
Qed.

Lemma for_each_query {A B} (q : A -> db -> B) xs d :
  for_each (fun x s => (Ok (q x s), s)) xs d
  = (Ok (map (fun x => q x d) xs), d).
Proof.
  apply (for_each_pure _ (fun x => q x d)). reflexivity.
Qed.

Lemma set_usernames_id c : set_usernames (cache_usernames c) c = c.
Proof. now destruct c. Qed.
Lemma set_apikeys_id c : set_apikeys (cache_apikeys c) c = c.
Proof. now destruct c. Qed.
Lemma set_types_id c : set_types (cache_types c) c = c.
Proof. now destruct c. Qed.

Lemma cache_types_set_usernames m c :
  cache_types (set_usernames m c) = cache_types c.
Proof. now destruct c. Qed.
Lemma cache_types_set_apikeys m c :
  cache_types (set_apikeys m c) = cache_types c.
Proof. now destruct c. Qed.

Section Cached.

Context {A : Type}.
Variable get : cache -> gmap string A.
Variable set : gmap string A -> cache -> cache.
Hypothesis set_get : forall c, set (get c) c = c.

(** A lookup through the cache that would find [x] in the session, in a
    cache that agrees with the session on this key: it yields [x], stages
    nothing, and the cache holds [x] afterwards. *)
Lemma cached_agrees key (compute : bulk A) c s x :
  (forall y, get c !! key = Some y -> y = x) ->
  compute (c, s) = (Ok x, (c, s)) ->
  cached get set key compute (c, s)
  = (Ok x, (set (<[key := x]> (get c)) c, s)).
Proof.
  intros Hhit Hmiss. unfold cached, bind, get_cache.
  destruct (get c !! key) as [y|] eqn:E.
  - rewrite (Hhit y eq_refl) in *. unfold ret.
    now rewrite (insert_id _ _ _ E), set_get.
  - now rewrite Hmiss.
Qed.

End Cached.

Section Duplicates.

Variable cfg : config.
Variable request_apikey : option string.
Variable now : Z.
Variables (data : indicator_data) (d : db).
Variables (user : user_row) (t : lookup_row) (e : indicator_row).
Hypothesis user_resolves : resolved_user request_apikey data d = Some user.
Hypothesis user_active : active user = true.
Hypothesis type_resolves :
  by_value (data_type data) (indicator_types d) = Some t.
Hypothesis duplicate : duplicate_of data t d = Some e.

(** The single route answers 409 and stages nothing. *)
Lemma create_indicator_conflict :
  create_indicator cfg request_apikey now data d
  = (Error_response 409 (conflict_message data), d).
Proof.
  unfold create_indicator.
  assert (Hu : (match data_username data with
                | Some u =>
                    let* user0 := query (user_by_username u) in
                    match user0 with
                    | Some user0 => ret user0
                    | None => error_response 404 "User not found by username"
                    end
                | None =>
                    match request_apikey with
                    | Some k =>
                        let* user0 := query (user_by_apikey k) in
                        match user0 with
                        | Some user0 => ret user0
                        | None =>
                            error_response 404 "User not found by API key"
                        end
                    | None =>
                        error_response 401
                          "You must supply either username or API key"
                    end
                end) d = (Ok user, d)).
  { clear - user_resolves. unfold resolved_user in user_resolves.
    destruct (data_username data) as [u|];
      [|destruct request_apikey as [k|]; [|discriminate]];
      unfold bind, query; now rewrite user_resolves. }
  rewrite (bind_ok _ _ _ _ _ Hu). rewrite user_active. cbn [negb].
  assert (Ht : find_or_create indicator_types with_indicator_types
                 (AUTO_CREATE_INDICATORTYPE cfg) "Indicator type not found: "
                 (data_type data) d = (Ok t, d)).
  { unfold find_or_create, bind, query. now rewrite type_resolves. }
  rewrite (bind_ok _ _ _ _ _ Ht).
  unfold duplicate_of, conflict_message, case_mode in *.
  unfold bind at 1. unfold query at 1.
  destruct (default false (data_case_sensitive data));
    now rewrite duplicate.
Qed.

(** The loop body of the bulk route passes the item over: it yields
    nothing, stages nothing, and has put the user and the type in the
    cache. *)
Lemma create_indicators_item_skips c :
  cache_agrees c d ->
  create_indicators_item cfg request_apikey now data (c, d)
  = (Ok None,
     (remember_type data t (remember_user request_apikey data user c), d)).
Proof.
  intros (Husers & Hkeys & Htypes).
  unfold create_indicators_item.
  assert (Hu : (match data_username data with
                | Some u =>
                    cached cache_usernames set_usernames u
                      (let* user0 := on_session (query (user_by_username u)) in
                       first_or user0 404 "User not found by username")
                | None =>
                    match request_apikey with
                    | Some k =>
                        cached cache_apikeys set_apikeys k
                          (let* user0 :=
                             on_session (query (user_by_apikey k)) in
                           first_or user0 404 "User not found by API key")
                    | None =>
                        error_response 401
                          "You must supply either username or API key"
                    end
                end) (c, d)
               = (Ok user, (remember_user request_apikey data user c, d))).
  { clear - user_resolves Husers Hkeys.
    unfold resolved_user, remember_user in *.
    destruct (data_username data) as [u|];
      [|destruct request_apikey as [k|]; [|discriminate]].
    - apply (cached_agrees _ _ set_usernames_id).
      + intros y Hy. apply Husers in Hy. congruence.
      + unfold bind, on_session, query. now rewrite user_resolves.
    - apply (cached_agrees _ _ set_apikeys_id).
      + intros y Hy. apply Hkeys in Hy. congruence.
      + unfold bind, on_session, query. now rewrite user_resolves. }
  rewrite (bind_ok _ _ _ _ _ Hu). rewrite user_active. cbn [negb].
  set (c1 := remember_user request_apikey data user c).
  assert (Hc1 : cache_types c1 = cache_types c).
  { unfold c1, remember_user.
    destruct (data_username data);
      [apply cache_types_set_usernames|].
    destruct request_apikey; [apply cache_types_set_apikeys|reflexivity]. }
  assert (Ht : cached cache_types set_types (data_type data)
                 (on_session
                    (find_or_create indicator_types with_indicator_types
                       (AUTO_CREATE_INDICATORTYPE cfg)
                       "Indicator type not found: " (data_type data)))
                 (c1, d)
               = (Ok t, (remember_type data t c1, d))).
  { apply (cached_agrees _ _ set_types_id).
    - intros y Hy. rewrite Hc1 in Hy. apply Htypes in Hy. congruence.
    - unfold on_session, find_or_create, bind, query.
      now rewrite type_resolves. }
  rewrite (bind_ok _ _ _ _ _ Ht).
  unfold duplicate_of, case_mode in duplicate.
  unfold bind at 1. unfold on_session at 1. unfold query at 1.
  cbv beta iota.
  destruct (default false (data_case_sensitive data));
    now rewrite duplicate.
Qed.

End Duplicates.

(** The cache that has taken in a user and a type found in the session
    still agrees with the session. *)
Lemma remember_agrees request_apikey data d user t c :
  resolved_user request_apikey data d = Some user ->
  by_value (data_type data) (indicator_types d) = Some t ->
  cache_agrees c d ->
  cache_agrees
    (remember_type data t (remember_user request_apikey data user c)) d.
Proof.
  intros Hu Ht (Husers & Hkeys & Htypes).
  unfold resolved_user in Hu. unfold remember_type, remember_user.
  destruct c as [us ak ty co dc im di st ds ca re so ta]. simpl in *.
  destruct (data_username data) as [u|];
    [|destruct request_apikey as [k|]; [|discriminate]];
    (split; [|split]); simpl; intros key x Hx;
    try (apply lookup_insert_Some in Hx as [[<- <-]|[_ Hx]]); auto.
Qed.

Section Inactive.

Variable cfg : config.
Variable request_apikey : option string.
Variable now : Z.
Variables (data : indicator_data) (d : db) (user : user_row).
Hypothesis user_resolves : resolved_user request_apikey data d = Some user.
Hypothesis user_inactive : active user = false.

Lemma create_indicator_inactive :
  create_indicator cfg request_apikey now data d
  = (Error_response 401 "Cannot create an indicator with an inactive user",
     d).
Proof.
  unfold create_indicator, resolved_user in *.
  destruct (data_username data) as [u|];
    [|destruct request_apikey as [k|]; [|discriminate]];
    unfold bind at 1; unfold bind at 1; unfold query at 1;
    rewrite user_resolves; unfold ret at 1; now rewrite user_inactive.
Qed.

Lemma create_indicators_item_inactive c :
  cache_agrees c d ->
  create_indicators_item cfg request_apikey now data (c, d)
  = (Error_response 401 "Cannot create an indicator with an inactive user",
     (remember_user request_apikey data user c, d)).
Proof.
  intros (Husers & Hkeys & _).
  unfold create_indicators_item.
  unfold resolved_user, remember_user in *.
  destruct (data_username data) as [u|];
    [|destruct request_apikey as [k|]; [|discriminate]].
  - rewrite (bind_ok _ _ _ user
               (set_usernames (<[u := user]> (cache_usernames c)) c, d)).
    + now rewrite user_inactive.
    + apply (cached_agrees _ _ set_usernames_id).
      * intros y Hy. apply Husers in Hy. congruence.
      * unfold bind, on_session, query. now rewrite user_resolves.
  - rewrite (bind_ok _ _ _ user
               (set_apikeys (<[k := user]> (cache_apikeys c)) c, d)).
    + now rewrite user_inactive.
    + apply (cached_agrees _ _ set_apikeys_id).
      * intros y Hy. apply Hkeys in Hy. congruence.
      * unfold bind, on_session, query. now rewrite user_resolves.
Qed.

End Inactive.

(** The reference route stages the row for whichever user the name gives. *)
Lemma create_intel_reference_any_user data d ref src u source user :
  form_reference data = Some ref ->
  form_source data = Some src ->
  form_username data = Some u ->
  by_value src (intel_sources d) = Some source ->
  reference_of_source ref source d = None ->
  user_by_username u d = Some user ->
  create_intel_reference data d = add_reference ref source user d.
Proof.
  intros Hr Hs Hu Hsource Hnew Huser.
  unfold create_intel_reference. rewrite Hr, Hs, Hu.
  unfold bind, query. now rewrite Hsource, Hnew, Huser.
Qed.

(** *** The update route: what the session flushes *)

Lemma flush_clean o d : holds_none o = false -> flush o d = (Ok tt, d).
Proof. intros H. unfold flush. now rewrite H. Qed.

Lemma flush_poisoned o d :
  holds_none o = true -> flush o d = (Raised FlushError, d).
Proof. intros H. unfold flush. now rewrite H. Qed.

Lemma session_query_clean {A} o (f : db -> A) d :
  holds_none o = false -> session_query o f d = (Ok (f d), d).
Proof.
  intros H. unfold session_query.
  now rewrite (bind_ok _ _ _ _ _ (flush_clean o d H)).
Qed.

Lemma session_query_poisoned {A} o (f : db -> A) d :
  holds_none o = true -> session_query o f d = (Raised FlushError, d).
Proof.
  intros H. unfold session_query.
  now rewrite (bind_raised _ _ _ _ _ (flush_poisoned o d H)).
Qed.

(** A loaded indicator holds no [None]. *)
Lemma related_no_none {A} assoc (rows : list A) row_id i :
  existsb is_none (related assoc rows row_id i) = false.
Proof.
  unfold related. induction assoc as [|a assoc IH]; [reflexivity|].
  simpl. rewrite existsb_app, IH, orb_false_r.
  destruct (a_indicator_id a =? i); [|reflexivity].
  induction (List.filter _ rows); simpl; auto.
Qed.

Lemma get_indicator_clean i d o :
  get_indicator i d = Some o -> holds_none o = false.
Proof.
  unfold get_indicator. destruct (List.find _ _); [|discriminate].
  intros [= <-]. unfold holds_none. simpl.
  now rewrite !related_no_none.
Qed.

(** A list of lookups holds [None] exactly when one of the names is
    unknown. *)
Lemma lookups_hold_none {A B} (q : A -> option B) (values : list A) :
  existsb is_none (map q values) = true
  <-> exists v, In v values /\ q v = None.
Proof.
  rewrite existsb_exists. split.
  - intros (x & Hin & Hx). apply in_map_iff in Hin as (v & <- & Hv).
    exists v. split; [assumption|]. now destruct (q v).
  - intros (v & Hv & E). exists (q v). split; [now apply in_map|].
    now rewrite E.
Qed.

Lemma lookups_found {A B} (q : A -> option B) (values : list A) :
  (forall v, In v values -> q v <> None) ->
  existsb is_none (map q values) = false.
Proof.
  intros H. destruct (existsb is_none (map q values)) eqn:E; [|reflexivity].
  apply lookups_hold_none in E as (v & Hv & E). now apply H in Hv.
Qed.

(** The names loops on an object that can be flushed. *)
Lemma names_loop_clean {A B} o (q : A -> db -> B) values d :
  holds_none o = false ->
  for_each (fun value => session_query o (q value)) values d
  = (Ok (map (fun v => q v d) values), d).
Proof.
  intros H. apply (for_each_pure _ (fun v => q v d)).
  intros x _. now apply session_query_clean.
Qed.

(** A loop whose body starts with a query, on an object that cannot be
    flushed: nothing happens for no element, the first query raises
    otherwise. *)
Lemma loop_poisoned {A B C} o (q : A -> db -> B) (k : A -> B -> M db C)
  values d :
  holds_none o = true ->
  for_each (fun x => let* y := session_query o (q x) in k x y) values d
  = match values with
    | [] => (Ok [], d)
    | _ :: _ => (Raised FlushError, d)
    end.
Proof.
  intros H. destruct values as [|x xs]; [reflexivity|]. simpl.
  apply bind_raised. apply bind_raised. now apply session_query_poisoned.
Qed.

Lemma names_loop_poisoned {A B} o (q : A -> db -> B) values d :
  holds_none o = true ->
  for_each (fun value => session_query o (q value)) values d
  = match values with
    | [] => (Ok [], d)
    | _ :: _ => (Raised FlushError, d)
    end.
Proof.
  intros H. destruct values as [|x xs]; [reflexivity|]. simpl.
  apply bind_raised. now apply session_query_poisoned.
Qed.

Lemma holds_none_set_row f o : holds_none (set_row f o) = holds_none o.
Proof. reflexivity. Qed.

Lemma assign_if_any_nil {A} (set : list A -> indicator_obj -> indicator_obj)
  o : assign_if_any set [] o = o.
Proof. reflexivity. Qed.

Section Poisoned.

Variable parse_boolean : json_scalar -> bool -> bool.
Variable modified_on_update : indicator_obj -> indicator_obj -> Z.
Variable d : db.

Lemma commit_poisoned before o :
  holds_none o = true ->
  commit modified_on_update before o d = (Raised FlushError, d).
Proof.
  intros H. unfold commit. apply bind_raised. now apply flush_poisoned.
Qed.

End Poisoned.

Section Unknown.

Variable parse_boolean : json_scalar -> bool -> bool.
Variable modified_on_update : indicator_obj -> indicator_obj -> Z.
Variables (d : db) (indicator_id : Z) (loaded : indicator_obj).
Variable data : update_data.
Hypothesis found : get_indicator indicator_id d = Some loaded.

#[local] Abbreviation run :=
  (update_indicator parse_boolean modified_on_update indicator_id data d).

(** A block that looks a named row up, on an object that cannot be
    flushed. *)
Lemma named_row_poisoned {A} (given : option string)
  (get : db -> list lookup_row) (missing : string -> string)
  (f : lookup_row -> indicator_obj) (o : indicator_obj)
  (k : indicator_obj -> M db A) :
  holds_none o = true ->
  bind
    match given with
    | Some v =>
        let* found := session_query o (fun d => by_value v (get d)) in
        match found with
        | None => error_response 404 (missing v)
        | Some c => ret (f c)
        end
    | None => ret o
    end k d
  = match given with
    | Some _ => (Raised FlushError, d)
    | None => k o d
    end.
Proof.
  intros H. destruct given as [v|]; [|reflexivity].
  apply bind_raised, bind_raised. now apply session_query_poisoned.
Qed.

(** The last blocks of the route, from the username on, for the object
    as the tags block left it. *)
Lemma poisoned_at_username (o : indicator_obj) :
  holds_none o = true ->
  (let* indicator :=
     match upd_username data with
     | Some u =>
         let* user := session_query o (user_by_username u) in
         match user with
         | None => error_response 404 ("User username not found: " +:+ u)
         | Some user =>
             if negb (active user) then
               error_response 401
                 "Cannot update an indicator with an inactive user"
             else ret (set_row (with_user user) o)
         end
     | None => ret o
     end in
   commit modified_on_update loaded indicator) d
  = (Raised FlushError, d).
Proof.
  intros H. destruct (upd_username data) as [u|].
  - apply bind_raised, bind_raised. now apply session_query_poisoned.
  - rewrite (bind_ok _ _ _ o d eq_refl). now apply commit_poisoned.
Qed.

(** From the block of [status] on, an object that cannot be flushed
    makes the route raise: at the next query, or at the commit. *)
Lemma poisoned_after_references (indicator : indicator_obj) :
  holds_none indicator = true ->
  (
   let* indicator :=
     match upd_status data with
     | Some v =>
         let* status :=
           session_query indicator
             (fun d => by_value v (indicator_statuses d)) in
         match status with
         | None => error_response 404 ("Indicator status not found: " +:+ v)
         | Some c => ret (set_row (with_status c) indicator)
         end
     | None => ret indicator
     end in
   let indicator :=
     match upd_substring data with
     | Some v => set_row (with_substring (parse_boolean v false)) indicator
     | None => indicator
     end in
   let* indicator :=
     match upd_tags data with
     | Some values =>
         let* valid_tags :=
           for_each
             (fun value =>
                session_query indicator (fun d => by_value value (tags d)))
             values in
         ret (assign_if_any set_tags valid_tags indicator)
     | None => ret indicator
     end in
   let* indicator :=
     match upd_username data with
     | Some u =>
         let* user := session_query indicator (user_by_username u) in
         match user with
         | None => error_response 404 ("User username not found: " +:+ u)
         | Some user =>
             if negb (active user) then
               error_response 401
                 "Cannot update an indicator with an inactive user"
             else ret (set_row (with_user user) indicator)
         end
     | None => ret indicator
     end in
   commit modified_on_update loaded indicator) d
  = (Raised FlushError, d).
Proof.
  intros H.
  rewrite (named_row_poisoned _ indicator_statuses
             (fun v => "Indicator status not found: " +:+ v)
             (fun c => set_row (with_status c) indicator) indicator _ H).
  destruct (upd_status data); [reflexivity|]. cbv zeta.
  set (o7 := match upd_substring data with
             | Some v =>
                 set_row (with_substring (parse_boolean v false)) indicator
             | None => indicator
             end).
  assert (H7 : holds_none o7 = true)
    by (subst o7; now destruct (upd_substring data)).
  clearbody o7.
  destruct (upd_tags data) as [[|value values]|].
  - rewrite (bind_ok _ _ _ o7 d eq_refl). now apply poisoned_at_username.
  - apply bind_raised, bind_raised. simpl.
    apply bind_raised. now apply session_query_poisoned.
  - rewrite (bind_ok _ _ _ o7 d eq_refl). now apply poisoned_at_username.
Qed.

(** The same from the block of [case_sensitive] on. *)
Lemma poisoned_after_campaigns (o : indicator_obj) :
  holds_none o = true ->
  (let indicator :=
     match upd_case_sensitive data with
     | Some v => set_row (with_case_sensitive (parse_boolean v false)) o
     | None => o
     end in
   let* indicator :=
     match upd_confidence data with
     | Some v =>
         let* confidence :=
           session_query indicator
             (fun d => by_value v (indicator_confidences d)) in
         match confidence with
         | None =>
             error_response 404 ("Indicator confidence not found: " +:+ v)
         | Some c => ret (set_row (with_confidence c) indicator)
         end
     | None => ret indicator
     end in
   let* indicator :=
     match upd_impact data with
     | Some v =>
         let* impact :=
           session_query indicator
             (fun d => by_value v (indicator_impacts d)) in
         match impact with
         | None => error_response 404 ("Indicator impact not found: " +:+ v)
         | Some c => ret (set_row (with_impact c) indicator)
         end
     | None => ret indicator
     end in
   let* indicator :=
     match upd_references data with
     | Some items =>
         let* valid_references :=
           for_each
             (fun item =>
                let* reference :=
                  session_query indicator
                    (reference_by_source (item_source item)
                       (item_reference item)) in
                match reference with
                | None =>
                    error_response 404
                      ("Intel reference not found: " +:+ item_reference item)
                | Some r => ret (Some r)
                end)
             items in
         ret (assign_if_any set_references valid_references indicator)
     | None => ret indicator
     end in
   let* indicator :=
     match upd_status data with
     | Some v =>
         let* status :=
           session_query indicator
             (fun d => by_value v (indicator_statuses d)) in
         match status with
         | None => error_response 404 ("Indicator status not found: " +:+ v)
         | Some c => ret (set_row (with_status c) indicator)
         end
     | None => ret indicator
     end in
   let indicator :=
     match upd_substring data with
     | Some v => set_row (with_substring (parse_boolean v false)) indicator
     | None => indicator
     end in
   let* indicator :=
     match upd_tags data with
     | Some values =>
         let* valid_tags :=
           for_each
             (fun value =>
                session_query indicator (fun d => by_value value (tags d)))
             values in
         ret (assign_if_any set_tags valid_tags indicator)
     | None => ret indicator
     end in
   let* indicator :=
     match upd_username data with
     | Some u =>
         let* user := session_query indicator (user_by_username u) in
         match user with
         | None => error_response 404 ("User username not found: " +:+ u)
         | Some user =>
             if negb (active user) then
               error_response 401
                 "Cannot update an indicator with an inactive user"
             else ret (set_row (with_user user) indicator)
         end
     | None => ret indicator
     end in
   commit modified_on_update loaded indicator) d
  = (Raised FlushError, d).
Proof.
  intros H. cbv zeta.
  set (o2 := match upd_case_sensitive data with
             | Some v => set_row (with_case_sensitive (parse_boolean v false)) o
             | None => o
             end).
  assert (H2 : holds_none o2 = true)
    by (subst o2; now destruct (upd_case_sensitive data)).
  clearbody o2.
  rewrite (named_row_poisoned _ indicator_confidences
             (fun v => "Indicator confidence not found: " +:+ v)
             (fun c => set_row (with_confidence c) o2) o2 _ H2).
  destruct (upd_confidence data); [reflexivity|].
  rewrite (named_row_poisoned _ indicator_impacts
             (fun v => "Indicator impact not found: " +:+ v)
             (fun c => set_row (with_impact c) o2) o2 _ H2).
  destruct (upd_impact data); [reflexivity|].
  destruct (upd_references data) as [[|item items]|].
  - rewrite (bind_ok _ _ _ o2 d eq_refl).
    now apply poisoned_after_references.
  - apply bind_raised, bind_raised. simpl.
    apply bind_raised, bind_raised. now apply session_query_poisoned.
  - rewrite (bind_ok _ _ _ o2 d eq_refl).
    now apply poisoned_after_references.
Qed.

(** An unknown campaign: the campaigns block assigns a list that holds
    [None], and the route raises. *)
Lemma unknown_campaign_raises values v :
  upd_campaigns data = Some values ->
  In v values -> campaign_by_name v d = None ->
  run = (Raised FlushError, d).
Proof.
  intros Hc Hv Hnone. unfold update_indicator.
  rewrite (bind_ok _ _ _ (Some loaded) d)
    by (unfold query; now rewrite found).
  cbv zeta. rewrite Hc.
  pose proof (get_indicator_clean _ _ _ found) as Hclean.
  rewrite (bind_ok _ _ _
             (assign_if_any set_campaigns
                (map (fun v => campaign_by_name v d) values) loaded) d)
    by (now rewrite (bind_ok _ _ _ _ _
                       (names_loop_clean loaded campaign_by_name values d
                          Hclean))).
  apply poisoned_after_campaigns.
  assert (Hl : existsb is_none (map (fun v => campaign_by_name v d) values)
               = true)
    by (apply (lookups_hold_none (fun v => campaign_by_name v d)); eauto).
  destruct (map (fun v => campaign_by_name v d) values); [discriminate|].
  unfold holds_none. cbn [assign_if_any set_campaigns obj_campaigns].
  now rewrite Hl.
Qed.

(** A block that looks a named row up, on an object that can be flushed,
    when the name is known. *)
Lemma named_row_clean {A} (given : option string)
  (get : db -> list lookup_row) (missing : string -> string)
  (f : lookup_row -> indicator_obj) (o : indicator_obj)
  (k : indicator_obj -> M db A) :
  holds_none o = false ->
  (forall v, given = Some v -> by_value v (get d) <> None) ->
  exists o',
    bind
      match given with
      | Some v =>
          let* found := session_query o (fun d => by_value v (get d)) in
          match found with
          | None => error_response 404 (missing v)
          | Some c => ret (f c)
          end
      | None => ret o
      end k d
    = k o' d /\
    (o' = o \/ exists c, o' = f c).
Proof.
  intros H Hknown. destruct given as [v|].
  - specialize (Hknown v eq_refl).
    destruct (by_value v (get d)) as [c|] eqn:E; [|congruence].
    exists (f c). split; [|eauto].
    rewrite (bind_ok _ _ _ (f c) d); [reflexivity|].
    rewrite (bind_ok _ _ _ _ _ (session_query_clean o _ d H)).
    now rewrite E.
  - exists o. split; [reflexivity|auto].
Qed.

Lemma references_loop_clean o items :
  holds_none o = false ->
  (forall item, In item items ->
                reference_by_source (item_source item) (item_reference item)
                  d <> None) ->
  for_each
    (fun item =>
       let* reference :=
         session_query o
           (reference_by_source (item_source item) (item_reference item)) in
       match reference with
       | None =>
           error_response 404
             ("Intel reference not found: " +:+ item_reference item)
       | Some r => ret (Some r)
       end) items d
  = (Ok (map (fun item =>
                reference_by_source (item_source item) (item_reference item)
                  d) items), d).
Proof.
  intros H Hknown.
  apply (for_each_pure _
           (fun item =>
              reference_by_source (item_source item) (item_reference item)
                d)).
  intros item Hin. specialize (Hknown item Hin).
  rewrite (bind_ok _ _ _ _ _ (session_query_clean o _ d H)).
  now destruct (reference_by_source _ _ d).
Qed.

(** An unknown tag, in a request whose other names are known: the tags
    block assigns a list that holds [None], and the route raises at the
    query for the user or at the commit. *)
Lemma unknown_tag_raises values v :
  (forall vs x, upd_campaigns data = Some vs -> In x vs ->
                campaign_by_name x d <> None) ->
  (forall x, upd_confidence data = Some x ->
             by_value x (indicator_confidences d) <> None) ->
  (forall x, upd_impact data = Some x ->
             by_value x (indicator_impacts d) <> None) ->
  (forall items item,
      upd_references data = Some items -> In item items ->
      reference_by_source (item_source item) (item_reference item) d
      <> None) ->
  (forall x, upd_status data = Some x ->
             by_value x (indicator_statuses d) <> None) ->
  upd_tags data = Some values ->
  In v values -> by_value v (tags d) = None ->
  run = (Raised FlushError, d).
Proof.
  intros Kc Kconf Kimp Kref Kstat Ht Hv Hnone. unfold update_indicator.
  rewrite (bind_ok _ _ _ (Some loaded) d)
    by (unfold query; now rewrite found).
  cbv zeta.
  pose proof (get_indicator_clean _ _ _ found) as Hclean.
  (* campaigns *)
  assert (B1 : exists o1,
             holds_none o1 = false /\
             match upd_campaigns data with
             | Some values =>
                 let* valid_campaigns :=
                   for_each
                     (fun value =>
                        session_query loaded (campaign_by_name value))
                     values in
                 ret (assign_if_any set_campaigns valid_campaigns loaded)
             | None => ret loaded
             end d = (Ok o1, d)).
  { destruct (upd_campaigns data) as [vs|] eqn:Ec.
    - exists (assign_if_any set_campaigns
                (map (fun v => campaign_by_name v d) vs) loaded).
      split; [|now rewrite (bind_ok _ _ _ _ _
                              (names_loop_clean loaded campaign_by_name vs d
                                 Hclean))].
      pose proof (lookups_found (fun v => campaign_by_name v d) vs
                    (fun y Hy => Kc _ _ eq_refl Hy)) as Hl.
      destruct (map (fun v => campaign_by_name v d) vs); [exact Hclean|].
      unfold holds_none in *.
      cbn [assign_if_any set_campaigns obj_campaigns obj_references
             obj_tags].
      apply orb_false_iff in Hclean as [Hclean Htags].
      apply orb_false_iff in Hclean as [_ Hrefs].
      now rewrite Hl, Hrefs, Htags.
    - now exists loaded. }
  destruct B1 as (o1 & H1 & B1). rewrite (bind_ok _ _ _ _ _ B1).
  clear B1.
  set (o2 := match upd_case_sensitive data with
             | Some v => set_row (with_case_sensitive (parse_boolean v false)) o1
             | None => o1
             end).
  assert (H2 : holds_none o2 = false)
    by (subst o2; now destruct (upd_case_sensitive data)).
  clearbody o2.
  (* confidence *)
  lazymatch goal with
  | |- bind _ ?k _ = _ =>
      destruct (named_row_clean (upd_confidence data) indicator_confidences
                  (fun v => "Indicator confidence not found: " +:+ v)
                  (fun c => set_row (with_confidence c) o2) o2 k H2 Kconf)
        as (o3 & E & E3)
  end.
  rewrite E. clear E. cbv beta.
  assert (H3 : holds_none o3 = false)
    by (destruct E3 as [->|(c & ->)]; assumption).
  clear E3.
  (* impact *)
  lazymatch goal with
  | |- bind _ ?k _ = _ =>
      destruct (named_row_clean (upd_impact data) indicator_impacts
                  (fun v => "Indicator impact not found: " +:+ v)
                  (fun c => set_row (with_impact c) o3) o3 k H3 Kimp)
        as (o4 & E & E4)
  end.
  rewrite E. clear E. cbv beta.
  assert (H4 : holds_none o4 = false)
    by (destruct E4 as [->|(c & ->)]; assumption).
  clear E4.
  (* references *)
  assert (B5 : exists o5,
             holds_none o5 = false /\
             match upd_references data with
             | Some items =>
                 let* valid_references :=
                   for_each
                     (fun item =>
                        let* reference :=
                          session_query o4
                            (reference_by_source (item_source item)
                               (item_reference item)) in
                        match reference with
                        | None =>
                            error_response 404
                              ("Intel reference not found: "
                               +:+ item_reference item)
                        | Some r => ret (Some r)
                        end)
                     items in
                 ret (assign_if_any set_references valid_references o4)
             | None => ret o4
             end d = (Ok o5, d)).
  { destruct (upd_references data) as [items|] eqn:Er.
    - exists (assign_if_any set_references
                (map (fun item =>
                        reference_by_source (item_source item)
                          (item_reference item) d) items) o4).
      split; [|now rewrite (bind_ok _ _ _ _ _
                              (references_loop_clean o4 items H4
                                 (fun item Hin => Kref _ _ eq_refl Hin)))].
      pose proof (lookups_found
                    (fun item =>
                       reference_by_source (item_source item)
                         (item_reference item) d) items
                    (fun y Hy => Kref _ _ eq_refl Hy)) as Hl.
      destruct (map _ items); [exact H4|].
      unfold holds_none in *.
      cbn [assign_if_any set_references obj_campaigns obj_references
             obj_tags].
      apply orb_false_iff in H4 as [H4 Htags].
      apply orb_false_iff in H4 as [Hcs _].
      now rewrite Hl, Hcs, Htags.
    - now exists o4. }
  destruct B5 as (o5 & H5 & B5). rewrite (bind_ok _ _ _ _ _ B5).
  clear B5.
  (* status *)
  lazymatch goal with
  | |- bind _ ?k _ = _ =>
      destruct (named_row_clean (upd_status data) indicator_statuses
                  (fun v => "Indicator status not found: " +:+ v)
                  (fun c => set_row (with_status c) o5) o5 k H5 Kstat)
        as (o6 & E & E6)
  end.
  rewrite E. clear E. cbv beta.
  assert (H6 : holds_none o6 = false)
    by (destruct E6 as [->|(c & ->)]; assumption).
  clear E6.
  set (o7 := match upd_substring data with
             | Some v => set_row (with_substring (parse_boolean v false)) o6
             | None => o6
             end).
  assert (H7 : holds_none o7 = false)
    by (subst o7; now destruct (upd_substring data)).
  clearbody o7.
  (* tags *)
  rewrite Ht.
  rewrite (bind_ok _ _ _
             (assign_if_any set_tags
                (map (fun v => by_value v (tags d)) values) o7) d)
    by (now rewrite (bind_ok _ _ _ _ _
                       (names_loop_clean o7
                          (fun value s => by_value value (tags s)) values d
                          H7))).
  apply poisoned_at_username.
  assert (Hl : existsb is_none (map (fun v => by_value v (tags d)) values)
               = true)
    by (apply (lookups_hold_none (fun v => by_value v (tags d))); eauto).
  destruct (map (fun v => by_value v (tags d)) values); [discriminate|].
  unfold holds_none. cbn [assign_if_any set_tags obj_tags].
  rewrite Hl. apply orb_true_r.
Qed.

End Unknown.

End IngestFacts.

(* ===================================================================== *)
(** ** Duplicates, inactive users and unknown names *)
(* ===================================================================== *)

Module IngestClaims.
Import Schema Ingest IngestProps IngestFacts.

(** C7.  Let a creation request name a user who resolves and is active, a
    type that is in the store, and a value that an indicator of that type
    already has under the request's comparison mode (the bytes when
    [case_sensitive] is true, the lower-cased strings otherwise).  The
    single route answers 409, with the message of that mode, and leaves
    the store as it was.  In the bulk route, at any point of the loop
    where the cache agrees with the session, the item yields no indicator
    and no error and stages nothing; the loop goes on with the other
    items from the same session, with a cache that still agrees with it;
    a batch that starts with the item is answered by what the other items
    give, 204 and their rows committed when none of them fails. *)
Theorem duplicate_conflicts_or_is_skipped
  (cfg : config) (request_apikey : option string) (now : Z)
  (data : indicator_data) (d : db)
  (user : user_row) (t : lookup_row) (e : indicator_row) :
  resolved_user request_apikey data d = Some user ->
  active user = true ->
  by_value (data_type data) (indicator_types d) = Some t ->
  duplicate_of data t d = Some e ->
  post_indicators cfg request_apikey now data d
  = (Error_response 409 (conflict_message data), d) /\
  (forall c rest,
      cache_agrees c d ->
      let c' := remember_type data t
                  (remember_user request_apikey data user c) in
      create_indicators_item cfg request_apikey now data (c, d)
      = (Ok None, (c', d)) /\
      cache_agrees c' d /\
      create_indicators cfg request_apikey now (data :: rest) (c, d)
      = after_skipped
          (create_indicators cfg request_apikey now rest (c', d))) /\
  (forall rest,
      post_indicators_bulk cfg request_apikey now (data :: rest) d
      = bulk_response d
          (create_indicators cfg request_apikey now rest
             (remember_type data t
                (remember_user request_apikey data user empty_cache), d))).
Proof.
  intros Hu Ha Ht Hdup.
  assert (Hitem : forall c rest,
             cache_agrees c d ->
             let c' := remember_type data t
                         (remember_user request_apikey data user c) in
             create_indicators_item cfg request_apikey now data (c, d)
             = (Ok None, (c', d)) /\
             cache_agrees c' d /\
             create_indicators cfg request_apikey now (data :: rest) (c, d)
             = after_skipped
                 (create_indicators cfg request_apikey now rest (c', d))).
  { intros c rest Hc c'.
    pose proof (create_indicators_item_skips cfg request_apikey now data d
                  user t e Hu Ha Ht Hdup c Hc) as Hskip.
    split; [exact Hskip|]. split; [now apply remember_agrees|].
    unfold create_indicators. cbn [for_each].
    rewrite (bind_ok _ _ _ _ _ Hskip). fold c'.
    unfold bind, after_skipped.
    now destruct (for_each _ rest (c', d)) as [[ys|code message|exn] st]. }
  split; [|split; [exact Hitem|]].
  - unfold post_indicators.
    now rewrite (create_indicator_conflict cfg request_apikey now data d
                   user t e Hu Ha Ht Hdup).
  - intros rest.
    assert (Hempty : cache_agrees empty_cache d)
      by (repeat split; intros k x Hx; simpl in Hx;
          now rewrite lookup_empty in Hx).
    destruct (Hitem empty_cache rest Hempty) as (_ & _ & Hloop).
    unfold post_indicators_bulk. rewrite Hloop.
    unfold after_skipped, bulk_response.
    now destruct (create_indicators _ _ _ rest _)
      as [[ys|code message|exn] [c1 st]].
Qed.

(** On the sample store, with the API key of the analyst: a second
    1.2.3.4 of type IP is refused by the single route; the bulk route
    passes it over and commits 5.6.7.8, which follows it in the batch. *)
Lemma duplicate_conflicts_or_is_skipped_witness :
  post_indicators no_auto_create (Some "k1"%string) 0
    (new_item "IP" "1.2.3.4") Sample.store
  = (Error_response 409 "Case-insensitive indicator already exists",
     Sample.store) /\
  (let after :=
     post_indicators_bulk no_auto_create (Some "k1"%string) 0
       [new_item "IP" "1.2.3.4"; new_item "IP" "5.6.7.8"] Sample.store in
   fst after = Ok 204 /\
   map ind_value (indicators (snd after))
   = ["c.com"; "1.2.3.4"; "b.com"; "5.6.7.8"]%string).
Proof.
  destruct (duplicate_conflicts_or_is_skipped no_auto_create
              (Some "k1"%string) 0 (new_item "IP" "1.2.3.4") Sample.store
              {| user_id := 1; username := "analyst"; apikey := "k1";
                 active := true |}
              {| lk_id := 1; lk_value := "IP" |}
              (Sample.indicator 1 "1.2.3.4" 1)
              eq_refl eq_refl eq_refl eq_refl) as (Hsingle & _ & Hbulk).
  split; [exact Hsingle|].
  cbv zeta. rewrite Hbulk. split; vm_compute; reflexivity.
Defined.

(** C8.  The routes that create indicators refuse an inactive user: when
    the user a request resolves to has [active] false, the single route
    and the loop body of the bulk route return 401 and the session holds
    what it held.  The route that creates an intel reference does not
    read the flag: for a request with its three fields, an existing
    source, a reference that is new for that source and a username that
    resolves to an inactive user, it answers with the new reference,
    attributed to that user, and the store gains the row. *)
Theorem reference_route_lacks_active_check :
  (forall cfg request_apikey now data d user,
      resolved_user request_apikey data d = Some user ->
      active user = false ->
      create_indicator cfg request_apikey now data d
      = (Error_response 401
           "Cannot create an indicator with an inactive user", d) /\
      forall c,
        cache_agrees c d ->
        exists c',
          create_indicators_item cfg request_apikey now data (c, d)
          = (Error_response 401
               "Cannot create an indicator with an inactive user",
             (c', d))) /\
  (forall data d ref src u source user,
      form_reference data = Some ref ->
      form_source data = Some src ->
      form_username data = Some u ->
      by_value src (intel_sources d) = Some source ->
      reference_of_source ref source d = None ->
      user_by_username u d = Some user ->
      active user = false ->
      let r := {| ref_id := next_id (map ref_id (intel_references d));
                  reference := ref; ref_source_id := lk_id source;
                  ref_user_id := user_id user |} in
      post_intel_reference data d
      = (Ok r, with_intel_references (intel_references d ++ [r]) d)).
Proof.
  split.
  - intros cfg request_apikey now data d user Hu Ha. split.
    + now apply create_indicator_inactive with (user := user).
    + intros c Hc. eexists.
      now apply create_indicators_item_inactive with (user := user).
  - intros data d ref src u source user Hr Hs Hu Hsource Hnew Huser _ r.
    unfold post_intel_reference.
    now rewrite (create_intel_reference_any_user data d ref src u source
                   user Hr Hs Hu Hsource Hnew Huser).
Qed.

(** On the sample store, user [retired] is inactive: an indicator in their
    name is refused, a reference [r9] from source A in their name is
    stored with user id 2. *)
Lemma reference_route_lacks_active_check_witness :
  fst (post_indicators no_auto_create None 0
         {| data_username := Some "retired"%string; data_type := "IP";
            data_value := "9.9.9.9"; data_case_sensitive := None;
            data_confidence := None; data_impact := None;
            data_status := None; data_substring := None;
            data_campaigns := None; data_references := None;
            data_tags := None |} Sample.store)
  = Error_response 401 "Cannot create an indicator with an inactive user" /\
  (let after :=
     post_intel_reference
       {| form_reference := Some "r9"%string;
          form_source := Some "A"%string;
          form_username := Some "retired"%string |} Sample.store in
   fst after
   = Ok {| ref_id := 3; reference := "r9"; ref_source_id := 1;
           ref_user_id := 2 |} /\
   map ref_user_id (intel_references (snd after)) = [1; 1; 2]).
Proof.
  destruct reference_route_lacks_active_check as [Hind Href].
  split.
  - unfold post_indicators.
    destruct (Hind no_auto_create None 0
                {| data_username := Some "retired"%string;
                   data_type := "IP"; data_value := "9.9.9.9";
                   data_case_sensitive := None; data_confidence := None;
                   data_impact := None; data_status := None;
                   data_substring := None; data_campaigns := None;
                   data_references := None; data_tags := None |}
                Sample.store
                {| user_id := 2; username := "retired"; apikey := "k2";
                   active := false |} eq_refl eq_refl) as [-> _].
    reflexivity.
  - cbv zeta.
    rewrite (Href {| form_reference := Some "r9"%string;
                     form_source := Some "A"%string;
                     form_username := Some "retired"%string |}
               Sample.store "r9"%string "A"%string "retired"%string
               {| lk_id := 1; lk_value := "A" |}
               {| user_id := 2; username := "retired"; apikey := "k2";
                  active := false |}
               eq_refl eq_refl eq_refl eq_refl eq_refl eq_refl eq_refl).
    split; reflexivity.
Defined.

(** C9.  Unknown names do not get their 404.  In the campaigns and the
    tags loops the route calls [error_response] and drops what it
    returns, so a name that no row has puts [None] in the list, the list
    is assigned to the indicator, and the session raises [FlushError]
    when it next flushes: before the next query, or at the commit.  For
    an indicator that exists, a request that lists an unknown campaign
    is left by the exception, whatever else it holds; so is a request
    that lists an unknown tag, when the confidence, the impact, the
    references and the status it names are known (an unknown one among
    these is answered 404 before the tags are read).  Nothing is
    written. *)
Theorem unknown_names_raise
  (parse_boolean : json_scalar -> bool -> bool)
  (modified_on_update : indicator_obj -> indicator_obj -> Z)
  (d : db) (indicator_id : Z) (o : indicator_obj) (data : update_data) :
  get_indicator indicator_id d = Some o ->
  (forall values v,
      upd_campaigns data = Some values -> In v values ->
      campaign_by_name v d = None ->
      put_indicator parse_boolean modified_on_update indicator_id data d
      = (Raised FlushError, d)) /\
  (forall values v,
      upd_tags data = Some values -> In v values ->
      by_value v (tags d) = None ->
      names_known data d ->
      put_indicator parse_boolean modified_on_update indicator_id data d
      = (Raised FlushError, d)).
Proof.
  intros Hfound. unfold put_indicator. split.
  - intros values v Hc Hv Hnone.
    now rewrite (unknown_campaign_raises parse_boolean modified_on_update d
                   indicator_id o data Hfound values v Hc Hv Hnone).
  - intros values v Ht Hv Hnone (Kconf & Kimp & Kref & Kstat).
    destruct (upd_campaigns data) as [vs|] eqn:Ec.
    + destruct (existsb is_none (map (fun x => campaign_by_name x d) vs))
        eqn:E.
      * apply (lookups_hold_none (fun x => campaign_by_name x d)) in E
          as (x & Hx & Ex).
        now rewrite (unknown_campaign_raises parse_boolean
                       modified_on_update d indicator_id o data Hfound vs x
                       Ec Hx Ex).
      * rewrite (unknown_tag_raises parse_boolean modified_on_update d
                   indicator_id o data Hfound values v);
          try assumption; [reflexivity|].
        intros vs' x Evs Hx Ex. rewrite Ec in Evs. injection Evs as <-.
        assert (E' : existsb is_none
                       (map (fun x => campaign_by_name x d) vs) = true)
          by (apply (lookups_hold_none (fun x => campaign_by_name x d));
              eauto).
        congruence.
    + rewrite (unknown_tag_raises parse_boolean modified_on_update d
                 indicator_id o data Hfound values v);
        try assumption; [reflexivity|].
      intros vs' x Evs. rewrite Ec in Evs. discriminate.
Qed.

(** On the sample store no campaign is called [nope] and no tag is
    called [zzz]: the update of indicator 1 with these names is left by
    [FlushError], and so is the one that names the tag alone. *)
Lemma unknown_names_raise_witness :
  put_indicator json_boolean (fun _ _ => 0) 1
    {| upd_campaigns := Some ["LOLcats"; "nope"]%string;
       upd_case_sensitive := None; upd_confidence := None;
       upd_impact := None; upd_references := None; upd_status := None;
       upd_substring := None; upd_tags := Some ["zzz"]%string;
       upd_username := None |} Sample.store
  = (Raised FlushError, Sample.store) /\
  put_indicator json_boolean (fun _ _ => 0) 1
    {| upd_campaigns := None;
       upd_case_sensitive := None; upd_confidence := None;
       upd_impact := None; upd_references := None; upd_status := None;
       upd_substring := None; upd_tags := Some ["zzz"]%string;
       upd_username := None |} Sample.store
  = (Raised FlushError, Sample.store).
Proof.
  split.
  - destruct (unknown_names_raise json_boolean (fun _ _ => 0) Sample.store 1
                _ {| upd_campaigns := Some ["LOLcats"; "nope"]%string;
                     upd_case_sensitive := None; upd_confidence := None;
                     upd_impact := None; upd_references := None;
                     upd_status := None; upd_substring := None;
                     upd_tags := Some ["zzz"]%string;
                     upd_username := None |} eq_refl) as [H _].
    apply (H _ "nope"%string eq_refl); [|reflexivity].
    right. now left.
  - destruct (unknown_names_raise json_boolean (fun _ _ => 0) Sample.store 1
                _ {| upd_campaigns := None;
                     upd_case_sensitive := None; upd_confidence := None;
                     upd_impact := None; upd_references := None;
                     upd_status := None; upd_substring := None;
                     upd_tags := Some ["zzz"]%string;
                     upd_username := None |} eq_refl) as [_ H].
    apply (H _ "zzz"%string eq_refl); [now left|reflexivity|].
    repeat split; intros; discriminate.
Defined.

End IngestClaims.
(* ===================================================================== *)
(** ** What the planner reads and when it groups: the properties *)
(* ===================================================================== *)

Module GroupingProps.
Import Schema Sql Listing Props ShapeDefs PlanFacts ListingFacts PlanProps
  GroupingFacts.

(** X14.  The planner groups exactly when the request has one of the
    keys that join a table with several rows for one indicator:
    [not_sources], [not_tags], [not_users], [reference], [sources],
    [tags], [user] or [users]; no other key turns grouping on, and
    none turns it off. *)
Theorem grouping_iff_fanout_key
  (parse_boolean : string -> option bool -> option bool)
  (parse : string -> bool -> parse_result) (a : args) :
  groupby (plan parse_boolean parse a) = existsb (present a) grouping_keys.
Proof. apply plan_groupby. Qed.

(** X15.  The HAVING clauses of a plan come from [sources], [tags] and
    [users] alone, in that order: each gives one clause, the conjunction
    over its comma-separated pieces, when its value has no [OR] marker
    and two pieces or more, and none otherwise. *)
Theorem having_from_list_filters
  (parse_boolean : string -> option bool -> option bool)
  (parse : string -> bool -> parse_result) (a : args) :
  having (plan parse_boolean parse a)
  = list_having IntelSource_value (arg "sources" a)
    ++ list_having Tag_value (arg "tags" a)
    ++ list_having User_username (arg "users" a).
Proof. apply plan_having. Qed.

(** X16.  The listing reads the first value of each of its twenty-four
    filter keys and whether [count] is there, and nothing else: two
    query strings that agree on those give the same response, whatever
    other keys, later repetitions of a key, or value of [count] they
    have. *)
Theorem listing_reads_its_keys_only
  (parse_boolean : string -> option bool -> option bool)
  (parse : string -> bool -> parse_result) (a a' : args) (d : db) :
  (forall k, In k filter_keys -> arg k a' = arg k a) ->
  present a' "count" = present a "count" ->
  plan parse_boolean parse a' = plan parse_boolean parse a /\
  read_indicators parse_boolean parse a' d
  = read_indicators parse_boolean parse a d.
Proof.
  intros H Hcount.
  pose proof (plan_reads_filter_keys parse_boolean parse a a' H) as Hplan.
  split; [exact Hplan|].
  unfold read_indicators. rewrite Hplan. unfold present in Hcount.
  destruct (arg "count" a'), (arg "count" a); try discriminate; reflexivity.
Qed.

Lemma listing_reads_its_keys_only_witness :
  read_indicators Sample.parse_boolean Sample.parse
    [("page", "2"); ("tags", "a"); ("tags", "b"); ("count", "no")]%string
    Sample.store
  = read_indicators Sample.parse_boolean Sample.parse
      [("count", ""); ("tags", "a")]%string Sample.store.
Proof.
  apply listing_reads_its_keys_only; [|reflexivity].
  intros k Hk. simpl in Hk.
  repeat (destruct Hk as [<-|Hk]; [reflexivity|]). destruct Hk.
Defined.

End GroupingProps.

(* ===================================================================== *)
(** ** The order of a listing *)
(* ===================================================================== *)

Module OrderFacts.
Import Schema Sql Listing Props ShapeDefs PlanFacts ShapeFacts QueryFacts
  ListingFacts RowFacts PlanProps.

(** *** Every row of a plan holds an indicator *)

Lemma base_table_add_join t oc j : base_table (add_join t oc j) = base_table j.
Proof. unfold add_join. now destruct (bool_decide _). Qed.

Lemma base_table_add_outerjoin t j :
  base_table (add_outerjoin t j) = base_table j.
Proof. unfold add_outerjoin. now destruct (bool_decide _). Qed.

Lemma base_table_shape pr : base_table (shape pr) = Indicator.
Proof.
  unfold shape.
  assert (H : Forall (fun m => forall j, base_table (m j) = base_table j)
                (shape_blocks pr)).
  { unfold shape_blocks.
    repeat match goal with
           | |- Forall _ (_ :: _) => constructor
           | |- Forall _ [] => constructor
           end; intros j; try reflexivity;
      unfold when;
      match goal with
      | |- context [pr ?k] => destruct (pr k)
      end; try reflexivity;
      unfold add_reference_joins, add_IntelSource, add_User;
      now rewrite ?base_table_add_join, ?base_table_add_outerjoin. }
  assert (E : forall ms j,
             Forall (fun m => forall j, base_table (m j) = base_table j) ms ->
             base_table (fold_left (fun j m => m j) ms j) = base_table j).
  { clear. intros ms j H. revert j.
    induction H as [|m ms Hm _ IH]; intros j; simpl; [reflexivity|].
    now rewrite IH, Hm. }
  now rewrite (E _ _ H).
Qed.

Lemma base_table_named j : base_table j ∈ names j.
Proof.
  unfold names. induction j as [t|l IH r oc o]; simpl.
  - apply list_elem_of_singleton. reflexivity.
  - rewrite map_app. apply elem_of_app. now left.
Qed.

Lemma rows_bind_base d j rows e :
  from_rows d j = Some rows -> In e rows ->
  exists r, In r (table_rows d (base_table j)) /\
            env_lookup (base_table j) e = Some (Some r).
Proof.
  revert rows e. induction j as [t|l IH r oc o]; intros rows e Hrows He.
  - simpl in Hrows. injection Hrows as <-.
    apply in_map_iff in He as (x & <- & Hx). exists x.
    split; [assumption|]. simpl. now destruct (decide (t = t)).
  - simpl in Hrows.
    destruct (from_rows d l) as [envs|]; [|discriminate].
    destruct (decide (r ∈ names l)) as [|Hr]; [discriminate|].
    destruct (match oc with
              | Some c => Some c
              | None => infer_onclause (names l) r
              end) as [c|]; [|discriminate].
    injection Hrows as <-.
    apply in_flat_map in He as (e0 & He0 & He).
    destruct (IH envs e0 eq_refl He0) as (x & Hx & Hlook).
    exists x. split; [assumption|].
    assert (Hne : base_table l <> r)
      by (intros <-; apply Hr, base_table_named).
    destruct (List.filter _ (table_rows d r)) as [|t0 ts].
    + destruct o; [|destruct He]. destruct He as [<-|[]].
      simpl. now destruct (decide (base_table l = r)).
    + destruct He as [<-|He];
        [|apply in_map_iff in He as (t & <- & _)];
        simpl; now destruct (decide (base_table l = r)).
Qed.

Section Rows.

Variable parse_boolean : string -> option bool -> option bool.
Variable parse : string -> bool -> parse_result.
Variable a : args.
Variable d : db.
Variable rows : list env.
Hypothesis the_rows :
  from_rows d (join (plan parse_boolean parse a)) = Some rows.

(** Every row of the plan shows the id of an indicator of the store. *)
Lemma row_has_id e :
  In e rows ->
  exists i, In i (indicators d) /\
            env_lookup Indicator e = Some (Some (indicator_tuple i)) /\
            col_value e Indicator_id = VInt (ind_id i).
Proof.
  intros He.
  destruct (rows_bind_base d _ rows e the_rows He) as (r & Hr & Hlook).
  rewrite plan_shape, base_table_shape in Hr, Hlook.
  simpl in Hr. apply in_map_iff in Hr as (i & <- & Hi).
  exists i. split; [assumption|]. split; [assumption|].
  unfold col_value. simpl. now rewrite Hlook.
Qed.

End Rows.

(** *** Insertion sort *)

Section Sorting.

Context {A : Type}.
Variable key : A -> list value.

#[local] Abbreviation numbered := (numbered key).
#[local] Abbreviation key_le := (key_le key).

Lemma key_leb_numbers m n :
  key_leb [VInt m] [VInt n] = (m <=? n).
Proof.
  simpl. destruct (decide (VInt m = VInt n)) as [E|_]; [|reflexivity].
  injection E as ->. symmetry. apply Z.leb_refl.
Qed.

Lemma insert_by_sorted x l :
  numbered x -> Forall numbered l ->
  Sorted key_le l -> Sorted key_le (insert_by key_leb key x l).
Proof.
  intros [m Hm] Hall Hs. induction Hs as [|y l Hs IH Hhd]; simpl.
  - repeat constructor.
  - apply List.Forall_cons_iff in Hall as [[n Hn] Hall].
    rewrite Hm, Hn, key_leb_numbers.
    destruct (Z.leb_spec m n) as [Hle|Hlt].
    + constructor; [now constructor|].
      constructor. exists m, n. auto.
    + constructor; [auto|].
      specialize (IH Hall).
      destruct l as [|z l]; simpl in *.
      * constructor. exists n, m. repeat split; auto. lia.
      * apply List.Forall_cons_iff in Hall as [[k Hk] _].
        rewrite Hm, Hk, key_leb_numbers.
        destruct (Z.leb_spec m k).
        -- constructor. exists n, m. repeat split; auto. lia.
        -- constructor. now inversion Hhd.
Qed.

Lemma Forall_insert_by (P : A -> Prop) x l :
  P x -> Forall P l -> Forall P (insert_by key_leb key x l).
Proof.
  intros Hx Hl. induction Hl as [|y l Hy Hl IH]; simpl.
  - now repeat constructor.
  - destruct (key_leb (key x) (key y)); repeat constructor; auto.
Qed.

Lemma sort_by_sorted l :
  Forall numbered l -> Sorted key_le (sort_by key_leb key l).
Proof.
  induction l as [|x l IH]; intros H; simpl; [constructor|].
  apply List.Forall_cons_iff in H as [Hx Hl].
  apply insert_by_sorted; [assumption| |auto].
  clear IH Hx. induction Hl as [|y l Hy Hl IH]; simpl; [constructor|].
  now apply Forall_insert_by.
Qed.

Lemma sorted_map {B} (f : A -> B) (R : B -> B -> Prop) l :
  (forall x y, key_le x y -> R (f x) (f y)) ->
  Sorted key_le l -> Sorted R (map f l).
Proof.
  intros Hf Hs. induction Hs as [|x l Hs IH Hhd]; simpl; constructor; auto.
  destruct Hhd; simpl; constructor; auto.
Qed.

End Sorting.

(** *** The list of a plan without grouping *)

Section PlainList.

Variable parse_boolean : string -> option bool -> option bool.
Variable parse : string -> bool -> parse_result.
Variable a : args.
Variable d : db.
Variable rows : list env.

#[local] Abbreviation the_plan := (plan parse_boolean parse a).
#[local] Abbreviation id_key :=
  (fun e : env => map (col_value e) [Indicator_id]).

Hypothesis no_count : arg "count" a = None.
Hypothesis plain : groupby the_plan = false.
Hypothesis the_rows : from_rows d (join the_plan) = Some rows.

Lemma plain_no_having : having the_plan = [].
Proof.
  destruct (having the_plan) eqn:Hh; [reflexivity|].
  rewrite having_needs_groupby in plain; [discriminate|].
  rewrite Hh. discriminate.
Qed.

Lemma read_indicators_plain :
  read_indicators parse_boolean parse a d
  = Gzip_json
      (map entry_of_env
         (sort_by key_leb id_key (kept_rows d the_plan rows))).
Proof.
  unfold read_indicators.
  rewrite no_count, list_query_shape, plain, plain_no_having
    by (rewrite plain_no_having; simpl; lia).
  simpl. rewrite the_rows. simpl. unfold fetchall.
  rewrite map_map. reflexivity.
Qed.

End PlainList.

(** A list read off rows or groups sorted by the id goes up by id. *)
Lemma entries_go_up {A} (first : A -> env) (l : list A) :
  Forall (numbered (fun x => map (col_value (first x)) [Indicator_id])) l ->
  Sorted id_le
    (map (fun x => entry_of_env (first x))
       (sort_by key_leb (fun x => map (col_value (first x)) [Indicator_id])
          l)).
Proof.
  intros H.
  apply (sorted_map (fun x => map (col_value (first x)) [Indicator_id]));
    [|now apply sort_by_sorted].
  intros x y (m & n & Hx & Hy & Hle). simpl in Hx, Hy.
  injection Hx as Hx. injection Hy as Hy.
  unfold id_le, entry_of_env. simpl. now rewrite Hx, Hy.
Qed.

Lemma listing_goes_up parse_boolean parse a d data :
  read_indicators parse_boolean parse a d = Gzip_json data ->
  Sorted id_le data.
Proof.
  intros H.
  assert (Hcount : arg "count" a = None).
  { unfold read_indicators in H.
    destruct (arg "count" a); [|reflexivity].
    destruct (session_execute d _) as [[|[|n r] rs]|]; discriminate. }
  assert (Hone : (length (having (plan parse_boolean parse a)) <= 1)%nat).
  { destruct (le_lt_dec (length (having (plan parse_boolean parse a))) 1)
      as [Hone|Hmore]; [assumption|].
    unfold read_indicators in H. rewrite Hcount in H.
    destruct (queries_raise _ Hmore) as [_ E]. now rewrite E in H. }
  destruct (from_rows d (join (plan parse_boolean parse a)))
    as [rows|] eqn:Hrows.
  2:{ unfold read_indicators in H. rewrite Hcount in H.
      destruct (execute_rejected d _ Hrows) as [_ E]. now rewrite E in H. }
  assert (Hid : forall e, In e rows -> numbered
                  (fun e => map (col_value e) [Indicator_id]) e).
  { intros e He.
    destruct (row_has_id parse_boolean parse a d rows Hrows e He)
      as (i & _ & _ & E).
    exists (ind_id i). simpl. now rewrite E. }
  destruct (groupby (plan parse_boolean parse a)) eqn:Hg.
  - rewrite (read_indicators_grouped parse_boolean parse a d rows Hcount Hg
               Hrows Hone) in H.
    injection H as <-.
    apply (entries_go_up group_first). apply List.Forall_forall.
    intros g Hin. unfold passed_groups in Hin.
    apply filter_In in Hin as [Hin _].
    apply in_group_rows in Hin as (e0 & He0 & ->).
    destruct (group_first_key (fun e => map (col_value e) [Indicator_id])
                _ e0 He0) as [Hfirst _].
    apply filter_In in Hfirst as [Hfirst _].
    apply filter_In in Hfirst as [Hfirst _].
    now apply Hid.
  - rewrite (read_indicators_plain parse_boolean parse a d rows Hcount Hg
               Hrows) in H.
    injection H as <-.
    apply (entries_go_up (fun e => e)). apply List.Forall_forall.
    intros e Hin. apply filter_In in Hin as [Hin _]. now apply Hid.
Qed.

End OrderFacts.

Module OrderProps.
Import Schema Sql Listing Props PlanProps OrderFacts.

(** X17.  Every list the route returns goes up by id: whatever the
    filters and the store, each element carries the id of an indicator
    and no element has a smaller id than the one before it. *)
Theorem listing_sorted_by_id
  (parse_boolean : string -> option bool -> option bool)
  (parse : string -> bool -> parse_result) (a : args) (d : db)
  (data : list entry) :
  read_indicators parse_boolean parse a d = Gzip_json data ->
  Sorted id_le data.
Proof. apply listing_goes_up. Qed.

Lemma listing_sorted_by_id_witness :
  Sorted id_le
    [{| id := VInt 1; type := VStr "IP"; value_ := VStr "1.2.3.4" |};
     {| id := VInt 2; type := VStr "FQDN"; value_ := VStr "b.com" |};
     {| id := VInt 3; type := VStr "IP"; value_ := VStr "c.com" |}].
Proof.
  apply (listing_sorted_by_id Sample.parse_boolean Sample.parse []
           Sample.store).
  reflexivity.
Defined.

End OrderProps.

(* ===================================================================== *)
(** ** Listings over the indicators and their types alone *)
(* ===================================================================== *)

Module PlainFacts.
Import Schema Sql Listing Props ShapeDefs PlanFacts ShapeFacts QueryFacts
  ListingFacts RowFacts RowDefs PlanProps GroupingFacts OrderFacts.

(** The rows of the join the planner starts from. *)
Lemma from_rows_initial d : from_rows d (join initial) = Some (typed_rows d).
Proof.
  change (join initial)
    with (Join (From_table Indicator) IndicatorType
            (Some (On Indicator_type_id IndicatorType_id)) false).
  rewrite (JoinRows.from_rows_join d (From_table Indicator) IndicatorType _
             false (On Indicator_type_id IndicatorType_id)
             (map (fun r => [(Indicator, Some r)])
                (table_rows d Indicator))); try reflexivity.
  f_equal. unfold typed_rows.
  change (table_rows d Indicator) with (map indicator_tuple (indicators d)).
  rewrite !flat_map_concat_map, !map_map. f_equal.
  apply map_ext. intros i. unfold joined_with.
  change (table_rows d IndicatorType)
    with (map lookup_tuple (indicator_types d)).
  assert (E : List.filter
                (fun t =>
                   is_true3
                     (eval d
                        [(IndicatorType, Some t);
                         (Indicator, Some (indicator_tuple i))]
                        (On Indicator_type_id IndicatorType_id)))
                (map lookup_tuple (indicator_types d))
              = map lookup_tuple (types_of d i)).
  { unfold types_of. rewrite filter_map_swap. f_equal.
    apply filter_ext. intros t. simpl.
    now destruct (type_id i =? lk_id t). }
  rewrite E.
  destruct (types_of d i) as [|t ts]; simpl; [reflexivity|].
  now rewrite map_map.
Qed.

Lemma NoDup_map_inj {A B} (f : A -> B) (l : list A) :
  (forall x y, f x = f y -> x = y) -> NoDup l -> NoDup (map f l).
Proof.
  intros Hf. induction l as [|x l IH]; simpl;
    [intros _; apply NoDup_nil_2|].
  intros H. apply NoDup_cons in H as [Hx Hl].
  apply NoDup_cons. split; [|auto].
  intros Hin. apply Hx.
  apply list_elem_of_In, in_map_iff in Hin as (y & E & Hy).
  apply Hf in E. subst y. now apply list_elem_of_In.
Qed.

Section Consistent.

Variable d : db.
Hypothesis store_consistent : consistent d = true.

Lemma types_of_one i :
  In i (indicators d) ->
  exists t, types_of d i = [t] /\ In t (indicator_types d) /\
            lk_id t = type_id i.
Proof.
  intros Hi.
  destruct (consistent_type_exists d store_consistent i Hi)
    as (t & Ht & Et).
  exists t. split; [|auto].
  pose proof (consistent_type_ids d store_consistent) as Hnd.
  unfold types_of. clear Hi.
  induction (indicator_types d) as [|t' ts IH]; [destruct Ht|].
  apply NoDup_cons in Hnd as [Hn Hnd]. simpl.
  destruct Ht as [->|Ht].
  - rewrite <- Et, Z.eqb_refl. f_equal.
    clear IH Hnd. induction ts as [|x ts IH]; simpl; [reflexivity|].
    apply not_elem_of_cons in Hn as [Hx Hn].
    destruct (Z.eqb_spec (lk_id t) (lk_id x)) as [E|_]; [congruence|auto].
  - destruct (Z.eqb_spec (type_id i) (lk_id t')) as [E|_]; [|auto].
    exfalso. apply Hn. rewrite <- E, <- Et.
    apply list_elem_of_In. now apply in_map.
Qed.

Lemma in_typed_rows e :
  In e (typed_rows d) <->
  exists i t, In i (indicators d) /\ types_of d i = [t] /\ e = base_env i t.
Proof.
  unfold typed_rows. rewrite in_flat_map. split.
  - intros (i & Hi & He).
    destruct (types_of_one i Hi) as (t & E & _).
    rewrite E in He. destruct He as [<-|[]]. now exists i, t.
  - intros (i & t & Hi & E & ->). exists i. split; [assumption|].
    rewrite E. now left.
Qed.

Lemma typed_rows_ids_of l :
  (forall i, In i l -> In i (indicators d)) ->
  map (fun e => col_value e Indicator_id)
    (flat_map (fun i => map (base_env i) (types_of d i)) l)
  = map (fun i => VInt (ind_id i)) l.
Proof.
  induction l as [|i l IH]; intros H; simpl; [reflexivity|].
  destruct (types_of_one i (H i (or_introl eq_refl))) as (t & E & _).
  rewrite E, map_app, IH by (intros x Hx; apply H; now right).
  reflexivity.
Qed.

Lemma typed_rows_ids :
  map (fun e => col_value e Indicator_id) (typed_rows d)
  = map (fun i => VInt (ind_id i)) (indicators d).
Proof. now apply typed_rows_ids_of. Qed.

Lemma base_env_entry i t :
  In i (indicators d) -> types_of d i = [t] ->
  entry_of_env (base_env i t) = entry_of d i.
Proof.
  intros Hi E.
  destruct (types_of_one i Hi) as (t' & E' & Ht & Et).
  rewrite E in E'. injection E' as <-.
  unfold entry_of_env, entry_of, type_value. simpl. f_equal.
  rewrite <- Et.
  now rewrite (find_unique_id _ t (consistent_type_ids d store_consistent)
                 Ht).
Qed.

End Consistent.

(** *** Plans that join nothing *)

Section Unjoined.

Variable parse_boolean : string -> option bool -> option bool.
Variable parse : string -> bool -> parse_result.
Variable a : args.
Hypothesis no_join_key : forall k, In k join_keys -> present a k = false.

Lemma unjoined_join : join (plan parse_boolean parse a) = join initial.
Proof.
  rewrite plan_shape.
  rewrite (shape_ext (present a) (fun _ => false)); [reflexivity|].
  exact no_join_key.
Qed.

Lemma unjoined_groupby : groupby (plan parse_boolean parse a) = false.
Proof.
  rewrite plan_groupby. unfold grouping_keys. simpl.
  rewrite !no_join_key by (simpl; tauto). reflexivity.
Qed.

Variable d : db.
Hypothesis store_consistent : consistent d = true.
Hypothesis no_count : arg "count" a = None.

(** The list of such a plan: the indicators whose row passes every WHERE
    clause, each once. *)
Lemma unjoined_list_spec :
  exists data,
    read_indicators parse_boolean parse a d = Gzip_json data /\
    NoDup (map id data) /\
    length data
    = length (kept_rows d (plan parse_boolean parse a) (typed_rows d)) /\
    forall e,
      In e data <->
      exists i t,
        In i (indicators d) /\ types_of d i = [t] /\ e = entry_of d i /\
        forallb (fun w => is_true3 (eval d (base_env i t) w))
          (filters (plan parse_boolean parse a)) = true.
Proof.
  assert (Hrows : from_rows d (join (plan parse_boolean parse a))
                  = Some (typed_rows d))
    by (rewrite unjoined_join; apply from_rows_initial).
  eexists. split.
  - apply (read_indicators_plain parse_boolean parse a d (typed_rows d)
             no_count unjoined_groupby Hrows).
  - split; [|split].
    + rewrite map_map, sort_by_perm. unfold kept_rows.
      apply (NoDup_map_filter (fun e => id (entry_of_env e))).
      change (fun e => id (entry_of_env e))
        with (fun e => col_value e Indicator_id).
      rewrite (typed_rows_ids d store_consistent).
      pose proof (consistent_indicator_ids d store_consistent) as H.
      apply (NoDup_map_inj VInt) in H; [|now intros x y [= ->]].
      now rewrite map_map in H.
    + now rewrite length_map, length_sort_by.
    + intros e. rewrite in_map_iff. split.
      * intros (r & <- & Hr). apply in_sort_by, filter_In in Hr as [Hr Hp].
        apply (in_typed_rows d store_consistent) in Hr
          as (i & t & Hi & E & ->).
        exists i, t. repeat split; try assumption.
        now apply base_env_entry.
      * intros (i & t & Hi & E & -> & Hp).
        exists (base_env i t). split; [now apply base_env_entry|].
        apply in_sort_by, filter_In. split; [|assumption].
        apply (in_typed_rows d store_consistent). now exists i, t.
Qed.

End Unjoined.

(** A disjunction of equalities on the type's value, on the row of an
    indicator and its type. *)
Lemma eval_type_equals d i t x :
  eval d (base_env i t) (Equals IndicatorType_value x)
  = Some (String.eqb (lk_value t) x).
Proof. reflexivity. Qed.

Lemma eval_type_among d i t xs :
  is_true3 (eval d (base_env i t) (Or_ (map (Equals IndicatorType_value) xs)))
  = existsb (String.eqb (lk_value t)) xs.
Proof.
  induction xs as [|x xs IH]; [reflexivity|].
  change (is_true3
            (or3 (eval d (base_env i t) (Equals IndicatorType_value x))
               (eval d (base_env i t)
                  (Or_ (map (Equals IndicatorType_value) xs))))
          = (String.eqb (lk_value t) x
             || existsb (String.eqb (lk_value t)) xs)).
  rewrite eval_type_equals, <- IH.
  destruct (String.eqb (lk_value t) x); [reflexivity|].
  now destruct (eval d (base_env i t) _) as [[|]|].
Qed.

Lemma existsb_eqb_in s xs : existsb (String.eqb s) xs = true <-> In s xs.
Proof.
  rewrite existsb_exists. split.
  - intros (x & Hx & E). apply String.eqb_eq in E. now subst.
  - intros H. exists s. split; [assumption|apply String.eqb_refl].
Qed.

(** The WHERE clauses of a plan for [types] alone pass on the rows whose
    type's value is one of the pieces. *)
Lemma types_filter_passes parse_boolean parse v d i t :
  forallb (fun w => is_true3 (eval d (base_env i t) w))
    (filters (plan parse_boolean parse [("types", v)]%string)) = true
  <-> In (lk_value t) (Py.split "," v).
Proof.
  pose proof (PyFacts.split_not_nil "," v) as Hne.
  assert (E : filters (plan parse_boolean parse [("types", v)]%string)
              = match Py.split "," v with
                | [] => []
                | [x] => [Equals IndicatorType_value x]
                | xs => [Or_ (map (Equals IndicatorType_value) xs)]
                end).
  { unfold plan. simpl. unfold block_types. simpl.
    now destruct (Py.split "," v) as [|x [|y xs]]. }
  rewrite E. destruct (Py.split "," v) as [|x [|y xs]] eqn:Es;
    [congruence| |].
  - cbn [forallb]. rewrite eval_type_equals, andb_true_r.
    destruct (String.eqb_spec (lk_value t) x) as [->|Hx]; simpl.
    + split; auto.
    + split; [discriminate|]. intros [E0|[]]. congruence.
  - cbn [forallb]. rewrite eval_type_among, andb_true_r.
    apply existsb_eqb_in.
Qed.

End PlainFacts.

Module PlainProps.
Import Schema Sql Listing Props ShapeDefs PlanFacts ShapeFacts QueryFacts
  ListingFacts RowFacts RowDefs PlanProps GroupingFacts OrderFacts PlainFacts.

(** X18.  A request with none of the filter keys lists everything: on a
    store whose indicator ids and type ids are unique and whose
    indicators each have their type, the list holds each indicator once,
    with its id, the value of its type and its value, and nothing else;
    with [count], the answer is the number of indicators. *)
Theorem unfiltered_listing_is_everything
  (parse_boolean : string -> option bool -> option bool)
  (parse : string -> bool -> parse_result) (a : args) (d : db) :
  (forall k, In k filter_keys -> arg k a = None) ->
  consistent d = true ->
  match arg "count" a with
  | None =>
      exists data,
        read_indicators parse_boolean parse a d = Gzip_json data /\
        NoDup (map id data) /\
        forall e, In e data <->
                  exists i, In i (indicators d) /\ e = entry_of d i
  | Some _ =>
      read_indicators parse_boolean parse a d
      = Count_json (VInt (Z.of_nat (length (indicators d))))
  end.
Proof.
  intros Hnone Hd.
  assert (Hplan : plan parse_boolean parse a = initial).
  { rewrite (plan_reads_filter_keys parse_boolean parse [] a);
      [reflexivity|]. intros k Hk. now rewrite Hnone. }
  assert (Hkeys : forall k, In k join_keys -> present a k = false).
  { intros k Hk. unfold present. rewrite Hnone; [reflexivity|].
    simpl in Hk. simpl. tauto. }
  destruct (arg "count" a) as [c|] eqn:Hcount.
  - unfold read_indicators. rewrite Hcount, Hplan.
    rewrite (execute_count_plain d initial (typed_rows d) eq_refl eq_refl
               (from_rows_initial d)).
    simpl. unfold kept_rows. simpl. rewrite filter_all.
    do 3 f_equal.
    rewrite <- (length_map (fun e => col_value e Indicator_id)).
    rewrite (typed_rows_ids d Hd). apply length_map.
  - destruct (unjoined_list_spec parse_boolean parse a Hkeys d Hd Hcount)
      as (data & Hread & Hnd & _ & Hdata).
    exists data. split; [assumption|]. split; [assumption|].
    intros e. rewrite Hdata, Hplan. simpl. split.
    + intros (i & t & Hi & _ & -> & _). eauto.
    + intros (i & Hi & ->).
      destruct (types_of_one d Hd i Hi) as (t & E & _).
      exists i, t. auto.
Qed.

Lemma unfiltered_listing_is_everything_witness :
  read_indicators Sample.parse_boolean Sample.parse
    [("page", "1"); ("count", "")]%string Sample.store
  = Count_json (VInt 3).
Proof.
  apply (unfiltered_listing_is_everything Sample.parse_boolean Sample.parse
           [("page", "1"); ("count", "")]%string Sample.store).
  - intros k Hk. simpl in Hk.
    repeat (destruct Hk as [<-|Hk]; [reflexivity|]). destruct Hk.
  - reflexivity.
Defined.

(** X19.  A request whose one filter key is [types], with value [v],
    lists the indicators whose type has one of the comma-separated
    pieces of [v] as its value: on a consistent store each of them is
    listed once and nothing else is. *)
Theorem types_lists_those_types
  (parse_boolean : string -> option bool -> option bool)
  (parse : string -> bool -> parse_result) (a : args) (v : string)
  (d : db) :
  arg "types" a = Some v ->
  (forall k, In k filter_keys -> k <> "types"%string -> arg k a = None) ->
  arg "count" a = None ->
  consistent d = true ->
  exists data,
    read_indicators parse_boolean parse a d = Gzip_json data /\
    NoDup (map id data) /\
    forall e,
      In e data <->
      exists i t,
        In i (indicators d) /\ In t (indicator_types d) /\
        lk_id t = type_id i /\ In (lk_value t) (Py.split "," v) /\
        e = entry_of d i.
Proof.
  intros Hv Hnone Hcount Hd.
  assert (Hplan : plan parse_boolean parse a
                  = plan parse_boolean parse [("types", v)]%string).
  { apply plan_reads_filter_keys. intros k Hk.
    destruct (String.eqb_spec k "types") as [->|Hne].
    - now rewrite Hv.
    - rewrite (Hnone k Hk Hne). unfold arg. cbn [List.find fst snd].
      destruct (String.eqb_spec "types" k); [congruence|reflexivity]. }
  assert (Hkeys : forall k, In k join_keys -> present a k = false).
  { intros k Hk. unfold present. rewrite Hnone; [reflexivity| |].
    - simpl in Hk. simpl. tauto.
    - intros ->. simpl in Hk. intuition discriminate. }
  destruct (unjoined_list_spec parse_boolean parse a Hkeys d Hd Hcount)
    as (data & Hread & Hnd & _ & Hdata).
  exists data. split; [assumption|]. split; [assumption|].
  intros e. rewrite Hdata, Hplan. split.
  - intros (i & t & Hi & E & -> & Hp).
    apply types_filter_passes in Hp.
    destruct (types_of_one d Hd i Hi) as (t' & E' & Ht & Et).
    rewrite E in E'. injection E' as <-.
    exists i, t. auto.
  - intros (i & t & Hi & Ht & Et & Hin & ->).
    destruct (types_of_one d Hd i Hi) as (t' & E' & Ht' & Et').
    assert (t' = t).
    { pose proof (find_unique_id _ t (consistent_type_ids d Hd) Ht) as F1.
      pose proof (find_unique_id _ t' (consistent_type_ids d Hd) Ht') as F2.
      rewrite Et in F1. rewrite Et' in F2. congruence. }
    subst t'. exists i, t. repeat split; try assumption.
    now apply types_filter_passes.
Qed.

Lemma types_lists_those_types_witness :
  exists data,
    read_indicators Sample.parse_boolean Sample.parse
      [("types", "FQDN,URL")]%string Sample.store = Gzip_json data /\
    In {| id := VInt 2; type := VStr "FQDN"; value_ := VStr "b.com" |} data.
Proof.
  destruct (types_lists_those_types Sample.parse_boolean Sample.parse
              [("types", "FQDN,URL")]%string "FQDN,URL" Sample.store
              eq_refl)
    as (data & Hread & _ & Hdata).
  - intros k Hk Hne. unfold arg. cbn [List.find fst snd].
    destruct (String.eqb_spec "types" k); [congruence|reflexivity].
  - reflexivity.
  - reflexivity.
  - exists data. split; [assumption|]. apply Hdata.
    exists (Sample.indicator 2 "b.com" 2), {| lk_id := 2; lk_value := "FQDN" |}.
    simpl. repeat split; auto.
Defined.

End PlainProps.

(* ===================================================================== *)
(** ** The value filter and the date filters *)
(* ===================================================================== *)

Module ValueFacts.
Import Schema Sql Listing Props ShapeDefs PlanFacts ShapeFacts QueryFacts
  ListingFacts RowFacts RowDefs PlanProps GroupingFacts OrderFacts PlainFacts.

(** *** LIKE *)

Lemma append_empty s : ("" +:+ s)%string = s.
Proof. reflexivity. Qed.

Lemma append_cons c s t : (String c s +:+ t)%string = String c (s +:+ t).
Proof. reflexivity. Qed.

Lemma append_empty_r s : (s +:+ "")%string = s.
Proof.
  induction s as [|c s IH]; [reflexivity|]. now rewrite append_cons, IH.
Qed.

Lemma like_percent_cons p c s :
  like (String "%" p) (String c s)
  = like p (String c s) || like (String "%" p) s.
Proof. reflexivity. Qed.

Lemma like_percent_nil p : like (String "%" p) "" = like p "".
Proof. simpl. now rewrite orb_false_r. Qed.

(** [%] in front: some end of the string matches the rest of the
    pattern. *)
Lemma like_percent p s :
  like (String "%" p) s = true <->
  exists pre post, s = pre +:+ post /\ like p post = true.
Proof.
  induction s as [|c s IH].
  - rewrite like_percent_nil. split.
    + intros H. now exists ""%string, ""%string.
    + intros (pre & post & E & H).
      destruct pre; rewrite ?append_empty, ?append_cons in E;
        [now subst|discriminate].
  - rewrite like_percent_cons, orb_true_iff, IH. split.
    + intros [H|(pre & post & -> & H)].
      * now exists ""%string, (String c s).
      * now exists (String c pre), post.
    + intros (pre & post & E & H).
      destruct pre as [|c' pre]; rewrite ?append_empty, ?append_cons in E.
      * left. now subst.
      * right. injection E as -> ->. now exists pre, post.
Qed.

Lemma like_percent_only s : like "%" s = true.
Proof.
  apply like_percent. exists s, ""%string. split; [|reflexivity].
  now rewrite append_empty_r.
Qed.

(** A pattern that starts with plain text: the string starts with that
    text, letters in either case. *)
Lemma like_plain v p s :
  plain_text v = true ->
  like (v +:+ p) s = true <->
  exists mid rest,
    s = mid +:+ rest /\ fold_case mid = fold_case v /\ like p rest = true.
Proof.
  revert s. induction v as [|c v IH]; intros s Hv.
  - rewrite append_empty. split.
    + intros H. now exists ""%string, s.
    + intros (mid & rest & -> & E & H).
      destruct mid; [assumption|discriminate].
  - simpl in Hv. apply andb_prop in Hv as [Hc Hv].
    apply negb_true_iff, orb_false_iff in Hc as [Hc _].
    apply orb_false_iff in Hc as [Hp Hu].
    change (String c v +:+ p) with (String c (v +:+ p)).
    cbn [like]. rewrite Hp.
    destruct s as [|c' s].
    + split; [discriminate|]. intros (mid & rest & E & Em & _).
      destruct mid; [discriminate|]. rewrite append_cons in E.
      discriminate.
    + rewrite Hu. cbn [orb]. rewrite andb_true_iff, (IH s Hv). split.
      * intros [Hc (mid & rest & -> & Em & H)]. apply Ascii.eqb_eq in Hc.
        exists (String c' mid), rest. split; [reflexivity|].
        split; [simpl; congruence|assumption].
      * intros (mid & rest & E & Em & H).
        destruct mid as [|c0 mid]; [discriminate|].
        rewrite append_cons in E. injection E as -> ->.
        simpl in Em. injection Em as Ec Em.
        split; [apply Ascii.eqb_eq; congruence|]. now exists mid, rest.
Qed.

(** The pattern of the value filter on plain text: the text occurs in the
    string. *)
Lemma like_contains v s :
  plain_text v = true ->
  like ("%" +:+ v +:+ "%") s = true <-> occurs_in v s.
Proof.
  intros Hv. unfold occurs_in.
  change ("%" +:+ v +:+ "%")%string with (String "%" (v +:+ "%")).
  rewrite like_percent. split.
  - intros (pre & post & -> & H).
    apply (like_plain v "%" post Hv) in H as (mid & rest & -> & Em & _).
    now exists pre, mid, rest.
  - intros (pre & mid & post & -> & Em).
    exists pre, (mid +:+ post). split; [reflexivity|].
    apply (like_plain v "%" _ Hv). exists mid, post.
    split; [reflexivity|]. split; [assumption|].
    apply like_percent_only.
Qed.

(** *** A request with one filter key *)

Section OneKey.

Variable parse_boolean : string -> option bool -> option bool.
Variable parse : string -> bool -> parse_result.
Variable a : args.
Variables k v : string.
Hypothesis the_key : arg k a = Some v.
Hypothesis no_other :
  forall k', In k' filter_keys -> k' <> k -> arg k' a = None.

Lemma one_key_plan :
  plan parse_boolean parse a = plan parse_boolean parse [(k, v)].
Proof.
  apply plan_reads_filter_keys. intros k' Hk'.
  unfold arg at 2. cbn [List.find fst snd].
  destruct (String.eqb_spec k k') as [E|Hne];
    [rewrite <- E; now rewrite the_key|].
  rewrite no_other; [reflexivity|assumption|congruence].
Qed.

Lemma one_key_unjoined :
  ~ In k join_keys -> forall j, In j join_keys -> present a j = false.
Proof.
  intros Hk j Hj. unfold present. rewrite no_other; [reflexivity| |].
  - simpl in Hj. simpl. tauto.
  - intros ->. contradiction.
Qed.

End OneKey.

Lemma value_filter_passes parse_boolean parse v d i t :
  forallb (fun w => is_true3 (eval d (base_env i t) w))
    (filters (plan parse_boolean parse [("value", v)]%string))
  = like ("%" +:+ v +:+ "%") (ind_value i).
Proof.
  change (filters (plan parse_boolean parse [("value", v)]%string))
    with [Like Indicator_value ("%" +:+ v +:+ "%")].
  cbn [forallb]. rewrite andb_true_r.
  change (eval d (base_env i t) (Like Indicator_value ("%" +:+ v +:+ "%")))
    with (Some (like ("%" +:+ v +:+ "%") (ind_value i))).
  cbn [is_true3].
  now destruct (like ("%" +:+ v +:+ "%") (ind_value i)).
Qed.

Lemma date_filter_passes parse_boolean parse k v t0 d i t :
  parse v (date_ignoretz k) = Parsed t0 ->
  forallb (fun w => is_true3 (eval d (base_env i t) w))
    (filters (plan parse_boolean parse [(date_key k, v)])) = true
  <-> date_holds k t0 i.
Proof.
  intros Hp.
  assert (E : filters (plan parse_boolean parse [(date_key k, v)])
              = [date_clause k (Datetime t0)]).
  { destruct k; simpl in Hp;
      unfold plan; simpl;
      unfold block_created_after, block_created_before,
        block_modified_after, block_modified_before; simpl;
      unfold parse_or; now rewrite Hp. }
  rewrite E. cbn [forallb]. rewrite andb_true_r.
  destruct k; simpl;
    match goal with
    | |- (if ?x <? ?y then _ else _) = true <-> _ =>
        destruct (Z.ltb_spec x y)
    end; split; auto; try discriminate; lia.
Qed.

End ValueFacts.

Module ValueProps.
Import Schema Sql Listing Props ShapeDefs PlanFacts ShapeFacts QueryFacts
  ListingFacts RowFacts RowDefs PlanProps GroupingFacts OrderFacts PlainFacts
  ValueFacts.

(** X20.  A request whose one filter key is [value], with a text [v] that
    has none of [%], [_] and the backslash, lists the indicators in whose
    value [v] occurs, the letters A to Z in either case: on a consistent
    store each of them is listed once and nothing else is.  The text
    goes into the pattern as it is, so the empty text matches every
    value. *)
Theorem value_lists_values_containing
  (parse_boolean : string -> option bool -> option bool)
  (parse : string -> bool -> parse_result) (a : args) (v : string)
  (d : db) :
  arg "value" a = Some v ->
  (forall k, In k filter_keys -> k <> "value"%string -> arg k a = None) ->
  arg "count" a = None ->
  consistent d = true ->
  plain_text v = true ->
  exists data,
    read_indicators parse_boolean parse a d = Gzip_json data /\
    NoDup (map id data) /\
    forall e,
      In e data <->
      exists i, In i (indicators d) /\ occurs_in v (ind_value i) /\
                e = entry_of d i.
Proof.
  intros Hv Hnone Hcount Hd Hplain.
  pose proof (one_key_plan parse_boolean parse a "value" v Hv Hnone) as Hplan.
  assert (Hkeys : forall j, In j join_keys -> present a j = false).
  { apply (one_key_unjoined parse_boolean parse a "value" Hnone).
    simpl. intuition discriminate. }
  destruct (unjoined_list_spec parse_boolean parse a Hkeys d Hd Hcount)
    as (data & Hread & Hnd & _ & Hdata).
  exists data. split; [assumption|]. split; [assumption|].
  intros e. rewrite Hdata, Hplan. split.
  - intros (i & t & Hi & E & -> & Hp).
    rewrite value_filter_passes in Hp.
    apply (like_contains v _ Hplain) in Hp. now exists i.
  - intros (i & Hi & Hocc & ->).
    destruct (types_of_one d Hd i Hi) as (t & E & _).
    exists i, t. repeat split; try assumption.
    rewrite value_filter_passes. now apply like_contains.
Qed.

(** [value=.COM] on the sample store lists [c.com]. *)
Lemma value_lists_values_containing_witness :
  exists data,
    read_indicators Sample.parse_boolean Sample.parse
      [("value", ".COM")]%string Sample.store = Gzip_json data /\
    In {| id := VInt 3; type := VStr "IP"; value_ := VStr "c.com" |} data.
Proof.
  destruct (value_lists_values_containing Sample.parse_boolean Sample.parse
              [("value", ".COM")]%string ".COM" Sample.store eq_refl)
    as (data & Hread & _ & Hdata).
  - intros k Hk Hne. unfold arg. cbn [List.find fst snd].
    destruct (String.eqb_spec "value" k); [congruence|reflexivity].
  - reflexivity.
  - reflexivity.
  - reflexivity.
  - exists data. split; [assumption|]. apply Hdata.
    exists (Sample.indicator 3 "c.com" 1). split; [now left|].
    split; [now exists "c"%string, ".com"%string, ""%string|reflexivity].
Defined.

(** X21.  The date filters are strict.  A request whose one filter key is
    a date key, with a value that the date parser reads as [t], lists the
    indicators created (or modified) after [t], or before [t], and not
    those stamped [t] itself: on a consistent store each indicator on
    the asked side of [t] is listed once and nothing else is. *)
Theorem date_filter_is_strict
  (parse_boolean : string -> option bool -> option bool)
  (parse : string -> bool -> parse_result) (a : args) (k : date_param)
  (v : string) (t : Z) (d : db) :
  arg (date_key k) a = Some v ->
  (forall k', In k' filter_keys -> k' <> date_key k -> arg k' a = None) ->
  arg "count" a = None ->
  consistent d = true ->
  parse v (date_ignoretz k) = Parsed t ->
  exists data,
    read_indicators parse_boolean parse a d = Gzip_json data /\
    NoDup (map id data) /\
    forall e,
      In e data <->
      exists i, In i (indicators d) /\ date_holds k t i /\ e = entry_of d i.
Proof.
  intros Hv Hnone Hcount Hd Hparse.
  pose proof (one_key_plan parse_boolean parse a (date_key k) v Hv Hnone)
    as Hplan.
  assert (Hkeys : forall j, In j join_keys -> present a j = false).
  { apply (one_key_unjoined parse_boolean parse a (date_key k) Hnone).
    destruct k; simpl; intuition discriminate. }
  destruct (unjoined_list_spec parse_boolean parse a Hkeys d Hd Hcount)
    as (data & Hread & Hnd & _ & Hdata).
  exists data. split; [assumption|]. split; [assumption|].
  intros e. rewrite Hdata, Hplan. split.
  - intros (i & ty & Hi & E & -> & Hp).
    apply (date_filter_passes _ _ k v t d i ty Hparse) in Hp. now exists i.
  - intros (i & Hi & Hdate & ->).
    destruct (types_of_one d Hd i Hi) as (ty & E & _).
    exists i, ty. repeat split; try assumption.
    now apply (date_filter_passes _ _ k v t d i ty Hparse).
Qed.

Lemma date_filter_is_strict_witness :
  read_indicators Sample.parse_boolean Sample.parse
    [("created_before", "2019")]%string Sample.store
  = Gzip_json [].
Proof.
  destruct (date_filter_is_strict Sample.parse_boolean Sample.parse
              [("created_before", "2019")]%string created_before
              "2019" 63681552000 Sample.store eq_refl)
    as (data & Hread & _ & Hdata).
  - intros k Hk Hne. unfold arg. cbn [List.find fst snd].
    destruct (String.eqb_spec "created_before" k) as [E|_];
      [now elim Hne|reflexivity].
  - reflexivity.
  - reflexivity.
  - reflexivity.
  - rewrite Hread. f_equal. destruct data as [|e data]; [reflexivity|].
    exfalso.
    destruct (proj1 (Hdata e) (or_introl eq_refl)) as (i & Hi & Hlt & _).
    simpl in Hi, Hlt.
    destruct Hi as [<-|[<-|[<-|[]]]]; simpl in Hlt; lia.
Defined.

End ValueProps.

(* ===================================================================== *)
(** ** What the write routes keep *)
(* ===================================================================== *)

Module WriteFacts.
Import Schema Ingest IngestProps IngestFacts References Frames.

Lemma bind_inv {S A B} (m : M S A) (k : A -> M S B) s y s' :
  bind m k s = (Ok y, s') ->
  exists x s1, m s = (Ok x, s1) /\ k x s1 = (Ok y, s').
Proof.
  unfold bind. destruct (m s) as [[x|code message|exn] s1]; [eauto|discriminate|discriminate].
Qed.

Lemma query_inv {A} (f : db -> A) s x s' :
  query f s = (Ok x, s') -> x = f s /\ s' = s.
Proof. unfold query. now intros [= <- <-]. Qed.

Lemma ret_inv {S A} (x y : A) (s s' : S) :
  ret x s = (Ok y, s') -> y = x /\ s' = s.
Proof. unfold ret. now intros [= <- <-]. Qed.

(** *** Appending *)

Lemma appended_refl d : appended d d.
Proof. unfold appended. repeat split; reflexivity. Qed.

Lemma appended_trans d1 d2 d3 :
  appended d1 d2 -> appended d2 d3 -> appended d1 d3.
Proof.
  unfold appended.
  intros (A1 & A2 & A3 & A4 & A5 & A6 & A7 & A8 & A9 & A10 & A11 & A12 & A13)
         (B1 & B2 & B3 & B4 & B5 & B6 & B7 & B8 & B9 & B10 & B11 & B12 & B13).
  repeat split; try (etransitivity; eassumption).
Qed.

Lemma lookups_appended_refl d : lookups_appended d d.
Proof. split; [apply appended_refl|auto]. Qed.

Lemma lookups_appended_trans d1 d2 d3 :
  lookups_appended d1 d2 -> lookups_appended d2 d3 ->
  lookups_appended d1 d3.
Proof.
  intros (A & A1 & A2 & A3 & A4) (B & B1 & B2 & B3 & B4).
  split; [eapply appended_trans; eassumption|].
  repeat split; congruence.
Qed.

#[export] Instance lookups_appended_preorder : PreOrder lookups_appended.
Proof.
  split; [exact lookups_appended_refl|exact lookups_appended_trans].
Qed.

#[export] Instance appended_preorder : PreOrder appended.
Proof. split; [exact appended_refl|exact appended_trans]. Qed.

Lemma prefix_snoc {A} (l : list A) x : l `prefix_of` l ++ [x].
Proof. now exists [x]. Qed.

Ltac one_table_appended :=
  intros; split; [unfold appended|]; simpl;
  repeat split; try reflexivity; apply prefix_snoc.

#[export] Instance types_table :
  LookupTable indicator_types with_indicator_types.
Proof. split; [reflexivity|one_table_appended]. Qed.
#[export] Instance confidences_table :
  LookupTable indicator_confidences with_indicator_confidences.
Proof. split; [reflexivity|one_table_appended]. Qed.
#[export] Instance impacts_table :
  LookupTable indicator_impacts with_indicator_impacts.
Proof. split; [reflexivity|one_table_appended]. Qed.
#[export] Instance statuses_table :
  LookupTable indicator_statuses with_indicator_statuses.
Proof. split; [reflexivity|one_table_appended]. Qed.
#[export] Instance sources_table :
  LookupTable intel_sources with_intel_sources.
Proof. split; [reflexivity|one_table_appended]. Qed.
#[export] Instance tags_table : LookupTable tags with_tags.
Proof. split; [reflexivity|one_table_appended]. Qed.

(** *** Lookups in a table that grows *)

Lemma find_app_Some {A} (f : A -> bool) l k x :
  List.find f l = Some x -> List.find f (l ++ k) = Some x.
Proof.
  induction l as [|y l IH]; simpl; [discriminate|].
  destruct (f y); auto.
Qed.

Lemma find_app_None {A} (f : A -> bool) l k :
  List.find f l = None -> List.find f (l ++ k) = List.find f k.
Proof.
  induction l as [|y l IH]; simpl; [reflexivity|].
  destruct (f y); [discriminate|auto].
Qed.

Lemma find_prefix {A} (f : A -> bool) (l l' : list A) x :
  l `prefix_of` l' -> List.find f l = Some x -> List.find f l' = Some x.
Proof. intros [k ->]. apply find_app_Some. Qed.

Lemma by_value_prefix v rows rows' r :
  rows `prefix_of` rows' ->
  by_value v rows = Some r -> by_value v rows' = Some r.
Proof. apply find_prefix. Qed.

Lemma by_value_value v rows r : by_value v rows = Some r -> lk_value r = v.
Proof.
  unfold by_value. intros H. apply find_some in H as [_ H].
  now apply String.eqb_eq in H.
Qed.

(** *** The lookups of the creation routes *)

Lemma find_or_create_ok get set `{!LookupTable get set} auto not_found v s
  r s' :
  find_or_create get set auto not_found v s = (Ok r, s') ->
  lookups_appended s s' /\ by_value v (get s') = Some r.
Proof.
  unfold find_or_create. intros H.
  apply bind_inv in H as (found & s1 & Hq & H).
  apply query_inv in Hq as [-> ->].
  destruct (by_value v (get s)) as [r0|] eqn:E.
  - apply ret_inv in H as [-> ->]. split; [reflexivity|assumption].
  - destruct auto; [|discriminate].
    unfold add_lookup in H. injection H as <- <-.
    split; [apply set_appended|].
    rewrite get_set. unfold by_value in *.
    rewrite (find_app_None _ _ _ E). simpl. now rewrite String.eqb_refl.
Qed.

Lemma default_of_ok get message s r s' :
  default_of get message s = (Ok r, s') -> s' = s.
Proof.
  unfold default_of. intros H.
  apply bind_inv in H as (found & s1 & Hq & H).
  apply query_inv in Hq as [-> ->].
  destruct (lowest_id (get s)); [|discriminate].
  now apply ret_inv in H as [_ ->].
Qed.

Lemma add_campaign_appended n s r s' :
  add_campaign n s = (Ok r, s') -> lookups_appended s s'.
Proof.
  unfold add_campaign. intros [= <- <-].
  split; [unfold appended|]; simpl;
    repeat split; try reflexivity; apply prefix_snoc.
Qed.

Lemma add_reference_appended ref source user s r s' :
  add_reference ref source user s = (Ok r, s') -> lookups_appended s s'.
Proof.
  unfold add_reference. intros [= <- <-].
  split; [unfold appended|]; simpl;
    repeat split; try reflexivity; apply prefix_snoc.
Qed.

Lemma find_or_create_campaign_ok cfg v s r s' :
  find_or_create_campaign cfg v s = (Ok r, s') -> lookups_appended s s'.
Proof.
  unfold find_or_create_campaign. intros H.
  apply bind_inv in H as (found & s1 & Hq & H).
  apply query_inv in Hq as [-> ->].
  destruct (campaign_by_name v s).
  - apply ret_inv in H as [_ ->]. reflexivity.
  - destruct (AUTO_CREATE_CAMPAIGN cfg); [|discriminate].
    now apply add_campaign_appended in H.
Qed.

Lemma find_or_create_source_ok v s r s' :
  find_or_create_source v s = (Ok r, s') -> lookups_appended s s'.
Proof.
  unfold find_or_create_source. intros H.
  apply bind_inv in H as (found & s1 & Hq & H).
  apply query_inv in Hq as [-> ->].
  destruct (by_value v (intel_sources s)).
  - apply ret_inv in H as [_ ->]. reflexivity.
  - unfold add_lookup in H. injection H as <- <-.
    apply (set_appended (get := intel_sources)).
Qed.

Lemma find_or_create_reference_ok cfg user item s r s' :
  find_or_create_reference cfg user item s = (Ok r, s') ->
  lookups_appended s s'.
Proof.
  unfold find_or_create_reference. intros H.
  apply bind_inv in H as (found & s1 & Hq & H).
  apply query_inv in Hq as [-> ->].
  destruct (reference_by_source _ _ s).
  - apply ret_inv in H as [_ ->]. reflexivity.
  - destruct (AUTO_CREATE_INTELREFERENCE cfg); [|discriminate].
    apply bind_inv in H as (source & s1 & Hs & H).
    apply find_or_create_source_ok in Hs.
    apply add_reference_appended in H.
    etransitivity; eassumption.
Qed.

Lemma find_or_create_tag_ok cfg v s r s' :
  find_or_create_tag cfg v s = (Ok r, s') -> lookups_appended s s'.
Proof.
  unfold find_or_create_tag. intros H.
  now apply (find_or_create_ok tags with_tags) in H as [H _].
Qed.

(** A loop whose passes each keep a preorder keeps it. *)
Lemma for_each_keeps {S A B} (R : S -> S -> Prop) `{!PreOrder R}
  (f : A -> M S B) xs :
  (forall x s y s', f x s = (Ok y, s') -> R s s') ->
  forall s ys s', for_each f xs s = (Ok ys, s') -> R s s'.
Proof.
  intros Hf. induction xs as [|x xs IH]; intros s ys s' H; simpl in H.
  - apply ret_inv in H as [_ ->]. reflexivity.
  - apply bind_inv in H as (y & s1 & Hx & H).
    apply bind_inv in H as (ys' & s2 & Hxs & H).
    apply ret_inv in H as [_ ->].
    etransitivity; [eapply Hf|eapply IH]; eassumption.
Qed.

(** *** What a successful creation went through *)

Lemma optional_lookup_ok get set `{!LookupTable get set} auto not_found
  message (given : option string) s r s' :
  match given with
  | None => default_of get message
  | Some v => find_or_create get set auto not_found v
  end s = (Ok r, s') ->
  lookups_appended s s'.
Proof.
  destruct given as [v|]; intros H.
  - now apply (find_or_create_ok get set) in H as [H _].
  - apply default_of_ok in H as ->. reflexivity.
Qed.

(** A creation that succeeded: the user resolved and is active; after the
    lookups, which only appended to the lookup tables, the type of the
    request is in the store and no indicator of the store was a duplicate;
    the indicator staged last carries the request's value and mode, that
    type and that user. *)
Lemma create_indicator_ok cfg request_apikey now data d obj d' :
  create_indicator cfg request_apikey now data d = (Ok obj, d') ->
  exists user t d1 o,
    resolved_user request_apikey data d = Some user /\
    active user = true /\
    lookups_appended d d1 /\
    by_value (data_type data) (indicator_types d1) = Some t /\
    duplicate_of data t d = None /\
    ind_value (obj_row o) = data_value data /\
    type_id (obj_row o) = lk_id t /\
    ind_user_id (obj_row o) = user_id user /\
    case_sensitive (obj_row o) = case_mode data /\
    created_time (obj_row o) = now /\
    modified_time (obj_row o) = now /\
    add_indicator o d1 = (Ok obj, d').
Proof.
  unfold create_indicator. intros H.
  apply bind_inv in H as (user & s0 & Hu & H).
  assert (Huser : resolved_user request_apikey data d = Some user /\ s0 = d).
  { unfold resolved_user.
    destruct (data_username data) as [u|];
      [|destruct request_apikey as [k|]; [|discriminate]];
      apply bind_inv in Hu as (found & s1 & Hq & Hu);
      apply query_inv in Hq as [-> ->];
      match type of Hu with
      | match ?x with _ => _ end _ = _ => destruct x; [|discriminate]
      end;
      now apply ret_inv in Hu as [-> ->]. }
  destruct Huser as [Huser ->]. clear Hu.
  destruct (active user) eqn:Hactive; [|discriminate]. cbn [negb] in H.
  apply bind_inv in H as (t & s1 & Ht & H).
  apply (find_or_create_ok indicator_types with_indicator_types) in Ht
    as [R1 Ht].
  apply bind_inv in H as (existing & s2 & Hq & H).
  apply query_inv in Hq as [-> ->].
  assert (Hdup : duplicate_of data t d = None /\
                 (if default false (data_case_sensitive data)
                  then existing_binary t (data_value data)
                  else existing_lower t (data_value data)) s1 = None).
  { destruct R1 as (_ & Hsame & _).
    unfold duplicate_of, case_mode.
    destruct (default false (data_case_sensitive data));
      unfold existing_binary, existing_lower in *; rewrite Hsame in *;
      match type of H with
      | match ?x with _ => _ end _ = _ => destruct x; [discriminate|auto]
      end. }
  destruct Hdup as [Hdup Hnone]. rewrite Hnone in H. clear Hnone.
  apply bind_inv in H as (confidence & s2 & Hc & H).
  apply (optional_lookup_ok indicator_confidences with_indicator_confidences)
    in Hc as R2.
  apply bind_inv in H as (impact & s3 & Hi & H).
  apply (optional_lookup_ok indicator_impacts with_indicator_impacts)
    in Hi as R3.
  apply bind_inv in H as (status & s4 & Hs & H).
  apply (optional_lookup_ok indicator_statuses with_indicator_statuses)
    in Hs as R4.
  apply bind_inv in H as (campaigns & s5 & Hcs & H).
  apply (for_each_keeps lookups_appended) in Hcs as R5;
    [|intros ? ? ? ?; apply find_or_create_campaign_ok].
  apply bind_inv in H as (references & s6 & Hrs & H).
  apply (for_each_keeps lookups_appended) in Hrs as R6;
    [|intros ? ? ? ?; apply find_or_create_reference_ok].
  apply bind_inv in H as (tags & s7 & Hts & H).
  apply (for_each_keeps lookups_appended) in Hts as R7;
    [|intros ? ? ? ?; apply find_or_create_tag_ok].
  assert (R : lookups_appended s1 s7)
    by (repeat (etransitivity; [eassumption|]); reflexivity).
  exists user, t, s7,
    (set_tags (map Some tags)
       (set_references (map Some references)
          (set_campaigns (map Some campaigns)
             (new_indicator now (default false (data_case_sensitive data))
                confidence impact status
                (default false (data_substring data)) t user
                (data_value data))))).
  repeat (split; [first [eassumption|reflexivity]|]).
  split; [etransitivity; eassumption|].
  split; [|split; [assumption|]].
  - destruct R as ((_ & Hty & _) & _).
    now apply (by_value_prefix _ _ _ _ Hty).
  - repeat (split; [reflexivity|]). exact H.
Qed.

End WriteFacts.

(* ===================================================================== *)
(** ** What creating an indicator leaves in the store *)
(* ===================================================================== *)

Module CreationFacts.
Import Schema Ingest IngestProps IngestFacts Frames WriteFacts.

Lemma add_indicator_ok o s obj s' :
  add_indicator o s = (Ok obj, s') ->
  indicators s' = indicators s ++ [obj_row obj] /\
  ind_value (obj_row obj) = ind_value (obj_row o) /\
  type_id (obj_row obj) = type_id (obj_row o) /\
  ind_user_id (obj_row obj) = ind_user_id (obj_row o) /\
  case_sensitive (obj_row obj) = case_sensitive (obj_row o) /\
  created_time (obj_row obj) = created_time (obj_row o) /\
  modified_time (obj_row obj) = modified_time (obj_row o) /\
  ind_id (obj_row obj) = next_id (map ind_id (indicators s)) /\
  appended s s' /\
  indicator_types s' = indicator_types s.
Proof.
  unfold add_indicator. intros [= <- <-]. simpl.
  repeat (split; [reflexivity|]). split; [|reflexivity].
  unfold appended. simpl.
  repeat split; try reflexivity; now eexists.
Qed.

Lemma resolved_user_users request_apikey data d d' :
  users d' = users d ->
  resolved_user request_apikey data d' = resolved_user request_apikey data d.
Proof.
  intros H. unfold resolved_user, user_by_username, user_by_apikey.
  now rewrite H.
Qed.

Lemma duplicate_of_find data t d :
  duplicate_of data t d = List.find (same_as data t) (indicators d).
Proof.
  unfold duplicate_of, same_as, existing_binary, existing_lower.
  now destruct (case_mode data).
Qed.

(** A row that the check of its own request would find. *)
Lemma same_as_created data t row :
  ind_value row = data_value data -> type_id row = lk_id t ->
  same_as data t row = true.
Proof.
  intros Hv Ht. unfold same_as. rewrite Hv, Ht, Z.eqb_refl.
  destruct (case_mode data); apply String.eqb_refl.
Qed.

Lemma find_exists {A} (f : A -> bool) l x :
  In x l -> f x = true -> exists y, List.find f l = Some y.
Proof.
  intros Hin Hf. destruct (List.find f l) as [y|] eqn:E; [eauto|].
  now rewrite (find_none f l E x Hin) in Hf.
Qed.

(** A row that passed the duplicate check of its request differs from
    every indicator in type or in the bytes of its value, and, for a
    request that is not case-sensitive, in type or in the lower-cased
    value. *)
Lemma staged_row_is_new data t d row :
  duplicate_of data t d = None ->
  ind_value row = data_value data -> type_id row = lk_id t ->
  (NoDup (map type_and_value (indicators d)) ->
   NoDup (map type_and_value (indicators d ++ [row]))) /\
  (case_mode data = false ->
   NoDup (map type_and_lowered (indicators d)) ->
   NoDup (map type_and_lowered (indicators d ++ [row]))).
Proof.
  intros Hdup Hv Hty.
  rewrite duplicate_of_find in Hdup.
  assert (Hnew : forall i, In i (indicators d) -> same_as data t i = false)
    by (intros i; apply (find_none _ _ Hdup)).
  rewrite !map_app. cbn [map].
  split; [|intros Hmode]; intros Hnd;
    (apply NoDup_app; split; [assumption|]; split; [|apply NoDup_singleton]);
    intros k Hk Hk'; apply list_elem_of_singleton in Hk';
    apply list_elem_of_In, in_map_iff in Hk as (i & Hik & Hin);
    specialize (Hnew i Hin); rewrite Hk' in Hik; clear Hk';
    unfold type_and_value, type_and_lowered in Hik;
    injection Hik as Ht Hval;
    unfold same_as in Hnew;
    rewrite Ht, Hty, Z.eqb_refl in Hnew; cbn [andb] in Hnew.
  - rewrite Hval, Hv in Hnew.
    destruct (case_mode data); now rewrite String.eqb_refl in Hnew.
  - rewrite Hmode, Hval, Hv in Hnew.
    now rewrite String.eqb_refl in Hnew.
Qed.

End CreationFacts.

Module CreationProps.
Import Schema Ingest IngestProps IngestFacts Frames WriteFacts CreationFacts.

(** X1.  A creation that succeeds stages one indicator, at the end of the
    table: it has the value and the comparison mode of the request, the
    type the request names (which is in the store afterwards), the id of
    the user the request resolves to, who is active, and both its
    timestamps are the time of the request.  Every other table keeps its
    rows and may have gained rows at its end; the users are untouched. *)
Theorem create_indicator_adds_one_row
  (cfg : config) (request_apikey : option string) (now : Z)
  (data : indicator_data) (d d' : db) (obj : indicator_obj) :
  create_indicator cfg request_apikey now data d = (Ok obj, d') ->
  indicators d' = indicators d ++ [obj_row obj] /\
  ind_value (obj_row obj) = data_value data /\
  case_sensitive (obj_row obj) = case_mode data /\
  created_time (obj_row obj) = now /\
  modified_time (obj_row obj) = now /\
  (exists t, by_value (data_type data) (indicator_types d') = Some t /\
             type_id (obj_row obj) = lk_id t) /\
  (exists user, resolved_user request_apikey data d = Some user /\
                active user = true /\
                ind_user_id (obj_row obj) = user_id user) /\
  appended d d'.
Proof.
  intros H.
  apply create_indicator_ok in H
    as (user & t & d1 & o & Hu & Ha & R & Ht & _ & Hv & Hty & Huid & Hcs
        & Hct & Hmt & Hadd).
  apply add_indicator_ok in Hadd
    as (Hi & Hv' & Hty' & Hu' & Hcs' & Hct' & Hmt' & _ & Happ & Htypes).
  destruct R as (R & Hsame & _).
  split; [now rewrite Hi, Hsame|].
  repeat (split; [congruence|]).
  split; [exists t; split; congruence|].
  split; [exists user; repeat split; congruence|].
  etransitivity; eassumption.
Qed.

Lemma create_indicator_adds_one_row_witness :
  let after :=
    create_indicator no_auto_create (Some "k1"%string) 7
      (new_item "IP" "5.6.7.8") Sample.store in
  map ind_value (indicators (snd after))
  = ["c.com"; "1.2.3.4"; "b.com"; "5.6.7.8"]%string.
Proof.
  cbv zeta.
  destruct (create_indicator_adds_one_row no_auto_create (Some "k1"%string)
              7 (new_item "IP" "5.6.7.8") Sample.store _ _ eq_refl)
    as (Hi & _).
  etransitivity; [apply (f_equal (map ind_value)); exact Hi|].
  reflexivity.
Defined.

(** X2.  Creating an indicator keeps the pairs of type and value apart:
    if no two indicators of the store share their type and the bytes of
    their value, none do after a creation that succeeds; and if no two
    share their type and their value in lower case, none do after a
    creation that succeeds and is not case-sensitive. *)
Theorem create_indicator_keeps_pairs_unique
  (cfg : config) (request_apikey : option string) (now : Z)
  (data : indicator_data) (d d' : db) (obj : indicator_obj) :
  create_indicator cfg request_apikey now data d = (Ok obj, d') ->
  (NoDup (map type_and_value (indicators d)) ->
   NoDup (map type_and_value (indicators d'))) /\
  (case_mode data = false ->
   NoDup (map type_and_lowered (indicators d)) ->
   NoDup (map type_and_lowered (indicators d'))).
Proof.
  intros H.
  apply create_indicator_ok in H
    as (user & t & d1 & o & _ & _ & R & _ & Hdup & Hv & Hty & _ & _ & _ & _
        & Hadd).
  apply add_indicator_ok in Hadd as (Hi & Hv' & Hty' & _).
  destruct R as (_ & Hsame & _). rewrite Hsame in Hi. rewrite Hi.
  apply (staged_row_is_new data t); congruence.
Qed.

Lemma create_indicator_keeps_pairs_unique_witness :
  NoDup (map type_and_value
           (indicators
              (snd (create_indicator no_auto_create (Some "k1"%string) 7
                      (new_item "IP" "5.6.7.8") Sample.store)))).
Proof.
  destruct (create_indicator_keeps_pairs_unique no_auto_create
              (Some "k1"%string) 7 (new_item "IP" "5.6.7.8") Sample.store
              _ _ eq_refl) as [Hkept _].
  cut (NoDup (map type_and_value (indicators Sample.store)));
    [exact Hkept|].
  apply (bool_decide_unpack _). vm_compute. exact I.
Defined.

(** X3.  An indicator that was just created is in the way of its own
    request: sent again, at any later time and under any switches, the
    request is answered 409, with the message of its comparison mode, and
    the store stays as the creation left it. *)
Theorem created_indicator_conflicts_next_time
  (cfg cfg' : config) (request_apikey : option string) (now now' : Z)
  (data : indicator_data) (d d' : db) (obj : indicator_obj) :
  create_indicator cfg request_apikey now data d = (Ok obj, d') ->
  post_indicators cfg' request_apikey now' data d'
  = (Error_response 409 (conflict_message data), d').
Proof.
  intros H.
  apply create_indicator_ok in H
    as (user & t & d1 & o & Hu & Ha & R & Ht & _ & Hv & Hty & _ & _ & _ & _
        & Hadd).
  apply add_indicator_ok in Hadd
    as (Hi & Hv' & Hty' & _ & _ & _ & _ & _ & Happ & Htypes).
  destruct R as ((_ & _ & _ & _ & _ & _ & _ & _ & Husers & _) & _).
  destruct Happ as (_ & _ & _ & _ & _ & _ & _ & _ & Husers' & _).
  assert (Hfound : exists e, duplicate_of data t d' = Some e).
  { rewrite duplicate_of_find, Hi.
    apply (find_exists _ _ (obj_row obj)).
    - apply in_or_app. right. now left.
    - apply same_as_created; congruence. }
  destruct Hfound as (e & He).
  unfold post_indicators.
  rewrite (create_indicator_conflict cfg' request_apikey now' data d' user t
             e); [reflexivity| |assumption| |assumption].
  - rewrite (resolved_user_users _ _ d1); [|assumption].
    now rewrite (resolved_user_users _ _ d).
  - now rewrite Htypes.
Qed.

Lemma created_indicator_conflicts_next_time_witness :
  let created :=
    create_indicator no_auto_create (Some "k1"%string) 7
      (new_item "IP" "5.6.7.8") Sample.store in
  post_indicators no_auto_create (Some "k1"%string) 8
    (new_item "IP" "5.6.7.8") (snd created)
  = (Error_response 409 "Case-insensitive indicator already exists",
     snd created).
Proof.
  exact (created_indicator_conflicts_next_time no_auto_create no_auto_create
           (Some "k1"%string) 7 8 (new_item "IP" "5.6.7.8") Sample.store _ _
           eq_refl).
Defined.

End CreationProps.

(* ===================================================================== *)
(** ** The loop of the bulk route *)
(* ===================================================================== *)

Module BulkFacts.
Import Schema Ingest IngestProps IngestFacts Frames WriteFacts CreationFacts.

Lemma lookup_step_refl st : lookup_step st st.
Proof. split; [reflexivity|auto]. Qed.

Lemma lookup_step_trans st1 st2 st3 :
  lookup_step st1 st2 -> lookup_step st2 st3 -> lookup_step st1 st3.
Proof.
  intros (A & A1 & A2 & A3) (B & B1 & B2 & B3).
  split; [etransitivity; eassumption|]. repeat split; congruence.
Qed.

#[export] Instance lookup_step_preorder : PreOrder lookup_step.
Proof. split; [exact lookup_step_refl|exact lookup_step_trans]. Qed.

Lemma on_session_inv {A} (m : M db A) c s x st' :
  on_session m (c, s) = (Ok x, st') ->
  exists s', m s = (Ok x, s') /\ st' = (c, s').
Proof.
  unfold on_session. destruct (m s) as [[y|code message|exn] s'];
    intros [= <- <-]; eauto.
Qed.

Lemma on_session_step {A} (m : M db A) :
  (forall s x s', m s = (Ok x, s') -> lookups_appended s s') ->
  forall st x st', on_session m st = (Ok x, st') -> lookup_step st st'.
Proof.
  intros Hm [c s] x st' H.
  apply on_session_inv in H as (s' & H & ->).
  split; [exact (Hm _ _ _ H)|auto].
Qed.

Lemma cached_inv {A} (get : cache -> gmap string A) set key compute st x
  st' :
  cached get set key compute st = (Ok x, st') ->
  (get (fst st) !! key = Some x /\ st' = st) \/
  (get (fst st) !! key = None /\
   exists c1 s1,
     compute st = (Ok x, (c1, s1)) /\
     st' = (set (<[key := x]> (get c1)) c1, s1)).
Proof.
  destruct st as [c s]. unfold cached. intros H.
  apply bind_inv in H as (c0 & st0 & Hc & H).
  injection Hc as <- <-. simpl.
  destruct (get c !! key) as [y|] eqn:E.
  - apply ret_inv in H as [-> ->]. now left.
  - right. split; [reflexivity|].
    apply bind_inv in H as (x0 & [c1 s1] & Hx & H).
    apply bind_inv in H as (u & st2 & Hu & H).
    apply ret_inv in H as [-> ->].
    injection Hu as _ <-. eauto.
Qed.

Lemma cached_default_inv get set compute st x st' :
  cached_default get set compute st = (Ok x, st') ->
  (get (fst st) = Some x /\ st' = st) \/
  (get (fst st) = None /\
   exists c1 s1,
     compute st = (Ok x, (c1, s1)) /\ st' = (set (Some x) c1, s1)).
Proof.
  destruct st as [c s]. unfold cached_default. intros H.
  apply bind_inv in H as (c0 & st0 & Hc & H).
  injection Hc as <- <-. simpl.
  destruct (get c) as [y|] eqn:E.
  - apply ret_inv in H as [-> ->]. now left.
  - right. split; [reflexivity|].
    apply bind_inv in H as (x0 & [c1 s1] & Hx & H).
    apply bind_inv in H as (u & st2 & Hu & H).
    apply ret_inv in H as [-> ->].
    injection Hu as _ <-. eauto.
Qed.

Lemma cached_step {A} (get : cache -> gmap string A) set key compute :
  (forall m, beside_users_and_types (set m)) ->
  (forall st x st', compute st = (Ok x, st') -> lookup_step st st') ->
  forall st x st',
    cached get set key compute st = (Ok x, st') -> lookup_step st st'.
Proof.
  intros Hset Hcompute st x st' H.
  apply cached_inv in H as [[_ ->]|(_ & c1 & s1 & Hc & ->)]; [reflexivity|].
  apply Hcompute in Hc. etransitivity; [exact Hc|].
  split; [reflexivity|]. simpl. apply Hset.
Qed.

Lemma cached_default_step get set compute :
  (forall m, beside_users_and_types (set m)) ->
  (forall st x st', compute st = (Ok x, st') -> lookup_step st st') ->
  forall st x st',
    cached_default get set compute st = (Ok x, st') -> lookup_step st st'.
Proof.
  intros Hset Hcompute st x st' H.
  apply cached_default_inv in H as [[_ ->]|(_ & c1 & s1 & Hc & ->)];
    [reflexivity|].
  apply Hcompute in Hc. etransitivity; [exact Hc|].
  split; [reflexivity|]. simpl. apply Hset.
Qed.

Ltac beside := intros m c; destruct c; simpl; auto.

Lemma beside_confidences m : beside_users_and_types (set_confidences m).
Proof. revert m. beside. Qed.
Lemma beside_default_confidence m :
  beside_users_and_types (set_default_confidence m).
Proof. revert m. beside. Qed.
Lemma beside_impacts m : beside_users_and_types (set_impacts m).
Proof. revert m. beside. Qed.
Lemma beside_default_impact m :
  beside_users_and_types (set_default_impact m).
Proof. revert m. beside. Qed.
Lemma beside_statuses m : beside_users_and_types (set_statuses m).
Proof. revert m. beside. Qed.
Lemma beside_default_status m :
  beside_users_and_types (set_default_status m).
Proof. revert m. beside. Qed.
Lemma beside_campaigns m : beside_users_and_types (set_cache_campaigns m).
Proof. revert m. beside. Qed.
Lemma beside_references m : beside_users_and_types (set_cache_references m).
Proof. revert m. beside. Qed.
Lemma beside_sources m : beside_users_and_types (set_sources m).
Proof. revert m. beside. Qed.
Lemma beside_tags m : beside_users_and_types (set_cache_tags m).
Proof. revert m. beside. Qed.

(** *** The cache and the session *)

Lemma agrees_appended c d d' :
  cache_agrees c d -> appended d d' -> cache_agrees c d'.
Proof.
  intros (Hu & Hk & Ht) (_ & Hty & _ & _ & _ & _ & _ & _ & Husers & _).
  repeat split; intros key x Hx.
  - unfold user_by_username. rewrite Husers. now apply Hu.
  - unfold user_by_apikey. rewrite Husers. now apply Hk.
  - eapply by_value_prefix; eauto.
Qed.

Lemma agrees_step c d c' d' :
  cache_agrees c d -> lookup_step (c, d) (c', d') -> cache_agrees c' d'.
Proof.
  intros H ((Happ & _) & H1 & H2 & H3). simpl in *.
  apply (agrees_appended c' d); [|assumption].
  destruct H as (Hu & Hk & Ht). unfold cache_agrees.
  now rewrite H1, H2, H3.
Qed.

Lemma agrees_set_usernames c d u x :
  cache_agrees c d -> user_by_username u d = Some x ->
  cache_agrees (set_usernames (<[u := x]> (cache_usernames c)) c) d.
Proof.
  intros (Hu & Hk & Ht) Hx. destruct c. simpl in *.
  repeat split; simpl; auto.
  intros key y Hy. apply lookup_insert_Some in Hy as [[<- <-]|[_ Hy]]; auto.
Qed.

Lemma agrees_set_apikeys c d k x :
  cache_agrees c d -> user_by_apikey k d = Some x ->
  cache_agrees (set_apikeys (<[k := x]> (cache_apikeys c)) c) d.
Proof.
  intros (Hu & Hk & Ht) Hx. destruct c. simpl in *.
  repeat split; simpl; auto.
  intros key y Hy. apply lookup_insert_Some in Hy as [[<- <-]|[_ Hy]]; auto.
Qed.

Lemma agrees_set_types c d v x :
  cache_agrees c d -> by_value v (indicator_types d) = Some x ->
  cache_agrees (set_types (<[v := x]> (cache_types c)) c) d.
Proof.
  intros (Hu & Hk & Ht) Hx. destruct c. simpl in *.
  repeat split; simpl; auto.
  intros key y Hy. apply lookup_insert_Some in Hy as [[<- <-]|[_ Hy]]; auto.
Qed.

Lemma first_or_inv {A} (found : option A) status message
  (st : cache * db) x st' :
  first_or found status message st = (Ok x, st') -> found = Some x /\ st' = st.
Proof.
  destruct found; simpl; [|discriminate]. now intros [[= <-] <-]%ret_inv.
Qed.

(** The user of an item, through the cache. *)
Lemma bulk_user_ok request_apikey data c d user st' :
  cache_agrees c d ->
  match data_username data with
  | Some u =>
      cached cache_usernames set_usernames u
        (let* user := on_session (query (user_by_username u)) in
         first_or user 404 "User not found by username")
  | None =>
      match request_apikey with
      | Some k =>
          cached cache_apikeys set_apikeys k
            (let* user := on_session (query (user_by_apikey k)) in
             first_or user 404 "User not found by API key")
      | None =>
          error_response 401 "You must supply either username or API key"
      end
  end (c, d) = (Ok user, st') ->
  resolved_user request_apikey data d = Some user /\
  exists c', st' = (c', d) /\ cache_agrees c' d.
Proof.
  intros Hc H. unfold resolved_user.
  destruct (data_username data) as [u|];
    [|destruct request_apikey as [k|]; [|discriminate]];
    apply cached_inv in H as [[Hhit ->]|(_ & c1 & s1 & H & ->)];
    simpl in *.
  - split; [now apply Hc|eauto].
  - apply bind_inv in H as (found & st1 & Hq & H).
    apply on_session_inv in Hq as (s' & Hq & ->).
    apply query_inv in Hq as [-> ->].
    apply first_or_inv in H as [H [= <- <-]].
    split; [assumption|]. eexists. split; [reflexivity|].
    now apply agrees_set_usernames.
  - split; [now apply Hc|eauto].
  - apply bind_inv in H as (found & st1 & Hq & H).
    apply on_session_inv in Hq as (s' & Hq & ->).
    apply query_inv in Hq as [-> ->].
    apply first_or_inv in H as [H [= <- <-]].
    split; [assumption|]. eexists. split; [reflexivity|].
    now apply agrees_set_apikeys.
Qed.

(** The type of an item, through the cache. *)
Lemma bulk_type_ok auto not_found v c d t c' d' :
  cache_agrees c d ->
  cached cache_types set_types v
    (on_session
       (find_or_create indicator_types with_indicator_types auto not_found
          v)) (c, d) = (Ok t, (c', d')) ->
  lookups_appended d d' /\
  by_value v (indicator_types d') = Some t /\
  cache_agrees c' d'.
Proof.
  intros Hc H.
  apply cached_inv in H as [[Hhit [= <- <-]]|(_ & c1 & s1 & H & [= -> ->])];
    simpl in *.
  - split; [reflexivity|]. split; [now apply Hc|assumption].
  - apply on_session_inv in H as (s' & H & [= <- <-]).
    apply (find_or_create_ok indicator_types with_indicator_types) in H
      as [R H].
    split; [assumption|]. split; [assumption|].
    apply agrees_set_types; [|assumption].
    apply (agrees_appended _ d); [assumption|apply R].
Qed.

(** *** The lookups of an item *)

Lemma bulk_optional_step get set `{!LookupTable get set}
  (cache_default : cache -> option lookup_row) set_default
  (cache_values : cache -> gmap string lookup_row) set_values
  auto not_found message (given : option string) st x st' :
  (forall m, beside_users_and_types (set_default m)) ->
  (forall m, beside_users_and_types (set_values m)) ->
  match given with
  | None =>
      cached_default cache_default set_default
        (on_session (default_of get message))
  | Some v =>
      cached cache_values set_values v
        (on_session (find_or_create get set auto not_found v))
  end st = (Ok x, st') ->
  lookup_step st st'.
Proof.
  intros Hd Hv. destruct given as [v|].
  - apply (cached_step _ _ _ _ Hv). apply on_session_step.
    intros s r s' H.
    now apply (find_or_create_ok get set) in H as [H _].
  - apply (cached_default_step _ _ _ Hd). apply on_session_step.
    intros s r s' H. apply default_of_ok in H as ->. reflexivity.
Qed.

Lemma bulk_campaign_step cfg value st x st' :
  cached cache_campaigns set_cache_campaigns value
    (on_session (find_or_create_campaign cfg value)) st = (Ok x, st') ->
  lookup_step st st'.
Proof.
  apply (cached_step _ _ _ _ beside_campaigns), on_session_step.
  apply find_or_create_campaign_ok.
Qed.

Lemma bulk_tag_step cfg value st x st' :
  cached cache_tags set_cache_tags value
    (on_session (find_or_create_tag cfg value)) st = (Ok x, st') ->
  lookup_step st st'.
Proof.
  apply (cached_step _ _ _ _ beside_tags), on_session_step.
  apply find_or_create_tag_ok.
Qed.

Lemma bulk_reference_step cfg user item st x st' :
  cached cache_references set_cache_references
    (item_source item +:+ item_reference item)
    (let* reference :=
       on_session
         (query (reference_by_source (item_source item)
                   (item_reference item))) in
     match reference with
     | Some r => ret r
     | None =>
         if AUTO_CREATE_INTELREFERENCE cfg then
           let* source :=
             cached cache_sources set_sources (item_source item)
               (on_session (find_or_create_source (item_source item))) in
           on_session (add_reference (item_reference item) source user)
         else
           error_response 404
             ("Intel reference not found: " +:+ item_reference item)
     end) st = (Ok x, st') ->
  lookup_step st st'.
Proof.
  apply (cached_step _ _ _ _ beside_references).
  clear. intros [c s] x st' H.
  apply bind_inv in H as (found & st1 & Hq & H).
  apply on_session_inv in Hq as (s' & Hq & ->).
  apply query_inv in Hq as [-> ->].
  destruct (reference_by_source _ _ s).
  - apply ret_inv in H as [_ ->]. reflexivity.
  - destruct (AUTO_CREATE_INTELREFERENCE cfg); [|discriminate].
    apply bind_inv in H as (source & st2 & Hs & H).
    transitivity st2.
    + revert Hs. apply (cached_step _ _ _ _ beside_sources), on_session_step.
      apply find_or_create_source_ok.
    + revert H. apply on_session_step. apply add_reference_appended.
Qed.

(** *** One item *)

(** An item that did not fail, from a cache that agrees with the session:
    its user resolved and is active, and its type is in the session
    afterwards; either the item was passed over because an indicator of
    the session has its type and value, or no indicator had and one was
    staged after lookups that only appended to the lookup tables.  The
    cache agrees with the session afterwards. *)
Lemma create_indicators_item_ok cfg request_apikey now data c d y c' d' :
  cache_agrees c d ->
  create_indicators_item cfg request_apikey now data (c, d)
  = (Ok y, (c', d')) ->
  cache_agrees c' d' /\
  exists user t d1,
    resolved_user request_apikey data d = Some user /\
    active user = true /\
    lookups_appended d d1 /\
    by_value (data_type data) (indicator_types d1) = Some t /\
    match y with
    | None => d' = d1 /\ exists e, duplicate_of data t d = Some e
    | Some obj =>
        duplicate_of data t d = None /\
        exists o,
          ind_value (obj_row o) = data_value data /\
          type_id (obj_row o) = lk_id t /\
          case_sensitive (obj_row o) = case_mode data /\
          add_indicator o d1 = (Ok obj, d')
    end.
Proof.
  intros Hc H. unfold create_indicators_item in H.
  apply bind_inv in H as (user & st0 & Hu & H).
  apply (bulk_user_ok _ _ _ _ _ _ Hc) in Hu as (Hu & c0 & -> & Hc0).
  destruct (active user) eqn:Hactive; [|discriminate]. cbn [negb] in H.
  apply bind_inv in H as (t & [c1 s1] & Ht & H).
  apply (bulk_type_ok _ _ _ _ _ _ _ _ Hc0) in Ht as (R1 & Ht & Hc1).
  apply bind_inv in H as (existing & st2 & Hq & H).
  apply on_session_inv in Hq as (s2 & Hq & ->).
  apply query_inv in Hq as [-> ->].
  assert (Hsame : duplicate_of data t d
                  = (if default false (data_case_sensitive data)
                     then existing_binary t (data_value data)
                     else existing_lower t (data_value data)) s1).
  { destruct R1 as (_ & Hsame & _).
    unfold duplicate_of, case_mode.
    destruct (default false (data_case_sensitive data));
      unfold existing_binary, existing_lower; now rewrite Hsame. }
  match type of H with
  | match ?x with _ => _ end _ = _ => destruct x as [e|]
  end.
  - apply ret_inv in H as [-> [= -> ->]].
    split; [assumption|]. exists user, t, s1.
    repeat (split; [assumption|]). split; [reflexivity|].
    now exists e.
  - rename Hsame into Hex.
    apply bind_inv in H as (confidence & [c2 s2] & Hx & H).
    apply (bulk_optional_step indicator_confidences
             with_indicator_confidences) in Hx as R2;
      [|exact beside_default_confidence|exact beside_confidences].
    apply bind_inv in H as (impact & [c3 s3] & Hx3 & H).
    apply (bulk_optional_step indicator_impacts with_indicator_impacts)
      in Hx3 as R3; [|exact beside_default_impact|exact beside_impacts].
    apply bind_inv in H as (status & [c4 s4] & Hx4 & H).
    apply (bulk_optional_step indicator_statuses with_indicator_statuses)
      in Hx4 as R4; [|exact beside_default_status|exact beside_statuses].
    apply bind_inv in H as (campaigns & [c5 s5] & Hx5 & H).
    apply (for_each_keeps lookup_step) in Hx5 as R5;
      [|intros ? ? ? ?; apply bulk_campaign_step].
    apply bind_inv in H as (references & [c6 s6] & Hx6 & H).
    apply (for_each_keeps lookup_step) in Hx6 as R6;
      [|intros ? ? ? ?; apply bulk_reference_step].
    apply bind_inv in H as (tags & [c7 s7] & Hx7 & H).
    apply (for_each_keeps lookup_step) in Hx7 as R7;
      [|intros ? ? ? ?; apply bulk_tag_step].
    assert (R : lookup_step (c1, s1) (c7, s7))
      by (repeat (etransitivity; [eassumption|]); reflexivity).
    apply bind_inv in H as (added & st8 & Hadd & H).
    apply ret_inv in H as [-> <-].
    apply on_session_inv in Hadd as (s8 & Hadd & [= -> ->]).
    pose proof (agrees_step _ _ _ _ Hc1 R) as Hc7.
    split.
    + apply (agrees_appended _ s7); [assumption|].
      now apply add_indicator_ok in Hadd.
    + exists user, t, s7.
      repeat (split; [assumption|]).
      split; [etransitivity; [exact R1|apply R]|].
      split.
      * destruct R as (((_ & Hty & _) & _) & _).
        exact (by_value_prefix _ _ _ _ Hty Ht).
      * split; [assumption|]. eexists.
        repeat split; [| | |exact Hadd]; reflexivity.
Qed.

(** *** The whole batch *)

Lemma for_each_snoc {S A B} (f : A -> M S B) xs x s :
  for_each f (xs ++ [x]) s
  = match for_each f xs s with
    | (Ok ys, s1) =>
        match f x s1 with
        | (Ok y, s2) => (Ok (ys ++ [y]), s2)
        | (Error_response code message, s2) =>
            (Error_response code message, s2)
        | (Raised e, s2) => (Raised e, s2)
        end
    | (Error_response code message, s1) => (Error_response code message, s1)
    | (Raised e, s1) => (Raised e, s1)
    end.
Proof.
  revert s. induction xs as [|x0 xs IH]; intros s; simpl.
  - unfold bind, ret. now destruct (f x s) as [[y|code message|exn] s2].
  - unfold bind. destruct (f x0 s) as [[y0|code message|exn] s0];
      [|reflexivity|reflexivity].
    rewrite IH.
    destruct (for_each f xs s0) as [[ys|code message|exn] s1];
      [|reflexivity|reflexivity].
    unfold ret. now destruct (f x s1) as [[y|code message|exn] s2].
Qed.

Lemma in_the_way_appended request_apikey data d d' :
  in_the_way request_apikey data d -> appended d d' ->
  in_the_way request_apikey data d'.
Proof.
  intros (user & t & e & Hu & Ha & Ht & He)
         (Hi & Hty & _ & _ & _ & _ & _ & _ & Husers & _).
  exists user, t, e. repeat split; [| assumption | |].
  - now rewrite (resolved_user_users _ _ d).
  - exact (by_value_prefix _ _ _ _ Hty Ht).
  - rewrite duplicate_of_find in *. exact (find_prefix _ _ _ _ Hi He).
Qed.

Lemma lookups_appended_users d d' :
  lookups_appended d d' -> users d' = users d.
Proof. now intros ((_ & _ & _ & _ & _ & _ & _ & _ & H & _) & _). Qed.

Lemma duplicate_of_indicators data t d d' :
  indicators d' = indicators d ->
  duplicate_of data t d' = duplicate_of data t d.
Proof. intros H. now rewrite !duplicate_of_find, H. Qed.

(** An item that did not fail is in the way of itself from then on, and
    left the indicators as they were or with one more. *)
Lemma create_indicators_item_effect cfg request_apikey now data c d y c' d' :
  cache_agrees c d ->
  create_indicators_item cfg request_apikey now data (c, d)
  = (Ok y, (c', d')) ->
  cache_agrees c' d' /\
  appended d d' /\
  in_the_way request_apikey data d' /\
  indicators d' = indicators d ++ map obj_row (omap id [y]) /\
  staged_for data y /\
  (NoDup (map type_and_value (indicators d)) ->
   NoDup (map type_and_value (indicators d'))).
Proof.
  intros Hc H.
  apply (create_indicators_item_ok _ _ _ _ _ _ _ _ _ Hc) in H
    as (Hc' & user & t & d1 & Hu & Ha & R & Ht & H).
  split; [assumption|].
  destruct y as [obj|].
  - destruct H as (Hdup & o & Hv & Hty & Hcs & Hadd).
    apply add_indicator_ok in Hadd
      as (Hi & Hv' & Hty' & _ & Hcs' & _ & _ & _ & Happ & Htypes).
    pose proof R as (Rapp & Hsame & _). rewrite Hsame in Hi.
    split; [etransitivity; eassumption|]. split; [|split; [|split]].
    + exists user, t.
      destruct (find_exists (same_as data t) (indicators d') (obj_row obj))
        as (e & He).
      * rewrite Hi. apply in_or_app. right. now left.
      * apply same_as_created; congruence.
      * exists e. repeat split; [| assumption | |].
        -- rewrite (resolved_user_users _ _ d1);
             [|now destruct Happ as (_ & _ & _ & _ & _ & _ & _ & _ & ? & _)].
           now rewrite (resolved_user_users _ _ d d1
                          (lookups_appended_users _ _ R)).
        -- now rewrite Htypes.
        -- now rewrite duplicate_of_find.
    + exact Hi.
    + split; congruence.
    + rewrite Hi. apply (staged_row_is_new data t); congruence.
  - destruct H as (-> & e & He).
    pose proof R as (Rapp & Hsame & _).
    split; [assumption|]. split; [|split; [|split]].
    + exists user, t, e. repeat split; try assumption.
      * now rewrite (resolved_user_users _ _ d d1
                       (lookups_appended_users _ _ R)).
      * now rewrite (duplicate_of_indicators _ _ d).
    + simpl. now rewrite app_nil_r.
    + exact I.
    + now rewrite Hsame.
Qed.

Lemma create_indicators_effect cfg request_apikey now items :
  forall c d ys c' d',
    cache_agrees c d ->
    create_indicators cfg request_apikey now items (c, d)
    = (Ok ys, (c', d')) ->
    cache_agrees c' d' /\
    appended d d' /\
    (forall data, In data items -> in_the_way request_apikey data d') /\
    indicators d' = indicators d ++ map obj_row (omap id ys) /\
    Forall2 staged_for items ys /\
    (NoDup (map type_and_value (indicators d)) ->
     NoDup (map type_and_value (indicators d'))).
Proof.
  unfold create_indicators.
  induction items as [|data items IH]; intros c d ys c' d' Hc H; simpl in H.
  - apply ret_inv in H as [-> [= -> ->]].
    split; [assumption|]. split; [reflexivity|].
    split; [intros ? []|]. split; [simpl; now rewrite app_nil_r|].
    split; [constructor|auto].
  - apply bind_inv in H as (y & [c1 d1] & Hitem & H).
    apply bind_inv in H as (ys' & [c2 d2] & Hrest & H).
    apply ret_inv in H as [-> [= -> ->]].
    apply (create_indicators_item_effect _ _ _ _ _ _ _ _ _ Hc) in Hitem
      as (Hc1 & A1 & W1 & I1 & S1 & N1).
    apply (IH _ _ _ _ _ Hc1) in Hrest as (Hc2 & A2 & W2 & I2 & S2 & N2).
    split; [assumption|]. split; [etransitivity; eassumption|].
    split; [|split; [|split]].
    + intros x [<-|Hx]; [|auto].
      now apply (in_the_way_appended _ _ d1).
    + rewrite I2, I1. destruct y; simpl; rewrite <- ?app_assoc; [|f_equal];
        reflexivity.
    + now constructor.
    + auto.
Qed.

Lemma find_existsb {A} (f : A -> bool) l :
  existsb f l = match List.find f l with Some _ => true | None => false end.
Proof.
  induction l as [|x l IH]; [reflexivity|]. simpl.
  now destruct (f x).
Qed.

(** The items in turn: which were passed over, and what the others
    got. *)
Lemma create_indicators_turns cfg request_apikey now items :
  forall c d ys c' d' final,
    cache_agrees c d ->
    create_indicators cfg request_apikey now items (c, d)
    = (Ok ys, (c', d')) ->
    appended d' final ->
    staged_in_turn final (indicators d) items ys.
Proof.
  unfold create_indicators.
  induction items as [|data items IH]; intros c d ys c' d' final Hc H Hfin;
    simpl in H.
  - now apply ret_inv in H as [-> _].
  - apply bind_inv in H as (y & [c1 d1] & Hitem & H).
    apply bind_inv in H as (ys' & [c2 d2] & Hrest & H).
    apply ret_inv in H as [-> [= -> ->]].
    pose proof Hitem as Hok.
    apply (create_indicators_item_ok _ _ _ _ _ _ _ _ _ Hc) in Hok
      as (_ & user & t & s1 & _ & _ & R & Ht & Hy).
    apply (create_indicators_item_effect _ _ _ _ _ _ _ _ _ Hc) in Hitem
      as (Hc1 & A1 & _ & I1 & _).
    pose proof Hrest as Hturns.
    apply (IH _ _ _ _ _ final Hc1) in Hturns; [|assumption].
    apply (create_indicators_effect _ _ _ _ _ _ _ _ _ Hc1) in Hrest
      as (_ & A2 & _).
    assert (Afin : appended d1 final) by (etransitivity; eassumption).
    cbn [staged_in_turn]. split; [|now rewrite <- I1].
    exists t.
    assert (Hs1 : appended s1 d1).
    { destruct y as [obj|].
      - destruct Hy as (_ & o & _ & _ & _ & Hadd).
        now apply add_indicator_ok in Hadd.
      - destruct Hy as (-> & _). reflexivity. }
    split.
    { assert (Hp : appended s1 final) by (etransitivity; eassumption).
      destruct Hp as (_ & Hty & _).
      exact (by_value_prefix _ _ _ _ Hty Ht). }
    rewrite find_existsb, <- duplicate_of_find.
    destruct y as [obj|].
    + destruct Hy as (-> & o & Hv & Hty & Hcs & Hadd).
      apply add_indicator_ok in Hadd
        as (_ & Hv' & Hty' & _ & Hcs' & _).
      repeat split; congruence.
    + now destruct Hy as (_ & e & ->).
Qed.

Lemma agrees_empty d : cache_agrees empty_cache d.
Proof.
  repeat split; intros k x Hx; simpl in Hx; now rewrite lookup_empty in Hx.
Qed.

End BulkFacts.

Module BulkProps.
Import Schema Ingest IngestProps IngestFacts Frames WriteFacts CreationFacts
  BulkFacts.

(** X4.  A batch that the bulk route accepts is answered 204 and leaves,
    at the end of the indicators and in the order of the batch, one row
    for each item that was not passed over.  An item is passed over
    exactly when a row before it, of the store or of an earlier item,
    has its type and its value under its comparison mode; each other
    item gets a row of its type with its value and its mode.  The
    indicators the store had stay in front, and every other table keeps
    its rows in front of what it gained. *)
Theorem bulk_stages_rows_in_order
  (cfg : config) (request_apikey : option string) (now : Z)
  (items : list indicator_data) (d d' : db) (code : Z) :
  post_indicators_bulk cfg request_apikey now items d = (Ok code, d') ->
  code = 204 /\
  appended d d' /\
  exists ys,
    staged_in_turn d' (indicators d) items ys /\
    Forall2 staged_for items ys /\
    indicators d' = indicators d ++ map obj_row (omap id ys).
Proof.
  unfold post_indicators_bulk.
  destruct (create_indicators cfg request_apikey now items (empty_cache, d))
    as [[ys|c message|exn] [c' s']] eqn:H; [|discriminate|discriminate].
  intros [= <- <-].
  pose proof (create_indicators_turns _ _ _ _ _ _ _ _ _ s' (agrees_empty d)
                H (reflexivity s')) as Hturns.
  apply (create_indicators_effect _ _ _ _ _ _ _ _ _ (agrees_empty d)) in H
    as (_ & Happ & _ & Hi & Hs & _).
  split; [reflexivity|]. split; [assumption|]. now exists ys.
Qed.

(** A batch of three on the sample store, the second of which is there
    already: two rows are added, for the first and the third. *)
Lemma bulk_stages_rows_in_order_witness :
  let batch :=
    [new_item "IP" "5.6.7.8"; new_item "IP" "1.2.3.4";
     new_item "FQDN" "d.com"] in
  let after :=
    post_indicators_bulk no_auto_create (Some "k1"%string) 7 batch
      Sample.store in
  fst after = Ok 204 /\
  map ind_value (indicators (snd after))
  = ["c.com"; "1.2.3.4"; "b.com"; "5.6.7.8"; "d.com"]%string /\
  exists ys,
    staged_in_turn (snd after) (indicators Sample.store) batch ys /\
    indicators (snd after)
    = indicators Sample.store ++ map obj_row (omap id ys).
Proof.
  cbv zeta.
  destruct (bulk_stages_rows_in_order no_auto_create (Some "k1"%string) 7
              [new_item "IP" "5.6.7.8"; new_item "IP" "1.2.3.4";
               new_item "FQDN" "d.com"] Sample.store _ _ eq_refl)
    as (_ & _ & ys & Ht & _ & Hi).
  split; [reflexivity|]. split; [reflexivity|].
  exists ys. split; [exact Ht|exact Hi].
Defined.

(** X5.  The bulk route keeps the pairs of type and value apart: if no
    two indicators of the store share their type and the bytes of their
    value, none do after a batch that is accepted, the items of the batch
    among them. *)
Theorem bulk_keeps_pairs_unique
  (cfg : config) (request_apikey : option string) (now : Z)
  (items : list indicator_data) (d d' : db) (code : Z) :
  post_indicators_bulk cfg request_apikey now items d = (Ok code, d') ->
  NoDup (map type_and_value (indicators d)) ->
  NoDup (map type_and_value (indicators d')).
Proof.
  unfold post_indicators_bulk.
  destruct (create_indicators cfg request_apikey now items (empty_cache, d))
    as [[ys|c message|exn] [c' s']] eqn:H; [|discriminate|discriminate].
  intros [= <- <-].
  now apply (create_indicators_effect _ _ _ _ _ _ _ _ _ (agrees_empty d))
    in H as (_ & _ & _ & _ & _ & Hnd).
Qed.

Lemma bulk_keeps_pairs_unique_witness :
  NoDup (map type_and_value
           (indicators
              (snd (post_indicators_bulk no_auto_create (Some "k1"%string)
                      7 [new_item "IP" "5.6.7.8"; new_item "IP" "5.6.7.8"]
                      Sample.store)))).
Proof.
  apply (bulk_keeps_pairs_unique no_auto_create (Some "k1"%string) 7
           [new_item "IP" "5.6.7.8"; new_item "IP" "5.6.7.8"]
           Sample.store _ 204 eq_refl).
  apply (bool_decide_unpack _). vm_compute. exact I.
Defined.

(** X6.  An item that comes a second time in a batch adds nothing:
    a batch followed by a copy of one of its items gets the answer of the
    batch alone and leaves the store the batch alone leaves. *)
Theorem repeated_item_changes_nothing
  (cfg : config) (request_apikey : option string) (now : Z)
  (items : list indicator_data) (data : indicator_data) (d : db) :
  In data items ->
  post_indicators_bulk cfg request_apikey now (items ++ [data]) d
  = post_indicators_bulk cfg request_apikey now items d.
Proof.
  intros Hin. unfold post_indicators_bulk, create_indicators.
  rewrite for_each_snoc.
  destruct (for_each (create_indicators_item cfg request_apikey now) items
              (empty_cache, d)) as [[ys|c message|exn] [c1 d1]] eqn:H;
    [|reflexivity|reflexivity].
  apply (create_indicators_effect _ _ _ _ _ _ _ _ _ (agrees_empty d)) in H
    as (Hc & _ & Hway & _).
  destruct (Hway data Hin) as (user & t & e & Hu & Ha & Ht & He).
  now rewrite (create_indicators_item_skips cfg request_apikey now data d1
                 user t e Hu Ha Ht He c1 Hc).
Qed.

Lemma repeated_item_changes_nothing_witness :
  post_indicators_bulk no_auto_create (Some "k1"%string) 7
    ([new_item "IP" "5.6.7.8"; new_item "FQDN" "d.com"]
     ++ [new_item "IP" "5.6.7.8"]) Sample.store
  = post_indicators_bulk no_auto_create (Some "k1"%string) 7
      [new_item "IP" "5.6.7.8"; new_item "FQDN" "d.com"] Sample.store.
Proof.
  apply repeated_item_changes_nothing. now left.
Defined.

End BulkProps.

(* ===================================================================== *)
(** ** Intel references: creation and update *)
(* ===================================================================== *)

Module ReferenceFacts.
Import Schema Ingest IngestProps IngestFacts References Frames WriteFacts
  CreationFacts.

(** A creation that succeeded: the three fields were there, the source
    exists, no reference of that source had the text, the user exists;
    the new row is the one row added. *)
Lemma create_intel_reference_ok data d r d' :
  create_intel_reference data d = (Ok r, d') ->
  exists ref src u source user,
    form_reference data = Some ref /\
    form_source data = Some src /\
    form_username data = Some u /\
    by_value src (intel_sources d) = Some source /\
    reference_of_source ref source d = None /\
    user_by_username u d = Some user /\
    r = {| ref_id := next_id (map ref_id (intel_references d));
           reference := ref; ref_source_id := lk_id source;
           ref_user_id := user_id user |} /\
    d' = with_intel_references (intel_references d ++ [r]) d.
Proof.
  unfold create_intel_reference. intros H.
  destruct (form_reference data) as [ref|]; [|destruct (form_source data);
    [destruct (form_username data)|]; discriminate].
  destruct (form_source data) as [src|];
    [|destruct (form_username data); discriminate].
  destruct (form_username data) as [u|]; [|discriminate].
  apply bind_inv in H as (found & s1 & Hq & H).
  apply query_inv in Hq as [-> ->].
  destruct (by_value src (intel_sources d)) as [source|] eqn:Hs;
    [|discriminate].
  apply bind_inv in H as (existing & s1 & Hq & H).
  apply query_inv in Hq as [-> ->].
  destruct (reference_of_source ref source d) eqn:He; [discriminate|].
  apply bind_inv in H as (found & s1 & Hq & H).
  apply query_inv in Hq as [-> ->].
  destruct (user_by_username u d) as [user|] eqn:Hu; [|discriminate].
  unfold add_reference in H. injection H as <- <-.
  exists ref, src, u, source, user. repeat split; assumption.
Qed.

(** An update that succeeded: the reference exists, a field was given,
    the source named exists, no reference has the new text and source;
    the row with the id is replaced and nothing else changes. *)
Lemma update_intel_reference_ok i data d r' d' :
  update_intel_reference i data d = (Ok r', d') ->
  exists r ref source_id,
    get_reference i d = Some r /\
    ref = default (reference r) (new_reference data) /\
    match new_source data with
    | Some v =>
        exists source, by_value v (intel_sources d) = Some source /\
                       source_id = lk_id source
    | None => source_id = ref_source_id r
    end /\
    reference_with ref source_id d = None /\
    r' = with_reference ref source_id r /\
    d' = with_intel_references
           (map (fun x => if ref_id x =? ref_id r' then r' else x)
              (intel_references d)) d.
Proof.
  unfold update_intel_reference. intros H.
  apply bind_inv in H as (found & s1 & Hq & H).
  apply query_inv in Hq as [-> ->].
  destruct (get_reference i d) as [r|] eqn:Hr; [|discriminate].
  set (ref := match new_reference data with
              | Some v => v
              | None => reference r
              end) in H.
  assert (Hgiven :
            (let* source_id :=
               match new_source data with
               | Some v =>
                   let* source :=
                     query (fun d => by_value v (intel_sources d)) in
                   match source with
                   | None => error_response 404 "Intel source not found"
                   | Some source => ret (lk_id source)
                   end
               | None => ret (ref_source_id r)
               end in
             let* existing := query (reference_with ref source_id) in
             match existing with
             | Some _ => error_response 409 "Intel reference already exists"
             | None =>
                 let updated := with_reference ref source_id r in
                 let* _ := store_reference updated in
                 ret updated
             end) d = (Ok r', d')).
  { destruct (new_reference data), (new_source data);
      first [exact H|discriminate]. }
  clear H. rename Hgiven into H.
  apply bind_inv in H as (source_id & s1 & Hs & H).
  assert (Hsource : match new_source data with
                    | Some v =>
                        exists source,
                          by_value v (intel_sources d) = Some source /\
                          source_id = lk_id source
                    | None => source_id = ref_source_id r
                    end /\ s1 = d).
  { destruct (new_source data) as [v|].
    - apply bind_inv in Hs as (found & s2 & Hq & Hs).
      apply query_inv in Hq as [-> ->].
      destruct (by_value v (intel_sources d)) as [source|]; [|discriminate].
      apply ret_inv in Hs as [-> ->]. eauto.
    - now apply ret_inv in Hs as [-> ->]. }
  destruct Hsource as [Hsource ->]. clear Hs.
  apply bind_inv in H as (existing & s1 & Hq & H).
  apply query_inv in Hq as [-> ->].
  destruct (reference_with ref source_id d) eqn:He; [discriminate|].
  cbv zeta in H.
  apply bind_inv in H as (u & s1 & Hstore & H).
  apply ret_inv in H as [-> ->].
  unfold store_reference in Hstore. injection Hstore as <-.
  exists r, ref, source_id.
  split; [reflexivity|]. split; [now destruct (new_reference data)|].
  split; [assumption|]. split; [assumption|]. split; [reflexivity|].
  now subst s1.
Qed.

Lemma reference_of_source_with ref source d :
  reference_of_source ref source d = reference_with ref (lk_id source) d.
Proof. reflexivity. Qed.

Lemma get_reference_id i d r : get_reference i d = Some r -> ref_id r = i.
Proof.
  unfold get_reference. intros H. apply find_some in H as [_ H].
  now apply Z.eqb_eq in H.
Qed.

Lemma get_reference_in i d r :
  get_reference i d = Some r -> In r (intel_references d).
Proof. unfold get_reference. intros H. now apply find_some in H. Qed.

(** Replacing the row with a given id in a table whose ids are all
    different. *)
Lemma replace_absent_id (r' : reference_row) l :
  ref_id r' ∉ map ref_id l ->
  map (fun x => if ref_id x =? ref_id r' then r' else x) l = l.
Proof.
  induction l as [|x l IH]; simpl; [reflexivity|].
  intros H. apply not_elem_of_cons in H as [Hx Hl].
  destruct (Z.eqb_spec (ref_id x) (ref_id r')) as [E|_]; [congruence|].
  now rewrite IH.
Qed.

Lemma in_replaced (r' : reference_row) l y :
  In y (map (fun x => if ref_id x =? ref_id r' then r' else x) l) ->
  y = r' \/ In y l.
Proof.
  intros H. apply in_map_iff in H as (x & <- & Hx).
  destruct (ref_id x =? ref_id r'); auto.
Qed.

Lemma replace_keeps_pairs_unique (r' : reference_row) l :
  NoDup (map ref_id l) ->
  NoDup (map reference_and_source l) ->
  reference_and_source r' ∉ map reference_and_source l ->
  NoDup (map reference_and_source
           (map (fun x => if ref_id x =? ref_id r' then r' else x) l)).
Proof.
  induction l as [|x l IH]; simpl; [intros; apply NoDup_nil_2|].
  intros Hid Hkey Hnew.
  apply NoDup_cons in Hid as [Hidx Hid].
  apply NoDup_cons in Hkey as [Hkeyx Hkey].
  apply not_elem_of_cons in Hnew as [Hnewx Hnew].
  destruct (Z.eqb_spec (ref_id x) (ref_id r')) as [E|_].
  - rewrite replace_absent_id by (now rewrite <- E).
    apply NoDup_cons. split; assumption.
  - apply NoDup_cons. split; [|now apply IH].
    intros Hin. apply list_elem_of_In, in_map_iff in Hin as (y & Hy & Hin).
    apply in_replaced in Hin as [->|Hin]; [congruence|].
    apply Hkeyx. rewrite <- Hy. apply list_elem_of_In. now apply in_map.
Qed.

(** Reading back the row with the id that was replaced. *)
Lemma find_replaced (r' : reference_row) l :
  (exists x, In x l /\ ref_id x = ref_id r') ->
  List.find (fun x => ref_id x =? ref_id r')
    (map (fun x => if ref_id x =? ref_id r' then r' else x) l)
  = Some r'.
Proof.
  induction l as [|y l IH]; intros (x & Hin & E); [destruct Hin|].
  simpl. destruct (Z.eqb_spec (ref_id y) (ref_id r')) as [Ey|Hne].
  - now rewrite Z.eqb_refl.
  - destruct (Z.eqb_spec (ref_id y) (ref_id r')); [contradiction|].
    apply IH. destruct Hin as [->|Hin]; [contradiction|]. eauto.
Qed.

Lemma in_replaced_other (r' : reference_row) l y :
  ref_id y <> ref_id r' ->
  In y (map (fun x => if ref_id x =? ref_id r' then r' else x) l)
  <-> In y l.
Proof.
  intros Hne. rewrite in_map_iff. split.
  - intros (x & E & Hx).
    destruct (Z.eqb_spec (ref_id x) (ref_id r')); now subst.
  - intros Hy. exists y. split; [|assumption].
    now destruct (Z.eqb_spec (ref_id y) (ref_id r')).
Qed.

Lemma reference_with_none ref source_id d :
  reference_with ref source_id d = None ->
  (ref, source_id) ∉ map reference_and_source (intel_references d).
Proof.
  unfold reference_with. intros H Hin.
  apply list_elem_of_In, in_map_iff in Hin as (x & Hx & Hin).
  apply (find_none _ _ H) in Hin.
  unfold reference_and_source in Hx. injection Hx as <- <-.
  now rewrite String.eqb_refl, Z.eqb_refl in Hin.
Qed.

End ReferenceFacts.

Module ReferenceProps.
Import Schema Ingest IngestProps IngestFacts References Frames WriteFacts
  CreationFacts ReferenceFacts.

(** X7.  An intel reference that was just created is in the way of its
    own request: sent again, the request is answered 409 and the store
    stays as the creation left it. *)
Theorem reference_conflicts_next_time
  (data : reference_form) (d d' : db) (r : reference_row) :
  create_intel_reference data d = (Ok r, d') ->
  post_intel_reference data d'
  = (Error_response 409 "Intel reference already exists", d').
Proof.
  intros H.
  apply create_intel_reference_ok in H
    as (ref & src & u & source & user & Hr & Hs & Hu & Hsource & _ & _ & Hrow
        & ->).
  unfold post_intel_reference, create_intel_reference.
  rewrite Hr, Hs, Hu. unfold bind, query. cbn [intel_sources
    with_intel_references]. rewrite Hsource.
  destruct (find_exists
              (fun x => String.eqb (reference x) ref &&
                        (ref_source_id x =? lk_id source))
              (intel_references d ++ [r]) r) as (e & He).
  - apply in_or_app. right. now left.
  - rewrite Hrow. simpl. now rewrite String.eqb_refl, Z.eqb_refl.
  - unfold reference_of_source. cbn [intel_references with_intel_references].
    now rewrite He.
Qed.

Lemma reference_conflicts_next_time_witness :
  let request :=
    {| form_reference := Some "r9"%string; form_source := Some "A"%string;
       form_username := Some "analyst"%string |} in
  let created := create_intel_reference request Sample.store in
  post_intel_reference request (snd created)
  = (Error_response 409 "Intel reference already exists", snd created).
Proof.
  exact (reference_conflicts_next_time
           {| form_reference := Some "r9"%string;
              form_source := Some "A"%string;
              form_username := Some "analyst"%string |}
           Sample.store _ _ eq_refl).
Defined.

(** X8.  Creating an intel reference keeps the pairs of text and source
    apart: if no two references of the store share both, none do after a
    creation that succeeds; the new row is attributed to the user the
    request names and every other row is as it was. *)
Theorem reference_creation_keeps_pairs_unique
  (data : reference_form) (d d' : db) (r : reference_row) :
  create_intel_reference data d = (Ok r, d') ->
  intel_references d' = intel_references d ++ [r] /\
  form_reference data = Some (reference r) /\
  (exists u user, form_username data = Some u /\
                  user_by_username u d = Some user /\
                  ref_user_id r = user_id user) /\
  (NoDup (map reference_and_source (intel_references d)) ->
   NoDup (map reference_and_source (intel_references d'))).
Proof.
  intros H.
  apply create_intel_reference_ok in H
    as (ref & src & u & source & user & Hr & Hs & Hu & Hsource & Hnew & Huser
        & Hrow & ->).
  cbn [intel_references with_intel_references].
  split; [reflexivity|]. split; [now rewrite Hrow|].
  split; [exists u, user; rewrite Hrow; now repeat split|].
  intros Hnd. rewrite map_app. apply NoDup_app.
  split; [assumption|]. split; [|apply NoDup_singleton].
  intros k Hk Hk'. apply list_elem_of_singleton in Hk'. subst k.
  rewrite reference_of_source_with in Hnew.
  apply reference_with_none in Hnew. apply Hnew.
  now rewrite Hrow in Hk.
Qed.

Lemma reference_creation_keeps_pairs_unique_witness :
  NoDup (map reference_and_source
           (intel_references
              (snd (create_intel_reference
                      {| form_reference := Some "r1"%string;
                         form_source := Some "B"%string;
                         form_username := Some "analyst"%string |}
                      Sample.store)))).
Proof.
  destruct (reference_creation_keeps_pairs_unique
              {| form_reference := Some "r1"%string;
                 form_source := Some "B"%string;
                 form_username := Some "analyst"%string |}
              Sample.store _ _ eq_refl) as (_ & _ & _ & Hkept).
  apply Hkept. apply (bool_decide_unpack _). vm_compute. exact I.
Defined.

(** X9.  An update of an intel reference that succeeds replaces, in a
    table whose ids are all different, the one row with the id: the row
    keeps its id and its user and takes the text and the source of the
    request (what the request does not give stays), it is the row that
    the id reads back afterwards, and every row with another id is in
    the table as before, with no row added; the ids of the table are as
    before, the other tables are untouched, and if no two references
    shared text and source, none do afterwards. *)
Theorem reference_update_keeps_pairs_unique
  (i : Z) (data : reference_update) (d d' : db) (r' : reference_row) :
  update_intel_reference i data d = (Ok r', d') ->
  NoDup (map ref_id (intel_references d)) ->
  ref_id r' = i /\
  (exists r, get_reference i d = Some r /\
             ref_user_id r' = ref_user_id r /\
             reference r' = default (reference r) (new_reference data) /\
             match new_source data with
             | Some v =>
                 exists source,
                   by_value v (intel_sources d) = Some source /\
                   ref_source_id r' = lk_id source
             | None => ref_source_id r' = ref_source_id r
             end) /\
  get_reference i d' = Some r' /\
  map ref_id (intel_references d') = map ref_id (intel_references d) /\
  (forall x, ref_id x <> i ->
             In x (intel_references d') <-> In x (intel_references d)) /\
  (forall x, In x (intel_references d') -> x = r' \/ In x (intel_references d))
  /\
  (intel_sources d' = intel_sources d /\ users d' = users d /\
   indicators d' = indicators d /\
   reference_assoc d' = reference_assoc d) /\
  (NoDup (map reference_and_source (intel_references d)) ->
   NoDup (map reference_and_source (intel_references d'))).
Proof.
  intros H Hid.
  apply update_intel_reference_ok in H
    as (r & ref & source_id & Hr & Href & Hsrc & Hnew & Hrow & ->).
  cbn [intel_references with_intel_references].
  assert (Hi : ref_id r' = i)
    by (rewrite Hrow; simpl; now apply get_reference_id in Hr).
  split; [assumption|].
  split.
  { exists r. rewrite Hrow. simpl. repeat (split; [auto|]).
    destruct (new_source data); [|assumption].
    destruct Hsrc as (source & Hs & ->). eauto. }
  split.
  { unfold get_reference. cbn [intel_references with_intel_references].
    rewrite <- Hi. apply find_replaced. exists r.
    split; [now apply get_reference_in in Hr|].
    apply get_reference_id in Hr. congruence. }
  split; [|split; [|split; [|split]]].
  - rewrite map_map. apply map_ext. intros x.
    destruct (Z.eqb_spec (ref_id x) (ref_id r')); congruence.
  - intros x Hx. apply in_replaced_other. congruence.
  - intros x. apply in_replaced.
  - repeat split.
  - intros Hnd. apply replace_keeps_pairs_unique; try assumption.
    apply reference_with_none in Hnew. now rewrite Hrow.
Qed.

(** Reference 1 of the sample store is given the text [r7] and the
    source [B]. *)
Lemma reference_update_keeps_pairs_unique_witness :
  let after :=
    update_intel_reference 1
      {| new_reference := Some "r7"%string; new_source := Some "B"%string |}
      Sample.store in
  map reference_and_source (intel_references (snd after))
  = [("r7"%string, 2); ("r2"%string, 2)] /\
  get_reference 1 (snd after)
  = Some {| ref_id := 1; reference := "r7"; ref_source_id := 2;
            ref_user_id := 1 |}.
Proof.
  cbv zeta.
  destruct (reference_update_keeps_pairs_unique 1
              {| new_reference := Some "r7"%string;
                 new_source := Some "B"%string |}
              Sample.store _ _ eq_refl)
    as (_ & _ & Hback & _).
  - apply (bool_decide_unpack _). vm_compute. exact I.
  - split; [reflexivity|exact Hback].
Defined.

(** X10.  An update of an intel reference that asks for the text and the
    source the reference already has is refused: whenever the text given,
    if any, is the current one and the source given, if any, is the
    current one, and one of them is given, the answer is 409 and the
    store is unchanged. *)
Theorem unchanged_reference_update_conflicts
  (i : Z) (data : reference_update) (d : db) (r : reference_row) :
  get_reference i d = Some r ->
  (new_reference data = None -> new_source data <> None) ->
  (forall v, new_reference data = Some v -> v = reference r) ->
  (forall v, new_source data = Some v ->
             exists source, by_value v (intel_sources d) = Some source /\
                            lk_id source = ref_source_id r) ->
  put_intel_reference i data d
  = (Error_response 409 "Intel reference already exists", d).
Proof.
  intros Hr Hgiven Href Hsource.
  assert (Hfound : exists e,
             reference_with (reference r) (ref_source_id r) d = Some e).
  { apply (find_exists _ _ r); [now apply get_reference_in in Hr|].
    now rewrite String.eqb_refl, Z.eqb_refl. }
  destruct Hfound as (e & He).
  unfold put_intel_reference, update_intel_reference.
  unfold bind at 1. unfold query at 1. rewrite Hr.
  destruct (new_reference data) as [v|] eqn:Ev;
    destruct (new_source data) as [src|] eqn:Es;
    try (now exfalso; apply Hgiven);
    try (rewrite (Href v eq_refl));
    try (destruct (Hsource src eq_refl) as (source & Hs & Hid));
    unfold bind, query, ret; rewrite ?Hs, ?Hid, He; reflexivity.
Qed.

Lemma unchanged_reference_update_conflicts_witness :
  put_intel_reference 1
    {| new_reference := Some "r1"%string; new_source := Some "A"%string |}
    Sample.store
  = (Error_response 409 "Intel reference already exists", Sample.store).
Proof.
  apply (unchanged_reference_update_conflicts 1 _ Sample.store
           {| ref_id := 1; reference := "r1"; ref_source_id := 1;
              ref_user_id := 1 |}).
  - reflexivity.
  - discriminate.
  - now intros v [= <-].
  - intros v [= <-]. now exists {| lk_id := 1; lk_value := "A" |}.
Defined.

End ReferenceProps.

(* ===================================================================== *)
(** ** What an update of an indicator touches *)
(* ===================================================================== *)

Module UpdateFacts.
Import Schema Ingest IngestProps IngestFacts Frames WriteFacts.

(** A query of the session that returned: the object could be flushed,
    and the query only read. *)
Lemma session_query_inv {A} o (f : db -> A) d x d' :
  session_query o f d = (Ok x, d') ->
  holds_none o = false /\ d' = d /\ x = f d.
Proof.
  unfold session_query, flush. destruct (holds_none o); [discriminate|].
  intros [= <- <-]. auto.
Qed.

(** The loops over names of the update route only read. *)
Lemma names_loop {A B} o (q : A -> db -> B) values d ys d' :
  for_each (fun value => session_query o (q value)) values d = (Ok ys, d') ->
  d' = d /\ ys = map (fun v => q v d) values.
Proof.
  revert ys. induction values as [|v values IH]; intros ys H; simpl in H.
  - now apply ret_inv in H as [-> ->].
  - apply bind_inv in H as (y & s1 & Hy & H).
    apply session_query_inv in Hy as (_ & -> & ->).
    apply bind_inv in H as (ys' & s2 & Hrest & H).
    apply ret_inv in H as [-> ->].
    apply IH in Hrest as [-> ->]. auto.
Qed.

(** A key that names a row of a lookup table: absent, or present and
    found. *)
Lemma named_row_inv {A} (given : option string) (get : db -> list lookup_row)
  (missing : string -> string) (f : lookup_row -> A) (o : A) ind d o' d' :
  match given with
  | Some v =>
      let* found := session_query ind (fun d => by_value v (get d)) in
      match found with
      | None => error_response 404 (missing v)
      | Some c => ret (f c)
      end
  | None => ret o
  end d = (Ok o', d') ->
  d' = d /\
  match given with
  | Some v => exists c, by_value v (get d) = Some c /\ o' = f c
  | None => o' = o
  end.
Proof.
  destruct given as [v|]; intros H.
  - apply bind_inv in H as (found & s1 & Hq & H).
    apply session_query_inv in Hq as (_ & -> & ->).
    destruct (by_value v (get d)) as [c|]; [|discriminate].
    apply ret_inv in H as [-> ->]. eauto.
  - now apply ret_inv in H as [-> ->].
Qed.

(** The loop over the references of an update: it stops at the first
    that is not found. *)
Lemma references_loop_inv ind items d ys d' :
  for_each
    (fun item =>
       let* reference :=
         session_query ind
           (reference_by_source (item_source item) (item_reference item)) in
       match reference with
       | None =>
           error_response 404
             ("Intel reference not found: " +:+ item_reference item)
       | Some r => ret (Some r)
       end) items d = (Ok ys, d') ->
  d' = d /\
  ys = map (fun item =>
              reference_by_source (item_source item) (item_reference item) d)
         items /\
  Forall (fun y => y <> None) ys.
Proof.
  revert ys. induction items as [|item items IH]; intros ys H; simpl in H.
  - apply ret_inv in H as [-> ->]. repeat split. constructor.
  - apply bind_inv in H as (y & s1 & Hy & H).
    apply bind_inv in Hy as (found & s0 & Hq & Hy).
    apply session_query_inv in Hq as (_ & -> & ->).
    destruct (reference_by_source _ _ d) as [r|] eqn:E; [|discriminate].
    apply ret_inv in Hy as [-> ->].
    apply bind_inv in H as (ys' & s2 & Hrest & H).
    apply ret_inv in H as [-> ->].
    apply IH in Hrest as (-> & -> & Hall).
    split; [reflexivity|]. split; [simpl; now rewrite E|].
    constructor; [discriminate|assumption].
Qed.

(** The commit that returned: the object could be flushed, and what is
    returned is the object with the store's modification time, written
    to the store. *)
Lemma commit_inv modified_on_update before o d o' d' :
  commit modified_on_update before o d = (Ok o', d') ->
  holds_none o = false /\
  o' = set_row (with_modified_time (modified_on_update before o)) o /\
  d' = store_indicator before o' d.
Proof.
  unfold commit, bind, flush. destruct (holds_none o); [discriminate|].
  intros [= <- <-]. auto.
Qed.

(** *** What the commit writes *)

Lemma in_replace_links i others assoc a :
  a_indicator_id a <> i ->
  In a (replace_links i others assoc) <-> In a assoc.
Proof.
  intros Hne. unfold replace_links. rewrite in_app_iff, filter_In, in_map_iff.
  split.
  - intros [[H _]|(x & <- & _)]; [assumption|]. now elim Hne.
  - intros H. left. split; [assumption|].
    now destruct (Z.eqb_spec (a_indicator_id a) i).
Qed.

Lemma store_indicator_frame before after d :
  wrote_indicator_only (ind_id (obj_row after)) d
    (store_indicator before after d).
Proof.
  unfold wrote_indicator_only, store_indicator. cbn -[decide replace_links].
  split; [|split; [|split]].
  - rewrite map_map. apply map_ext. intros r.
    now destruct (Z.eqb_spec (ind_id r) (ind_id (obj_row after))).
  - intros r Hne. rewrite in_map_iff. split.
    + intros (x & E & Hx).
      destruct (Z.eqb_spec (ind_id x) (ind_id (obj_row after)));
        [now subst|now subst].
    + intros Hr. exists r. split; [|assumption].
      now destruct (Z.eqb_spec (ind_id r) (ind_id (obj_row after))).
  - intros a Hne. repeat split; destruct (decide _); try tauto;
      now apply in_replace_links.
  - repeat split.
Qed.

(** *** Steps that touch one part *)

Lemma same_identity_refl o : same_identity o o.
Proof. repeat split. Qed.

Lemma same_identity_trans o1 o2 o3 :
  same_identity o1 o2 -> same_identity o2 o3 -> same_identity o1 o3.
Proof.
  intros (A1 & A2 & A3 & A4) (B1 & B2 & B3 & B4).
  repeat split; congruence.
Qed.

Lemma same_part_trans p o1 o2 o3 :
  same_part p o1 o2 -> same_part p o2 o3 -> same_part p o1 o3.
Proof. destruct p; simpl; congruence. Qed.

Lemma touches_nothing data p o : touches data p o o.
Proof.
  split; [apply same_identity_refl|].
  split; [intros q _|intros _]; now destruct_with_eqn p; try destruct q.
Qed.

(** A part that a sequence of two steps leaves alone. *)
Lemma touches_then data p1 p2 q o1 o2 o3 :
  touches data p1 o1 o2 -> touches data p2 o2 o3 ->
  (q = p1 \/ q = p2 -> given data q = false) ->
  same_part q o1 o3.
Proof.
  intros (_ & A & A') (_ & B & B') Hq.
  apply (same_part_trans q o1 o2 o3).
  - destruct (decide (q = p1)) as [->|Hne]; [apply A'|apply A]; auto.
  - destruct (decide (q = p2)) as [->|Hne]; [apply B'|apply B]; auto.
Qed.

Ltac touched :=
  split; [repeat split|];
  (split; [intros q Hq; destruct q; try reflexivity; congruence
          |unfold given; intros Hg; simpl; try reflexivity;
           try (apply bool_decide_eq_false_1 in Hg; exfalso; apply Hg; eauto)]).

Lemma touches_campaigns data o cs :
  upd_campaigns data <> None ->
  touches data part_campaigns o (assign_if_any set_campaigns cs o).
Proof.
  intros H. destruct cs; [apply touches_nothing|]. touched.
  destruct (upd_campaigns data); [eauto|congruence].
Qed.

Lemma touches_references data o rs :
  upd_references data <> None ->
  touches data part_references o (assign_if_any set_references rs o).
Proof.
  intros H. destruct rs; [apply touches_nothing|]. touched.
  destruct (upd_references data); [eauto|congruence].
Qed.

Lemma touches_tags data o ts :
  upd_tags data <> None ->
  touches data part_tags o (assign_if_any set_tags ts o).
Proof.
  intros H. destruct ts; [apply touches_nothing|]. touched.
  destruct (upd_tags data); [eauto|congruence].
Qed.

Lemma same_part_refl p o : same_part p o o.
Proof. now destruct p. Qed.

Lemma touches_row data p o f :
  (forall r, ind_id (f r) = ind_id r /\ ind_value (f r) = ind_value r /\
             type_id (f r) = type_id r /\
             created_time (f r) = created_time r) ->
  (forall q, q <> p -> same_part q o (set_row f o)) ->
  given data p = true ->
  touches data p o (set_row f o).
Proof.
  intros Hid Hothers Hgiven. split; [apply Hid|]. split; [assumption|].
  congruence.
Qed.

Ltac row_touched :=
  apply touches_row;
  [ intros r; repeat split
  | intros q Hq; destruct q; try reflexivity; congruence
  | unfold given; apply bool_decide_eq_true_2; eauto ].

(** Carrying a part over the steps that follow the one that sets it. *)
Ltac carry :=
  lazymatch goal with
  | |- same_part ?q ?a ?a => apply same_part_refl
  | |- same_part ?q ?a ?c =>
      match goal with
      | T : touches _ ?p a ?b |- _ =>
          apply (same_part_trans q a b c);
          [apply (proj1 (proj2 T)); discriminate|carry]
      end
  end.

Ltac unnamed Hg :=
  lazymatch goal with
  | |- same_part ?q ?a ?a => apply same_part_refl
  | |- same_part ?q ?a ?c =>
      match goal with
      | T : touches _ ?p a ?b |- _ =>
          apply (same_part_trans q a b c);
          [destruct (decide (q = p)) as [->|];
           [apply (proj2 (proj2 T)); exact Hg
           |now apply (proj1 (proj2 T))]
          |unnamed Hg]
      end
  end.

Ltac identity :=
  lazymatch goal with
  | |- same_identity ?a ?a => apply same_identity_refl
  | |- same_identity ?a ?c =>
      match goal with
      | T : touches _ ?p a ?b |- _ =>
          apply (same_identity_trans a b c); [apply T|identity]
      end
  end.

(** An update that succeeded: the indicator exists; the object that was
    committed could be flushed, and what is returned is that object with
    the modification time the store gave it, written to the store.  On
    the committed object, what no key names is as it was, and so is
    every part whose key the request does not have; a part whose key it
    has holds what the request asked for, looked up in the store. *)
Lemma update_indicator_ok parse_boolean modified_on_update i data d o' d' :
  update_indicator parse_boolean modified_on_update i data d = (Ok o', d') ->
  exists o o9,
    get_indicator i d = Some o /\
    (holds_none o9 = false /\
     o' = set_row (with_modified_time (modified_on_update o o9)) o9 /\
     d' = store_indicator o o' d) /\
    same_identity o o9 /\
    (forall p, given data p = false -> same_part p o o9) /\
    (forall values,
        upd_campaigns data = Some values ->
        obj_campaigns o9
        = match values with
          | [] => obj_campaigns o
          | _ => map (fun v => campaign_by_name v d) values
          end) /\
    (forall v, upd_case_sensitive data = Some v ->
               case_sensitive (obj_row o9) = parse_boolean v false) /\
    (forall v, upd_confidence data = Some v ->
               exists c, by_value v (indicator_confidences d) = Some c /\
                         confidence_id (obj_row o9) = lk_id c) /\
    (forall v, upd_impact data = Some v ->
               exists c, by_value v (indicator_impacts d) = Some c /\
                         impact_id (obj_row o9) = lk_id c) /\
    (forall items,
        upd_references data = Some items ->
        Forall (fun item =>
                  reference_by_source (item_source item)
                    (item_reference item) d <> None) items /\
        obj_references o9
        = match items with
          | [] => obj_references o
          | _ => map (fun item =>
                        reference_by_source (item_source item)
                          (item_reference item) d) items
          end) /\
    (forall v, upd_status data = Some v ->
               exists c, by_value v (indicator_statuses d) = Some c /\
                         status_id (obj_row o9) = lk_id c) /\
    (forall v, upd_substring data = Some v ->
               substring (obj_row o9) = parse_boolean v false) /\
    (forall values,
        upd_tags data = Some values ->
        obj_tags o9
        = match values with
          | [] => obj_tags o
          | _ => map (fun v => by_value v (tags d)) values
          end) /\
    (forall u, upd_username data = Some u ->
               exists user, user_by_username u d = Some user /\
                            active user = true /\
                            ind_user_id (obj_row o9) = user_id user).
Proof.
  unfold update_indicator. intros H.
  apply bind_inv in H as (found & s0 & Hq & H).
  apply query_inv in Hq as [-> ->].
  destruct (get_indicator i d) as [o|] eqn:Hget; [|discriminate].
  cbv zeta in H.
  (* campaigns *)
  apply bind_inv in H as (o1 & s1 & H1 & H).
  assert (S1 : s1 = d /\ touches data part_campaigns o o1 /\
               forall values,
                 upd_campaigns data = Some values ->
                 obj_campaigns o1
                 = match values with
                   | [] => obj_campaigns o
                   | _ => map (fun v => campaign_by_name v d) values
                   end).
  { destruct (upd_campaigns data) as [values|] eqn:E.
    - apply bind_inv in H1 as (valid & s & Hloop & H1).
      apply names_loop in Hloop as [-> ->].
      apply ret_inv in H1 as [-> ->].
      split; [reflexivity|].
      split; [apply touches_campaigns; congruence|].
      intros ? [= <-]. now destruct values.
    - apply ret_inv in H1 as [-> ->].
      split; [reflexivity|]. split; [apply touches_nothing|discriminate]. }
  destruct S1 as (-> & T1 & V1). clear H1.
  (* case_sensitive *)
  cbv zeta in H.
  remember (match upd_case_sensitive data with
            | Some v =>
                set_row (with_case_sensitive (parse_boolean v false)) o1
            | None => o1
            end) as o2 eqn:E2.
  assert (S2 : touches data part_case_sensitive o1 o2 /\
               forall v, upd_case_sensitive data = Some v ->
                         case_sensitive (obj_row o2) = parse_boolean v false).
  { destruct (upd_case_sensitive data) as [v|] eqn:E; subst o2.
    - split; [row_touched|]. now intros ? [= <-].
    - split; [apply touches_nothing|discriminate]. }
  destruct S2 as (T2 & V2). clear E2.
  (* confidence *)
  apply bind_inv in H as (o3 & s3 & H3 & H).
  apply (named_row_inv (upd_confidence data) indicator_confidences
           (fun v => "Indicator confidence not found: " +:+ v)
           (fun c => set_row (with_confidence c) o2) o2 o2) in H3 as [-> H3].
  assert (S3 : touches data part_confidence o2 o3 /\
               forall v, upd_confidence data = Some v ->
                         exists c,
                           by_value v (indicator_confidences d) = Some c /\
                           confidence_id (obj_row o3) = lk_id c).
  { destruct (upd_confidence data) as [v|] eqn:E.
    - destruct H3 as (c & Hc & ->). split; [row_touched|].
      intros ? [= <-]. now exists c.
    - subst o3. split; [apply touches_nothing|discriminate]. }
  destruct S3 as (T3 & V3). clear H3.
  (* impact *)
  apply bind_inv in H as (o4 & s4 & H4 & H).
  apply (named_row_inv (upd_impact data) indicator_impacts
           (fun v => "Indicator impact not found: " +:+ v)
           (fun c => set_row (with_impact c) o3) o3 o3) in H4 as [-> H4].
  assert (S4 : touches data part_impact o3 o4 /\
               forall v, upd_impact data = Some v ->
                         exists c,
                           by_value v (indicator_impacts d) = Some c /\
                           impact_id (obj_row o4) = lk_id c).
  { destruct (upd_impact data) as [v|] eqn:E.
    - destruct H4 as (c & Hc & ->). split; [row_touched|].
      intros ? [= <-]. now exists c.
    - subst o4. split; [apply touches_nothing|discriminate]. }
  destruct S4 as (T4 & V4). clear H4.
  (* references *)
  apply bind_inv in H as (o5 & s5 & H5 & H).
  assert (S5 : s5 = d /\ touches data part_references o4 o5 /\
               forall items,
                 upd_references data = Some items ->
                 Forall (fun item =>
                           reference_by_source (item_source item)
                             (item_reference item) d <> None) items /\
                 obj_references o5
                 = match items with
                   | [] => obj_references o4
                   | _ => map (fun item =>
                                 reference_by_source (item_source item)
                                   (item_reference item) d) items
                   end).
  { destruct (upd_references data) as [items|] eqn:E.
    - apply bind_inv in H5 as (valid & s & Hloop & H5).
      apply references_loop_inv in Hloop as (-> & -> & Hall).
      apply ret_inv in H5 as [-> ->].
      split; [reflexivity|].
      split; [apply touches_references; congruence|].
      intros ? [= <-]. split; [|now destruct items].
      apply List.Forall_forall. intros item Hin.
      exact (proj1 (List.Forall_forall _ _) Hall _
               (in_map _ items item Hin)).
    - apply ret_inv in H5 as [-> ->].
      split; [reflexivity|]. split; [apply touches_nothing|discriminate]. }
  destruct S5 as (-> & T5 & V5). clear H5.
  (* status *)
  apply bind_inv in H as (o6 & s6 & H6 & H).
  apply (named_row_inv (upd_status data) indicator_statuses
           (fun v => "Indicator status not found: " +:+ v)
           (fun c => set_row (with_status c) o5) o5 o5) in H6 as [-> H6].
  assert (S6 : touches data part_status o5 o6 /\
               forall v, upd_status data = Some v ->
                         exists c,
                           by_value v (indicator_statuses d) = Some c /\
                           status_id (obj_row o6) = lk_id c).
  { destruct (upd_status data) as [v|] eqn:E.
    - destruct H6 as (c & Hc & ->). split; [row_touched|].
      intros ? [= <-]. now exists c.
    - subst o6. split; [apply touches_nothing|discriminate]. }
  destruct S6 as (T6 & V6). clear H6.
  (* substring *)
  cbv zeta in H.
  remember (match upd_substring data with
            | Some v => set_row (with_substring (parse_boolean v false)) o6
            | None => o6
            end) as o7 eqn:E7.
  assert (S7 : touches data part_substring o6 o7 /\
               forall v, upd_substring data = Some v ->
                         substring (obj_row o7) = parse_boolean v false).
  { destruct (upd_substring data) as [v|] eqn:E; subst o7.
    - split; [row_touched|]. now intros ? [= <-].
    - split; [apply touches_nothing|discriminate]. }
  destruct S7 as (T7 & V7). clear E7.
  (* tags *)
  apply bind_inv in H as (o8 & s8 & H8 & H).
  assert (S8 : s8 = d /\ touches data part_tags o7 o8 /\
               forall values,
                 upd_tags data = Some values ->
                 obj_tags o8
                 = match values with
                   | [] => obj_tags o7
                   | _ => map (fun v => by_value v (tags d)) values
                   end).
  { destruct (upd_tags data) as [values|] eqn:E.
    - apply bind_inv in H8 as (valid & s & Hloop & H8).
      apply (names_loop _ (fun v s => by_value v (tags s))) in Hloop
        as [-> ->].
      apply ret_inv in H8 as [-> ->].
      split; [reflexivity|].
      split; [apply touches_tags; congruence|].
      intros ? [= <-]. now destruct values.
    - apply ret_inv in H8 as [-> ->].
      split; [reflexivity|]. split; [apply touches_nothing|discriminate]. }
  destruct S8 as (-> & T8 & V8). clear H8.
  (* username *)
  apply bind_inv in H as (o9 & s9 & H9 & H).
  assert (S9 : s9 = d /\ touches data part_user o8 o9 /\
               forall u, upd_username data = Some u ->
                         exists user,
                           user_by_username u d = Some user /\
                           active user = true /\
                           ind_user_id (obj_row o9) = user_id user).
  { destruct (upd_username data) as [u|] eqn:E.
    - apply bind_inv in H9 as (found & s & Hq & H9).
      apply session_query_inv in Hq as (_ & -> & ->).
      destruct (user_by_username u d) as [user|] eqn:Hu; [|discriminate].
      destruct (active user) eqn:Ha; [|discriminate]. cbn [negb] in H9.
      apply ret_inv in H9 as [-> ->].
      split; [reflexivity|]. split; [row_touched|].
      intros ? [= <-]. now exists user.
    - apply ret_inv in H9 as [-> ->].
      split; [reflexivity|]. split; [apply touches_nothing|discriminate]. }
  destruct S9 as (-> & T9 & V9). clear H9.
  apply commit_inv in H as (Hclean & -> & ->).
  exists o, o9. split; [reflexivity|]. split; [auto|].
  split; [identity|].
  split; [intros p Hg; unnamed Hg|].
  assert (C1 : same_part part_campaigns o1 o9) by carry.
  assert (C2 : same_part part_case_sensitive o2 o9) by carry.
  assert (C3 : same_part part_confidence o3 o9) by carry.
  assert (C4 : same_part part_impact o4 o9) by carry.
  assert (C5 : same_part part_references o5 o9) by carry.
  assert (C6 : same_part part_status o6 o9) by carry.
  assert (C7 : same_part part_substring o7 o9) by carry.
  assert (C8 : same_part part_tags o8 o9) by carry.
  assert (B5 : same_part part_references o o4) by carry.
  assert (B8 : same_part part_tags o o7) by carry.
  simpl in *.
  repeat split.
  - intros values E. rewrite C1. now apply V1.
  - intros v E. rewrite C2. now apply V2.
  - intros v E. rewrite C3. now apply V3.
  - intros v E. rewrite C4. now apply V4.
  - now apply V5.
  - rewrite C5. destruct (V5 _ H) as [_ ->]. now rewrite B5.
  - intros v E. rewrite C6. now apply V6.
  - intros v E. rewrite C7. now apply V7.
  - intros values E. rewrite C8, (V8 _ E). now rewrite B8.
  - assumption.
Qed.

(** The row with the id is the one that was loaded. *)
Lemma get_indicator_id i d o :
  get_indicator i d = Some o -> ind_id (obj_row o) = i.
Proof.
  unfold get_indicator.
  destruct (List.find _ _) as [r|] eqn:E; [|discriminate].
  intros [= <-]. simpl. apply find_some in E as [_ E].
  now apply Z.eqb_eq.
Qed.

Lemma get_indicator_in i d o :
  get_indicator i d = Some o -> exists r, In r (indicators d) /\ ind_id r = i.
Proof.
  unfold get_indicator.
  destruct (List.find _ _) as [r|] eqn:E; [|discriminate].
  intros _. apply find_some in E as [Hin E]. exists r.
  split; [assumption|now apply Z.eqb_eq].
Qed.

(** The row that was written is in the store when its id was. *)
Lemma stored_row_in before after d :
  (exists r, In r (indicators d) /\ ind_id r = ind_id (obj_row after)) ->
  In (obj_row after) (indicators (store_indicator before after d)).
Proof.
  intros (r & Hin & E). unfold store_indicator. cbn [indicators].
  apply in_map_iff. exists r. split; [|assumption].
  now rewrite E, Z.eqb_refl.
Qed.

End UpdateFacts.

Module UpdateProps.
Import Schema Ingest IngestProps IngestFacts Frames WriteFacts UpdateFacts.

(** X11.  An update that succeeds touches only what the request names,
    on the indicator it names.  The indicator exists; its id, its
    value, its type and its time of creation are as they were (the time
    of modification is the store's to set), and so is every part
    (campaigns, case-sensitivity, confidence, impact, references,
    status, substring flag, tags, user) whose key the request does not
    have.  In the store nothing is written but the row of that indicator
    and the rows of its associations: the indicators keep their ids and
    order, every other indicator keeps its row and its association rows,
    and every other table is as it was. *)
Theorem update_leaves_unnamed_parts
  (parse_boolean : json_scalar -> bool -> bool)
  (modified_on_update : indicator_obj -> indicator_obj -> Z)
  (i : Z) (data : update_data) (d d' : db) (o' : indicator_obj) :
  update_indicator parse_boolean modified_on_update i data d = (Ok o', d') ->
  wrote_indicator_only i d d' /\
  exists o,
    get_indicator i d = Some o /\
    In (obj_row o') (indicators d') /\
    same_identity o o' /\
    forall p, given data p = false -> same_part p o o'.
Proof.
  intros H.
  apply update_indicator_ok in H
    as (o & o9 & Hget & (_ & -> & ->) & Hid & Hparts & _).
  assert (Ei : ind_id (obj_row o9) = i).
  { destruct Hid as (-> & _). now apply get_indicator_id in Hget. }
  split.
  - rewrite <- Ei.
    exact (store_indicator_frame o
             (set_row (with_modified_time (modified_on_update o o9)) o9) d).
  - exists o. split; [assumption|]. split; [|split].
    + apply stored_row_in. simpl. rewrite Ei.
      now apply get_indicator_in in Hget.
    + exact Hid.
    + intros p Hp. specialize (Hparts p Hp). now destruct p.
Qed.

Lemma update_leaves_unnamed_parts_witness :
  let request :=
    {| upd_campaigns := None; upd_case_sensitive := Some (J_bool true);
       upd_confidence := None; upd_impact := None; upd_references := None;
       upd_status := Some "NEW"%string; upd_substring := None;
       upd_tags := None; upd_username := None |} in
  let after := update_indicator json_boolean (fun _ _ => 7) 1 request
                 Sample.store in
  exists o o',
    get_indicator 1 Sample.store = Some o /\
    fst after = Ok o' /\
    obj_tags o' = obj_tags o /\
    obj_references o' = obj_references o /\
    ind_value (obj_row o') = "1.2.3.4"%string /\
    tag_assoc (snd after) = tag_assoc Sample.store /\
    map ind_id (indicators (snd after)) = [3; 1; 2].
Proof.
  cbv zeta.
  destruct (update_leaves_unnamed_parts json_boolean (fun _ _ => 7) 1
              {| upd_campaigns := None;
                 upd_case_sensitive := Some (J_bool true);
                 upd_confidence := None; upd_impact := None;
                 upd_references := None; upd_status := Some "NEW"%string;
                 upd_substring := None; upd_tags := None;
                 upd_username := None |} Sample.store _ _ eq_refl)
    as ((Hids & _) & o & Hget & _ & (_ & Hvalue & _) & Hparts).
  exists o. eexists. split; [exact Hget|]. split; [reflexivity|].
  split; [exact (Hparts part_tags eq_refl)|].
  split; [exact (Hparts part_references eq_refl)|].
  split; [etransitivity; [exact Hvalue|]; now injection Hget as <-|].
  split; [reflexivity|exact Hids].
Defined.

(** X12.  No update empties a relation: when the request lists no name
    under [campaigns], [references] or [tags] (an empty list), an update
    that succeeds leaves that collection of the indicator as it was. *)
Theorem update_cannot_empty_a_relation
  (parse_boolean : json_scalar -> bool -> bool)
  (modified_on_update : indicator_obj -> indicator_obj -> Z)
  (i : Z) (data : update_data) (d d' : db) (o o' : indicator_obj) :
  get_indicator i d = Some o ->
  update_indicator parse_boolean modified_on_update i data d = (Ok o', d') ->
  (upd_campaigns data = Some [] -> obj_campaigns o' = obj_campaigns o) /\
  (upd_references data = Some [] -> obj_references o' = obj_references o) /\
  (upd_tags data = Some [] -> obj_tags o' = obj_tags o).
Proof.
  intros Hget H.
  apply update_indicator_ok in H
    as (o0 & o9 & Hget' & (_ & -> & _) & _ & _ & Hc & _ & _ & _ & Hr & _ & _
        & Ht & _).
  rewrite Hget in Hget'. injection Hget' as <-.
  split; [|split]; intros E.
  - exact (Hc _ E).
  - exact (proj2 (Hr _ E)).
  - exact (Ht _ E).
Qed.

Lemma update_cannot_empty_a_relation_witness :
  let request :=
    {| upd_campaigns := None; upd_case_sensitive := None;
       upd_confidence := None; upd_impact := None;
       upd_references := Some []; upd_status := None;
       upd_substring := None; upd_tags := Some []; upd_username := None |} in
  exists o',
    fst (update_indicator json_boolean (fun _ _ => 7) 1 request
           Sample.store) = Ok o' /\
    obj_tags o'
    = [Some {| lk_id := 1; lk_value := "a" |};
       Some {| lk_id := 2; lk_value := "b" |}] /\
    length (obj_references o') = 2%nat.
Proof.
  cbv zeta.
  destruct (update_cannot_empty_a_relation json_boolean (fun _ _ => 7) 1
              {| upd_campaigns := None; upd_case_sensitive := None;
                 upd_confidence := None; upd_impact := None;
                 upd_references := Some []; upd_status := None;
                 upd_substring := None; upd_tags := Some [];
                 upd_username := None |} Sample.store _ _ _ eq_refl eq_refl)
    as (_ & Hr & Ht).
  eexists. split; [reflexivity|].
  split; [now rewrite (Ht eq_refl)|now rewrite (Hr eq_refl)].
Defined.

(** X13.  What an update that succeeds has checked: a confidence, an
    impact or a status that the request names is in the store and is the
    one the indicator gets; every reference it lists exists, found by
    its text and the value of its source; the user it names exists and
    is active and becomes the indicator's user; and the two flags are
    what the reading of booleans makes of the request's values. *)
Theorem update_names_were_found
  (parse_boolean : json_scalar -> bool -> bool)
  (modified_on_update : indicator_obj -> indicator_obj -> Z)
  (i : Z) (data : update_data) (d d' : db) (o' : indicator_obj) :
  update_indicator parse_boolean modified_on_update i data d = (Ok o', d') ->
  (forall v, upd_confidence data = Some v ->
             exists c, by_value v (indicator_confidences d) = Some c /\
                       confidence_id (obj_row o') = lk_id c) /\
  (forall v, upd_impact data = Some v ->
             exists c, by_value v (indicator_impacts d) = Some c /\
                       impact_id (obj_row o') = lk_id c) /\
  (forall v, upd_status data = Some v ->
             exists c, by_value v (indicator_statuses d) = Some c /\
                       status_id (obj_row o') = lk_id c) /\
  (forall items item,
      upd_references data = Some items -> In item items ->
      exists r, reference_by_source (item_source item) (item_reference item)
                  d = Some r /\
                In (Some r) (obj_references o')) /\
  (forall u, upd_username data = Some u ->
             exists user, user_by_username u d = Some user /\
                          active user = true /\
                          ind_user_id (obj_row o') = user_id user) /\
  (forall v, upd_case_sensitive data = Some v ->
             case_sensitive (obj_row o') = parse_boolean v false) /\
  (forall v, upd_substring data = Some v ->
             substring (obj_row o') = parse_boolean v false).
Proof.
  intros H.
  apply update_indicator_ok in H
    as (o & o9 & _ & (_ & -> & _) & _ & _ & _ & Hcs & Hc & Hi & Hr & Hs
        & Hsub & _ & Hu).
  cbn [set_row obj_row obj_references with_modified_time confidence_id
         impact_id status_id ind_user_id case_sensitive substring].
  repeat (split; [assumption|]).
  split; [|repeat (split; [assumption|]); assumption].
  intros items item E Hin. destruct (Hr _ E) as [Hall Hrefs].
  pose proof (proj1 (List.Forall_forall _ _) Hall item Hin) as Hfound.
  destruct (reference_by_source _ _ d) as [r|] eqn:Er; [|congruence].
  exists r. split; [reflexivity|]. rewrite Hrefs.
  destruct items as [|x xs]; [destruct Hin|].
  rewrite <- Er. now apply (in_map (fun item =>
    reference_by_source (item_source item) (item_reference item) d)).
Qed.

Lemma update_names_were_found_witness :
  let request :=
    {| upd_campaigns := None; upd_case_sensitive := None;
       upd_confidence := Some "LOW"%string; upd_impact := None;
       upd_references :=
         Some [{| item_source := "B"; item_reference := "r2" |}];
       upd_status := None; upd_substring := None; upd_tags := None;
       upd_username := Some "analyst"%string |} in
  exists o',
    fst (update_indicator json_boolean (fun _ _ => 7) 2 request
           Sample.store) = Ok o' /\
    ind_user_id (obj_row o') = 1 /\
    In (Some {| ref_id := 2; reference := "r2"; ref_source_id := 2;
                ref_user_id := 1 |}) (obj_references o').
Proof.
  cbv zeta.
  destruct (update_names_were_found json_boolean (fun _ _ => 7) 2
              {| upd_campaigns := None; upd_case_sensitive := None;
                 upd_confidence := Some "LOW"%string; upd_impact := None;
                 upd_references :=
                   Some [{| item_source := "B"; item_reference := "r2" |}];
                 upd_status := None; upd_substring := None;
                 upd_tags := None; upd_username := Some "analyst"%string |}
              Sample.store _ _ eq_refl)
    as (_ & _ & _ & Hr & Hu & _).
  eexists. split; [reflexivity|]. split.
  - destruct (Hu _ eq_refl) as (user & Huser & _ & ->).
    now injection Huser as <-.
  - destruct (Hr _ {| item_source := "B"; item_reference := "r2" |} eq_refl
                (or_introl eq_refl)) as (r & Hfound & Hin).
    now injection Hfound as <-.
Defined.

End UpdateProps.
